(** * CS 104 slave (lib60870-C, [cs104_slave.c]): queues, k-buffer and timers

    A shallow embedding of the two message queues, of the per-connection
    APCI state machine, of the sending of queued ASDUs, of the pool of
    connection objects and of the activation policy and the redundancy
    groups of the slave, with the properties of the specification and
    further properties of the code stated over them.

    Conventions of the embedding.
    - C integers are [Z]; where the source relies on a fixed width (the
      16-bit counters, [uint8_t] casts, [uint64_t] time stamps, the [int]
      product of a timeout in seconds and 1000) the wrap-around is
      written out with [mod].
    - A [uint8_t*] into a queue buffer is the byte offset from the start of
      that buffer; [NULL] is [None].
    - [Hal_getTimeInMs()] is an explicit argument of the function that
      reads the clock.
    - Semaphores are not modelled and every function runs to completion,
      but for [CS104_Slave_activate]: the threads of two connections can
      be in it at once, and [Activation.threadStep] runs it in the two
      parts that [openConnectionsLock] makes of it. *)

From Stdlib Require Import ZArith Lia Bool.
From stdpp Require Import base option list gmap.

#[local] Open Scope Z_scope.

(** Modelled from the spec: [IEC60870_5_104_APCI_LENGTH] is declared in
    [cs104_frame.h]; the APCI is the 6-byte header of every frame. *)
Definition IEC60870_5_104_APCI_LENGTH : Z := 6.

Definition UINT64_MAX : Z := 2 ^ 64 - 1.
Definition INT_MAX : Z := 2 ^ 31 - 1.

(** An ASDU as the queue sees it: the two length fields that
    [MessageQueue_enqueueASDU] adds up, and the bytes that
    [CS101_ASDU_encode] produces. *)
Record CS101_ASDU := mkASDU {
  asduHeaderLength : Z;
  payloadSize : Z;
  asduBytes : list Z
}.

Inductive QueueEntryState :=
  | QUEUE_ENTRY_STATE_NOT_USED_OR_CONFIRMED
  | QUEUE_ENTRY_STATE_WAITING_FOR_TRANSMISSION
  | QUEUE_ENTRY_STATE_SENT_BUT_NOT_CONFIRMED.

#[global] Instance QueueEntryState_eq_dec : EqDecision QueueEntryState.
Proof. solve_decision. Defined.

(** [struct sMessageQueueEntryInfo]. *)
Module EntryInfo.
Record t := mk {
  entryTimestamp : Z;
  entryState : QueueEntryState;
  size : Z                       (* bit field of width 8 *)
}.

Definition set_entryState (st : QueueEntryState) (e : t) : t :=
  mk (entryTimestamp e) st (size e).
End EntryInfo.

(** ** The low-priority queue *)
Module MessageQueue.

(** What the buffer holds at the offset of an entry: the header and,
    behind it, the encoded ASDU. *)
Record QueueEntry := mkEntry {
  info : EntryInfo.t;
  payload : list Z
}.

(** [struct sMessageQueue].  [buffer] maps the offset of every intact
    entry header to the entry stored there; offsets never written, or
    overwritten by a later entry, are absent. *)
Record sMessageQueue := mkQueue {
  size : Z;
  entryCounter : Z;
  firstEntry : option Z;
  lastEntry : option Z;
  lastInBufferEntry : option Z;
  oldestTimestamp : Z;
  buffer : gmap Z QueueEntry
}.

Definition set_entryCounter (v : Z) (q : sMessageQueue) : sMessageQueue :=
  mkQueue (size q) v (firstEntry q) (lastEntry q) (lastInBufferEntry q)
          (oldestTimestamp q) (buffer q).
Definition set_firstEntry (v : option Z) (q : sMessageQueue) : sMessageQueue :=
  mkQueue (size q) (entryCounter q) v (lastEntry q) (lastInBufferEntry q)
          (oldestTimestamp q) (buffer q).
Definition set_lastEntry (v : option Z) (q : sMessageQueue) : sMessageQueue :=
  mkQueue (size q) (entryCounter q) (firstEntry q) v (lastInBufferEntry q)
          (oldestTimestamp q) (buffer q).
Definition set_lastInBufferEntry (v : option Z) (q : sMessageQueue) : sMessageQueue :=
  mkQueue (size q) (entryCounter q) (firstEntry q) (lastEntry q) v
          (oldestTimestamp q) (buffer q).
Definition set_oldestTimestamp (v : Z) (q : sMessageQueue) : sMessageQueue :=
  mkQueue (size q) (entryCounter q) (firstEntry q) (lastEntry q)
          (lastInBufferEntry q) v (buffer q).
Definition set_buffer (v : gmap Z QueueEntry) (q : sMessageQueue) : sMessageQueue :=
  mkQueue (size q) (entryCounter q) (firstEntry q) (lastEntry q)
          (lastInBufferEntry q) (oldestTimestamp q) v.

Section WithEntryInfoSize.

(** [sizeof(struct sMessageQueueEntryInfo)]: fixed by the ABI, 16 on
    the usual 64-bit targets. *)
Variable entryInfoSize : Z.

(** [MessageQueue_initialize]: a zeroed buffer and no entries. *)
Definition initialize (maxQueueSize : Z) : sMessageQueue :=
  mkQueue (maxQueueSize * (entryInfoSize + 256)) 0 None None None 0 ∅.

(** [memcpy(&entryInfo, ptr, sizeof entryInfo)]: the header stored at
    [ptr]; [None] where the bytes at [ptr] are not an entry header. *)
Definition readInfo (q : sMessageQueue) (ptr : Z) : option EntryInfo.t :=
  info <$> buffer q !! ptr.

(** [memcpy(ptr, &entryInfo, sizeof entryInfo)] onto an entry that is
    already there: the header changes, the ASDU behind it stays. *)
Definition writeInfo (q : sMessageQueue) (ptr : Z) (e : EntryInfo.t)
  : sMessageQueue :=
  set_buffer (alter (λ c, mkEntry e (payload c)) ptr (buffer q)) q.

(** The header at [k] shares a byte with the region [[p, p+len)]. *)
Definition overlaps (p len k : Z) : bool :=
  (k <? p + len) && (p <? k + entryInfoSize).

(** Writing a whole new entry of [len] bytes at [p]
    ([CS101_ASDU_encode] behind the header, then the header): every
    header the region touches is overwritten. *)
Definition storeEntry (q : sMessageQueue) (p len : Z) (c : QueueEntry)
  : sMessageQueue :=
  set_buffer
    (<[p := c]> (filter (λ kv, overlaps p len kv.1 = false) (buffer q))) q.

(** The [while] loop of [MessageQueue_enqueueASDU] that removes old
    entries.  Every round lowers [entryCounter], so [entryCounter]
    rounds always suffice; [n] counts them down. *)
Fixpoint removeOldEntries (n : nat) (self : sMessageQueue)
         (nextMsgPtr entrySize currentTimestamp : Z)
  : option sMessageQueue :=
  first ← firstEntry self;
  if (nextMsgPtr + entrySize >? first) && (entryCounter self >? 0) then
    match n with
    | O => None
    | S n' =>
      if negb (bool_decide (firstEntry self = lastEntry self)) then
        if negb (bool_decide (firstEntry self = lastInBufferEntry self)) then
          entryInfo ← readInfo self first;
          let self := set_firstEntry
                        (Some (first + entryInfoSize + EntryInfo.size entryInfo)) self in
          let self := set_entryCounter (entryCounter self - 1) self in
          removeOldEntries n' self nextMsgPtr entrySize currentTimestamp
        else
          let self := set_firstEntry (Some 0) self in
          entryInfo ← readInfo self 0;
          let self := set_oldestTimestamp (EntryInfo.entryTimestamp entryInfo) self in
          Some (set_entryCounter (entryCounter self - 1) self)
      else
        let self := set_firstEntry (Some nextMsgPtr) self in
        let self := set_oldestTimestamp currentTimestamp self in
        let self := set_lastInBufferEntry (Some nextMsgPtr) self in
        let self := set_entryCounter 0 self in
        removeOldEntries n' self nextMsgPtr entrySize currentTimestamp
    end
  else Some self.

(** [MessageQueue_enqueueASDU].  The result is [None] when the source
    would read a header where none is stored or follow a [NULL]
    cursor. *)
Definition enqueueASDU (self : sMessageQueue) (asdu : CS101_ASDU)
           (currentTimestamp : Z) : option sMessageQueue :=
  let asduSize := asduHeaderLength asdu + payloadSize asdu in
  if asduSize >? 256 - IEC60870_5_104_APCI_LENGTH then
    Some self                                   (* "ASDU too large!" *)
  else
    let entrySize := entryInfoSize + asduSize in
    '(self, nextMsgPtr) ←
      (if entryCounter self =? 0 then
         let self := set_firstEntry (Some 0) self in
         let self := set_oldestTimestamp currentTimestamp self in
         let self := set_lastInBufferEntry (firstEntry self) self in
         Some (self, 0)
       else
         last ← lastEntry self;
         entryInfo ← readInfo self last;
         Some (self, last + entryInfoSize + EntryInfo.size entryInfo));
    let '(self, nextMsgPtr) :=
      if nextMsgPtr + entrySize >? size self then
        (set_lastInBufferEntry (lastEntry self) self, 0)
      else (self, nextMsgPtr) in
    self ←
      (if entryCounter self >? 0 then
         first ← firstEntry self;
         if nextMsgPtr <=? first then
           removeOldEntries (Z.to_nat (entryCounter self)) self
                            nextMsgPtr entrySize currentTimestamp
         else Some (set_lastInBufferEntry (Some nextMsgPtr) self)
       else Some self);
    let self := set_lastEntry (Some nextMsgPtr) self in
    let self := set_entryCounter (entryCounter self + 1) self in
    let entryInfo :=
      EntryInfo.mk currentTimestamp
                   QUEUE_ENTRY_STATE_WAITING_FOR_TRANSMISSION
                   (asduSize mod 256) in
    Some (storeEntry self nextMsgPtr entrySize
                     (mkEntry entryInfo (asduBytes asdu))).

(** [MessageQueue_isAsduAvailable]. *)
Definition isAsduAvailable (self : sMessageQueue) : bool :=
  entryCounter self >? 0.

(** The "move to next entry" step shared by the two scanning loops. *)
Definition nextEntryPtr (self : sMessageQueue) (entryPtr : Z)
           (entryInfo : EntryInfo.t) : Z :=
  if bool_decide (Some entryPtr = lastInBufferEntry self) then 0
  else entryPtr + entryInfoSize + EntryInfo.size entryInfo.

(** The search loop of [MessageQueue_getNextWaitingASDU]: the first
    entry from [entryPtr] on that waits for transmission, or the last
    entry if none does. *)
Fixpoint findWaiting (fuel : nat) (self : sMessageQueue) (entryPtr : Z)
         (entryInfo : EntryInfo.t) : option (Z * EntryInfo.t) :=
  if bool_decide (EntryInfo.entryState entryInfo
                  ≠ QUEUE_ENTRY_STATE_WAITING_FOR_TRANSMISSION) then
    if bool_decide (Some entryPtr = lastEntry self) then
      Some (entryPtr, entryInfo)
    else
      match fuel with
      | O => None
      | S fuel' =>
        let entryPtr := nextEntryPtr self entryPtr entryInfo in
        entryInfo ← readInfo self entryPtr;
        findWaiting fuel' self entryPtr entryInfo
      end
  else Some (entryPtr, entryInfo).

(** The number of loop rounds granted to a scan of the queue: an entry
    takes at least one byte, so a queue never holds more entries than
    its buffer has bytes. *)
Definition scanFuel (self : sMessageQueue) : nat := Z.to_nat (size self).

(** What [MessageQueue_getNextWaitingASDU] hands back through its
    result and its three out-parameters. *)
Record NextWaiting := mkNextWaiting {
  nw_timestamp : Z;
  nw_queueEntry : Z;
  nw_size : Z;
  nw_asdu : list Z
}.

(** [MessageQueue_getNextWaitingASDU]: outer [None] when the scan is
    undefined, inner [None] for the [NULL] result. *)
Definition getNextWaitingASDU (self : sMessageQueue)
  : option (sMessageQueue * option NextWaiting) :=
  if negb (entryCounter self =? 0) then
    entryPtr ← firstEntry self;
    entryInfo ← readInfo self entryPtr;
    '(entryPtr, entryInfo) ← findWaiting (scanFuel self) self entryPtr entryInfo;
    if bool_decide (EntryInfo.entryState entryInfo
                    = QUEUE_ENTRY_STATE_WAITING_FOR_TRANSMISSION) then
      let entryInfo' :=
        EntryInfo.set_entryState QUEUE_ENTRY_STATE_SENT_BUT_NOT_CONFIRMED entryInfo in
      c ← buffer self !! entryPtr;
      Some (writeInfo self entryPtr entryInfo',
            Some (mkNextWaiting (EntryInfo.entryTimestamp entryInfo) entryPtr
                                (EntryInfo.size entryInfo') (payload c)))
    else Some (self, None)
  else Some (self, None).

(** The loop of [MessageQueue_setWaitingForTransmissionWhenNotConfirmed].
    [entryInfo] is the local copy of the header; the state is changed
    in that copy, and the source has no [memcpy] that stores the copy
    back, so the queue itself is only read.  The result carries the
    local copy at the end of the loop next to the queue. *)
Fixpoint revertLoop (fuel : nat) (self : sMessageQueue) (entryPtr : Z)
         (entryInfo : EntryInfo.t) : option (sMessageQueue * EntryInfo.t) :=
  let entryInfo :=
    if bool_decide (EntryInfo.entryState entryInfo
                    = QUEUE_ENTRY_STATE_SENT_BUT_NOT_CONFIRMED)
    then EntryInfo.set_entryState QUEUE_ENTRY_STATE_WAITING_FOR_TRANSMISSION entryInfo
    else entryInfo in
  if bool_decide (Some entryPtr = lastEntry self) then Some (self, entryInfo)
  else
    match fuel with
    | O => None
    | S fuel' =>
      let entryPtr := nextEntryPtr self entryPtr entryInfo in
      entryInfo ← readInfo self entryPtr;
      revertLoop fuel' self entryPtr entryInfo
    end.

(** [MessageQueue_setWaitingForTransmissionWhenNotConfirmed]. *)
Definition setWaitingForTransmissionWhenNotConfirmed (self : sMessageQueue)
  : option sMessageQueue :=
  if negb (entryCounter self =? 0) then
    entryPtr ← firstEntry self;
    entryInfo ← readInfo self entryPtr;
    fst <$> revertLoop (scanFuel self) self entryPtr entryInfo
  else Some self.

(** [MessageQueue_releaseAllQueuedASDUs]. *)
Definition releaseAllQueuedASDUs (self : sMessageQueue) : sMessageQueue :=
  set_entryCounter 0
    (set_lastInBufferEntry None (set_lastEntry None (set_firstEntry None self))).

(** [MessageQueue_markAsduAsConfirmed].  The header at [queueEntry] is
    copied into the local [entryInfo] and the state is set there; the
    source does not copy it back. *)
Definition markAsduAsConfirmed (self : sMessageQueue) (queueEntry : Z)
           (timestamp : Z) : sMessageQueue :=
  if entryCounter self >? 0 then
    if timestamp >=? oldestTimestamp self then
      let entryInfo := readInfo self queueEntry in
      let entryInfo :=
        EntryInfo.set_entryState QUEUE_ENTRY_STATE_NOT_USED_OR_CONFIRMED <$> entryInfo in
      self
    else self
  else self.

(** The state of the entry stored at [ptr]. *)
Definition stateAt (self : sMessageQueue) (ptr : Z) : option QueueEntryState :=
  EntryInfo.entryState <$> readInfo self ptr.

(** [MessageQueue_enqueueASDU] for one ASDU after the other, each with
    the clock reading of its call. *)
Fixpoint enqueueAll (self : sMessageQueue) (l : list (CS101_ASDU * Z))
  : option sMessageQueue :=
  match l with
  | [] => Some self
  | (asdu, currentTimestamp) :: l =>
    self ← enqueueASDU self asdu currentTimestamp;
    enqueueAll self l
  end.

(** [n] calls of [MessageQueue_getNextWaitingASDU], with their
    results. *)
Fixpoint getAllWaiting (n : nat) (self : sMessageQueue)
  : option (sMessageQueue * list (option NextWaiting)) :=
  match n with
  | O => Some (self, [])
  | S n =>
    '(self, r) ← getNextWaitingASDU self;
    '(self, rs) ← getAllWaiting n self;
    Some (self, r :: rs)
  end.

End WithEntryInfoSize.
End MessageQueue.

(** ** The high-priority queue

    A ring of entries without state: an ASDU leaves the queue when it
    is handed out. *)
Module HighPriorityASDUQueue.

Record sHighPriorityASDUQueue := mkQueue {
  size : Z;
  entryCounter : Z;
  firstEntry : option Z;
  lastEntry : option Z;
  lastInBufferEntry : option Z;
  buffer : gmap Z (list Z)
}.

(** [HighPriorityASDUQueue_resetConnectionQueue]. *)
Definition resetConnectionQueue (self : sHighPriorityASDUQueue)
  : sHighPriorityASDUQueue :=
  mkQueue (size self) 0 None None None (buffer self).

Definition set_entryCounter (v : Z) (q : sHighPriorityASDUQueue)
  : sHighPriorityASDUQueue :=
  mkQueue (size q) v (firstEntry q) (lastEntry q) (lastInBufferEntry q)
          (buffer q).
Definition set_firstEntry (v : option Z) (q : sHighPriorityASDUQueue)
  : sHighPriorityASDUQueue :=
  mkQueue (size q) (entryCounter q) v (lastEntry q) (lastInBufferEntry q)
          (buffer q).
Definition set_lastEntry (v : option Z) (q : sHighPriorityASDUQueue)
  : sHighPriorityASDUQueue :=
  mkQueue (size q) (entryCounter q) (firstEntry q) v (lastInBufferEntry q)
          (buffer q).
Definition set_lastInBufferEntry (v : option Z) (q : sHighPriorityASDUQueue)
  : sHighPriorityASDUQueue :=
  mkQueue (size q) (entryCounter q) (firstEntry q) (lastEntry q) v (buffer q).
Definition set_buffer (v : gmap Z (list Z)) (q : sHighPriorityASDUQueue)
  : sHighPriorityASDUQueue :=
  mkQueue (size q) (entryCounter q) (firstEntry q) (lastEntry q)
          (lastInBufferEntry q) v.

(** The buffer keeps, at the offset of an entry, what is stored there:
    the [uint16_t] size of the ASDU first, then the bytes of the ASDU.
    [memcpy(&msgSize, ptr, 2)] reads the first; the result is [None]
    where no entry starts at [ptr]. *)
Definition readSize (q : sHighPriorityASDUQueue) (ptr : Z) : option Z :=
  e ← buffer q !! ptr; head e.

(** The size field at [k] shares a byte with the region [[p, p+len)]. *)
Definition overlaps (p len k : Z) : bool :=
  (k <? p + len) && (p <? k + 2).

(** Writing a new entry of [len] bytes at [p]: every size field the
    region touches is overwritten. *)
Definition storeEntry (q : sHighPriorityASDUQueue) (p len : Z) (e : list Z)
  : sHighPriorityASDUQueue :=
  set_buffer
    (<[p := e]> (filter (λ kv, overlaps p len kv.1 = false) (buffer q))) q.

(** [HighPriorityASDUQueue_isAsduAvailable]. *)
Definition isAsduAvailable (self : sHighPriorityASDUQueue) : bool :=
  entryCounter self >? 0.

(** [HighPriorityASDUQueue_getNextASDU]: the queue, and for the result
    the size written to [*size] with the bytes the returned pointer
    points to; inner [None] for [NULL], outer [None] when the source
    reads a size where no entry is stored. *)
Definition getNextASDU (self : sHighPriorityASDUQueue)
  : option (sHighPriorityASDUQueue * option (Z * list Z)) :=
  if entryCounter self >? 0 then
    let self := set_entryCounter (entryCounter self - 1) self in
    first ← firstEntry self;
    e ← buffer self !! first;
    msgSize ← head e;
    let self :=
      if entryCounter self >? 0 then
        if bool_decide (firstEntry self = lastEntry self) then
          set_lastInBufferEntry None
            (set_lastEntry None (set_firstEntry None self))
        else if bool_decide (firstEntry self = lastInBufferEntry self) then
          set_lastInBufferEntry (lastEntry self) (set_firstEntry (Some 0) self)
        else set_firstEntry (Some (first + 2 + msgSize)) self
      else self in
    Some (self, Some (msgSize, tail e))
  else Some (self, None).

(** [HighPriorityASDUQueue_isFull]. *)
Definition isFull (self : sHighPriorityASDUQueue) : option bool :=
  let entrySize := 2 + (256 - IEC60870_5_104_APCI_LENGTH) in
  if entryCounter self >? 0 then
    last ← lastEntry self;
    msgSize ← readSize self last;
    let nextMsgPtr := last + 2 + msgSize in
    let nextMsgPtr :=
      if nextMsgPtr + entrySize >? size self then 0 else nextMsgPtr in
    first ← firstEntry self;
    Some ((nextMsgPtr <=? first) && (nextMsgPtr + entrySize >? first))
  else Some false.

(** [HighPriorityASDUQueue_enqueue]. *)
Definition enqueue (self : sHighPriorityASDUQueue) (asdu : CS101_ASDU)
  : option (sHighPriorityASDUQueue * bool) :=
  let asduSize := asduHeaderLength asdu + payloadSize asdu in
  if asduSize >? 256 - IEC60870_5_104_APCI_LENGTH then
    Some (self, false)                            (* "ASDU too large!" *)
  else
    let entrySize := 2 + asduSize in
    '(self, nextMsgPtr) ←
      (if entryCounter self =? 0 then
         let self := set_firstEntry (Some 0) self in
         let self := set_lastInBufferEntry (firstEntry self) self in
         Some (self, 0)
       else
         last ← lastEntry self;
         msgSize ← readSize self last;
         Some (self, last + 2 + msgSize));
    let '(self, nextMsgPtr) :=
      if nextMsgPtr + entrySize >? size self then
        (set_lastInBufferEntry (lastEntry self) self, 0)
      else (self, nextMsgPtr) in
    '(self, enqueued) ←
      (if entryCounter self >? 0 then
         first ← firstEntry self;
         if nextMsgPtr <=? first then
           Some (self, negb (nextMsgPtr + entrySize >? first))
         else Some (set_lastInBufferEntry (Some nextMsgPtr) self, true)
       else Some (self, true));
    if (enqueued : bool) then
      let self := set_lastEntry (Some nextMsgPtr) self in
      let self := set_entryCounter (entryCounter self + 1) self in
      Some (storeEntry self nextMsgPtr entrySize
                       (asduSize mod 65536 :: asduBytes asdu), true)
    else Some (self, false).

(** [HighPriorityASDUQueue_enqueue] for one ASDU after the other, with
    the results of the calls. *)
Fixpoint enqueueAll (self : sHighPriorityASDUQueue) (l : list CS101_ASDU)
  : option (sHighPriorityASDUQueue * list bool) :=
  match l with
  | [] => Some (self, [])
  | asdu :: l =>
    '(self, ok) ← enqueue self asdu;
    '(self, oks) ← enqueueAll self l;
    Some (self, ok :: oks)
  end.

(** [n] calls of [HighPriorityASDUQueue_getNextASDU], with their
    results. *)
Fixpoint getAll (n : nat) (self : sHighPriorityASDUQueue)
  : option (sHighPriorityASDUQueue * list (option (Z * list Z))) :=
  match n with
  | O => Some (self, [])
  | S n =>
    '(self, r) ← getNextASDU self;
    '(self, rs) ← getAll n self;
    Some (self, r :: rs)
  end.

End HighPriorityASDUQueue.

(** ** The TCP socket of a connection

    [pending] are the bytes that have arrived and were not read yet,
    [readError] says that reading fails.  [written] lists the frames handed
    to [Socket_write], oldest first; [writeResults] are the results of the
    coming calls of [Socket_write] (a call beyond the list succeeds). *)
Record Socket := mkSocket {
  pending : list Z;
  readError : bool;
  written : list (list Z);
  writeResults : list Z
}.

(** [Socket_read(socket, buf, size)]: up to [size] of the pending bytes,
    or -1. *)
Definition Socket_read (s : Socket) (size : Z) : Socket * Z * list Z :=
  if readError s then (s, -1, [])
  else
    let bs := take (Z.to_nat size) (pending s) in
    (mkSocket (drop (Z.to_nat size) (pending s)) (readError s) (written s)
              (writeResults s),
     Z.of_nat (length bs), bs).

(** [Socket_write(socket, buf, size)]. *)
Definition Socket_write (s : Socket) (buf : list Z) : Socket * Z :=
  match writeResults s with
  | [] => (mkSocket (pending s) (readError s) (written s ++ [buf]) [],
           Z.of_nat (length buf))
  | r :: rs => (mkSocket (pending s) (readError s) (written s ++ [buf]) rs, r)
  end.

(** [struct sCS104_APCIParameters]. *)
Module APCIParameters.
Record t := mk { k : Z; w : Z; t0 : Z; t1 : Z; t2 : Z; t3 : Z }.
End APCIParameters.

(** [defaultConnectionParameters]. *)
Definition defaultConnectionParameters : APCIParameters.t :=
  APCIParameters.mk 12 8 10 15 10 20.

Definition STARTDT_CON_MSG : list Z := [0x68; 0x04; 0x0b; 0x00; 0x00; 0x00].
Definition STOPDT_CON_MSG : list Z := [0x68; 0x04; 0x23; 0x00; 0x00; 0x00].
Definition TESTFR_CON_MSG : list Z := [0x68; 0x04; 0x83; 0x00; 0x00; 0x00].
Definition TESTFR_ACT_MSG : list Z := [0x68; 0x04; 0x43; 0x00; 0x00; 0x00].

(** [SentASDUSlave], an entry of the k-buffer. *)
Module SentASDUSlave.
Record t := mk {
  entryTime : Z;
  queueEntry : option Z;   (* NULL if ASDU is not from low-priority queue *)
  sentTime : Z;
  seqNo : Z
}.

Definition set_sentTime (v : Z) (e : t) : t :=
  mk (entryTime e) (queueEntry e) v (seqNo e).
End SentASDUSlave.

#[global] Instance SentASDUSlave_inhabited : Inhabited SentASDUSlave.t :=
  populate (SentASDUSlave.mk 0 None 0 0).

(** [struct sMasterConnection].  The event and raw-message callbacks of the
    application observe the connection and are left out. *)
Record sMasterConnection := mkConnection {
  socket : Socket;
  isUsed : bool;
  isActive : bool;
  isRunning : bool;
  timeoutT2Triggered : bool;
  outstandingTestFRConMessages : Z;   (* bit field of width 3 *)
  maxSentASDUs : Z;   (* k-parameter *)
  oldestSentASDU : Z;   (* oldest sent ASDU in k-buffer, -1 when empty *)
  newestSentASDU : Z;   (* newest sent ASDU in k-buffer *)
  sendCount : Z;   (* sent messages - sequence counter *)
  receiveCount : Z;   (* received messages - sequence counter *)
  unconfirmedReceivedIMessages : Z;
  lastConfirmationTime : Z;
  nextT3Timeout : Z;
  sentASDUs : list SentASDUSlave.t;   (* the k-buffer *)
  recvBuffer : list Z;
  recvBufPos : Z;
  lowPrioQueue : nat;   (* the queue it is bound to, by its place in the slave's table *)
  highPrioQueue : nat;
  redundancyGroup : option nat
}.

Definition set_socket (v : Socket) (c : sMasterConnection) : sMasterConnection :=
  mkConnection v (isUsed c) (isActive c) (isRunning c)
    (timeoutT2Triggered c) (outstandingTestFRConMessages c) (maxSentASDUs c)
    (oldestSentASDU c) (newestSentASDU c) (sendCount c) (receiveCount c)
    (unconfirmedReceivedIMessages c) (lastConfirmationTime c)
    (nextT3Timeout c) (sentASDUs c) (recvBuffer c) (recvBufPos c)
    (lowPrioQueue c) (highPrioQueue c) (redundancyGroup c).
Definition set_isUsed (v : bool) (c : sMasterConnection) : sMasterConnection :=
  mkConnection (socket c) v (isActive c) (isRunning c)
    (timeoutT2Triggered c) (outstandingTestFRConMessages c) (maxSentASDUs c)
    (oldestSentASDU c) (newestSentASDU c) (sendCount c) (receiveCount c)
    (unconfirmedReceivedIMessages c) (lastConfirmationTime c)
    (nextT3Timeout c) (sentASDUs c) (recvBuffer c) (recvBufPos c)
    (lowPrioQueue c) (highPrioQueue c) (redundancyGroup c).
Definition set_isActive (v : bool) (c : sMasterConnection) : sMasterConnection :=
  mkConnection (socket c) (isUsed c) v (isRunning c) (timeoutT2Triggered c)
    (outstandingTestFRConMessages c) (maxSentASDUs c) (oldestSentASDU c)
    (newestSentASDU c) (sendCount c) (receiveCount c)
    (unconfirmedReceivedIMessages c) (lastConfirmationTime c)
    (nextT3Timeout c) (sentASDUs c) (recvBuffer c) (recvBufPos c)
    (lowPrioQueue c) (highPrioQueue c) (redundancyGroup c).
Definition set_isRunning (v : bool) (c : sMasterConnection) : sMasterConnection :=
  mkConnection (socket c) (isUsed c) (isActive c) v (timeoutT2Triggered c)
    (outstandingTestFRConMessages c) (maxSentASDUs c) (oldestSentASDU c)
    (newestSentASDU c) (sendCount c) (receiveCount c)
    (unconfirmedReceivedIMessages c) (lastConfirmationTime c)
    (nextT3Timeout c) (sentASDUs c) (recvBuffer c) (recvBufPos c)
    (lowPrioQueue c) (highPrioQueue c) (redundancyGroup c).
Definition set_timeoutT2Triggered (v : bool) (c : sMasterConnection) : sMasterConnection :=
  mkConnection (socket c) (isUsed c) (isActive c) (isRunning c) v
    (outstandingTestFRConMessages c) (maxSentASDUs c) (oldestSentASDU c)
    (newestSentASDU c) (sendCount c) (receiveCount c)
    (unconfirmedReceivedIMessages c) (lastConfirmationTime c)
    (nextT3Timeout c) (sentASDUs c) (recvBuffer c) (recvBufPos c)
    (lowPrioQueue c) (highPrioQueue c) (redundancyGroup c).
Definition set_outstandingTestFRConMessages (v : Z) (c : sMasterConnection) : sMasterConnection :=
  mkConnection (socket c) (isUsed c) (isActive c) (isRunning c)
    (timeoutT2Triggered c) v (maxSentASDUs c) (oldestSentASDU c)
    (newestSentASDU c) (sendCount c) (receiveCount c)
    (unconfirmedReceivedIMessages c) (lastConfirmationTime c)
    (nextT3Timeout c) (sentASDUs c) (recvBuffer c) (recvBufPos c)
    (lowPrioQueue c) (highPrioQueue c) (redundancyGroup c).
Definition set_maxSentASDUs (v : Z) (c : sMasterConnection) : sMasterConnection :=
  mkConnection (socket c) (isUsed c) (isActive c) (isRunning c)
    (timeoutT2Triggered c) (outstandingTestFRConMessages c) v
    (oldestSentASDU c) (newestSentASDU c) (sendCount c) (receiveCount c)
    (unconfirmedReceivedIMessages c) (lastConfirmationTime c)
    (nextT3Timeout c) (sentASDUs c) (recvBuffer c) (recvBufPos c)
    (lowPrioQueue c) (highPrioQueue c) (redundancyGroup c).
Definition set_oldestSentASDU (v : Z) (c : sMasterConnection) : sMasterConnection :=
  mkConnection (socket c) (isUsed c) (isActive c) (isRunning c)
    (timeoutT2Triggered c) (outstandingTestFRConMessages c) (maxSentASDUs c)
    v (newestSentASDU c) (sendCount c) (receiveCount c)
    (unconfirmedReceivedIMessages c) (lastConfirmationTime c)
    (nextT3Timeout c) (sentASDUs c) (recvBuffer c) (recvBufPos c)
    (lowPrioQueue c) (highPrioQueue c) (redundancyGroup c).
Definition set_newestSentASDU (v : Z) (c : sMasterConnection) : sMasterConnection :=
  mkConnection (socket c) (isUsed c) (isActive c) (isRunning c)
    (timeoutT2Triggered c) (outstandingTestFRConMessages c) (maxSentASDUs c)
    (oldestSentASDU c) v (sendCount c) (receiveCount c)
    (unconfirmedReceivedIMessages c) (lastConfirmationTime c)
    (nextT3Timeout c) (sentASDUs c) (recvBuffer c) (recvBufPos c)
    (lowPrioQueue c) (highPrioQueue c) (redundancyGroup c).
Definition set_sendCount (v : Z) (c : sMasterConnection) : sMasterConnection :=
  mkConnection (socket c) (isUsed c) (isActive c) (isRunning c)
    (timeoutT2Triggered c) (outstandingTestFRConMessages c) (maxSentASDUs c)
    (oldestSentASDU c) (newestSentASDU c) v (receiveCount c)
    (unconfirmedReceivedIMessages c) (lastConfirmationTime c)
    (nextT3Timeout c) (sentASDUs c) (recvBuffer c) (recvBufPos c)
    (lowPrioQueue c) (highPrioQueue c) (redundancyGroup c).
Definition set_receiveCount (v : Z) (c : sMasterConnection) : sMasterConnection :=
  mkConnection (socket c) (isUsed c) (isActive c) (isRunning c)
    (timeoutT2Triggered c) (outstandingTestFRConMessages c) (maxSentASDUs c)
    (oldestSentASDU c) (newestSentASDU c) (sendCount c) v
    (unconfirmedReceivedIMessages c) (lastConfirmationTime c)
    (nextT3Timeout c) (sentASDUs c) (recvBuffer c) (recvBufPos c)
    (lowPrioQueue c) (highPrioQueue c) (redundancyGroup c).
Definition set_unconfirmedReceivedIMessages (v : Z) (c : sMasterConnection) : sMasterConnection :=
  mkConnection (socket c) (isUsed c) (isActive c) (isRunning c)
    (timeoutT2Triggered c) (outstandingTestFRConMessages c) (maxSentASDUs c)
    (oldestSentASDU c) (newestSentASDU c) (sendCount c) (receiveCount c) v
    (lastConfirmationTime c) (nextT3Timeout c) (sentASDUs c) (recvBuffer c)
    (recvBufPos c) (lowPrioQueue c) (highPrioQueue c) (redundancyGroup c).
Definition set_lastConfirmationTime (v : Z) (c : sMasterConnection) : sMasterConnection :=
  mkConnection (socket c) (isUsed c) (isActive c) (isRunning c)
    (timeoutT2Triggered c) (outstandingTestFRConMessages c) (maxSentASDUs c)
    (oldestSentASDU c) (newestSentASDU c) (sendCount c) (receiveCount c)
    (unconfirmedReceivedIMessages c) v (nextT3Timeout c) (sentASDUs c)
    (recvBuffer c) (recvBufPos c) (lowPrioQueue c) (highPrioQueue c)
    (redundancyGroup c).
Definition set_nextT3Timeout (v : Z) (c : sMasterConnection) : sMasterConnection :=
  mkConnection (socket c) (isUsed c) (isActive c) (isRunning c)
    (timeoutT2Triggered c) (outstandingTestFRConMessages c) (maxSentASDUs c)
    (oldestSentASDU c) (newestSentASDU c) (sendCount c) (receiveCount c)
    (unconfirmedReceivedIMessages c) (lastConfirmationTime c) v
    (sentASDUs c) (recvBuffer c) (recvBufPos c) (lowPrioQueue c)
    (highPrioQueue c) (redundancyGroup c).
Definition set_sentASDUs (v : list SentASDUSlave.t) (c : sMasterConnection) : sMasterConnection :=
  mkConnection (socket c) (isUsed c) (isActive c) (isRunning c)
    (timeoutT2Triggered c) (outstandingTestFRConMessages c) (maxSentASDUs c)
    (oldestSentASDU c) (newestSentASDU c) (sendCount c) (receiveCount c)
    (unconfirmedReceivedIMessages c) (lastConfirmationTime c)
    (nextT3Timeout c) v (recvBuffer c) (recvBufPos c) (lowPrioQueue c)
    (highPrioQueue c) (redundancyGroup c).
Definition set_recvBuffer (v : list Z) (c : sMasterConnection) : sMasterConnection :=
  mkConnection (socket c) (isUsed c) (isActive c) (isRunning c)
    (timeoutT2Triggered c) (outstandingTestFRConMessages c) (maxSentASDUs c)
    (oldestSentASDU c) (newestSentASDU c) (sendCount c) (receiveCount c)
    (unconfirmedReceivedIMessages c) (lastConfirmationTime c)
    (nextT3Timeout c) (sentASDUs c) v (recvBufPos c) (lowPrioQueue c)
    (highPrioQueue c) (redundancyGroup c).
Definition set_recvBufPos (v : Z) (c : sMasterConnection) : sMasterConnection :=
  mkConnection (socket c) (isUsed c) (isActive c) (isRunning c)
    (timeoutT2Triggered c) (outstandingTestFRConMessages c) (maxSentASDUs c)
    (oldestSentASDU c) (newestSentASDU c) (sendCount c) (receiveCount c)
    (unconfirmedReceivedIMessages c) (lastConfirmationTime c)
    (nextT3Timeout c) (sentASDUs c) (recvBuffer c) v (lowPrioQueue c)
    (highPrioQueue c) (redundancyGroup c).
Definition set_lowPrioQueue (v : nat) (c : sMasterConnection) : sMasterConnection :=
  mkConnection (socket c) (isUsed c) (isActive c) (isRunning c)
    (timeoutT2Triggered c) (outstandingTestFRConMessages c) (maxSentASDUs c)
    (oldestSentASDU c) (newestSentASDU c) (sendCount c) (receiveCount c)
    (unconfirmedReceivedIMessages c) (lastConfirmationTime c)
    (nextT3Timeout c) (sentASDUs c) (recvBuffer c) (recvBufPos c) v
    (highPrioQueue c) (redundancyGroup c).
Definition set_highPrioQueue (v : nat) (c : sMasterConnection) : sMasterConnection :=
  mkConnection (socket c) (isUsed c) (isActive c) (isRunning c)
    (timeoutT2Triggered c) (outstandingTestFRConMessages c) (maxSentASDUs c)
    (oldestSentASDU c) (newestSentASDU c) (sendCount c) (receiveCount c)
    (unconfirmedReceivedIMessages c) (lastConfirmationTime c)
    (nextT3Timeout c) (sentASDUs c) (recvBuffer c) (recvBufPos c)
    (lowPrioQueue c) v (redundancyGroup c).
Definition set_redundancyGroup (v : option nat) (c : sMasterConnection) : sMasterConnection :=
  mkConnection (socket c) (isUsed c) (isActive c) (isRunning c)
    (timeoutT2Triggered c) (outstandingTestFRConMessages c) (maxSentASDUs c)
    (oldestSentASDU c) (newestSentASDU c) (sendCount c) (receiveCount c)
    (unconfirmedReceivedIMessages c) (lastConfirmationTime c)
    (nextT3Timeout c) (sentASDUs c) (recvBuffer c) (recvBufPos c)
    (lowPrioQueue c) (highPrioQueue c) v.

(** ** The APCI state machine of one connection *)
Module MasterConnection.

(** [buffer[i]] for a byte buffer; a place outside the list reads 0. *)
Definition byteAt (buffer : list Z) (i : Z) : Z :=
  if i <? 0 then 0 else nth (Z.to_nat i) buffer 0.

(** [memcpy(buffer + pos, bs, |bs|)]. *)
Definition storeBytes (buffer : list Z) (pos : Z) (bs : list Z) : list Z :=
  take (Z.to_nat pos) buffer ++ bs
    ++ drop (Z.to_nat pos + length bs) buffer.

(** [self->sentASDUs[i]]. *)
Definition sentAt (self : sMasterConnection) (i : Z) : SentASDUSlave.t :=
  sentASDUs self !!! Z.to_nat i.

(** [readFromSocket(self, self->recvBuffer + pos, size)]. *)
Definition readFromSocket (self : sMasterConnection) (pos size : Z)
  : sMasterConnection * Z :=
  let '(sock, n, bs) := Socket_read (socket self) size in
  (set_recvBuffer (storeBytes (recvBuffer self) pos bs) (set_socket sock self), n).

(** [writeToSocket(self, buf, size)]. *)
Definition writeToSocket (self : sMasterConnection) (buf : list Z) (size : Z)
  : sMasterConnection * Z :=
  let '(sock, r) := Socket_write (socket self) (take (Z.to_nat size) buf) in
  (set_socket sock self, r).

(** [receiveMessage]. *)
Definition receiveMessage (self : sMasterConnection) : sMasterConnection * Z :=
  let bufPos := recvBufPos self in
  (* read start byte *)
  let '(self, bufPos, ret) :=
    if bufPos =? 0 then
      let '(self, readFirst) := readFromSocket self 0 1 in
      if readFirst <? 1 then (self, bufPos, Some readFirst)
      else if negb (byteAt (recvBuffer self) 0 =? 0x68) then
        (self, bufPos, Some (-1))                       (* message error *)
      else (self, bufPos + 1, None)
    else (self, bufPos, None) in
  match ret with
  | Some r => (self, r)
  | None =>
    (* read length byte *)
    let '(self, bufPos, ret) :=
      if bufPos =? 1 then
        let '(self, n) := readFromSocket self 1 1 in
        if negb (n =? 1) then (set_recvBufPos 0 self, bufPos, Some (-1))
        else (self, bufPos + 1, None)
      else (self, bufPos, None) in
    match ret with
    | Some r => (self, r)
    | None =>
      (* read remaining frame *)
      if bufPos >? 1 then
        let length := byteAt (recvBuffer self) 1 in
        let remainingLength := length - bufPos + 2 in
        let '(self, readCnt) := readFromSocket self bufPos remainingLength in
        if readCnt =? remainingLength then (set_recvBufPos 0 self, length + 2)
        else if readCnt =? -1 then (set_recvBufPos 0 self, -1)
        else (set_recvBufPos (bufPos + readCnt) self, 0)
      else (set_recvBufPos bufPos self, 0)
    end
  end.

(** [sendIMessage]: the new header bytes, the connection and the result
    (the send counter after the call). *)
Definition sendIMessage (self : sMasterConnection) (buffer : list Z)
           (msgSize : Z) : sMasterConnection * list Z * Z :=
  let buffer :=
    storeBytes buffer 0
      [ 0x68;
        (msgSize - 2) mod 256;
        ((sendCount self mod 128) * 2) mod 256;
        (sendCount self / 128) mod 256;
        ((receiveCount self mod 128) * 2) mod 256;
        (receiveCount self / 128) mod 256 ] in
  let '(self, r) := writeToSocket self buffer msgSize in
  let self :=
    if r >? 0 then
      let self := set_sendCount ((sendCount self + 1) mod 32768) self in
      let self := set_unconfirmedReceivedIMessages 0 self in
      set_timeoutT2Triggered false self
    else set_isRunning false self in
  let self := set_unconfirmedReceivedIMessages 0 self in
  (self, buffer, sendCount self).

(** [isSentBufferFull]. *)
Definition isSentBufferFull (self : sMasterConnection) : bool :=
  if oldestSentASDU self =? -1 then false
  else
    let newIndex := (newestSentASDU self + 1) mod maxSentASDUs self in
    newIndex =? oldestSentASDU self.

(** [sendASDU]; [now] is the clock read for [sentTime]. *)
Definition sendASDU (self : sMasterConnection) (buffer : list Z) (msgSize : Z)
           (timestamp : Z) (queueEntry : option Z) (now : Z)
  : sMasterConnection :=
  let '(self, currentIndex) :=
    if oldestSentASDU self =? -1 then
      (set_newestSentASDU 0 (set_oldestSentASDU 0 self), 0)
    else (self, (newestSentASDU self + 1) mod maxSentASDUs self) in
  let '(self, _, seqNo) := sendIMessage self buffer msgSize in
  let self :=
    set_sentASDUs
      (<[Z.to_nat currentIndex := SentASDUSlave.mk timestamp queueEntry now seqNo]>
         (sentASDUs self)) self in
  set_newestSentASDU currentIndex self.

(** [sendSMessage]. *)
Definition sendSMessage (self : sMasterConnection) : sMasterConnection :=
  let msg :=
    [ 0x68; 0x04; 0x01; 0;
      ((receiveCount self mod 128) * 2) mod 256;
      (receiveCount self / 128) mod 256 ] in
  let '(self, r) := writeToSocket self msg 6 in
  if r <? 0 then set_isRunning false self else self.

(** The value an [int] (32 bits, two's complement) holds when the exact
    result of an operation is [x].  Out of the range of [int] the C
    standard leaves the result open; the compiled code wraps around. *)
Definition toInt (x : Z) : Z := (x + 2 ^ 31) mod 2 ^ 32 - 2 ^ 31.

(** [(uint64_t) (t * 1000)] for a parameter [int t] given in seconds: the
    product is computed in [int], and the cast to [uint64_t] reduces it
    modulo [2 ^ 64] (a negative product becomes a time near
    [UINT64_MAX]). *)
Definition msOf (t : Z) : Z := toInt (t * 1000) mod 2 ^ 64.

(** [resetT3Timeout]. *)
Definition resetT3Timeout (params : APCIParameters.t)
           (self : sMasterConnection) (currentTime : Z) : sMasterConnection :=
  set_nextT3Timeout
    ((currentTime + msOf (APCIParameters.t3 params)) mod 2 ^ 64) self.

(** [checkT3Timeout]. *)
Definition checkT3Timeout (params : APCIParameters.t)
           (self : sMasterConnection) (currentTime : Z)
  : sMasterConnection * bool :=
  let self :=
    if nextT3Timeout self
       >? (currentTime + msOf (APCIParameters.t3 params)) mod 2 ^ 64 then
      (* timeout value not plausible (maybe system time changed) *)
      resetT3Timeout params self currentTime
    else self in
  (self, currentTime >? nextT3Timeout self).

(** [handleTimeouts] checks the three timeouts one after the other;
    each of its three blocks is a definition here.  First block,
    "check T3 timeout": the connection and [timeoutsOk]. *)
Definition handleTimeouts_T3 (params : APCIParameters.t)
           (self : sMasterConnection) (currentTime : Z)
  : sMasterConnection * bool :=
  let timeoutsOk := true in
  let '(self, expired) := checkT3Timeout params self currentTime in
  if expired then
    if outstandingTestFRConMessages self >? 2 then
      (self, false)                                   (* close connection *)
    else
      let '(self, r) := writeToSocket self TESTFR_ACT_MSG 6 in
      let self := if r <? 0 then set_isRunning false self else self in
      let self :=
        set_outstandingTestFRConMessages
          ((outstandingTestFRConMessages self + 1) mod 8) self in
      (resetT3Timeout params self currentTime, timeoutsOk)
  else (self, timeoutsOk).

(** Second block, "check timeout for others station I messages". *)
Definition handleTimeouts_T2 (params : APCIParameters.t)
           (self : sMasterConnection) (currentTime : Z) : sMasterConnection :=
  if unconfirmedReceivedIMessages self >? 0 then
    (* Check validity of last confirmation time *)
    let self :=
      if negb (lastConfirmationTime self =? UINT64_MAX)
         && (lastConfirmationTime self >? currentTime) then
        set_lastConfirmationTime currentTime self
      else self in
    if currentTime >? lastConfirmationTime self then
      if (currentTime - lastConfirmationTime self) mod 2 ^ 64
         >=? msOf (APCIParameters.t2 params) then
        let self := set_lastConfirmationTime currentTime self in
        let self := set_unconfirmedReceivedIMessages 0 self in
        let self := set_timeoutT2Triggered false self in
        sendSMessage self
      else self
    else self
  else self.

(** Third block, "check if counterpart confirmed I message";
    [timeoutsOk] is the flag as the first block left it. *)
Definition handleTimeouts_T1 (params : APCIParameters.t)
           (self : sMasterConnection) (currentTime : Z) (timeoutsOk : bool)
  : sMasterConnection * bool :=
  if negb (oldestSentASDU self =? -1) then
    if currentTime >? SentASDUSlave.sentTime (sentAt self (oldestSentASDU self)) then
      (* check validity of sent time *)
      let self :=
        if SentASDUSlave.sentTime (sentAt self (oldestSentASDU self))
           >? currentTime then
          set_sentASDUs
            (<[Z.to_nat (oldestSentASDU self) :=
                 SentASDUSlave.set_sentTime currentTime
                   (sentAt self (oldestSentASDU self))]> (sentASDUs self)) self
        else self in
      if (currentTime
          - SentASDUSlave.sentTime (sentAt self (oldestSentASDU self)))
           mod 2 ^ 64
         >=? msOf (APCIParameters.t1 params) then (self, false)
      else (self, timeoutsOk)
    else (self, timeoutsOk)
  else (self, timeoutsOk).

(** [handleTimeouts]. *)
Definition handleTimeouts (params : APCIParameters.t)
           (self : sMasterConnection) (currentTime : Z)
  : sMasterConnection * bool :=
  let '(self, timeoutsOk) := handleTimeouts_T3 params self currentTime in
  let self := handleTimeouts_T2 params self currentTime in
  handleTimeouts_T1 params self currentTime timeoutsOk.

(** [if (handleTimeouts(self) == false) self->isRunning = false;], the
    statement of [connectionHandlingThread] and of
    [MasterConnection_executePeriodicTasks]. *)
Definition runTimeouts (params : APCIParameters.t)
           (self : sMasterConnection) (currentTime : Z) : sMasterConnection :=
  let '(self, timeoutsOk) := handleTimeouts params self currentTime in
  if negb timeoutsOk then set_isRunning false self else self.

(** One timeout check after the other, at the given clock readings. *)
Definition runTimeoutsAt (params : APCIParameters.t)
           (self : sMasterConnection) (times : list Z) : sMasterConnection :=
  foldl (runTimeouts params) self times.

(** [MasterConnection_close]. *)
Definition close (self : sMasterConnection) : sMasterConnection :=
  set_isRunning false self.

(** [MasterConnection_deactivate]. *)
Definition deactivate (self : sMasterConnection) : sMasterConnection :=
  set_isActive false self.

(** [MasterConnection_activate]. *)
Definition activate (self : sMasterConnection) : sMasterConnection :=
  set_isActive true self.

Section WithQueue.

(** The low-priority queue the connection is bound to and
    [MessageQueue_markAsduAsConfirmed] on it.  [checkSequenceNumber]
    is written over any such pair, which lets a theorem name the
    calls it makes; the slave below uses it with the queue of the
    source. *)
Context {Queue : Type}.
Variable markAsduAsConfirmed : Queue → Z → Z → Queue.

(** The [do ... while (true)] loop of [checkSequenceNumber]. *)
Fixpoint confirmLoop (fuel : nat) (seqNo oldestValidSeqNo : Z)
         (counterOverflowDetected : bool)
         (self : sMasterConnection) (queue : Queue)
  : option (sMasterConnection * Queue) :=
  match fuel with
  | O => None
  | S fuel' =>
    let oldest := sentAt self (oldestSentASDU self) in
    let oldestAsduSeqNo := SentASDUSlave.seqNo oldest in
    if negb counterOverflowDetected && (seqNo <? oldestAsduSeqNo) then
      Some (self, queue)
    else if seqNo =? oldestValidSeqNo then Some (self, queue)
    else
      (* remove from server (low-priority) queue if required *)
      let queue :=
        match SentASDUSlave.queueEntry oldest with
        | Some ptr => markAsduAsConfirmed queue ptr (SentASDUSlave.entryTime oldest)
        | None => queue
        end in
      if oldestAsduSeqNo =? seqNo then
        (* we arrived at the seq# that has been confirmed *)
        if oldestSentASDU self =? newestSentASDU self then
          Some (set_oldestSentASDU (-1) self, queue)
        else
          Some (set_oldestSentASDU
                  ((oldestSentASDU self + 1) mod maxSentASDUs self) self,
                queue)
      else
        let self :=
          set_oldestSentASDU
            ((oldestSentASDU self + 1) mod maxSentASDUs self) self in
        let checkIndex := (newestSentASDU self + 1) mod maxSentASDUs self in
        if oldestSentASDU self =? checkIndex then
          Some (set_oldestSentASDU (-1) self, queue)
        else
          confirmLoop fuel' seqNo oldestValidSeqNo
                      counterOverflowDetected self queue
  end.

(** The first half of [checkSequenceNumber]: is the received sequence
    number valid?  Result: [seqNoIsValid], [counterOverflowDetected]
    and [oldestValidSeqNo]. *)
Definition seqNoCheck (self : sMasterConnection) (seqNo : Z)
  : bool * bool * Z :=
  if oldestSentASDU self =? -1 then          (* if k-Buffer is empty *)
    (seqNo =? sendCount self, false, -1)
  else
    let oldestAsduSeqNo :=
      SentASDUSlave.seqNo (sentAt self (oldestSentASDU self)) in
    let newestAsduSeqNo :=
      SentASDUSlave.seqNo (sentAt self (newestSentASDU self)) in
    let '(seqNoIsValid, counterOverflowDetected) :=
      if oldestAsduSeqNo <=? newestAsduSeqNo then
        ((seqNo >=? oldestAsduSeqNo) && (seqNo <=? newestAsduSeqNo), false)
      else
        ((seqNo >=? oldestAsduSeqNo) || (seqNo <=? newestAsduSeqNo), true) in
    (* check if confirmed message was already removed from list *)
    let oldestValidSeqNo :=
      if oldestAsduSeqNo =? 0 then 32767
      else Z.rem (oldestAsduSeqNo - 1) 32768 in
    (seqNoIsValid || (oldestValidSeqNo =? seqNo),
     counterOverflowDetected, oldestValidSeqNo).

(** [checkSequenceNumber].  The loop leaves after at most
    [maxSentASDUs] rounds; [None] stands for a loop that does not. *)
Definition checkSequenceNumber (self : sMasterConnection) (queue : Queue)
           (seqNo : Z) : option (sMasterConnection * Queue * bool) :=
  let '(seqNoIsValid, counterOverflowDetected, oldestValidSeqNo) :=
    seqNoCheck self seqNo in
  if seqNoIsValid then
    if negb (oldestSentASDU self =? -1) then
      '(self, queue) ←
        confirmLoop (Z.to_nat (maxSentASDUs self)) seqNo oldestValidSeqNo
                    counterOverflowDetected self queue;
      Some (self, queue, seqNoIsValid)
    else Some (self, queue, seqNoIsValid)
  else Some (self, queue, seqNoIsValid).

End WithQueue.

End MasterConnection.

(** ** The slave: connection table, queues and server mode *)
Inductive CS104_ServerMode :=
  | CS104_MODE_SINGLE_REDUNDANCY_GROUP
  | CS104_MODE_CONNECTION_IS_REDUNDANCY_GROUP
  | CS104_MODE_MULTIPLE_REDUNDANCY_GROUPS.

#[global] Instance CS104_ServerMode_eq_dec : EqDecision CS104_ServerMode.
Proof. solve_decision. Defined.

Module CS104_Slave.
Import MasterConnection.

(** [struct sCS104_Slave], without the handlers of the application.
    [masterConnections] are the pooled connection objects, all allocated
    when the slave is created; a [MasterConnection] pointer is the place
    of the object in this table.  [messageQueues] and [highPrioQueues]
    hold every queue object of the slave (its own pair, those of the
    redundancy groups or those of the connections, by server mode); the
    [lowPrioQueue] and [highPrioQueue] of a connection point into
    them, so that connections bound to the same queue share it. *)
Record sCS104_Slave := mkSlave {
  serverMode : CS104_ServerMode;
  conParameters : APCIParameters.t;
  openConnections : Z;
  masterConnections : list sMasterConnection;
  messageQueues : list MessageQueue.sMessageQueue;
  highPrioQueues : list HighPriorityASDUQueue.sHighPriorityASDUQueue
}.

Definition set_openConnections (v : Z) (s : sCS104_Slave) : sCS104_Slave :=
  mkSlave (serverMode s) (conParameters s) v (masterConnections s)
          (messageQueues s) (highPrioQueues s).
Definition set_masterConnections (v : list sMasterConnection)
           (s : sCS104_Slave) : sCS104_Slave :=
  mkSlave (serverMode s) (conParameters s) (openConnections s) v
          (messageQueues s) (highPrioQueues s).
Definition set_messageQueues (v : list MessageQueue.sMessageQueue)
           (s : sCS104_Slave) : sCS104_Slave :=
  mkSlave (serverMode s) (conParameters s) (openConnections s)
          (masterConnections s) v (highPrioQueues s).
Definition set_highPrioQueues
           (v : list HighPriorityASDUQueue.sHighPriorityASDUQueue)
           (s : sCS104_Slave) : sCS104_Slave :=
  mkSlave (serverMode s) (conParameters s) (openConnections s)
          (masterConnections s) (messageQueues s) v.

(** Assignment through a [MasterConnection] pointer. *)
Definition setConnection (i : nat) (c : sMasterConnection) (s : sCS104_Slave)
  : sCS104_Slave :=
  set_masterConnections (<[i := c]> (masterConnections s)) s.

(** [CS104_Slave_activate]: activate connection and deactivate existing
    active connections if required.  The two [for] loops run over the
    whole table. *)
Definition activate (self : sCS104_Slave) (connectionToActivate : nat)
  : option sCS104_Slave :=
  target ← masterConnections self !! connectionToActivate;
  let self :=
    if bool_decide (serverMode self = CS104_MODE_SINGLE_REDUNDANCY_GROUP) then
      (* Deactivate all other connections *)
      set_masterConnections
        (imap (λ i con,
               if bool_decide (i ≠ connectionToActivate)
               then MasterConnection.deactivate con else con)
              (masterConnections self)) self
    else self in
  let self :=
    if bool_decide (serverMode self = CS104_MODE_MULTIPLE_REDUNDANCY_GROUPS) then
      (* Deactivate all other connections of the same redundancy group *)
      set_masterConnections
        (imap (λ i con,
               if bool_decide (redundancyGroup con = redundancyGroup target) then
                 if bool_decide (i ≠ connectionToActivate)
                 then MasterConnection.deactivate con else con
               else con)
              (masterConnections self)) self
    else self in
  target ← masterConnections self !! connectionToActivate;
  Some (setConnection connectionToActivate (MasterConnection.activate target) self).

(** [CS104_Slave_activate] as a thread runs it.  Its loops hold
    [openConnectionsLock] ([Semaphore_wait] before, [Semaphore_post]
    after), which keeps the threads of the other connections out of
    them: [activate_loops].  The lock has been given back when the last
    statement, [MasterConnection_activate(connectionToActivate)], runs:
    [activate_target]. *)
Definition activate_loops (self : sCS104_Slave) (connectionToActivate : nat)
  : option sCS104_Slave :=
  target ← masterConnections self !! connectionToActivate;
  let self :=
    if bool_decide (serverMode self = CS104_MODE_SINGLE_REDUNDANCY_GROUP) then
      (* Deactivate all other connections *)
      set_masterConnections
        (imap (λ i con,
               if bool_decide (i ≠ connectionToActivate)
               then MasterConnection.deactivate con else con)
              (masterConnections self)) self
    else self in
  let self :=
    if bool_decide (serverMode self = CS104_MODE_MULTIPLE_REDUNDANCY_GROUPS) then
      (* Deactivate all other connections of the same redundancy group *)
      set_masterConnections
        (imap (λ i con,
               if bool_decide (redundancyGroup con = redundancyGroup target) then
                 if bool_decide (i ≠ connectionToActivate)
                 then MasterConnection.deactivate con else con
               else con)
              (masterConnections self)) self
    else self in
  Some self.

Definition activate_target (self : sCS104_Slave) (connectionToActivate : nat)
  : option sCS104_Slave :=
  target ← masterConnections self !! connectionToActivate;
  Some (setConnection connectionToActivate (MasterConnection.activate target) self).

(** [MasterConnection_init] on the connection object [i], with the clock
    read [now].  [lowQueue] and [highQueue] are the [lowPrioQueue] and
    [highPrioQueue] arguments, [None] for [NULL]. *)
Definition initConnection (self : sCS104_Slave) (i : nat) (skt : Socket)
           (lowQueue highQueue : option nat) (now : Z)
  : option sCS104_Slave :=
  c ← masterConnections self !! i;
  let c := set_socket skt c in
  let c := set_isActive false c in
  let c := set_isRunning false c in
  let c := set_receiveCount 0 c in
  let c := set_sendCount 0 c in
  let c := set_recvBufPos 0 c in
  let c := set_unconfirmedReceivedIMessages 0 c in
  let c := set_lastConfirmationTime UINT64_MAX c in
  let c := set_timeoutT2Triggered false c in
  let c := set_oldestSentASDU (-1) c in
  let c := set_newestSentASDU (-1) c in
  let c := resetT3Timeout (conParameters self) c now in
  '(c, self) ←
    match lowQueue with
    | Some q => Some (set_lowPrioQueue q c, self)
    | None =>
      q ← messageQueues self !! lowPrioQueue c;
      Some (c, set_messageQueues
                 (<[lowPrioQueue c := MessageQueue.releaseAllQueuedASDUs q]>
                    (messageQueues self)) self)
    end;
  let c := match highQueue with
           | Some q => set_highPrioQueue q c
           | None => c
           end in
  h ← highPrioQueues self !! highPrioQueue c;
  let self :=
    set_highPrioQueues
      (<[highPrioQueue c := HighPriorityASDUQueue.resetConnectionQueue h]>
         (highPrioQueues self)) self in
  let c := set_outstandingTestFRConMessages 0 c in
  Some (setConnection i c self).

(** [MasterConnection_initEx]. *)
Definition initConnectionEx (self : sCS104_Slave) (i : nat) (skt : Socket)
           (redGroup : nat) (asduQueue connectionAsduQueue : nat) (now : Z)
  : option sCS104_Slave :=
  self ← initConnection self i skt (Some asduQueue) (Some connectionAsduQueue) now;
  c ← masterConnections self !! i;
  Some (setConnection i (set_redundancyGroup (Some redGroup) c) self).

(** [getFreeConnection]: [None] for [NULL]. *)
Definition getFreeConnection (self : sCS104_Slave)
  : sCS104_Slave * option nat :=
  match list_find (λ c, isUsed c = false) (masterConnections self) with
  | Some (i, c) =>
    (set_openConnections (openConnections self + 1)
       (setConnection i (set_isUsed true c) self), Some i)
  | None => (self, None)
  end.

Section WithEntryInfoSize.
Variable entryInfoSize : Z.

(** [CS104_Slave_removeConnection]. *)
Definition removeConnection (self : sCS104_Slave) (connection : nat)
  : option sCS104_Slave :=
  let self := set_openConnections (openConnections self - 1) self in
  c ← masterConnections self !! connection;
  let c := set_isUsed false c in
  let self := setConnection connection c self in
  if isActive c then
    q ← messageQueues self !! lowPrioQueue c;
    q ← MessageQueue.setWaitingForTransmissionWhenNotConfirmed entryInfoSize q;
    Some (set_messageQueues (<[lowPrioQueue c := q]> (messageQueues self)) self)
  else Some self.

End WithEntryInfoSize.

Section WithHandlers.

(** The ASDU layer, outside this file: [CS101_ASDU_createFromBuffer]
    ([None] for an invalid ASDU) and [handleASDU], which runs the
    handlers of the application on the connection and may send
    answers through it. *)
Variable CS101_ASDU_createFromBuffer : list Z → option CS101_ASDU.
Variable handleASDU : sCS104_Slave → nat → CS101_ASDU → sCS104_Slave * bool.

(** [checkSequenceNumber] on the connection object [i] and the queue
    it is bound to. *)
Definition checkSequenceNumber (self : sCS104_Slave) (i : nat) (seqNo : Z)
  : option (sCS104_Slave * bool) :=
  c ← masterConnections self !! i;
  q ← messageQueues self !! lowPrioQueue c;
  '(c, q, valid) ←
    MasterConnection.checkSequenceNumber
      MessageQueue.markAsduAsConfirmed c q seqNo;
  Some (set_messageQueues (<[lowPrioQueue c := q]> (messageQueues self))
          (setConnection i c self), valid).

(** A step on the connection object [i] alone. *)
Definition onConnection (self : sCS104_Slave) (i : nat)
           (f : sMasterConnection → sMasterConnection) : option sCS104_Slave :=
  c ← masterConnections self !! i;
  Some (setConnection i (f c) self).

(** [handleMessage] for the connection object [i]; [buffer] holds the
    APDU of [msgSize] bytes. *)
Definition handleMessage (self : sCS104_Slave) (i : nat) (buffer : list Z)
           (msgSize : Z) (currentTime : Z) : option (sCS104_Slave * bool) :=
  if msgSize >=? 3 then
    if negb (byteAt buffer 0 =? 0x68) then Some (self, false)
    else
      let lengthOfApdu := byteAt buffer 1 in
      if negb (lengthOfApdu =? msgSize - 2) then Some (self, false)
      else
        r ←
          (if Z.land (byteAt buffer 2) 1 =? 0 then
             if msgSize <? 7 then Some (self, Some false)
             else
               c ← masterConnections self !! i;
               let c :=
                 if negb (timeoutT2Triggered c) then
                   set_lastConfirmationTime currentTime
                     (set_timeoutT2Triggered true c)   (* start timeout T2 *)
                 else c in
               let self := setConnection i c self in
               let frameSendSequenceNumber :=
                 (byteAt buffer 3 * 0x100 + Z.land (byteAt buffer 2) 0xfe) / 2 in
               let frameRecvSequenceNumber :=
                 (byteAt buffer 5 * 0x100 + Z.land (byteAt buffer 4) 0xfe) / 2 in
               if negb (frameSendSequenceNumber =? receiveCount c) then
                 Some (self, Some false)
               else
                 '(self, valid) ← checkSequenceNumber self i frameRecvSequenceNumber;
                 if negb valid then Some (self, Some false)
                 else
                   c ← masterConnections self !! i;
                   let c := set_receiveCount ((receiveCount c + 1) mod 32768) c in
                   let c :=
                     set_unconfirmedReceivedIMessages
                       (unconfirmedReceivedIMessages c + 1) c in
                   let self := setConnection i c self in
                   if isActive c then
                     match CS101_ASDU_createFromBuffer
                             (take (Z.to_nat (msgSize - 6)) (drop 6 buffer)) with
                     | Some asdu =>
                       let '(self, validAsdu) := handleASDU self i asdu in
                       if negb validAsdu then Some (self, Some false)
                       else Some (self, None)
                     | None => Some (self, Some false)
                     end
                   else Some (self, None)
           (* Check for TESTFR_ACT message *)
           else if Z.land (byteAt buffer 2) 0x43 =? 0x43 then
             c ← masterConnections self !! i;
             let '(c, r) := writeToSocket c TESTFR_CON_MSG 6 in
             let self := setConnection i c self in
             if r <? 0 then Some (self, Some false) else Some (self, None)
           (* Check for STARTDT_ACT message *)
           else if Z.land (byteAt buffer 2) 0x07 =? 0x07 then
             self ← activate self i;
             c ← masterConnections self !! i;
             h ← highPrioQueues self !! highPrioQueue c;
             let self :=
               set_highPrioQueues
                 (<[highPrioQueue c :=
                      HighPriorityASDUQueue.resetConnectionQueue h]>
                    (highPrioQueues self)) self in
             let '(c, r) := writeToSocket c STARTDT_CON_MSG 6 in
             let self := setConnection i c self in
             if r <? 0 then Some (self, Some false) else Some (self, None)
           (* Check for STOPDT_ACT message *)
           else if Z.land (byteAt buffer 2) 0x13 =? 0x13 then
             c ← masterConnections self !! i;
             let c := MasterConnection.deactivate c in
             let '(c, r) := writeToSocket c STOPDT_CON_MSG 6 in
             let self := setConnection i c self in
             if r <? 0 then Some (self, Some false) else Some (self, None)
           (* Check for TESTFR_CON message *)
           else if Z.land (byteAt buffer 2) 0x83 =? 0x83 then
             self ← onConnection self i (set_outstandingTestFRConMessages 0);
             Some (self, None)
           else if byteAt buffer 2 =? 0x01 then            (* S-message *)
             let seqNo := (byteAt buffer 4 + byteAt buffer 5 * 0x100) / 2 in
             '(self, valid) ← checkSequenceNumber self i seqNo;
             if negb valid then Some (self, Some false) else Some (self, None)
           else Some (self, Some true));          (* unknown message - IGNORE *)
        match r with
        | (self, Some b) => Some (self, b)
        | (self, None) =>
          self ← onConnection self i
                 (λ c, resetT3Timeout (conParameters self) c currentTime);
          Some (self, true)
        end
  else Some (self, false).

(** The lines that follow the call of [handleMessage], in
    [connectionHandlingThread] and in
    [MasterConnection_handleTcpConnection] alike: acknowledge with an
    S message once [w] I messages are unconfirmed.  [now] is the clock
    read for [lastConfirmationTime]. *)
Definition confirmReceivedIMessages (params : APCIParameters.t)
           (self : sMasterConnection) (now : Z) : sMasterConnection :=
  if unconfirmedReceivedIMessages self >=? APCIParameters.w params then
    let self := set_lastConfirmationTime now self in
    let self := set_unconfirmedReceivedIMessages 0 self in
    let self := set_timeoutT2Triggered false self in
    sendSMessage self
  else self.

(** What both callers do with a complete message of [bytesRec] bytes
    in the receive buffer. *)
Definition processMessage (self : sCS104_Slave) (i : nat) (bytesRec : Z)
           (currentTime now : Z) : option sCS104_Slave :=
  c ← masterConnections self !! i;
  '(self, ok) ← handleMessage self i (recvBuffer c) bytesRec currentTime;
  self ← (if negb ok then onConnection self i (set_isRunning false) else Some self);
  onConnection self i (λ c, confirmReceivedIMessages (conParameters self) c now).

(** [MasterConnection_handleTcpConnection]. *)
Definition handleTcpConnection (self : sCS104_Slave) (i : nat)
           (currentTime now : Z) : option sCS104_Slave :=
  c ← masterConnections self !! i;
  let '(c, bytesRec) := receiveMessage c in
  let c := if bytesRec <? 0 then set_isRunning false c else c in
  let self := setConnection i c self in
  if (bytesRec >? 0) && isRunning c then
    processMessage self i bytesRec currentTime now
  else Some self.

(** The receiving part of one round of [connectionHandlingThread],
    entered when the socket is ready; the flag is false when the
    round leaves the loop with [break]. *)
Definition connectionHandlingThread_receive (self : sCS104_Slave) (i : nat)
           (currentTime now : Z) : option (sCS104_Slave * bool) :=
  c ← masterConnections self !! i;
  let '(c, bytesRec) := receiveMessage c in
  let self := setConnection i c self in
  if bytesRec =? -1 then Some (self, false)
  else if bytesRec >? 0 then
    self ← processMessage self i bytesRec currentTime now;
    Some (self, true)
  else Some (self, true).

End WithHandlers.

Section Sending.
Variable entryInfoSize : Z.

(** [sendNextLowPriorityASDU] for the connection object [i].
    [sendBuffer] is [self->sendBuffer], handed in and back; [now] is
    the clock reading of [sendASDU]. *)
Definition sendNextLowPriorityASDU (self : sCS104_Slave) (i : nat)
           (sendBuffer : list Z) (now : Z) : option (sCS104_Slave * list Z) :=
  c ← masterConnections self !! i;
  if isSentBufferFull c then Some (self, sendBuffer)
  else
    q ← messageQueues self !! lowPrioQueue c;
    '(q, next) ← MessageQueue.getNextWaitingASDU entryInfoSize q;
    let self :=
      set_messageQueues (<[lowPrioQueue c := q]> (messageQueues self)) self in
    match next with
    | Some asduBuffer =>
      let msgSize := MessageQueue.nw_size asduBuffer in
      let sendBuffer :=
        storeBytes sendBuffer IEC60870_5_104_APCI_LENGTH
                   (take (Z.to_nat msgSize) (MessageQueue.nw_asdu asduBuffer)) in
      let msgSize := msgSize + IEC60870_5_104_APCI_LENGTH in
      Some (setConnection i
              (sendASDU c sendBuffer msgSize
                        (MessageQueue.nw_timestamp asduBuffer)
                        (Some (MessageQueue.nw_queueEntry asduBuffer)) now)
              self,
            (sendIMessage c sendBuffer msgSize).1.2)
    | None => Some (self, sendBuffer)
    end.

(** [sendNextHighPriorityASDU]. *)
Definition sendNextHighPriorityASDU (self : sCS104_Slave) (i : nat)
           (sendBuffer : list Z) (now : Z)
  : option (sCS104_Slave * list Z * bool) :=
  c ← masterConnections self !! i;
  if isSentBufferFull c then Some (self, sendBuffer, false)
  else
    h ← highPrioQueues self !! highPrioQueue c;
    '(h, next) ← HighPriorityASDUQueue.getNextASDU h;
    let self :=
      set_highPrioQueues (<[highPrioQueue c := h]> (highPrioQueues self)) self in
    match next with
    | Some (msgSize, buffer) =>
      let sendBuffer :=
        storeBytes sendBuffer IEC60870_5_104_APCI_LENGTH
                   (take (Z.to_nat msgSize) buffer) in
      let msgSize := msgSize + IEC60870_5_104_APCI_LENGTH in
      Some (setConnection i (sendASDU c sendBuffer msgSize 0 None now) self,
            (sendIMessage c sendBuffer msgSize).1.2, true)
    | None => Some (self, sendBuffer, false)
    end.

(** The [while] loop of [sendWaitingASDUs], "send all available high
    priority ASDUs first".  Round [round] reads the clock as
    [nows round]; the flag of the result is true for the [return true]
    inside the loop.  A round that goes on has taken an ASDU out of the
    queue, so [entryCounter] rounds suffice. *)
Fixpoint sendHighPriorityASDUs (fuel : nat) (round : nat)
         (self : sCS104_Slave) (i : nat) (sendBuffer : list Z)
         (nows : nat → Z) : option (sCS104_Slave * list Z * bool) :=
  c ← masterConnections self !! i;
  h ← highPrioQueues self !! highPrioQueue c;
  if HighPriorityASDUQueue.isAsduAvailable h then
    match fuel with
    | O => None
    | S fuel =>
      '(self, sendBuffer, sent) ←
        sendNextHighPriorityASDU self i sendBuffer (nows round);
      if negb sent then Some (self, sendBuffer, true)
      else
        c ← masterConnections self !! i;
        if negb (isRunning c) then Some (self, sendBuffer, true)
        else sendHighPriorityASDUs fuel (S round) self i sendBuffer nows
    end
  else Some (self, sendBuffer, false).

(** [sendWaitingASDUs]: send all high-priority ASDUs and the last
    waiting ASDU from the low-priority queue; the result is true if
    ASDUs are still waiting.  [nowLow] is the clock reading of the
    low-priority send. *)
Definition sendWaitingASDUs (self : sCS104_Slave) (i : nat)
           (sendBuffer : list Z) (nows : nat → Z) (nowLow : Z)
  : option (sCS104_Slave * list Z * bool) :=
  c ← masterConnections self !! i;
  h ← highPrioQueues self !! highPrioQueue c;
  '(self, sendBuffer, waiting) ←
    sendHighPriorityASDUs (Z.to_nat (HighPriorityASDUQueue.entryCounter h)) 0
                          self i sendBuffer nows;
  if (waiting : bool) then Some (self, sendBuffer, true)
  else
    '(self, sendBuffer) ← sendNextLowPriorityASDU self i sendBuffer nowLow;
    c ← masterConnections self !! i;
    q ← messageQueues self !! lowPrioQueue c;
    Some (self, sendBuffer, MessageQueue.isAsduAvailable q).

(** [sendASDUInternal].  [frameBuffer] is what the local
    [frameBuffer.msg] holds when the function is entered; the frame is
    the APCI followed by the encoded ASDU. *)
Definition sendASDUInternal (self : sCS104_Slave) (i : nat)
           (asdu : CS101_ASDU) (frameBuffer : list Z) (now : Z)
  : option (sCS104_Slave * bool) :=
  c ← masterConnections self !! i;
  if isActive c then
    if negb (isSentBufferFull c) then
      let msg :=
        storeBytes frameBuffer IEC60870_5_104_APCI_LENGTH (asduBytes asdu) in
      let msgSize :=
        IEC60870_5_104_APCI_LENGTH + Z.of_nat (length (asduBytes asdu)) in
      Some (setConnection i (sendASDU c msg msgSize 0 None now) self, true)
    else
      h ← highPrioQueues self !! highPrioQueue c;
      '(h, asduSent) ← HighPriorityASDUQueue.enqueue h asdu;
      Some (set_highPrioQueues
              (<[highPrioQueue c := h]> (highPrioQueues self)) self,
            asduSent)
  else Some (self, false).

(** [_IMasterConnection_isReady]. *)
Definition isReady (self : sCS104_Slave) (i : nat) : option bool :=
  con ← masterConnections self !! i;
  if isActive con then
    if negb (isSentBufferFull con) then Some true
    else
      h ← highPrioQueues self !! highPrioQueue con;
      full ← HighPriorityASDUQueue.isFull h;
      if (full : bool) then Some false else Some true
  else Some false.

(** The body of the first [for] loop of [handleClientConnections] for
    the connection object [i]: a used connection that does not run any
    more is given back.  The call of the connection event handler and
    [MasterConnection_deinit], which closes the socket, are left
    out. *)
Definition releaseIfStopped (self : sCS104_Slave) (i : nat)
  : option sCS104_Slave :=
  con ← masterConnections self !! i;
  if isUsed con then
    if isRunning con then Some self
    else
      let self := setConnection i (set_isUsed false con) self in
      self ←
        (if isActive con then
           q ← messageQueues self !! lowPrioQueue con;
           q ← MessageQueue.setWaitingForTransmissionWhenNotConfirmed
                 entryInfoSize q;
           Some (set_messageQueues
                   (<[lowPrioQueue con := q]> (messageQueues self)) self)
         else Some self);
      Some (set_openConnections (openConnections self - 1) self)
  else Some self.

(** The first [for] loop of [handleClientConnections], under its guard
    [openConnections > 0]. *)
Definition releaseStoppedConnections (self : sCS104_Slave)
  : option sCS104_Slave :=
  if openConnections self >? 0 then
    foldl (λ s i, s ← s; releaseIfStopped s i) (Some self)
          (seq 0 (length (masterConnections self)))
  else Some self.

End Sending.
End CS104_Slave.

(** ** Redundancy groups

    The allowed clients of a redundancy group and the choice of the
    group for a new connection. *)

(** [eCS104_IPAddressType] and [struct sCS104_IPAddress]. *)
Inductive eCS104_IPAddressType :=
  | IP_ADDRESS_TYPE_IPV4
  | IP_ADDRESS_TYPE_IPV6.

#[global] Instance eCS104_IPAddressType_eq_dec : EqDecision eCS104_IPAddressType.
Proof. solve_decision. Defined.

Module CS104_IPAddress.
Record t := mk {
  address : list Z;   (* uint8_t address[16] *)
  type : eCS104_IPAddressType
}.

(** The number of address bytes in use. *)
Definition sizeOf (ty : eCS104_IPAddressType) : nat :=
  match ty with
  | IP_ADDRESS_TYPE_IPV4 => 4
  | IP_ADDRESS_TYPE_IPV6 => 16
  end.

(** [CS104_IPAddress_equals]. *)
Definition equals (self other : t) : bool :=
  if negb (bool_decide (type self = type other)) then false
  else
    forallb (λ i, nth i (address self) 0 =? nth i (address other) 0)
            (seq 0 (sizeOf (type self))).
End CS104_IPAddress.

(** [struct sCS104_RedundancyGroup]: the list of allowed clients,
    [None] for [NULL].  The name and the queues of the group play no
    part in matching. *)
Module CS104_RedundancyGroup.
Record t := mk {
  allowedClients : option (list CS104_IPAddress.t)
}.

(** [CS104_RedundancyGroup_addAllowedClientEx].  The new address object
    gets the first 4 or 16 bytes of [ipAddress]; the source leaves the
    other bytes of its array as [malloc] returned them, and never reads
    them. *)
Definition addAllowedClientEx (self : t) (ipAddress : list Z)
           (addressType : eCS104_IPAddressType) : t :=
  let allowed := default [] (allowedClients self) in
  let ipAddr :=
    CS104_IPAddress.mk
      ((λ i, nth i ipAddress 0) <$> seq 0 (CS104_IPAddress.sizeOf addressType))
      addressType in
  mk (Some (allowed ++ [ipAddr])).

(** [CS104_RedundancyGroup_matches]. *)
Definition matches (self : t) (ipAddress : CS104_IPAddress.t) : bool :=
  match allowedClients self with
  | None => false
  | Some allowed => existsb (CS104_IPAddress.equals ipAddress) allowed
  end.

(** [CS104_RedundancyGroup_isCatchAll]. *)
Definition isCatchAll (self : t) : bool :=
  match allowedClients self with
  | Some _ => false
  | None => true
  end.

(** The loop of [getMatchingRedundancyGroup] over the groups from place
    [idx] on. *)
Fixpoint matchLoop (groups : list t) (idx : nat) (catchAllGroup : option nat)
         (ipAddress : CS104_IPAddress.t) : option nat * option nat :=
  match groups with
  | [] => (None, catchAllGroup)
  | redGroup :: groups =>
    if matches redGroup ipAddress then (Some idx, catchAllGroup)
    else
      let catchAllGroup :=
        if isCatchAll redGroup then Some idx else catchAllGroup in
      matchLoop groups (S idx) catchAllGroup ipAddress
  end.

(** [getMatchingRedundancyGroup] for the groups of the slave and the
    address that [CS104_IPAddress_setFromString] has read from the
    peer's address string; the result is the place of the group,
    [None] for [NULL]. *)
Definition getMatchingRedundancyGroup (groups : list t)
           (ipAddress : CS104_IPAddress.t) : option nat :=
  let '(matchingGroup, catchAllGroup) := matchLoop groups 0 None ipAddress in
  match matchingGroup with
  | None => catchAllGroup
  | Some g => Some g
  end.
End CS104_RedundancyGroup.

(** ** Views of the state used in the statements *)

(** The live entries of a queue, first to last, read the way the scanning
    loops of the source walk the buffer; [None] when the walk reads a
    place that holds no entry header or does not reach [lastEntry]. *)
Module QueueView.
Import MessageQueue.

Section WithEntryInfoSize.
Variable entryInfoSize : Z.

Fixpoint walk (fuel : nat) (self : sMessageQueue) (entryPtr : Z)
  : option (list (Z * EntryInfo.t)) :=
  entryInfo ← readInfo self entryPtr;
  if bool_decide (Some entryPtr = lastEntry self) then
    Some [(entryPtr, entryInfo)]
  else
    match fuel with
    | O => None
    | S fuel' =>
      rest ← walk fuel' self (nextEntryPtr entryInfoSize self entryPtr entryInfo);
      Some ((entryPtr, entryInfo) :: rest)
    end.

Definition entries (self : sMessageQueue) : option (list (Z * EntryInfo.t)) :=
  if entryCounter self =? 0 then Some []
  else entryPtr ← firstEntry self; walk (scanFuel self) self entryPtr.

(** Time stamp and state of every live entry, oldest first. *)
Definition content (self : sMessageQueue)
  : option (list (Z * QueueEntryState)) :=
  l ← entries self;
  Some (map (λ e : Z * EntryInfo.t,
               (EntryInfo.entryTimestamp e.2, EntryInfo.entryState e.2)) l).
End WithEntryInfoSize.

(** The bytes of the ASDU stored at [p]. *)
Definition payloadAt (q : sMessageQueue) (p : Z) : list Z :=
  default [] (payload <$> buffer q !! p).
End QueueView.

(** Queues whose entries lie one behind the other in the buffer, none
    of them wrapped around: the layout both kinds of queue have while
    what was enqueued since the queue was last empty fits into the
    buffer. *)
Module LowPrioView.
Import MessageQueue.

(** What [MessageQueue_enqueueASDU] stores for an ASDU at the time [t]. *)
Definition entryOf (a : CS101_ASDU * Z) : QueueEntry :=
  mkEntry (EntryInfo.mk a.2 QUEUE_ENTRY_STATE_WAITING_FOR_TRANSMISSION
                        ((asduHeaderLength a.1 + payloadSize a.1) mod 256))
          (asduBytes a.1).

Section WithEntryInfoSize.
Variable entryInfoSize : Z.

(** The bytes an entry takes in the buffer. *)
Definition entryLength (c : QueueEntry) : Z :=
  entryInfoSize + EntryInfo.size (info c).

Definition extent (l : list QueueEntry) : Z :=
  foldr (λ c s, entryLength c + s) 0 l.

(** The entries [l] lie in the buffer one behind the other from offset
    [p] on. *)
Fixpoint laidOut (buf : gmap Z QueueEntry) (p : Z) (l : list QueueEntry)
  : Prop :=
  match l with
  | [] => True
  | c :: l =>
    buf !! p = Some c ∧ 0 <= EntryInfo.size (info c) ∧
    laidOut buf (p + entryLength c) l
  end.

(** The offsets of the entries, with their headers. *)
Fixpoint offsets (p : Z) (l : list QueueEntry) : list (Z * EntryInfo.t) :=
  match l with
  | [] => []
  | c :: l => (p, info c) :: offsets (p + entryLength c) l
  end.

Definition linear (q : sMessageQueue) (p : Z) (l : list QueueEntry) : Prop :=
  entryCounter q = Z.of_nat (length l) ∧
  (l ≠ [] →
   0 <= p ∧
   firstEntry q = Some p ∧
   lastEntry q = Some (p + extent (removelast l)) ∧
   lastInBufferEntry q = lastEntry q ∧
   laidOut (buffer q) p l ∧
   p + extent l <= size q).

End WithEntryInfoSize.
End LowPrioView.

Module HighPrioView.
Import HighPriorityASDUQueue.

(** What [HighPriorityASDUQueue_enqueue] stores for an ASDU. *)
Definition entryOf (asdu : CS101_ASDU) : list Z :=
  (asduHeaderLength asdu + payloadSize asdu) mod 65536 :: asduBytes asdu.

(** The bytes an entry takes in the buffer. *)
Definition entryLength (e : list Z) : Z := 2 + hd 0 e.

Definition extent (l : list (list Z)) : Z :=
  foldr (λ e s, entryLength e + s) 0 l.

(** The entries [l] lie in the buffer one behind the other from offset
    [p] on. *)
Fixpoint laidOut (buf : gmap Z (list Z)) (p : Z) (l : list (list Z)) : Prop :=
  match l with
  | [] => True
  | e :: l =>
    buf !! p = Some e ∧ (∃ n bs, e = n :: bs ∧ 0 <= n) ∧
    laidOut buf (p + entryLength e) l
  end.

Definition linear (q : sHighPriorityASDUQueue) (p : Z) (l : list (list Z))
  : Prop :=
  entryCounter q = Z.of_nat (length l) ∧
  (l ≠ [] →
   0 <= p ∧
   firstEntry q = Some p ∧
   lastEntry q = Some (p + extent (removelast l)) ∧
   lastInBufferEntry q = lastEntry q ∧
   laidOut (buffer q) p l ∧
   p + extent l <= size q).
End HighPrioView.

(** The pool of connection objects. *)
Module Pool.
Import CS104_Slave.

(** The number of connection objects in use. *)
Definition usedCount (s : sCS104_Slave) : Z :=
  Z.of_nat (length (filter (λ c, isUsed c = true) (masterConnections s))).

(** [openConnections] counts the connection objects in use. *)
Definition counted (s : sCS104_Slave) : Prop :=
  openConnections s = usedCount s.
End Pool.

(** The bytes [bs] arrive on the socket of a connection. *)
Definition bytesArrive (bs : list Z) (self : sMasterConnection)
  : sMasterConnection :=
  set_socket (mkSocket (pending (socket self) ++ bs)
                       (readError (socket self)) (written (socket self))
                       (writeResults (socket self))) self.

(** The connection object [i] is bound to the same queues in [s'] as
    in [s]. *)
Definition sameBinding (i : nat) (s s' : CS104_Slave.sCS104_Slave) : Prop :=
  ∀ c, CS104_Slave.masterConnections s !! i = Some c →
       ∃ c', CS104_Slave.masterConnections s' !! i = Some c' ∧
             lowPrioQueue c' = lowPrioQueue c ∧
             highPrioQueue c' = highPrioQueue c.

(** The entries of the k-buffer, oldest first. *)
Module KBuffer.
Import MasterConnection.

Definition count (self : sMasterConnection) : Z :=
  if oldestSentASDU self =? -1 then 0
  else (newestSentASDU self - oldestSentASDU self) mod maxSentASDUs self + 1.

Definition slot (self : sMasterConnection) (j : nat) : SentASDUSlave.t :=
  sentAt self ((oldestSentASDU self + Z.of_nat j) mod maxSentASDUs self).

Definition window (self : sMasterConnection) : list SentASDUSlave.t :=
  slot self <$> seq 0 (Z.to_nat (count self)).

(** The indices are those of a k-buffer: [k] places, and either no
    entry or both ends inside. *)
Definition indices_ok (self : sMasterConnection) : Prop :=
  0 < maxSentASDUs self ∧
  (oldestSentASDU self = -1 ∨
   (0 ≤ oldestSentASDU self < maxSentASDUs self ∧
    0 ≤ newestSentASDU self < maxSentASDUs self)).

(** The sequence numbers in the k-buffer are those that [sendASDU]
    stores for I messages sent one after the other: 15-bit numbers, each
    the successor of the one before it. *)
Definition consecutive (self : sMasterConnection) : Prop :=
  count self < 32768 ∧
  ∃ s0, 0 ≤ s0 < 32768 ∧
    ∀ j, (j < Z.to_nat (count self))%nat →
         SentASDUSlave.seqNo (slot self j) = (s0 + Z.of_nat j) mod 32768.



(** What [MasterConnection_init], [sendASDU] and [checkSequenceNumber]
    maintain on a connection that runs: the k-buffer has its
    [maxSentASDUs] places, the send counter is a 15-bit number, and
    entry [j] of the k-buffer carries the value the send counter had
    after the I message of that entry was sent. *)
Definition in_order (self : sMasterConnection) : Prop :=
  indices_ok self ∧
  maxSentASDUs self < 32768 ∧
  (Z.to_nat (maxSentASDUs self) <= length (sentASDUs self))%nat ∧
  0 <= sendCount self < 32768 ∧
  ∀ j, (j < Z.to_nat (count self))%nat →
       SentASDUSlave.seqNo (slot self j)
       = (sendCount self - count self + 1 + Z.of_nat j) mod 32768.
End KBuffer.

(** ** Concrete states *)
Module Scenario.
Import MessageQueue.

(** [sizeof(struct sMessageQueueEntryInfo)] on a 64-bit target. *)
Definition entryInfoSize : Z := 16.

(** An ASDU of [n] bytes: the 6-byte ASDU header of the default
    application layer parameters and [n - 6] bytes of payload. *)
Definition asduOfSize (n : Z) : CS101_ASDU :=
  mkASDU 6 (n - 6) (replicate (Z.to_nat n) 0).

(** [MessageQueue_enqueueASDU] for a list of ASDU sizes, each with the
    time of its call. *)
Definition enqueueAll (self : sMessageQueue) (l : list (Z * Z))
  : option sMessageQueue :=
  foldl (λ oq '(n, t), q ← oq; enqueueASDU entryInfoSize q (asduOfSize n) t)
        (Some self) l.

(** A low-priority queue created for one message
    ([MessageQueue_create(1)], a buffer of 272 bytes). *)
Definition queue1 : sMessageQueue := initialize entryInfoSize 1.

(** Three ASDUs of 100 bytes enqueued at the times 1, 2 and 3. *)
Definition queueThree : option sMessageQueue :=
  enqueueAll queue1 [(100, 1); (100, 2); (100, 3)].

(** ... and then one of 200 bytes at time 4. *)
Definition queueFour : option sMessageQueue :=
  q ← queueThree; enqueueASDU entryInfoSize q (asduOfSize 200) 4.

(** A low-priority queue created for two messages (a buffer of 544
    bytes) after ASDUs of 200, 168, 100, 200 and 100 bytes, enqueued at
    the times 1 to 5. *)
Definition queueFive : option sMessageQueue :=
  enqueueAll (initialize entryInfoSize 2)
             [(200, 1); (168, 2); (100, 3); (200, 4); (100, 5)].

(** ... and then one of 250 bytes at time 6. *)
Definition queueSix : option sMessageQueue :=
  q ← queueFive; enqueueASDU entryInfoSize q (asduOfSize 250) 6.

(** A low-priority queue created for ten messages after thirty ASDUs of
    249 bytes, enqueued at the times 0 to 29. *)
Definition queueThirty : option sMessageQueue :=
  enqueueAll (initialize entryInfoSize 10)
             ((λ t : nat, (249, Z.of_nat t)) <$> seq 0 30).

(** One ASDU enqueued at time 1 and handed out for transmission by
    [MessageQueue_getNextWaitingASDU]: it is sent but not confirmed. *)
Definition queueSent : option sMessageQueue :=
  q ← enqueueASDU entryInfoSize queue1 (asduOfSize 10) 1;
  fst <$> getNextWaitingASDU entryInfoSize q.

Definition idleSocket : Socket := mkSocket [] false [] [].

(** A connection as [MasterConnection_init] leaves it at time [now],
    with a k-buffer of [k] places, bound to the queues number 0. *)
Definition initialConnection (params : APCIParameters.t) (now : Z)
  : sMasterConnection :=
  mkConnection idleSocket true false true false 0 (APCIParameters.k params)
    (-1) (-1) 0 0 0 UINT64_MAX
    ((now + MasterConnection.msOf (APCIParameters.t3 params)) mod 2 ^ 64)
    (replicate (Z.to_nat (APCIParameters.k params)) inhabitant)
    (replicate 260 0) 0 0%nat 0%nat None.

Definition emptyHighPrioQueue : HighPriorityASDUQueue.sHighPriorityASDUQueue :=
  HighPriorityASDUQueue.mkQueue (1 * (2 + 256)) 0 None None None ∅.

(** A slave in the mode of a single redundancy group with two
    connections on its queue pair: the first is active, the second is
    not; the queue holds the entry of [queueSent]. *)
Definition slaveWithSentEntry : option CS104_Slave.sCS104_Slave :=
  q ← queueSent;
  Some (CS104_Slave.mkSlave CS104_MODE_SINGLE_REDUNDANCY_GROUP
          defaultConnectionParameters 2
          [ set_isActive true (initialConnection defaultConnectionParameters 1);
            initialConnection defaultConnectionParameters 1 ]
          [q] [emptyHighPrioQueue]).

(** A connection whose clock is about to be set back.  It was
    initialised at time 0, received an I message at time 2000 (which
    set [nextT3Timeout] to 22000) and acknowledged it when T2 ran out
    at time 12000: nothing is unconfirmed, [lastConfirmationTime] is
    12000, the k-buffer is empty. *)
Definition connectionBeforeClockChange : sMasterConnection :=
  set_nextT3Timeout 22000
    (set_lastConfirmationTime 12000
       (set_receiveCount 1 (initialConnection defaultConnectionParameters 0))).

(** A connection of which only the start byte of the next frame has
    arrived. *)
Definition connectionStartByteArrived : sMasterConnection :=
  set_socket (mkSocket [0x68] false [] [])
             (initialConnection defaultConnectionParameters 0).

(** The other five bytes of a TESTFR_ACT frame arrive. *)
Definition restArrives (self : sMasterConnection) : sMasterConnection :=
  set_socket (mkSocket (pending (socket self) ++ [0x04; 0x43; 0; 0; 0])
                       (readError (socket self)) (written (socket self))
                       (writeResults (socket self))) self.

(** A connection of which the first three bytes of a frame have
    arrived. *)
Definition connectionThreeBytesArrived : sMasterConnection :=
  set_socket (mkSocket [0x68; 0x04; 0x43] false [] [])
             (initialConnection defaultConnectionParameters 0).

(** A slave in the mode of a single redundancy group with two
    connections, neither active, on its queue pair. *)
Definition slaveTwoConnections : CS104_Slave.sCS104_Slave :=
  CS104_Slave.mkSlave CS104_MODE_SINGLE_REDUNDANCY_GROUP
    defaultConnectionParameters 2
    [ initialConnection defaultConnectionParameters 0;
      initialConnection defaultConnectionParameters 0 ]
    [queue1] [emptyHighPrioQueue].

(** A slave in the mode of several redundancy groups with three
    connections, none of them active: the first two belong to group 0,
    the third to group 1. *)
Definition slaveTwoGroups : CS104_Slave.sCS104_Slave :=
  CS104_Slave.mkSlave CS104_MODE_MULTIPLE_REDUNDANCY_GROUPS
    defaultConnectionParameters 3
    [ set_redundancyGroup (Some 0%nat)
        (initialConnection defaultConnectionParameters 0);
      set_redundancyGroup (Some 0%nat)
        (initialConnection defaultConnectionParameters 0);
      set_redundancyGroup (Some 1%nat)
        (initialConnection defaultConnectionParameters 0) ]
    [queue1; queue1] [emptyHighPrioQueue; emptyHighPrioQueue].

(** An ASDU layer that decodes nothing, and one that accepts all. *)
Definition noASDU : list Z → option CS101_ASDU := λ _, None.
Definition acceptASDU
  : CS104_Slave.sCS104_Slave → nat → CS101_ASDU
    → CS104_Slave.sCS104_Slave * bool := λ s _ _, (s, true).

(** The parameters of a slave that acknowledges every I message
    ([w] = 1), and such a slave with one connection, to which an
    I message with N(S) = 0 and N(R) = 0 has arrived. *)
Definition parametersW1 : APCIParameters.t :=
  APCIParameters.mk 12 1 10 15 10 20.

Definition slaveWithIMessage : CS104_Slave.sCS104_Slave :=
  CS104_Slave.mkSlave CS104_MODE_SINGLE_REDUNDANCY_GROUP parametersW1 1
    [ set_socket (mkSocket [0x68; 0x05; 0; 0; 0; 0; 100] false [] [])
                 (initialConnection parametersW1 0) ]
    [queue1] [emptyHighPrioQueue].

(** A connection that has sent three I messages (the send counter went
    from 4 to 7), the first and the last from the low-priority queue;
    none is confirmed. *)
Definition connectionThreeSent : sMasterConnection :=
  set_sentASDUs
    ([ SentASDUSlave.mk 1 (Some 0) 100 5;
       SentASDUSlave.mk 0 None 101 6;
       SentASDUSlave.mk 3 (Some 26) 102 7 ]
       ++ replicate 9 inhabitant)
    (set_sendCount 7
       (set_newestSentASDU 2
          (set_oldestSentASDU 0
             (initialConnection defaultConnectionParameters 0)))).




(** Two ASDUs, of 100 and of 50 bytes, with the times at which they are
    enqueued. *)
Definition twoASDUs : list (CS101_ASDU * Z) :=
  [(asduOfSize 100, 1); (asduOfSize 50, 2)].

(** The queue of [queueSent] after an ASDU of 20 bytes has been
    enqueued at time 2: its first entry is sent, the second waits. *)
Definition queueSentAndWaiting : sMessageQueue :=
  default queue1
          (q ← queueSent; enqueueASDU entryInfoSize q (asduOfSize 20) 2).

(** A slave with one active connection on that queue. *)
Definition slaveActive : CS104_Slave.sCS104_Slave :=
  CS104_Slave.mkSlave CS104_MODE_SINGLE_REDUNDANCY_GROUP
    defaultConnectionParameters 1
    [ set_isActive true (initialConnection defaultConnectionParameters 0) ]
    [queueSentAndWaiting] [emptyHighPrioQueue].

(** The parameters of a slave with a k-buffer of one place, and such a
    slave whose active connection has one I message unconfirmed. *)
Definition parametersK1 : APCIParameters.t :=
  APCIParameters.mk 1 8 10 15 10 20.

Definition slaveFullKBuffer : CS104_Slave.sCS104_Slave :=
  CS104_Slave.mkSlave CS104_MODE_SINGLE_REDUNDANCY_GROUP parametersK1 1
    [ set_newestSentASDU 0
        (set_oldestSentASDU 0
           (set_isActive true (initialConnection parametersK1 0))) ]
    [queueSentAndWaiting] [emptyHighPrioQueue].

(** The slave of [slaveTwoConnections] after its second connection
    object has been given back. *)
Definition slaveOneFree : CS104_Slave.sCS104_Slave :=
  CS104_Slave.set_openConnections 1
    (CS104_Slave.setConnection 1
       (set_isUsed false (initialConnection defaultConnectionParameters 0))
       slaveTwoConnections).

(** The slave of [slaveTwoConnections] after its first connection has
    stopped. *)
Definition slaveOneStopped : CS104_Slave.sCS104_Slave :=
  CS104_Slave.setConnection 0
    (set_isRunning false (initialConnection defaultConnectionParameters 0))
    slaveTwoConnections.

(** A connection on whose socket a TESTFR_ACT frame and the start byte
    of the next frame have arrived. *)
Definition connectionFrameArrived : sMasterConnection :=
  set_socket (mkSocket [0x68; 0x04; 0x43; 0; 0; 0; 0x68] false [] [])
             (initialConnection defaultConnectionParameters 0).

End Scenario.

(** ** Activation among redundant connections *)
Module Activation.
Import CS104_Slave.

(** Two connections compete for activation: always in the mode of a
    single redundancy group, when they belong to the same group in the
    mode of several groups, never when every connection is a group of
    its own. *)
Definition sameScope (mode : CS104_ServerMode) (a b : sMasterConnection)
  : Prop :=
  match mode with
  | CS104_MODE_SINGLE_REDUNDANCY_GROUP => True
  | CS104_MODE_MULTIPLE_REDUNDANCY_GROUPS =>
    redundancyGroup a = redundancyGroup b
  | CS104_MODE_CONNECTION_IS_REDUNDANCY_GROUP => False
  end.

#[global] Instance sameScope_dec mode a b : Decision (sameScope mode a b).
Proof. destruct mode; simpl; apply _. Defined.

(** At most one connection object of a scope has [isActive] set. *)
Definition exclusive (s : sCS104_Slave) : Prop :=
  ∀ i j ci cj,
    masterConnections s !! i = Some ci →
    masterConnections s !! j = Some cj →
    sameScope (serverMode s) ci cj →
    isActive ci = true → isActive cj = true → i = j.

(** What activation depends on: the mode, and for every connection
    object whether it is active and which group it belongs to. *)
Definition activity (s : sCS104_Slave)
  : CS104_ServerMode * list (bool * option nat) :=
  (serverMode s,
   (λ c, (isActive c, redundancyGroup c)) <$> masterConnections s).

(** The handlers of the application have no access to [isActive], to
    the redundancy group or to the server mode. *)
Definition keepsActivity
           (handleASDU : sCS104_Slave → nat → CS101_ASDU → sCS104_Slave * bool)
  : Prop :=
  ∀ s i asdu, activity (handleASDU s i asdu).1 = activity s.

(** A change of one connection object that leaves [isActive] and the
    redundancy group alone. *)
Definition keeps (c c' : sMasterConnection) : Prop :=
  isActive c' = isActive c ∧ redundancyGroup c' = redundancyGroup c.

(** Where the thread of a connection ([connectionHandlingThread], one
    for each connection) stands in [CS104_Slave_activate], which it
    calls when it has read STARTDT_ACT: before the loops, past them and
    before [MasterConnection_activate], or back in [handleMessage]. *)
Inductive ActivatePoint : Set :=
| beforeLoops
| beforeActivate
| returned.

(** The thread of connection [i] runs to its next point: the loops in one
    piece, since they hold [openConnectionsLock]. *)
Definition threadStep (st : sCS104_Slave * list ActivatePoint) (i : nat)
  : option (sCS104_Slave * list ActivatePoint) :=
  let '(s, points) := st in
  point ← points !! i;
  match point with
  | beforeLoops =>
    s' ← activate_loops s i; Some (s', <[i := beforeActivate]> points)
  | beforeActivate =>
    s' ← activate_target s i; Some (s', <[i := returned]> points)
  | returned => None
  end.

(** The threads run in the order in which the scheduler picks them. *)
Fixpoint runThreads (schedule : list nat)
         (st : sCS104_Slave * list ActivatePoint)
  : option (sCS104_Slave * list ActivatePoint) :=
  match schedule with
  | [] => Some st
  | i :: schedule => st' ← threadStep st i; runThreads schedule st'
  end.

Section Steps.
Variable entryInfoSize : Z.
Variable CS101_ASDU_createFromBuffer : list Z → option CS101_ASDU.
Variable handleASDU : sCS104_Slave → nat → CS101_ASDU → sCS104_Slave * bool.

(** The steps of a slave that serves its connections from one thread
    ([CS104_Slave_startThreadless] and [CS104_Slave_tick]): every call
    runs to its end before the next one begins.  With a thread for each
    connection the calls overlap, see [threadStep]. *)
Inductive step : sCS104_Slave → sCS104_Slave → Prop :=
| step_accept s s' o :
    getFreeConnection s = (s', o) → step s s'
| step_init s i skt lowQueue highQueue now s' :
    initConnection s i skt lowQueue highQueue now = Some s' → step s s'
| step_initEx s i skt redGroup lowQueue highQueue now s' :
    initConnectionEx s i skt redGroup lowQueue highQueue now = Some s' →
    step s s'
| step_message s i buffer msgSize now s' b :
    handleMessage CS101_ASDU_createFromBuffer handleASDU
                  s i buffer msgSize now = Some (s', b) →
    step s s'
| step_tcp s i currentTime now s' :
    handleTcpConnection CS101_ASDU_createFromBuffer handleASDU
                        s i currentTime now = Some s' →
    step s s'
| step_timeouts s i now s' :
    onConnection s i
      (λ c, MasterConnection.runTimeouts (conParameters s) c now) = Some s' →
    step s s'
| step_send s i buffer msgSize timestamp queueEntry now s' :
    onConnection s i
      (λ c, MasterConnection.sendASDU c buffer msgSize timestamp
                                      queueEntry now) = Some s' →
    step s s'
| step_close s i s' :
    onConnection s i MasterConnection.close = Some s' → step s s'
| step_remove s i s' :
    removeConnection entryInfoSize s i = Some s' → step s s'.

(** The states that such a slave reaches when it starts with no active
    connection, as [createSlave] leaves it. *)
Inductive reachable : sCS104_Slave → Prop :=
| reachable_created s :
    (∀ i c, masterConnections s !! i = Some c → isActive c = false) →
    reachable s
| reachable_step s s' : reachable s → step s s' → reachable s'.
End Steps.
End Activation.

(** * Properties *)

(** ** The low-priority queue *)

(** [MessageQueue_markAsduAsConfirmed] returns the queue it was given. *)
Lemma markAsduAsConfirmed_unchanged (self : MessageQueue.sMessageQueue)
      (queueEntry timestamp : Z) :
  MessageQueue.markAsduAsConfirmed self queueEntry timestamp = self.
Proof.
  unfold MessageQueue.markAsduAsConfirmed.
  destruct (_ >? _); [destruct (_ >=? _)|]; reflexivity.
Qed.

(** The loop of [MessageQueue_setWaitingForTransmissionWhenNotConfirmed]
    never changes the queue. *)
Lemma revertLoop_unchanged (entryInfoSize : Z) (fuel : nat) :
  ∀ (self : MessageQueue.sMessageQueue) entryPtr entryInfo self' entryInfo',
    MessageQueue.revertLoop entryInfoSize fuel self entryPtr entryInfo
    = Some (self', entryInfo') →
    self' = self.
Proof.
  induction fuel as [|fuel IH]; intros self entryPtr entryInfo self' entryInfo';
    simpl; case_bool_decide; intros Hrun; try congruence.
  destruct (MessageQueue.readInfo self _) as [e|] eqn:He; simpl in Hrun;
    [eapply IH; exact Hrun | discriminate].
Qed.

Lemma setWaitingForTransmissionWhenNotConfirmed_unchanged
      (entryInfoSize : Z) (self self' : MessageQueue.sMessageQueue) :
  MessageQueue.setWaitingForTransmissionWhenNotConfirmed entryInfoSize self
  = Some self' →
  self' = self.
Proof.
  unfold MessageQueue.setWaitingForTransmissionWhenNotConfirmed.
  destruct (negb _); [|congruence].
  destruct (MessageQueue.firstEntry self) as [p|]; simpl; [|discriminate].
  destruct (MessageQueue.readInfo self p) as [e|]; simpl; [|discriminate].
  destruct (MessageQueue.revertLoop _ _ _ _ _) as [[q e']|] eqn:Hl; simpl;
    [|discriminate].
  intros [= <-]. eapply revertLoop_unchanged; exact Hl.
Qed.

(** C1: an active connection is removed while the entry it sent is not
    confirmed.  [CS104_Slave_removeConnection] runs
    [MessageQueue_setWaitingForTransmissionWhenNotConfirmed], which leaves
    the entry in the buffer in the state sent-but-not-confirmed, and the
    next [MessageQueue_getNextWaitingASDU] on the queue returns [NULL]. *)
Theorem removeConnection_keeps_sent_entries :
  (s ← Scenario.slaveWithSentEntry;
   c ← CS104_Slave.masterConnections s !! 0%nat;
   q ← CS104_Slave.messageQueues s !! lowPrioQueue c;
   Some (isActive c, QueueView.content Scenario.entryInfoSize q))
  = Some (true, Some [(1, QUEUE_ENTRY_STATE_SENT_BUT_NOT_CONFIRMED)]) ∧
  (s ← Scenario.slaveWithSentEntry;
   s ← CS104_Slave.removeConnection Scenario.entryInfoSize s 0;
   q ← CS104_Slave.messageQueues s !! 0%nat;
   Some (isUsed <$> CS104_Slave.masterConnections s,
         QueueView.content Scenario.entryInfoSize q,
         snd <$> MessageQueue.getNextWaitingASDU Scenario.entryInfoSize q))
  = Some ([false; true],
          Some [(1, QUEUE_ENTRY_STATE_SENT_BUT_NOT_CONFIRMED)],
          Some None).
Proof. split; vm_compute; reflexivity. Qed.

(** C2: [MessageQueue_markAsduAsConfirmed] on a queue with one entry, for
    the pointer and the time stamp of that entry: the time stamp is not
    older than [oldestTimestamp], and the entry keeps its state in the
    buffer. *)
Theorem markAsduAsConfirmed_keeps_state :
  (q ← Scenario.queueSent;
   Some (MessageQueue.entryCounter q, MessageQueue.oldestTimestamp q,
         QueueView.entries Scenario.entryInfoSize q))
  = Some (1, 1,
          Some [(0, EntryInfo.mk 1 QUEUE_ENTRY_STATE_SENT_BUT_NOT_CONFIRMED 10)]) ∧
  (q ← Scenario.queueSent;
   MessageQueue.stateAt (MessageQueue.markAsduAsConfirmed q 0 1) 0)
  = Some QUEUE_ENTRY_STATE_SENT_BUT_NOT_CONFIRMED.
Proof. split; vm_compute; reflexivity. Qed.

(** The loop that removes old entries leaves a counter that is not
    negative. *)
Lemma removeOldEntries_counter (entryInfoSize : Z) (n : nat) :
  ∀ (self self' : MessageQueue.sMessageQueue) (nextMsgPtr entrySize now : Z),
    0 <= MessageQueue.entryCounter self →
    MessageQueue.removeOldEntries entryInfoSize n self nextMsgPtr entrySize now
    = Some self' →
    0 <= MessageQueue.entryCounter self'.
Proof.
  induction n as [|n IH]; intros self self' nextMsgPtr entrySize now Hc H;
    simpl in H; apply bind_Some in H as (first & Hf & H);
    destruct (_ && _) eqn:Hcond; simplify_eq; try exact Hc.
  apply andb_true_iff in Hcond as [_ Hpos]. apply Z.gtb_lt in Hpos.
  destruct (negb (bool_decide (_ = MessageQueue.lastEntry self))).
  - destruct (negb _).
    + apply bind_Some in H as (e & He & H).
      eapply IH; [|exact H]. simpl. lia.
    + apply bind_Some in H as (e & He & [= <-]). simpl. lia.
  - eapply IH; [|exact H]. simpl. lia.
Qed.

(** What does hold of [MessageQueue_enqueueASDU]: an ASDU of at most 250
    bytes is not turned away; wherever the function is defined, the new
    entry is the last one, it waits for transmission with the time of
    the call, and the counter is at least 1. *)
Lemma enqueueASDU_appends (entryInfoSize : Z)
      (self self' : MessageQueue.sMessageQueue) (asdu : CS101_ASDU) (now : Z) :
  0 <= MessageQueue.entryCounter self →
  0 <= asduHeaderLength asdu + payloadSize asdu <= 250 →
  MessageQueue.enqueueASDU entryInfoSize self asdu now = Some self' →
  1 <= MessageQueue.entryCounter self' ∧
  ∃ p, MessageQueue.lastEntry self' = Some p ∧
       MessageQueue.buffer self' !! p
       = Some (MessageQueue.mkEntry
                 (EntryInfo.mk now QUEUE_ENTRY_STATE_WAITING_FOR_TRANSMISSION
                               (asduHeaderLength asdu + payloadSize asdu))
                 (asduBytes asdu)).
Proof.
  intros Hc Hsz H. unfold MessageQueue.enqueueASDU in H.
  destruct (_ >? _) eqn:Hbig;
    [unfold IEC60870_5_104_APCI_LENGTH in Hbig; lia|].
  apply bind_Some in H as ([q1 p1] & H1 & H).
  assert (0 <= MessageQueue.entryCounter q1) as Hc1.
  { destruct (MessageQueue.entryCounter self =? 0); simplify_eq/=; [lia|].
    apply bind_Some in H1 as (l & Hl & H1).
    apply bind_Some in H1 as (e & He & [= <- <-]). exact Hc. }
  destruct (_ >? MessageQueue.size q1) eqn:Hwrap.
  - apply bind_Some in H as (q3 & H3 & [= <-]).
    assert (0 <= MessageQueue.entryCounter q3) as Hc3.
    { simpl in H3. destruct (MessageQueue.entryCounter q1 >? 0);
        [|simplify_eq; exact Hc1].
      apply bind_Some in H3 as (f & Hf & H3).
      destruct (0 <=? f); [|simplify_eq; exact Hc1].
      eapply removeOldEntries_counter; [|exact H3]. exact Hc1. }
    simpl. split; [lia|]. eexists. split; [reflexivity|].
    rewrite lookup_insert_eq, Z.mod_small by lia. reflexivity.
  - apply bind_Some in H as (q3 & H3 & [= <-]).
    assert (0 <= MessageQueue.entryCounter q3) as Hc3.
    { destruct (MessageQueue.entryCounter q1 >? 0);
        [|simplify_eq; exact Hc1].
      apply bind_Some in H3 as (f & Hf & H3).
      destruct (p1 <=? f); [|simplify_eq; exact Hc1].
      eapply removeOldEntries_counter; [|exact H3]. exact Hc1. }
    simpl. split; [lia|]. eexists. split; [reflexivity|].
    rewrite lookup_insert_eq, Z.mod_small by lia. reflexivity.
Qed.

(** Where all ASDUs have one size the queue works as a ring: a queue
    for ten messages that was given thirty ASDUs holds the last ten, the
    oldest first. *)
Lemma enqueueASDU_same_size_ring :
  (q ← Scenario.queueThirty;
   l ← QueueView.content Scenario.entryInfoSize q;
   Some (MessageQueue.entryCounter q, l.*1))
  = Some (10, (λ t : nat, Z.of_nat t) <$> seq 20 10).
Proof. vm_compute. reflexivity. Qed.

(** C6: two runs in which [MessageQueue_enqueueASDU] writes the new entry
    over entries that it has not evicted.

    A queue for one message holds the ASDUs enqueued at the times 2 and 3
    (the one of time 1 was evicted).  Enqueueing an ASDU of 200 bytes at
    time 4 evicts the entry of time 2 and then writes the new entry over
    the entry of time 3: the counter says two entries, [firstEntry] is
    the offset 232, where no entry has ever been stored, and walking the
    queue from there is undefined.

    A queue for two messages holds the ASDUs of the times 3, 4 and 5.
    Enqueueing an ASDU of 250 bytes at time 6 evicts nothing and writes
    the new entry over the two newest entries, those of the times 4 and
    5; the oldest entry stays, the counter says four entries. *)
Theorem enqueueASDU_overwrites_unevicted_entry :
  ((q ← Scenario.queueThree;
    Some (MessageQueue.entryCounter q, MessageQueue.firstEntry q,
          MessageQueue.lastEntry q, QueueView.content Scenario.entryInfoSize q))
   = Some (2, Some 116, Some 0,
           Some [(2, QUEUE_ENTRY_STATE_WAITING_FOR_TRANSMISSION);
                 (3, QUEUE_ENTRY_STATE_WAITING_FOR_TRANSMISSION)]) ∧
   (q ← Scenario.queueFour;
    Some (MessageQueue.entryCounter q, MessageQueue.firstEntry q,
          MessageQueue.lastEntry q,
          fst <$> map_to_list (MessageQueue.buffer q),
          MessageQueue.readInfo q 0,
          QueueView.content Scenario.entryInfoSize q,
          MessageQueue.getNextWaitingASDU Scenario.entryInfoSize q))
   = Some (2, Some 232, Some 0, [0],
           Some (EntryInfo.mk 4 QUEUE_ENTRY_STATE_WAITING_FOR_TRANSMISSION 200),
           None, None)) ∧
  ((q ← Scenario.queueFive;
    Some (MessageQueue.entryCounter q, MessageQueue.firstEntry q,
          MessageQueue.lastEntry q, QueueView.content Scenario.entryInfoSize q))
   = Some (3, Some 400, Some 216,
           Some [(3, QUEUE_ENTRY_STATE_WAITING_FOR_TRANSMISSION);
                 (4, QUEUE_ENTRY_STATE_WAITING_FOR_TRANSMISSION);
                 (5, QUEUE_ENTRY_STATE_WAITING_FOR_TRANSMISSION)]) ∧
   (q ← Scenario.queueSix;
    Some (MessageQueue.entryCounter q, MessageQueue.firstEntry q,
          MessageQueue.lastEntry q,
          EntryInfo.entryTimestamp <$> MessageQueue.readInfo q 400,
          EntryInfo.entryTimestamp <$> MessageQueue.readInfo q 0,
          MessageQueue.readInfo q 216,
          QueueView.content Scenario.entryInfoSize q))
   = Some (4, Some 400, Some 0, Some 3, Some 6, None, None)).
Proof. repeat split; vm_compute; reflexivity. Qed.

(** ** Sending *)

(** [writeToSocket] appends the frame to what was written and touches
    nothing but the socket. *)
Lemma writeToSocket_written (self : sMasterConnection) (buf : list Z) (size : Z) :
  written (socket (MasterConnection.writeToSocket self buf size).1)
  = written (socket self) ++ [take (Z.to_nat size) buf].
Proof.
  unfold MasterConnection.writeToSocket, Socket_write.
  destruct (writeResults (socket self)); reflexivity.
Qed.

Lemma writeToSocket_state (self : sMasterConnection) (buf : list Z) (size : Z) :
  MasterConnection.writeToSocket self buf size
  = (set_socket (socket (MasterConnection.writeToSocket self buf size).1) self,
     (MasterConnection.writeToSocket self buf size).2).
Proof.
  unfold MasterConnection.writeToSocket.
  destruct (Socket_write _ _) as [sock r]. reflexivity.
Qed.

(** C10: [sendIMessage] always leaves [unconfirmedReceivedIMessages] at 0;
    [sendCount] advances modulo 32768 and [timeoutT2Triggered] is cleared
    exactly when the write returns a positive count, and [isRunning] is
    cleared exactly when it does not.  [r] is the result of the write of
    the frame. *)
Theorem sendIMessage_counters (self : sMasterConnection) (buffer : list Z)
        (msgSize : Z) :
  let '(self', frame, ret) := MasterConnection.sendIMessage self buffer msgSize in
  let r := (MasterConnection.writeToSocket self frame msgSize).2 in
  unconfirmedReceivedIMessages self' = 0 ∧
  sendCount self'
  = (if r >? 0 then (sendCount self + 1) mod 32768 else sendCount self) ∧
  timeoutT2Triggered self'
  = (if r >? 0 then false else timeoutT2Triggered self) ∧
  isRunning self' = (if r >? 0 then isRunning self else false) ∧
  written (socket self') = written (socket self) ++ [take (Z.to_nat msgSize) frame] ∧
  ret = sendCount self'.
Proof.
  unfold MasterConnection.sendIMessage.
  set (frame := MasterConnection.storeBytes buffer 0 _).
  rewrite (writeToSocket_state self frame msgSize).
  pose proof (writeToSocket_written self frame msgSize) as Hw.
  destruct (MasterConnection.writeToSocket self frame msgSize) as [c r].
  simpl in *. destruct (r >? 0); simpl; rewrite Hw; repeat split.
Qed.

(** ** Timeouts *)

Lemma msOf_small (t : Z) :
  0 <= t → t * 1000 <= INT_MAX → MasterConnection.msOf t = t * 1000.
Proof.
  unfold INT_MAX. intros H0 H1.
  unfold MasterConnection.msOf, MasterConnection.toInt.
  rewrite (Z.mod_small (t * 1000 + 2 ^ 31)) by lia.
  replace (t * 1000 + 2 ^ 31 - 2 ^ 31) with (t * 1000) by lia.
  apply Z.mod_small. lia.
Qed.

(** Beyond [INT_MAX] the product wraps: with [t3] = 3000000 seconds the
    period added to the clock is not 3000000000 ms. *)
Lemma msOf_wraps :
  MasterConnection.msOf 3000000 = 2 ^ 64 - 1294967296.
Proof. vm_compute. reflexivity. Qed.

(** [sendSMessage] writes the S message for the receive counter and
    changes nothing else but, on a failed write, [isRunning]. *)
Lemma sendSMessage_spec (self : sMasterConnection) :
  let self' := MasterConnection.sendSMessage self in
  written (socket self')
  = written (socket self)
    ++ [[0x68; 0x04; 0x01; 0; ((receiveCount self mod 128) * 2) mod 256;
         (receiveCount self / 128) mod 256]] ∧
  outstandingTestFRConMessages self' = outstandingTestFRConMessages self ∧
  nextT3Timeout self' = nextT3Timeout self ∧
  sentASDUs self' = sentASDUs self ∧
  oldestSentASDU self' = oldestSentASDU self ∧
  unconfirmedReceivedIMessages self' = unconfirmedReceivedIMessages self ∧
  lastConfirmationTime self' = lastConfirmationTime self ∧
  timeoutT2Triggered self' = timeoutT2Triggered self ∧
  receiveCount self' = receiveCount self.
Proof.
  unfold MasterConnection.sendSMessage.
  set (msg := [_; _; _; _; _; _]).
  rewrite (writeToSocket_state self msg 6).
  pose proof (writeToSocket_written self msg 6) as Hw.
  destruct (MasterConnection.writeToSocket self msg 6) as [c r]; simpl in *.
  destruct (r <? 0); simpl; repeat split; exact Hw.
Qed.

(** What the second block leaves alone. *)
Lemma handleTimeouts_T2_keeps (params : APCIParameters.t)
      (self : sMasterConnection) (now : Z) :
  let self' := MasterConnection.handleTimeouts_T2 params self now in
  outstandingTestFRConMessages self' = outstandingTestFRConMessages self ∧
  nextT3Timeout self' = nextT3Timeout self ∧
  sentASDUs self' = sentASDUs self ∧
  oldestSentASDU self' = oldestSentASDU self ∧
  (written (socket self') = written (socket self) ∨
   ∃ s, written (socket self') = written (socket self) ++ [s] ∧ s !! 2%nat = Some 1).
Proof.
  unfold MasterConnection.handleTimeouts_T2.
  repeat case_match; simpl;
    try (repeat split; auto; fail);
    match goal with
    | |- context [MasterConnection.sendSMessage ?c] =>
      destruct (sendSMessage_spec c) as (Hw & -> & -> & -> & -> & _)
    end; simpl; repeat split; right; eexists; (split; [exact Hw|reflexivity]).
Qed.

(** What the third block leaves alone, and what it does to the flag. *)
Lemma handleTimeouts_T1_keeps (params : APCIParameters.t)
      (self : sMasterConnection) (now : Z) (timeoutsOk : bool) :
  let r := MasterConnection.handleTimeouts_T1 params self now timeoutsOk in
  socket r.1 = socket self ∧
  outstandingTestFRConMessages r.1 = outstandingTestFRConMessages self ∧
  nextT3Timeout r.1 = nextT3Timeout self ∧
  lastConfirmationTime r.1 = lastConfirmationTime self ∧
  isRunning r.1 = isRunning self ∧
  (timeoutsOk = false → r.2 = false).
Proof.
  unfold MasterConnection.handleTimeouts_T1.
  repeat case_match; simpl; repeat split; auto.
Qed.

(** The first block when T3 has run out: [nextT3Timeout] lies before
    [now] and is therefore plausible. *)
Lemma handleTimeouts_T3_expired (params : APCIParameters.t)
      (self : sMasterConnection) (now : Z) :
  0 <= nextT3Timeout self < now →
  0 <= APCIParameters.t3 params →
  APCIParameters.t3 params * 1000 <= INT_MAX →
  now + APCIParameters.t3 params * 1000 < 2 ^ 64 →
  0 <= outstandingTestFRConMessages self →
  let r := MasterConnection.handleTimeouts_T3 params self now in
  if outstandingTestFRConMessages self >? 2 then r = (self, false)
  else
    r.2 = true ∧
    written (socket r.1) = written (socket self) ++ [TESTFR_ACT_MSG] ∧
    outstandingTestFRConMessages r.1 = outstandingTestFRConMessages self + 1 ∧
    nextT3Timeout r.1 = now + APCIParameters.t3 params * 1000 ∧
    unconfirmedReceivedIMessages r.1 = unconfirmedReceivedIMessages self ∧
    oldestSentASDU r.1 = oldestSentASDU self.
Proof.
  intros Hn Ht Hi Hof Ho.
  unfold MasterConnection.handleTimeouts_T3, MasterConnection.checkT3Timeout,
    MasterConnection.resetT3Timeout.
  rewrite (msOf_small _ Ht Hi).
  rewrite (Z.mod_small (now + _)) by lia.
  destruct (nextT3Timeout self >? now + _) eqn:Hp; [lia|].
  destruct (now >? nextT3Timeout self) eqn:He; [|lia].
  destruct (outstandingTestFRConMessages self >? 2) eqn:Hout; [reflexivity|].
  rewrite (writeToSocket_state self TESTFR_ACT_MSG 6).
  pose proof (writeToSocket_written self TESTFR_ACT_MSG 6) as Hw.
  destruct (MasterConnection.writeToSocket self TESTFR_ACT_MSG 6) as [c r];
    simpl in *.
  destruct (r <? 0); simpl; repeat split; try exact Hw;
    apply Z.mod_small; lia.
Qed.

(** No S message is a TESTFR_ACT message. *)
Lemma not_TESTFR_ACT (rest : list (list Z)) :
  (rest = [] ∨ ∃ s, rest = [s] ∧ s !! 2%nat = Some 1) →
  filter (λ f, f = TESTFR_ACT_MSG) rest = [].
Proof.
  intros [->|(s & -> & Hs)]; [reflexivity|].
  rewrite filter_cons_False; [reflexivity|].
  intros ->. discriminate.
Qed.

(** One round of the timeout check when T3 has run out. *)
Lemma handleTimeouts_when_T3_expired (params : APCIParameters.t)
      (self : sMasterConnection) (now : Z) :
  0 <= nextT3Timeout self < now →
  0 <= APCIParameters.t3 params →
  APCIParameters.t3 params * 1000 <= INT_MAX →
  now + APCIParameters.t3 params * 1000 < 2 ^ 64 →
  0 <= outstandingTestFRConMessages self →
  let r := MasterConnection.handleTimeouts params self now in
  if outstandingTestFRConMessages self >? 2 then r.2 = false
  else
    (∃ rest, written (socket r.1)
             = written (socket self) ++ TESTFR_ACT_MSG :: rest ∧
             filter (λ f, f = TESTFR_ACT_MSG) rest = []) ∧
    outstandingTestFRConMessages r.1 = outstandingTestFRConMessages self + 1 ∧
    nextT3Timeout r.1 = now + APCIParameters.t3 params * 1000.
Proof.
  intros Hn Ht Hi Hof Ho. unfold MasterConnection.handleTimeouts.
  pose proof (handleTimeouts_T3_expired params self now Hn Ht Hi Hof Ho) as H3.
  destruct (MasterConnection.handleTimeouts_T3 params self now) as [c3 ok3].
  pose proof (handleTimeouts_T2_keeps params c3 now) as H2.
  set (c2 := MasterConnection.handleTimeouts_T2 params c3 now) in *.
  pose proof (handleTimeouts_T1_keeps params c2 now ok3) as H1.
  destruct (MasterConnection.handleTimeouts_T1 params c2 now ok3) as [c1 ok1].
  simpl in *.
  destruct H1 as (Hs1 & Ho1 & Hn1 & _ & _ & Hok).
  destruct H2 as (Ho2 & Hn2 & _ & _ & Hw2).
  destruct (outstandingTestFRConMessages self >? 2).
  - inversion H3; subst. auto.
  - destruct H3 as (_ & Hw3 & Ho3 & Hn3 & _).
    rewrite Hs1, Ho1, Hn1, Ho2, Hn2, Ho3, Hn3. repeat split.
    destruct Hw2 as [Hw2|(s & Hw2 & Hs)]; rewrite Hw2, Hw3.
    + exists []. split; reflexivity.
    + exists [s]. rewrite <- app_assoc. split; [reflexivity|].
      apply not_TESTFR_ACT. right. eauto.
Qed.

Lemma runTimeouts_when_T3_expired (params : APCIParameters.t)
      (self : sMasterConnection) (now : Z) :
  0 <= nextT3Timeout self < now →
  0 <= APCIParameters.t3 params →
  APCIParameters.t3 params * 1000 <= INT_MAX →
  now + APCIParameters.t3 params * 1000 < 2 ^ 64 →
  0 <= outstandingTestFRConMessages self →
  let c := MasterConnection.runTimeouts params self now in
  if outstandingTestFRConMessages self >? 2 then isRunning c = false
  else
    (∃ rest, written (socket c)
             = written (socket self) ++ TESTFR_ACT_MSG :: rest ∧
             filter (λ f, f = TESTFR_ACT_MSG) rest = []) ∧
    outstandingTestFRConMessages c = outstandingTestFRConMessages self + 1 ∧
    nextT3Timeout c = now + APCIParameters.t3 params * 1000.
Proof.
  intros Hn Ht Hi Hof Ho.
  pose proof (handleTimeouts_when_T3_expired params self now Hn Ht Hi Hof Ho) as H.
  unfold MasterConnection.runTimeouts.
  destruct (MasterConnection.handleTimeouts params self now) as [c ok].
  simpl in *. destruct (outstandingTestFRConMessages self >? 2).
  - subst ok. reflexivity.
  - destruct ok; exact H.
Qed.

(** C8: when T3 has run out ([now > nextT3Timeout]), [handleTimeouts]
    fails, and its caller clears [isRunning], if more than two TESTFR_ACT
    messages are unanswered; otherwise it writes 68 04 43 00 00 00 once,
    counts it and sets [nextT3Timeout] to [now + t3 * 1000].  So three
    rounds in which T3 runs out, starting with no message unanswered, send
    three TESTFR_ACT messages, and the fourth such round closes the
    connection. *)
Theorem handleTimeouts_T3_idle :
  (∀ (params : APCIParameters.t) (self : sMasterConnection) (now : Z),
     0 <= nextT3Timeout self < now →
     0 <= APCIParameters.t3 params →
     APCIParameters.t3 params * 1000 <= INT_MAX →
     now + APCIParameters.t3 params * 1000 < 2 ^ 64 →
     0 <= outstandingTestFRConMessages self →
     let r := MasterConnection.handleTimeouts params self now in
     if outstandingTestFRConMessages self >? 2 then
       r.2 = false ∧
       isRunning (MasterConnection.runTimeouts params self now) = false
     else
       (∃ rest, written (socket r.1)
                = written (socket self) ++ [0x68; 0x04; 0x43; 0; 0; 0] :: rest ∧
                filter (λ f, f = [0x68; 0x04; 0x43; 0; 0; 0]) rest = []) ∧
       outstandingTestFRConMessages r.1 = outstandingTestFRConMessages self + 1 ∧
       nextT3Timeout r.1 = now + APCIParameters.t3 params * 1000) ∧
  (∀ (params : APCIParameters.t) (self : sMasterConnection) (now1 now2 now3 now4 : Z),
     outstandingTestFRConMessages self = 0 →
     0 <= APCIParameters.t3 params →
     APCIParameters.t3 params * 1000 <= INT_MAX →
     0 <= nextT3Timeout self < now1 →
     now1 + APCIParameters.t3 params * 1000 < now2 →
     now2 + APCIParameters.t3 params * 1000 < now3 →
     now3 + APCIParameters.t3 params * 1000 < now4 →
     now4 + APCIParameters.t3 params * 1000 < 2 ^ 64 →
     let c := MasterConnection.runTimeoutsAt params self [now1; now2; now3] in
     (∃ frames, written (socket c) = written (socket self) ++ frames ∧
                filter (λ f, f = [0x68; 0x04; 0x43; 0; 0; 0]) frames
                = replicate 3 [0x68; 0x04; 0x43; 0; 0; 0]) ∧
     outstandingTestFRConMessages c = 3 ∧
     isRunning (MasterConnection.runTimeouts params c now4) = false).
Proof.
  change [0x68; 0x04; 0x43; 0; 0; 0] with TESTFR_ACT_MSG. split.
  - intros params self now Hn Ht Hi Hof Ho.
    pose proof (handleTimeouts_when_T3_expired params self now Hn Ht Hi Hof Ho) as H.
    pose proof (runTimeouts_when_T3_expired params self now Hn Ht Hi Hof Ho) as H'.
    simpl in *. destruct (outstandingTestFRConMessages self >? 2); auto.
  - intros params self now1 now2 now3 now4 Ho Ht Hi Hn H12 H23 H34 Hof.
    unfold MasterConnection.runTimeoutsAt. simpl.
    set (T := APCIParameters.t3 params * 1000) in *.
    assert (0 <= T) by (unfold T; lia).
    pose proof (runTimeouts_when_T3_expired params self now1) as S1.
    set (c1 := MasterConnection.runTimeouts params self now1) in *.
    simpl in S1. rewrite Ho in S1. simpl in S1.
    destruct S1 as ((r1 & Hw1 & Hf1) & Ho1 & Hn1); [lia..|].
    pose proof (runTimeouts_when_T3_expired params c1 now2) as S2.
    set (c2 := MasterConnection.runTimeouts params c1 now2) in *.
    simpl in S2. rewrite Ho1, Hn1 in S2. simpl in S2.
    destruct S2 as ((r2 & Hw2 & Hf2) & Ho2 & Hn2); [fold T; lia..|].
    pose proof (runTimeouts_when_T3_expired params c2 now3) as S3.
    set (c3 := MasterConnection.runTimeouts params c2 now3) in *.
    simpl in S3. rewrite Ho2, Hn2 in S3. simpl in S3.
    destruct S3 as ((r3 & Hw3 & Hf3) & Ho3 & Hn3); [fold T; lia..|].
    pose proof (runTimeouts_when_T3_expired params c3 now4) as S4.
    simpl in S4. rewrite Ho3, Hn3 in S4. simpl in S4.
    repeat split.
    + exists (TESTFR_ACT_MSG :: r1 ++ TESTFR_ACT_MSG :: r2 ++ TESTFR_ACT_MSG :: r3).
      split.
      * rewrite Hw3, Hw2, Hw1. rewrite <- !app_assoc. reflexivity.
      * rewrite filter_cons_True by reflexivity.
        rewrite filter_app, Hf1. simpl.
        rewrite filter_cons_True by reflexivity.
        rewrite filter_app, Hf2. simpl.
        rewrite filter_cons_True by reflexivity.
        rewrite Hf3. reflexivity.
    + exact Ho3.
    + apply S4; fold T; lia.
Qed.

(** What the first block leaves alone. *)
Lemma handleTimeouts_T3_keeps (params : APCIParameters.t)
      (self : sMasterConnection) (now : Z) :
  let r := MasterConnection.handleTimeouts_T3 params self now in
  unconfirmedReceivedIMessages r.1 = unconfirmedReceivedIMessages self ∧
  lastConfirmationTime r.1 = lastConfirmationTime self ∧
  sentASDUs r.1 = sentASDUs self ∧
  oldestSentASDU r.1 = oldestSentASDU self.
Proof.
  unfold MasterConnection.handleTimeouts_T3, MasterConnection.checkT3Timeout,
    MasterConnection.resetT3Timeout.
  repeat case_match; simpl; auto;
    match goal with
    | H : MasterConnection.writeToSocket ?c ?m ?n = _ |- _ =>
      rewrite (writeToSocket_state c m n) in H; inversion H; subst; simpl; auto
    end.
Qed.

(** The first block when [nextT3Timeout] is not plausible. *)
Lemma handleTimeouts_T3_implausible (params : APCIParameters.t)
      (self : sMasterConnection) (now : Z) :
  0 <= APCIParameters.t3 params →
  APCIParameters.t3 params * 1000 <= INT_MAX →
  0 <= now →
  now + APCIParameters.t3 params * 1000 < 2 ^ 64 →
  nextT3Timeout self > now + APCIParameters.t3 params * 1000 →
  MasterConnection.handleTimeouts_T3 params self now
  = (set_nextT3Timeout (now + APCIParameters.t3 params * 1000) self, true).
Proof.
  intros Ht Hi Hn Hof Hp.
  unfold MasterConnection.handleTimeouts_T3, MasterConnection.checkT3Timeout,
    MasterConnection.resetT3Timeout.
  rewrite (msOf_small _ Ht Hi).
  rewrite (Z.mod_small (now + _)) by lia.
  destruct (nextT3Timeout self >? now + _) eqn:Hg; [|lia]. simpl.
  destruct (now >? now + _) eqn:He; [lia|reflexivity].
Qed.

(** The flag of the first block, whether [nextT3Timeout] is plausible or
    not: false exactly when T3 has run out with more than two test frames
    unanswered. *)
Lemma handleTimeouts_T3_flag (params : APCIParameters.t)
      (self : sMasterConnection) (now : Z) :
  0 <= APCIParameters.t3 params →
  APCIParameters.t3 params * 1000 <= INT_MAX →
  0 <= now →
  now + APCIParameters.t3 params * 1000 < 2 ^ 64 →
  (MasterConnection.handleTimeouts_T3 params self now).2 = false
  ↔ nextT3Timeout self < now ∧ outstandingTestFRConMessages self > 2.
Proof.
  intros Ht Hi Hn Hof.
  unfold MasterConnection.handleTimeouts_T3, MasterConnection.checkT3Timeout,
    MasterConnection.resetT3Timeout.
  rewrite (msOf_small _ Ht Hi).
  rewrite (Z.mod_small (now + _)) by lia.
  destruct (nextT3Timeout self >? now + _) eqn:Hg.
  - simpl. destruct (now >? now + _) eqn:He; [lia|].
    simpl. split; [discriminate|lia].
  - destruct (now >? nextT3Timeout self) eqn:He.
    + destruct (outstandingTestFRConMessages self >? 2) eqn:Ho.
      * simpl. split; [lia|reflexivity].
      * destruct (MasterConnection.writeToSocket _ _ _) as [c r]. simpl.
        split; [discriminate|lia].
    + simpl. split; [discriminate|lia].
Qed.

(** C9, as the source has it: a round of [handleTimeouts] at time [now],
    with [t3 * 1000] in the range of [int].
    [lastConfirmationTime] is set to [now] when I messages are
    unconfirmed and it is a time (not [UINT64_MAX]) after [now];
    [nextT3Timeout] is set to [now + t3 * 1000] when it lies after that.
    When the oldest sent ASDU, if there is one, has a [sentTime] not
    before [now], T1 is not triggered: the round asks for the connection
    to be closed exactly when T3 has run out with more than two test
    frames unanswered, and so it does not when [nextT3Timeout] is not
    before [now] either. *)
Theorem handleTimeouts_future_timestamps (params : APCIParameters.t)
        (self : sMasterConnection) (now : Z) :
  0 <= APCIParameters.t3 params →
  APCIParameters.t3 params * 1000 <= INT_MAX →
  0 <= now →
  now + APCIParameters.t3 params * 1000 < 2 ^ 64 →
  let r := MasterConnection.handleTimeouts params self now in
  (unconfirmedReceivedIMessages self > 0 →
   lastConfirmationTime self ≠ UINT64_MAX →
   lastConfirmationTime self > now →
   lastConfirmationTime r.1 = now) ∧
  (nextT3Timeout self > now + APCIParameters.t3 params * 1000 →
   nextT3Timeout r.1 = now + APCIParameters.t3 params * 1000) ∧
  ((oldestSentASDU self = -1 ∨
    SentASDUSlave.sentTime (MasterConnection.sentAt self (oldestSentASDU self))
    >= now) →
   (r.2 = false
    ↔ nextT3Timeout self < now ∧ outstandingTestFRConMessages self > 2) ∧
   (nextT3Timeout self >= now → r.2 = true)).
Proof.
  intros Ht Hi Hn Hof. unfold MasterConnection.handleTimeouts.
  pose proof (handleTimeouts_T3_keeps params self now) as K3.
  pose proof (handleTimeouts_T3_implausible params self now Ht Hi Hn Hof) as I3.
  pose proof (handleTimeouts_T3_flag params self now Ht Hi Hn Hof) as F3.
  destruct (MasterConnection.handleTimeouts_T3 params self now) as [c3 ok3].
  pose proof (handleTimeouts_T2_keeps params c3 now) as K2.
  assert (unconfirmedReceivedIMessages c3 > 0 →
          lastConfirmationTime c3 ≠ UINT64_MAX →
          lastConfirmationTime c3 > now →
          lastConfirmationTime (MasterConnection.handleTimeouts_T2 params c3 now)
          = now) as R2.
  { intros Hu Hm Hl. unfold MasterConnection.handleTimeouts_T2.
    destruct (unconfirmedReceivedIMessages c3 >? 0) eqn:E1; [|lia].
    destruct (lastConfirmationTime c3 =? UINT64_MAX) eqn:E2; [lia|].
    destruct (lastConfirmationTime c3 >? now) eqn:E3; [|lia]. simpl.
    destruct (now >? now) eqn:E4; [lia|reflexivity]. }
  set (c2 := MasterConnection.handleTimeouts_T2 params c3 now) in *.
  pose proof (handleTimeouts_T1_keeps params c2 now ok3) as K1.
  assert (oldestSentASDU c2 = -1 ∨
          SentASDUSlave.sentTime (MasterConnection.sentAt c2 (oldestSentASDU c2))
          >= now →
          (MasterConnection.handleTimeouts_T1 params c2 now ok3).2 = ok3) as R1.
  { intros Hs. unfold MasterConnection.handleTimeouts_T1.
    destruct (oldestSentASDU c2 =? -1) eqn:E1; simpl; [reflexivity|].
    destruct Hs as [Hs|Hs]; [lia|].
    destruct (now >? _) eqn:E2; [lia|reflexivity]. }
  destruct (MasterConnection.handleTimeouts_T1 params c2 now ok3) as [c1 ok1].
  simpl in *.
  destruct K3 as (Ku3 & Kl3 & Ks3 & Ko3).
  destruct K2 as (_ & Kn2 & Ks2 & Ko2 & _).
  destruct K1 as (_ & _ & Kn1 & Kl1 & _).
  split; [|split].
  - intros Hu Hm Hl. rewrite Kl1. apply R2; congruence.
  - intros Hp. specialize (I3 Hp). inversion I3; subst.
    rewrite Kn1, Kn2. reflexivity.
  - intros Hs.
    assert (ok1 = ok3) as ->.
    { apply R1. unfold MasterConnection.sentAt in *.
      rewrite Ko2, Ks2, Ko3, Ks3. exact Hs. }
    split; [exact F3|].
    intros Hge. destruct ok3; [reflexivity|].
    destruct F3 as [F3 _]. specialize (F3 eq_refl). lia.
Qed.

(** C9, as the specification has it, fails for
    [Scenario.connectionBeforeClockChange] when the clock is set back to
    1000: [lastConfirmationTime] (12000) and [nextT3Timeout] (22000) lie
    after [now], and neither is set to [now]. *)
Lemma handleTimeouts_does_not_reset_to_now :
  let self := Scenario.connectionBeforeClockChange in
  let r := MasterConnection.handleTimeouts defaultConnectionParameters self 1000 in
  (lastConfirmationTime self > 1000 ∧ lastConfirmationTime r.1 = 12000) ∧
  (nextT3Timeout self > 1000 + 20 * 1000 ∧ nextT3Timeout r.1 = 21000) ∧
  r.2 = true.
Proof. vm_compute. repeat split; congruence. Qed.

(** ** Receiving *)

(** C7: only the start byte has arrived.  [receiveMessage] reads it, finds
    no length byte and returns -1 with [recvBufPos] at 0; the caller
    closes the connection.  (Were it called again once the rest of the
    frame is there, it would take the length byte 04 for a start byte.)
    With three bytes of the frame the third stage does return 0 and
    keeps [recvBufPos]. *)
Theorem receiveMessage_start_byte_only :
  (let r := MasterConnection.receiveMessage Scenario.connectionStartByteArrived in
   (r.2, recvBufPos r.1, pending (socket r.1))) = (-1, 0, []) ∧
  (let r := MasterConnection.receiveMessage Scenario.connectionStartByteArrived in
   let r := MasterConnection.receiveMessage (Scenario.restArrives r.1) in
   (r.2, recvBufPos r.1, pending (socket r.1))) = (-1, 0, [0x43; 0; 0; 0]) ∧
  (let r := MasterConnection.receiveMessage Scenario.connectionThreeBytesArrived in
   (r.2, recvBufPos r.1, pending (socket r.1))) = (0, 3, []) ∧
  (let r := MasterConnection.receiveMessage Scenario.connectionThreeBytesArrived in
   let r := MasterConnection.receiveMessage
              (set_socket (mkSocket [0; 0; 0] false [] []) r.1) in
   (r.2, recvBufPos r.1, take 6 (recvBuffer r.1)))
  = (6, 0, [0x68; 0x04; 0x43; 0; 0; 0]).
Proof. repeat split; vm_compute; reflexivity. Qed.

(** The acknowledgement that follows [handleMessage]: with [w] or more
    unconfirmed I messages one S message with the receive counter is
    written and the count starts again. *)
Lemma confirmReceivedIMessages_spec (params : APCIParameters.t)
      (self : sMasterConnection) (now : Z) :
  unconfirmedReceivedIMessages self >= APCIParameters.w params →
  0 <= receiveCount self < 32768 →
  let self' := CS104_Slave.confirmReceivedIMessages params self now in
  written (socket self')
  = written (socket self)
    ++ [[0x68; 0x04; 0x01; 0x00;
         (receiveCount self mod 128) * 2; receiveCount self / 128]] ∧
  unconfirmedReceivedIMessages self' = 0 ∧
  timeoutT2Triggered self' = false ∧
  receiveCount self' = receiveCount self ∧
  lastConfirmationTime self' = now.
Proof.
  intros Hw Hr. unfold CS104_Slave.confirmReceivedIMessages.
  destruct (_ >=? _) eqn:E; [|lia].
  match goal with |- context [MasterConnection.sendSMessage ?c] =>
    destruct (sendSMessage_spec c) as (Hs & _ & _ & _ & _ & -> & -> & -> & ->)
  end.
  simpl in *. rewrite Hs. repeat split.
  rewrite (Z.mod_small (_ * 2))
    by (pose proof (Z.mod_pos_bound (receiveCount self) 128); lia).
  rewrite (Z.mod_small (_ / 128))
    by (split; [apply Z.div_pos; lia|apply Z.div_lt_upper_bound; lia]).
  reflexivity.
Qed.

(** C4: a complete message of [bytesRec] bytes has been read and
    [handleMessage] has run on it.  If the connection then counts [w] or
    more unconfirmed I messages, the round writes exactly one frame, the
    S message 68 04 01 00 with the receive counter in the last two bytes,
    sets [unconfirmedReceivedIMessages] to 0 and clears
    [timeoutT2Triggered]; this holds for the round of
    [connectionHandlingThread] and for
    [MasterConnection_handleTcpConnection]. *)
Theorem S_message_when_w_unconfirmed
        (createFromBuffer : list Z → option CS101_ASDU)
        (handleASDU : CS104_Slave.sCS104_Slave → nat → CS101_ASDU
                      → CS104_Slave.sCS104_Slave * bool)
        (self : CS104_Slave.sCS104_Slave) (i : nat) (currentTime now : Z)
        (c c0 : sMasterConnection) (bytesRec : Z)
        (self1 : CS104_Slave.sCS104_Slave) (ok : bool) (c1 : sMasterConnection) :
  CS104_Slave.masterConnections self !! i = Some c →
  MasterConnection.receiveMessage c = (c0, bytesRec) →
  bytesRec > 0 →
  CS104_Slave.handleMessage createFromBuffer handleASDU
    (CS104_Slave.setConnection i c0 self) i (recvBuffer c0) bytesRec currentTime
  = Some (self1, ok) →
  CS104_Slave.masterConnections self1 !! i = Some c1 →
  unconfirmedReceivedIMessages c1
  >= APCIParameters.w (CS104_Slave.conParameters self1) →
  0 <= receiveCount c1 < 32768 →
  ∃ self' c',
    CS104_Slave.connectionHandlingThread_receive
      createFromBuffer handleASDU self i currentTime now = Some (self', true) ∧
    (isRunning c0 = true →
     CS104_Slave.handleTcpConnection
       createFromBuffer handleASDU self i currentTime now = Some self') ∧
    CS104_Slave.masterConnections self' !! i = Some c' ∧
    written (socket c')
    = written (socket c1)
      ++ [[0x68; 0x04; 0x01; 0x00;
           (receiveCount c1 mod 128) * 2; receiveCount c1 / 128]] ∧
    unconfirmedReceivedIMessages c' = 0 ∧
    timeoutT2Triggered c' = false.
Proof.
  intros Hc Hrecv Hpos Hmsg Hc1 Hw Hrc.
  assert (i < length (CS104_Slave.masterConnections self))%nat as Hi
    by (eapply lookup_lt_Some; exact Hc).
  assert (i < length (CS104_Slave.masterConnections self1))%nat as Hi1
    by (eapply lookup_lt_Some; exact Hc1).
  set (c2 := if negb ok then set_isRunning false c1 else c1).
  set (params := CS104_Slave.conParameters self1).
  assert (CS104_Slave.processMessage createFromBuffer handleASDU
            (CS104_Slave.setConnection i c0 self) i bytesRec currentTime now
          = Some (CS104_Slave.setConnection i
                    (CS104_Slave.confirmReceivedIMessages params c2 now)
                    (if negb ok then CS104_Slave.setConnection i c2 self1
                     else self1))) as Hp.
  { unfold CS104_Slave.processMessage. simpl.
    rewrite list_lookup_insert_eq by exact Hi. simpl.
    rewrite Hmsg. simpl. unfold CS104_Slave.onConnection, c2.
    destruct ok; simpl; rewrite Hc1; simpl; [reflexivity|].
    rewrite list_lookup_insert_eq by exact Hi1. reflexivity. }
  assert (unconfirmedReceivedIMessages c2 >= APCIParameters.w params ∧
          0 <= receiveCount c2 < 32768 ∧
          written (socket c2) = written (socket c1) ∧
          receiveCount c2 = receiveCount c1) as (Hw2 & Hrc2 & Hwr & Hrc')
    by (unfold c2; destruct ok; simpl; auto).
  destruct (confirmReceivedIMessages_spec params c2 now Hw2 Hrc2)
    as (Hs & Hu & Ht & _ & _).
  eexists _, _. split; [|split; [|split; [|split; [|split]]]].
  - unfold CS104_Slave.connectionHandlingThread_receive.
    rewrite Hc. simpl. rewrite Hrecv.
    destruct (bytesRec =? -1) eqn:E1; [lia|].
    destruct (bytesRec >? 0) eqn:E2; [|lia].
    fold (CS104_Slave.setConnection i c0 self). rewrite Hp. reflexivity.
  - intros Hrun. unfold CS104_Slave.handleTcpConnection.
    rewrite Hc. simpl. rewrite Hrecv.
    destruct (bytesRec <? 0) eqn:E1; [lia|].
    destruct (bytesRec >? 0) eqn:E2; [|lia]. rewrite Hrun. simpl.
    fold (CS104_Slave.setConnection i c0 self). exact Hp.
  - simpl. apply list_lookup_insert_eq.
    destruct ok; simpl; [exact Hi1|]. rewrite length_insert. exact Hi1.
  - rewrite Hs, Hwr, Hrc'. reflexivity.
  - exact Hu.
  - exact Ht.
Qed.

(** ** The k-buffer and the check of received sequence numbers *)

Lemma mod_wrap_once (a k : Z) : k <= a < 2 * k → a mod k = a - k.
Proof.
  intros H. replace a with ((a - k) + 1 * k) at 1 by lia.
  rewrite Z_mod_plus_full. apply Z.mod_small. lia.
Qed.

Lemma mod_below_zero (a k : Z) : - k <= a < 0 → a mod k = a + k.
Proof.
  intros H. replace a with ((a + k) + (-1) * k) at 1 by lia.
  rewrite Z_mod_plus_full. apply Z.mod_small. lia.
Qed.

(** Rewrites every [_ mod k] whose argument [lia] can place in
    [[-k, 2k)]. *)
Ltac reduce_mod k :=
  repeat match goal with
         | |- context [?a mod k] =>
           first [ rewrite (Z.mod_small a k) by lia
                 | rewrite (mod_wrap_once a k) by lia
                 | rewrite (mod_below_zero a k) by lia ]
         | H : context [?a mod k] |- _ =>
           first [ rewrite (Z.mod_small a k) in H by lia
                 | rewrite (mod_wrap_once a k) in H by lia
                 | rewrite (mod_below_zero a k) in H by lia ]
         end.

Section CheckSequenceNumber.
Context {Queue : Type} (mark : Queue → Z → Z → Queue).



End CheckSequenceNumber.

Section CheckSequenceNumberSpec.
Context {Queue : Type} (mark : Queue → Z → Z → Queue).


End CheckSequenceNumberSpec.

(** ** The sequence numbers of the k-buffer

    The sequence numbers in the k-buffer of a running connection are
    consecutive: the k-buffer is in order after [MasterConnection_init],
    and [sendASDU] and [checkSequenceNumber], the two functions that
    write it, keep it so. *)

(** The k-buffer never holds more than [maxSentASDUs] entries. *)
Lemma count_bounds (self : sMasterConnection) :
  KBuffer.indices_ok self → 0 <= KBuffer.count self <= maxSentASDUs self.
Proof.
  intros (Hk & Hidx). unfold KBuffer.count.
  destruct (_ =? _); [lia|].
  pose proof (Z.mod_pos_bound (newestSentASDU self - oldestSentASDU self)
                              (maxSentASDUs self)). lia.
Qed.

(** A k-buffer in order holds consecutive sequence numbers. *)
Lemma in_order_consecutive (self : sMasterConnection) :
  KBuffer.in_order self → KBuffer.consecutive self.
Proof.
  intros (Hidx & Hk & Hlen & Hsc & Hseq).
  pose proof (count_bounds self Hidx) as Hc.
  split; [lia|].
  exists ((sendCount self - KBuffer.count self + 1) mod 32768).
  split; [apply Z.mod_pos_bound; lia|].
  intros j Hj. rewrite (Hseq j Hj), Zplus_mod_idemp_l. reflexivity.
Qed.

(** Emptying the k-buffer keeps it in order. *)
Lemma in_order_drained (self : sMasterConnection) :
  KBuffer.in_order self → KBuffer.in_order (set_oldestSentASDU (-1) self).
Proof.
  intros ((Hk & Hidx) & Hk' & Hlen & Hsc & Hseq).
  split; [|split; [|split; [|split]]]; simpl; try lia; try assumption.
  - split; [exact Hk|left; reflexivity].
  - intros j Hj. unfold KBuffer.count in Hj. simpl in Hj. lia.
Qed.

(** Dropping the oldest of several entries keeps the k-buffer in
    order. *)
Lemma in_order_advance (self : sMasterConnection) :
  KBuffer.in_order self →
  oldestSentASDU self ≠ -1 →
  oldestSentASDU self ≠ newestSentASDU self →
  KBuffer.in_order (set_oldestSentASDU
                 ((oldestSentASDU self + 1) mod maxSentASDUs self) self).
Proof.
  intros ((Hk & Hidx) & Hk' & Hlen & Hsc & Hseq) Hne Hon.
  destruct Hidx as [?|[Ho Hn]]; [contradiction|].
  set (k := maxSentASDUs self) in *.
  set (o := oldestSentASDU self) in *.
  set (n := newestSentASDU self) in *.
  assert (0 <= (o + 1) mod k < k) as Ho' by (apply Z.mod_pos_bound; lia).
  assert (KBuffer.count (set_oldestSentASDU ((o + 1) mod k) self)
          = KBuffer.count self - 1) as Hcount.
  { unfold KBuffer.count. simpl. fold k o n.
    destruct (_ =? -1) eqn:E1; [apply Z.eqb_eq in E1; lia|].
    destruct (o =? -1) eqn:E2; [apply Z.eqb_eq in E2; lia|].
    destruct (Z.lt_ge_cases (o + 1) k), (Z.lt_ge_cases n o);
      reduce_mod k; lia. }
  split; [|split; [|split; [|split]]]; simpl; try lia; try assumption.
  - split; [exact Hk|right; simpl; fold k o n; lia].
  - intros j Hj. rewrite Hcount in *.
    unfold KBuffer.slot. simpl. fold k o.
    rewrite Zplus_mod_idemp_l.
    replace (o + 1 + Z.of_nat j) with (o + Z.of_nat (S j)) by lia.
    change (SentASDUSlave.seqNo (KBuffer.slot self (S j)) = 
            (sendCount self - (KBuffer.count self - 1) + 1 + Z.of_nat j) mod 32768).
    rewrite Hseq by lia. f_equal. lia.
Qed.

(** The loop of [checkSequenceNumber] keeps the k-buffer in order,
    whatever sequence number it is run for. *)
Lemma confirmLoop_in_order {Queue : Type} (mark : Queue → Z → Z → Queue)
      (fuel : nat) :
  ∀ seqNo ov ovf (c : sMasterConnection) (q : Queue) c' q',
    KBuffer.in_order c →
    oldestSentASDU c ≠ -1 →
    MasterConnection.confirmLoop mark fuel seqNo ov ovf c q = Some (c', q') →
    KBuffer.in_order c'.
Proof.
  induction fuel as [|fuel IH]; intros seqNo ov ovf c q c' q' Hc Hne H;
    [discriminate|].
  simpl in H.
  destruct (_ && _); [simplify_eq; exact Hc|].
  destruct (seqNo =? ov); [simplify_eq; exact Hc|].
  destruct (_ =? seqNo).
  - destruct (oldestSentASDU c =? newestSentASDU c) eqn:E; simplify_eq.
    + apply in_order_drained. exact Hc.
    + apply Z.eqb_neq in E. apply in_order_advance; assumption.
  - simpl in H.
    destruct (_ =? _) eqn:E in H; simplify_eq.
    + exact (in_order_drained c Hc).
    + apply Z.eqb_neq in E. simpl in E.
      pose proof Hc as ((Hk & Hidx) & _).
      destruct Hidx as [?|[Ho Hn]]; [contradiction|].
      assert (oldestSentASDU c ≠ newestSentASDU c) as Hon
          by (intros Heq; apply E; rewrite Heq; reflexivity).
      eapply IH; [| |exact H].
      * apply in_order_advance; assumption.
      * simpl.
        pose proof (Z.mod_pos_bound (oldestSentASDU c + 1) (maxSentASDUs c)).
        lia.
Qed.

(** [checkSequenceNumber] keeps the k-buffer in order. *)
Lemma checkSequenceNumber_in_order {Queue : Type}
      (mark : Queue → Z → Z → Queue)
      (c : sMasterConnection) (q : Queue) (seqNo : Z) c' q' valid :
  KBuffer.in_order c →
  MasterConnection.checkSequenceNumber mark c q seqNo = Some (c', q', valid) →
  KBuffer.in_order c'.
Proof.
  unfold MasterConnection.checkSequenceNumber. intros Hc H.
  destruct (MasterConnection.seqNoCheck c seqNo) as [[v ovf] ov].
  destruct v; [destruct (negb _) eqn:E|]; simplify_eq/=; try exact Hc.
  apply bind_Some in H as ([c2 q2] & Hl & [= <- <- <-]).
  eapply confirmLoop_in_order; [exact Hc| |exact Hl].
  apply negb_true_iff, Z.eqb_neq in E. exact E.
Qed.


Lemma mod_add_shift (a b M : Z) : (a mod M + b) mod M = (a + b) mod M.
Proof. apply Zplus_mod_idemp_l. Qed.

(** [sendASDU] on a connection that runs and still runs afterwards (the
    write of the frame succeeded): the new entry takes the place after
    [newestSentASDU] and carries the advanced send counter. *)
Lemma sendASDU_running (self : sMasterConnection) (buffer : list Z)
      (msgSize timestamp : Z) (queueEntry : option Z) (now : Z) :
  isRunning self = true →
  isRunning (MasterConnection.sendASDU self buffer msgSize timestamp
                                       queueEntry now) = true →
  let currentIndex :=
    if oldestSentASDU self =? -1 then 0
    else (newestSentASDU self + 1) mod maxSentASDUs self in
  let self' :=
    MasterConnection.sendASDU self buffer msgSize timestamp queueEntry now in
  maxSentASDUs self' = maxSentASDUs self ∧
  oldestSentASDU self'
  = (if oldestSentASDU self =? -1 then 0 else oldestSentASDU self) ∧
  newestSentASDU self' = currentIndex ∧
  sendCount self' = (sendCount self + 1) mod 32768 ∧
  sentASDUs self'
  = <[Z.to_nat currentIndex :=
        SentASDUSlave.mk timestamp queueEntry now
                         ((sendCount self + 1) mod 32768)]> (sentASDUs self).
Proof.
  intros Hrun. unfold MasterConnection.sendASDU, MasterConnection.sendIMessage.
  destruct (oldestSentASDU self =? -1) eqn:E.
  all: match goal with |- context [MasterConnection.writeToSocket ?c ?m ?n] =>
         rewrite (writeToSocket_state c m n);
         destruct (MasterConnection.writeToSocket c m n) as [c' r]
       end; simpl.
  all: destruct (r >? 0); simpl; intros Hrun'; [|discriminate].
  all: rewrite ?E; repeat split.
Qed.

(** [sendASDU] keeps the k-buffer in order: it is called with a
    k-buffer that is not full, and a failed write stops the
    connection. *)
Lemma sendASDU_in_order (self : sMasterConnection) (buffer : list Z)
      (msgSize timestamp : Z) (queueEntry : option Z) (now : Z) :
  KBuffer.in_order self →
  MasterConnection.isSentBufferFull self = false →
  isRunning self = true →
  isRunning (MasterConnection.sendASDU self buffer msgSize timestamp
                                       queueEntry now) = true →
  KBuffer.in_order (MasterConnection.sendASDU self buffer msgSize timestamp
                                         queueEntry now).
Proof.
  intros ((Hk & Hidx) & Hk' & Hlen & Hsc & Hseq) Hfull Hrun Hrun'.
  destruct (sendASDU_running self buffer msgSize timestamp queueEntry now
                             Hrun Hrun') as (Hmax & Hold & Hnew & Hcnt & Hsent).
  set (self' := MasterConnection.sendASDU _ _ _ _ _ _) in *.
  clearbody self'.
  set (k := maxSentASDUs self) in *.
  set (o := oldestSentASDU self) in *.
  set (n := newestSentASDU self) in *.
  set (M := 32768) in *.
  unfold MasterConnection.isSentBufferFull in Hfull. fold k o n in Hfull.
  assert (0 <= (sendCount self + 1) mod M < M) as Hsc'
      by (apply Z.mod_pos_bound; reflexivity).
  destruct (o =? -1) eqn:E.
  - (* first entry of an empty k-buffer *)
    assert (KBuffer.count self' = 1) as Hcount.
    { unfold KBuffer.count. rewrite Hold, Hnew, Hmax. fold k.
      simpl. rewrite Z.mod_0_l by lia. reflexivity. }
    split; [|split; [|split; [|split]]].
    + split; [rewrite Hmax; exact Hk|right; rewrite Hold, Hnew, Hmax; fold k; lia].
    + rewrite Hmax. exact Hk'.
    + rewrite Hmax, Hsent, length_insert. exact Hlen.
    + rewrite Hcnt. exact Hsc'.
    + intros j Hj. rewrite Hcount in *.
      assert (j = 0%nat) as -> by lia.
      unfold KBuffer.slot, MasterConnection.sentAt.
      rewrite Hold, Hmax, Hsent, Hcnt. fold k. simpl.
      rewrite Z.mod_0_l by lia.
      rewrite list_lookup_total_insert_eq by (fold k in Hlen; lia).
      simpl. fold M.
      replace ((sendCount self + 1) mod M - 1 + 1 + Z.of_nat 0)
        with ((sendCount self + 1) mod M + 0) by lia.
      rewrite mod_add_shift, Z.add_0_r. reflexivity.
  - apply Z.eqb_neq in E. destruct Hidx as [?|[Ho Hn]]; [contradiction|].
    fold k o n in Ho, Hn. apply Z.eqb_neq in Hfull.
    assert (KBuffer.count self = (n - o) mod k + 1) as Hc0.
    { unfold KBuffer.count. fold k o n.
      destruct (o =? -1) eqn:E'; [apply Z.eqb_eq in E'; lia|reflexivity]. }
    assert (0 <= (n + 1) mod k < k) as Hn' by (apply Z.mod_pos_bound; lia).
    assert (KBuffer.count self' = KBuffer.count self + 1) as Hcount.
    { rewrite Hc0. unfold KBuffer.count. rewrite Hold, Hnew, Hmax. fold k.
      destruct (o =? -1) eqn:E'; [apply Z.eqb_eq in E'; lia|].
      destruct (Z.lt_ge_cases (n + 1) k), (Z.lt_ge_cases n o);
        reduce_mod k; lia. }
    split; [|split; [|split; [|split]]].
    + split; [rewrite Hmax; exact Hk|right; rewrite Hold, Hnew, Hmax; fold k; lia].
    + rewrite Hmax. exact Hk'.
    + rewrite Hmax, Hsent, length_insert. exact Hlen.
    + rewrite Hcnt. exact Hsc'.
    + intros j Hj. rewrite Hcount in *.
      unfold KBuffer.slot, MasterConnection.sentAt.
      rewrite Hold, Hmax, Hsent, Hcnt. fold k.
      assert (0 <= (o + Z.of_nat j) mod k < k) as Hj'
          by (apply Z.mod_pos_bound; lia).
      destruct (decide (Z.of_nat j = KBuffer.count self)) as [Hlast|Hlast].
      * assert ((o + Z.of_nat j) mod k = (n + 1) mod k) as ->.
        { rewrite Hlast, Hc0.
          destruct (Z.lt_ge_cases (n + 1) k), (Z.lt_ge_cases n o);
            reduce_mod k; lia. }
        rewrite list_lookup_total_insert_eq by (fold k in Hlen; lia).
        simpl. fold M. rewrite Hlast.
        replace ((sendCount self + 1) mod M - (KBuffer.count self + 1) + 1
                 + KBuffer.count self)
          with ((sendCount self + 1) mod M + 0) by lia.
        rewrite mod_add_shift, Z.add_0_r. reflexivity.
      * assert ((o + Z.of_nat j) mod k ≠ (n + 1) mod k) as Hother.
        { assert (Z.of_nat j < (n - o) mod k + 1) as Hjc by lia.
          pose proof (Z.mod_pos_bound (n - o) k Hk) as Hd.
          clear Hlast Hj Hseq Hcount Hj'.
          destruct (Z.lt_ge_cases (n + 1) k), (Z.lt_ge_cases n o),
                   (Z.lt_ge_cases (o + Z.of_nat j) k);
            reduce_mod k; lia. }
        rewrite list_lookup_total_insert_ne by lia.
        change (SentASDUSlave.seqNo (KBuffer.slot self j)
                = ((sendCount self + 1) mod M - (KBuffer.count self + 1) + 1
                   + Z.of_nat j) mod M).
        rewrite Hseq by lia. fold M.
        replace ((sendCount self + 1) mod M - (KBuffer.count self + 1) + 1
                 + Z.of_nat j)
          with ((sendCount self + 1) mod M
                + (Z.of_nat j - KBuffer.count self)) by lia.
        rewrite mod_add_shift. f_equal. lia.
Qed.

(** An empty k-buffer is in order. *)
Lemma in_order_empty (self : sMasterConnection) :
  0 < maxSentASDUs self < 32768 →
  (Z.to_nat (maxSentASDUs self) <= length (sentASDUs self))%nat →
  oldestSentASDU self = -1 →
  0 <= sendCount self < 32768 →
  KBuffer.in_order self.
Proof.
  intros Hk Hlen Ho Hsc. split; [|split; [|split; [|split]]]; try lia.
  - split; [lia|left; exact Ho].
  - intros j Hj. unfold KBuffer.count in Hj. rewrite Ho in Hj.
    simpl in Hj. lia.
Qed.

(** [MasterConnection_init] leaves the k-buffer in order. *)
Lemma initConnection_in_order (s s' : CS104_Slave.sCS104_Slave) (i : nat)
      (skt : Socket) (lowQueue highQueue : option nat) (now : Z)
      (c c' : sMasterConnection) :
  CS104_Slave.masterConnections s !! i = Some c →
  0 < maxSentASDUs c < 32768 →
  (Z.to_nat (maxSentASDUs c) <= length (sentASDUs c))%nat →
  CS104_Slave.initConnection s i skt lowQueue highQueue now = Some s' →
  CS104_Slave.masterConnections s' !! i = Some c' →
  KBuffer.in_order c'.
Proof.
  intros Hc Hk Hlen H Hc'. unfold CS104_Slave.initConnection in H.
  rewrite Hc in H. simpl in H.
  assert (i < length (CS104_Slave.masterConnections s))%nat as Hi
    by (eapply lookup_lt_Some; exact Hc).
  apply bind_Some in H as ([c1 s1] & H1 & H).
  apply bind_Some in H as (h & Hh & [= <-]).
  assert (maxSentASDUs c1 = maxSentASDUs c ∧ sentASDUs c1 = sentASDUs c ∧
          oldestSentASDU c1 = -1 ∧ sendCount c1 = 0 ∧
          length (CS104_Slave.masterConnections s1)
          = length (CS104_Slave.masterConnections s)) as (E1 & E2 & E3 & E4 & E5).
  { destruct lowQueue as [lq|]; simpl in H1.
    - simplify_eq. repeat split.
    - apply bind_Some in H1 as (q & Hq & [= <- <-]). repeat split. }
  simpl in Hc'. rewrite list_lookup_insert_eq in Hc' by (rewrite E5; exact Hi).
  injection Hc' as <-.
  apply in_order_empty; destruct highQueue; simpl; rewrite ?E1, ?E2, ?E3, ?E4;
    try assumption; try reflexivity; lia.
Qed.

(** A connection that is not running stays so through the
    acknowledgement. *)
Lemma confirmReceivedIMessages_not_running (params : APCIParameters.t)
      (self : sMasterConnection) (now : Z) :
  isRunning self = false →
  isRunning (CS104_Slave.confirmReceivedIMessages params self now) = false.
Proof.
  intros Hr. unfold CS104_Slave.confirmReceivedIMessages.
  destruct (_ >=? _); [|exact Hr].
  unfold MasterConnection.sendSMessage.
  match goal with |- context [MasterConnection.writeToSocket ?c ?m ?n] =>
    rewrite (writeToSocket_state c m n);
    destruct (MasterConnection.writeToSocket c m n) as [c' r]
  end.
  simpl. destruct (r <? 0); simpl; [reflexivity|exact Hr].
Qed.

(** Storing back what was read changes nothing. *)
Lemma setConnection_same (self : CS104_Slave.sCS104_Slave) (i : nat)
      (c : sMasterConnection) :
  CS104_Slave.masterConnections self !! i = Some c →
  CS104_Slave.setConnection i c self = self.
Proof.
  intros H. destruct self. unfold CS104_Slave.setConnection. simpl in *.
  unfold CS104_Slave.set_masterConnections. simpl.
  rewrite list_insert_id by exact H. reflexivity.
Qed.




(** ** Activation *)

Lemma activity_lookup (s s' : CS104_Slave.sCS104_Slave) (i : nat)
      (c' : sMasterConnection) :
  Activation.activity s' = Activation.activity s →
  CS104_Slave.masterConnections s' !! i = Some c' →
  ∃ c, CS104_Slave.masterConnections s !! i = Some c ∧
       isActive c = isActive c' ∧ redundancyGroup c = redundancyGroup c'.
Proof.
  unfold Activation.activity. intros [= _ Hl] Hc.
  assert (((λ c, (isActive c, redundancyGroup c))
             <$> CS104_Slave.masterConnections s) !! i
          = Some (isActive c', redundancyGroup c')) as Hi
    by (rewrite <- Hl, list_lookup_fmap, Hc; reflexivity).
  apply list_lookup_fmap_Some in Hi as (c & [= Ha Hg] & Hc0). eauto.
Qed.

(** Exclusiveness is a matter of [activity] alone. *)
Lemma exclusive_activity (s s' : CS104_Slave.sCS104_Slave) :
  Activation.activity s' = Activation.activity s →
  Activation.exclusive s → Activation.exclusive s'.
Proof.
  intros Ha Hex i j ci cj Hi Hj Hsc Hai Haj.
  destruct (activity_lookup s s' i ci Ha Hi) as (ci0 & Hi0 & Hia & Hig).
  destruct (activity_lookup s s' j cj Ha Hj) as (cj0 & Hj0 & Hja & Hjg).
  apply (Hex i j ci0 cj0 Hi0 Hj0); try congruence.
  assert (CS104_Slave.serverMode s' = CS104_Slave.serverMode s) as Hm
    by (unfold Activation.activity in Ha; congruence).
  rewrite <- Hm. unfold Activation.sameScope in *.
  destruct (CS104_Slave.serverMode s'); auto. congruence.
Qed.

(** Writing a connection object that is as active as before, in the same
    group, keeps [activity]. *)
Lemma activity_setConnection (s : CS104_Slave.sCS104_Slave) (i : nat)
      (c c' : sMasterConnection) :
  CS104_Slave.masterConnections s !! i = Some c →
  isActive c' = isActive c →
  redundancyGroup c' = redundancyGroup c →
  Activation.activity (CS104_Slave.setConnection i c' s) = Activation.activity s.
Proof.
  intros Hc Ha Hg. unfold Activation.activity. simpl. f_equal.
  rewrite list_fmap_insert, Ha, Hg. apply list_insert_id.
  rewrite list_lookup_fmap, Hc. reflexivity.
Qed.

(** Writing a connection object that is not active keeps exclusiveness. *)
Lemma exclusive_setConnection_inactive (s : CS104_Slave.sCS104_Slave)
      (i : nat) (c' : sMasterConnection) :
  isActive c' = false →
  Activation.exclusive s →
  Activation.exclusive (CS104_Slave.setConnection i c' s).
Proof.
  intros Hina Hex a b ca cb Ha Hb Hsc Haa Hab. simpl in *.
  destruct (decide (a = i)) as [->|Hai].
  { apply list_lookup_insert_Some in Ha as [(_ & -> & _)|(? & _)]; congruence. }
  destruct (decide (b = i)) as [->|Hbi].
  { apply list_lookup_insert_Some in Hb as [(_ & -> & _)|(? & _)]; congruence. }
  rewrite list_lookup_insert_ne in Ha, Hb by congruence.
  exact (Hex a b ca cb Ha Hb Hsc Haa Hab).
Qed.

(** [CS104_Slave_activate] returns for every connection object of the
    table; afterwards the target is active and every other connection
    object of its scope is not, the rest is as before. *)
Lemma activate_spec (s : CS104_Slave.sCS104_Slave) (i : nat)
      (target : sMasterConnection) :
  CS104_Slave.masterConnections s !! i = Some target →
  ∃ s',
    CS104_Slave.activate s i = Some s' ∧
    CS104_Slave.serverMode s' = CS104_Slave.serverMode s ∧
    length (CS104_Slave.masterConnections s')
    = length (CS104_Slave.masterConnections s) ∧
    CS104_Slave.masterConnections s' !! i = Some (set_isActive true target) ∧
    ∀ j c, j ≠ i → CS104_Slave.masterConnections s !! j = Some c →
           CS104_Slave.masterConnections s' !! j
           = Some (if decide (Activation.sameScope (CS104_Slave.serverMode s)
                                                   c target)
                   then set_isActive false c else c).
Proof.
  intros Ht.
  assert (i < length (CS104_Slave.masterConnections s))%nat as Hi
    by (eapply lookup_lt_Some; exact Ht).
  unfold CS104_Slave.activate. rewrite Ht.
  destruct s as [mode params oc conns qs hqs]. simpl in *.
  destruct mode; simpl;
    rewrite ?list_lookup_imap, Ht; simpl;
    rewrite ?(bool_decide_eq_false_2 (i ≠ i)) by congruence;
    rewrite ?(bool_decide_eq_true_2 (redundancyGroup target = _)) by reflexivity;
    (eexists; split; [reflexivity|]); simpl; (split; [reflexivity|]);
    (split; [rewrite length_insert, ?length_imap; reflexivity|]); split.
  - rewrite list_lookup_insert_eq by (rewrite length_imap; exact Hi).
    reflexivity.
  - intros j c Hj Hc. rewrite list_lookup_insert_ne by congruence.
    rewrite list_lookup_imap, Hc. simpl.
    rewrite bool_decide_eq_true_2 by exact Hj. reflexivity.
  - rewrite list_lookup_insert_eq by exact Hi. reflexivity.
  - intros j c Hj Hc. rewrite list_lookup_insert_ne by congruence.
    rewrite Hc. reflexivity.
  - rewrite list_lookup_insert_eq by (rewrite length_imap; exact Hi).
    reflexivity.
  - intros j c Hj Hc. rewrite list_lookup_insert_ne by congruence.
    rewrite list_lookup_imap, Hc. simpl.
    rewrite (bool_decide_eq_true_2 (j ≠ i)) by exact Hj.
    unfold MasterConnection.deactivate.
    destruct (decide (redundancyGroup c = redundancyGroup target)) as [e|n];
      [rewrite bool_decide_eq_true_2 by exact e
      |rewrite bool_decide_eq_false_2 by exact n]; reflexivity.
Qed.

(** [CS104_Slave_activate] keeps exclusiveness. *)
Lemma exclusive_activate (s s' : CS104_Slave.sCS104_Slave) (i : nat) :
  Activation.exclusive s →
  CS104_Slave.activate s i = Some s' →
  Activation.exclusive s'.
Proof.
  intros Hex Hact.
  destruct (CS104_Slave.masterConnections s !! i) as [target|] eqn:Ht;
    [|unfold CS104_Slave.activate in Hact; rewrite Ht in Hact; discriminate].
  destruct (activate_spec s i target Ht) as (s2 & Hs2 & Hm & Hlen & Hi & Hj).
  rewrite Hs2 in Hact. injection Hact as <-.
  assert (∀ a ca, a ≠ i →
            CS104_Slave.masterConnections s2 !! a = Some ca →
            isActive ca = true →
            CS104_Slave.masterConnections s !! a = Some ca ∧
            ¬ Activation.sameScope (CS104_Slave.serverMode s) ca target) as Hother.
  { intros a ca Ha Hca Hact.
    destruct (CS104_Slave.masterConnections s !! a) as [c|] eqn:Hc.
    - rewrite (Hj a c Ha Hc) in Hca. injection Hca as <-.
      destruct (decide _); [discriminate|]. auto.
    - apply lookup_ge_None in Hc. apply lookup_lt_Some in Hca. lia. }
  assert (∀ m a b, Activation.sameScope m a b → Activation.sameScope m b a)
    as Hsym by (intros [] ? ?; simpl; auto).
  intros a b ca cb Ha Hb Hsc Haa Hab. rewrite Hm in Hsc.
  destruct (decide (a = i)) as [->|Hai], (decide (b = i)) as [->|Hbi];
    [reflexivity| | |].
  - rewrite Hi in Ha. injection Ha as <-.
    destruct (Hother b cb Hbi Hb Hab) as [_ Hn]. exfalso. apply Hn.
    apply Hsym. destruct (CS104_Slave.serverMode s); exact Hsc.
  - rewrite Hi in Hb. injection Hb as <-.
    destruct (Hother a ca Hai Ha Haa) as [_ Hn]. exfalso. apply Hn.
    destruct (CS104_Slave.serverMode s); exact Hsc.
  - destruct (Hother a ca Hai Ha Haa) as [Ha0 _].
    destruct (Hother b cb Hbi Hb Hab) as [Hb0 _].
    exact (Hex a b ca cb Ha0 Hb0 Hsc Haa Hab).
Qed.

Lemma keeps_refl (c : sMasterConnection) : Activation.keeps c c.
Proof. split; reflexivity. Qed.

Lemma keeps_trans (a b c : sMasterConnection) : Activation.keeps a b → Activation.keeps b c → Activation.keeps a c.
Proof. unfold Activation.keeps. intros [] []. split; congruence. Qed.

Ltac keeps_by_cases :=
  unfold Activation.keeps; repeat (case_match; simplify_eq/=); auto.

Lemma keeps_writeToSocket c buf size :
  Activation.keeps c (MasterConnection.writeToSocket c buf size).1.
Proof. rewrite writeToSocket_state. split; reflexivity. Qed.

Lemma keeps_sendSMessage c : Activation.keeps c (MasterConnection.sendSMessage c).
Proof.
  unfold MasterConnection.sendSMessage.
  match goal with |- context [MasterConnection.writeToSocket ?c ?m ?n] =>
    rewrite (writeToSocket_state c m n);
    destruct (MasterConnection.writeToSocket c m n) as [c' r]
  end.
  simpl. destruct (r <? 0); split; reflexivity.
Qed.

Lemma keeps_confirmReceivedIMessages params c now :
  Activation.keeps c (CS104_Slave.confirmReceivedIMessages params c now).
Proof.
  unfold CS104_Slave.confirmReceivedIMessages. destruct (_ >=? _);
    [|apply keeps_refl].
  eapply keeps_trans; [|apply keeps_sendSMessage]. split; reflexivity.
Qed.

Lemma keeps_receiveMessage c : Activation.keeps c (MasterConnection.receiveMessage c).1.
Proof.
  unfold MasterConnection.receiveMessage, MasterConnection.readFromSocket.
  keeps_by_cases.
Qed.

Lemma keeps_sendIMessage c buffer msgSize :
  Activation.keeps c (MasterConnection.sendIMessage c buffer msgSize).1.1.
Proof.
  unfold MasterConnection.sendIMessage.
  match goal with |- context [MasterConnection.writeToSocket ?c ?m ?n] =>
    rewrite (writeToSocket_state c m n);
    destruct (MasterConnection.writeToSocket c m n) as [c' r]
  end.
  simpl. destruct (r >? 0); split; reflexivity.
Qed.

Lemma keeps_sendASDU c buffer msgSize timestamp queueEntry now :
  Activation.keeps c (MasterConnection.sendASDU c buffer msgSize timestamp queueEntry now).
Proof.
  unfold MasterConnection.sendASDU.
  destruct (oldestSentASDU c =? -1).
  - pose proof (keeps_sendIMessage
                  (set_newestSentASDU 0 (set_oldestSentASDU 0 c)) buffer msgSize) as H.
    destruct (MasterConnection.sendIMessage _ _ _) as [[c' b] r].
    destruct H as [H1 H2]. split; simpl in *; congruence.
  - pose proof (keeps_sendIMessage c buffer msgSize) as H.
    destruct (MasterConnection.sendIMessage _ _ _) as [[c' b] r].
    destruct H as [H1 H2]. split; simpl in *; congruence.
Qed.

Lemma keeps_runTimeouts params c now :
  Activation.keeps c (MasterConnection.runTimeouts params c now).
Proof.
  unfold MasterConnection.runTimeouts, MasterConnection.handleTimeouts.
  assert (Activation.keeps c (MasterConnection.handleTimeouts_T3 params c now).1) as H3.
  { unfold MasterConnection.handleTimeouts_T3, MasterConnection.checkT3Timeout,
      MasterConnection.resetT3Timeout.
    repeat (case_match; simplify_eq/=); try (split; reflexivity).
    all: match goal with
         | H : MasterConnection.writeToSocket ?c ?m ?n = _ |- _ =>
           rewrite (writeToSocket_state c m n) in H; simplify_eq/=
         end; split; reflexivity. }
  destruct (MasterConnection.handleTimeouts_T3 params c now) as [c3 ok3].
  assert (Activation.keeps c3 (MasterConnection.handleTimeouts_T2 params c3 now)) as H2.
  { unfold MasterConnection.handleTimeouts_T2.
    repeat case_match; try (split; reflexivity);
      (eapply keeps_trans; [|apply keeps_sendSMessage]); split; reflexivity. }
  set (c2 := MasterConnection.handleTimeouts_T2 params c3 now) in *.
  assert (Activation.keeps c2 (MasterConnection.handleTimeouts_T1 params c2 now ok3).1) as H1.
  { unfold MasterConnection.handleTimeouts_T1.
    repeat case_match; split; reflexivity. }
  destruct (MasterConnection.handleTimeouts_T1 params c2 now ok3) as [c1 ok1].
  simpl in *.
  eapply keeps_trans; [exact H3|]. eapply keeps_trans; [exact H2|].
  eapply keeps_trans; [exact H1|]. destruct ok1; split; reflexivity.
Qed.

Lemma activity_onConnection (s s' : CS104_Slave.sCS104_Slave) (i : nat)
      (f : sMasterConnection → sMasterConnection) :
  (∀ c, Activation.keeps c (f c)) →
  CS104_Slave.onConnection s i f = Some s' →
  Activation.activity s' = Activation.activity s.
Proof.
  intros Hf H. unfold CS104_Slave.onConnection in H.
  apply bind_Some in H as (c & Hc & [= <-]).
  destruct (Hf c). eapply activity_setConnection; eauto.
Qed.

Lemma confirmLoop_keeps {Queue : Type} (mark : Queue → Z → Z → Queue)
      (fuel : nat) :
  ∀ seqNo ov ovf (c : sMasterConnection) (q : Queue) c' q',
    MasterConnection.confirmLoop mark fuel seqNo ov ovf c q = Some (c', q') →
    Activation.keeps c c'.
Proof.
  induction fuel as [|fuel IH]; intros seqNo ov ovf c q c' q' H;
    [discriminate|].
  simpl in H.
  repeat (case_match; simplify_eq/=); try (split; reflexivity).
  all: eapply keeps_trans; [|eapply IH; eassumption]; split; reflexivity.
Qed.

Lemma checkSequenceNumber_keeps {Queue : Type} (mark : Queue → Z → Z → Queue)
      (c : sMasterConnection) (q : Queue) (seqNo : Z) c' q' valid :
  MasterConnection.checkSequenceNumber mark c q seqNo = Some (c', q', valid) →
  Activation.keeps c c'.
Proof.
  unfold MasterConnection.checkSequenceNumber. intros H.
  destruct (MasterConnection.seqNoCheck c seqNo) as [[v ovf] ov].
  destruct v; [destruct (negb _)|]; simplify_eq/=; try apply keeps_refl.
  apply bind_Some in H as ([c2 q2] & Hl & [= <- <- <-]).
  eapply confirmLoop_keeps; exact Hl.
Qed.

Lemma activity_checkSequenceNumber (s s' : CS104_Slave.sCS104_Slave)
      (i : nat) (seqNo : Z) (valid : bool) :
  CS104_Slave.checkSequenceNumber s i seqNo = Some (s', valid) →
  Activation.activity s' = Activation.activity s.
Proof.
  unfold CS104_Slave.checkSequenceNumber. intros H.
  apply bind_Some in H as (c & Hc & H).
  apply bind_Some in H as (q & Hq & H).
  apply bind_Some in H as ([[c' q'] v] & Hchk & [= <- <-]).
  destruct (checkSequenceNumber_keeps _ _ _ _ _ _ _ Hchk).
  change (Activation.activity (CS104_Slave.setConnection i c' s)
          = Activation.activity s).
  eapply activity_setConnection; eauto.
Qed.

(** A step with [handleMessage] keeps exclusiveness. *)
Lemma exclusive_handleMessage
      (createFromBuffer : list Z → option CS101_ASDU)
      (handleASDU : CS104_Slave.sCS104_Slave → nat → CS101_ASDU
                    → CS104_Slave.sCS104_Slave * bool)
      (s s' : CS104_Slave.sCS104_Slave) (i : nat) (buffer : list Z)
      (msgSize now : Z) (b : bool) :
  Activation.keepsActivity handleASDU →
  Activation.exclusive s →
  CS104_Slave.handleMessage createFromBuffer handleASDU s i buffer msgSize now
  = Some (s', b) →
  Activation.exclusive s'.
Proof.
  intros HhA Hex H. unfold CS104_Slave.handleMessage in H.
  destruct (msgSize >=? 3); [|simplify_eq; exact Hex].
  destruct (negb _); [simplify_eq; exact Hex|].
  destruct (negb _); [simplify_eq; exact Hex|].
  apply bind_Some in H as ([s1 r] & Hr & H).
  assert (Activation.exclusive s1) as Hex1.
  { clear H. destruct (Z.land _ 1 =? 0).
    { (* I message *)
      destruct (msgSize <? 7); [simplify_eq; exact Hex|].
      apply bind_Some in Hr as (c & Hc & Hr).
      set (c2 := if negb (timeoutT2Triggered c)
                 then set_lastConfirmationTime now
                        (set_timeoutT2Triggered true c)
                 else c) in Hr.
      assert (Activation.keeps c c2) as K2
        by (unfold c2; destruct (negb _); split; reflexivity).
      clearbody c2.
      set (s2 := CS104_Slave.setConnection i c2 s) in Hr.
      assert (Activation.activity s2 = Activation.activity s) as A2
        by (destruct K2; eapply activity_setConnection; eauto).
      pose proof (exclusive_activity _ _ A2 Hex) as Hex2.
      clearbody s2. clear A2.
      destruct (negb _); [simplify_eq; exact Hex2|].
      apply bind_Some in Hr as ([s3 valid] & Hchk & Hr).
      pose proof (exclusive_activity _ _
                    (activity_checkSequenceNumber _ _ _ _ _ Hchk) Hex2) as Hex3.
      destruct (negb valid); [simplify_eq; exact Hex3|].
      apply bind_Some in Hr as (c3 & Hc3 & Hr).
      set (c4 := set_unconfirmedReceivedIMessages _ _) in Hr.
      assert (Activation.keeps c3 c4) as K4 by (split; reflexivity).
      clearbody c4.
      set (s4 := CS104_Slave.setConnection i c4 s3) in Hr.
      assert (Activation.activity s4 = Activation.activity s3) as A4
        by (destruct K4; eapply activity_setConnection; eauto).
      pose proof (exclusive_activity _ _ A4 Hex3) as Hex4.
      clearbody s4. clear A4.
      destruct (isActive c4); [|simplify_eq; exact Hex4].
      destruct (createFromBuffer _) as [asdu|]; [|simplify_eq; exact Hex4].
      pose proof (exclusive_activity _ _ (HhA s4 i asdu) Hex4) as Hex5.
      destruct (handleASDU s4 i asdu) as [s5 validAsdu].
      destruct (negb validAsdu); simplify_eq; exact Hex5. }
    destruct (Z.land _ 0x43 =? 0x43).
    { (* TESTFR_ACT *)
      apply bind_Some in Hr as (c & Hc & Hr).
      pose proof (keeps_writeToSocket c TESTFR_CON_MSG 6) as [K1 K2].
      destruct (MasterConnection.writeToSocket c TESTFR_CON_MSG 6) as [c' r'].
      simpl in K1, K2.
      assert (Activation.exclusive (CS104_Slave.setConnection i c' s))
        by (eapply exclusive_activity;
            [eapply activity_setConnection; eauto|exact Hex]).
      destruct (r' <? 0); simplify_eq; assumption. }
    destruct (Z.land _ 0x07 =? 0x07).
    { (* STARTDT_ACT *)
      apply bind_Some in Hr as (s2 & Hact & Hr).
      pose proof (exclusive_activate _ _ _ Hex Hact) as Hex2.
      apply bind_Some in Hr as (c & Hc & Hr).
      apply bind_Some in Hr as (h & Hh & Hr).
      pose proof (keeps_writeToSocket c STARTDT_CON_MSG 6) as [K1 K2].
      destruct (MasterConnection.writeToSocket c STARTDT_CON_MSG 6) as [c' r'].
      simpl in K1, K2.
      match type of Hr with context [CS104_Slave.setConnection i c' ?s3] =>
        assert (Activation.exclusive (CS104_Slave.setConnection i c' s3))
          by (eapply exclusive_activity;
              [eapply (activity_setConnection s3); eauto|exact Hex2])
      end.
      destruct (r' <? 0); simplify_eq; assumption. }
    destruct (Z.land _ 0x13 =? 0x13).
    { (* STOPDT_ACT *)
      apply bind_Some in Hr as (c & Hc & Hr).
      pose proof (keeps_writeToSocket (MasterConnection.deactivate c)
                                      STOPDT_CON_MSG 6) as [K1 K2].
      destruct (MasterConnection.writeToSocket _ STOPDT_CON_MSG 6) as [c' r'].
      simpl in K1, K2.
      assert (Activation.exclusive (CS104_Slave.setConnection i c' s))
        by (apply exclusive_setConnection_inactive; assumption).
      destruct (r' <? 0); simplify_eq; assumption. }
    destruct (Z.land _ 0x83 =? 0x83).
    { (* TESTFR_CON *)
      apply bind_Some in Hr as (s2 & Hon & [= <- <-]).
      eapply exclusive_activity; [|exact Hex].
      eapply activity_onConnection; [|exact Hon].
      intros c. split; reflexivity. }
    destruct (_ =? 0x01).
    { (* S message *)
      apply bind_Some in Hr as ([s2 valid] & Hchk & Hr).
      pose proof (exclusive_activity _ _
                    (activity_checkSequenceNumber _ _ _ _ _ Hchk) Hex) as Hex2.
      destruct (negb valid); simplify_eq; exact Hex2. }
    simplify_eq. exact Hex. }
  destruct r as [b'|].
  - simplify_eq. exact Hex1.
  - apply bind_Some in H as (s2 & Hon & [= <- <-]).
    eapply exclusive_activity; [|exact Hex1].
    eapply activity_onConnection; [|exact Hon].
    intros c. split; reflexivity.
Qed.

Lemma exclusive_processMessage
      (createFromBuffer : list Z → option CS101_ASDU)
      (handleASDU : CS104_Slave.sCS104_Slave → nat → CS101_ASDU
                    → CS104_Slave.sCS104_Slave * bool)
      (s s' : CS104_Slave.sCS104_Slave) (i : nat) (bytesRec currentTime now : Z) :
  Activation.keepsActivity handleASDU →
  Activation.exclusive s →
  CS104_Slave.processMessage createFromBuffer handleASDU s i bytesRec
                             currentTime now = Some s' →
  Activation.exclusive s'.
Proof.
  intros HhA Hex H. unfold CS104_Slave.processMessage in H.
  apply bind_Some in H as (c & Hc & H).
  apply bind_Some in H as ([s1 ok] & Hmsg & H).
  pose proof (exclusive_handleMessage _ _ _ _ _ _ _ _ _ HhA Hex Hmsg) as Hex1.
  apply bind_Some in H as (s2 & H2 & H).
  assert (Activation.exclusive s2) as Hex2.
  { destruct (negb ok); [|simplify_eq; exact Hex1].
    eapply exclusive_activity; [|exact Hex1].
    eapply activity_onConnection; [|exact H2]. intros ?. split; reflexivity. }
  eapply exclusive_activity; [|exact Hex2].
  eapply activity_onConnection; [|exact H].
  intros ?. apply keeps_confirmReceivedIMessages.
Qed.

Lemma initConnection_inactive (s s' : CS104_Slave.sCS104_Slave) (i : nat)
      (skt : Socket) (lowQueue highQueue : option nat) (now : Z) :
  Activation.exclusive s →
  CS104_Slave.initConnection s i skt lowQueue highQueue now = Some s' →
  Activation.exclusive s' ∧
  ∃ c, CS104_Slave.masterConnections s' !! i = Some c ∧ isActive c = false.
Proof.
  intros Hex H. unfold CS104_Slave.initConnection in H.
  apply bind_Some in H as (c & Hc & H).
  assert (i < length (CS104_Slave.masterConnections s))%nat as Hi
    by (eapply lookup_lt_Some; exact Hc).
  apply bind_Some in H as ([c1 s1] & H1 & H).
  apply bind_Some in H as (h & Hh & [= <-]).
  assert (isActive c1 = false ∧
          Activation.activity s1 = Activation.activity s) as [Hc1 A1].
  { destruct lowQueue as [lq|]; simpl in H1.
    - simplify_eq. split; reflexivity.
    - apply bind_Some in H1 as (q & Hq & [= <- <-]). split; reflexivity. }
  pose proof (exclusive_activity _ _ A1 Hex) as Hex1.
  assert (length (CS104_Slave.masterConnections s1)
          = length (CS104_Slave.masterConnections s)) as Hlen.
  { unfold Activation.activity in A1. injection A1 as _ A1.
    apply (f_equal length) in A1. rewrite !length_fmap in A1. exact A1. }
  split.
  - apply exclusive_setConnection_inactive.
    + destruct highQueue; exact Hc1.
    + eapply exclusive_activity; [|exact Hex1]. reflexivity.
  - eexists. split.
    + simpl. apply list_lookup_insert_eq. rewrite Hlen. exact Hi.
    + destruct highQueue; exact Hc1.
Qed.

(** Every step of a slave with one thread keeps exclusiveness. *)
Lemma exclusive_step (entryInfoSize : Z)
      (createFromBuffer : list Z → option CS101_ASDU)
      (handleASDU : CS104_Slave.sCS104_Slave → nat → CS101_ASDU
                    → CS104_Slave.sCS104_Slave * bool)
      (s s' : CS104_Slave.sCS104_Slave) :
  Activation.keepsActivity handleASDU →
  Activation.step entryInfoSize createFromBuffer handleASDU s s' →
  Activation.exclusive s → Activation.exclusive s'.
Proof.
  intros HhA Hstep Hex.
  destruct Hstep as
      [s s' o H | s i skt lq hq now s' H | s i skt g lq hq now s' H
       | s i buf n now s' b H | s i t now s' H
       | s i now s' H | s i buf n ts qe now s' H | s i s' H | s i s' H].
  - unfold CS104_Slave.getFreeConnection in H.
    destruct (list_find _ _) as [[i c]|] eqn:Hf; simplify_eq; [|exact Hex].
    apply list_find_Some in Hf as (Hc & _).
    eapply exclusive_activity; [|exact Hex].
    change (Activation.activity
              (CS104_Slave.setConnection i (set_isUsed true c) s)
            = Activation.activity s).
    eapply activity_setConnection; eauto.
  - eapply initConnection_inactive; eauto.
  - unfold CS104_Slave.initConnectionEx in H.
    apply bind_Some in H as (s1 & H1 & H).
    destruct (initConnection_inactive _ _ _ _ _ _ _ Hex H1)
      as (Hex1 & c & Hc & Hina).
    apply bind_Some in H as (c' & Hc' & [= <-]).
    apply exclusive_setConnection_inactive; [|exact Hex1].
    simplify_eq. exact Hina.
  - eapply exclusive_handleMessage; eauto.
  - unfold CS104_Slave.handleTcpConnection in H.
    apply bind_Some in H as (c & Hc & H).
    pose proof (keeps_receiveMessage c) as [K1 K2].
    destruct (MasterConnection.receiveMessage c) as [c1 bytesRec].
    simpl in K1, K2.
    match type of H with context [CS104_Slave.setConnection i ?c2 s] =>
      assert (Activation.exclusive (CS104_Slave.setConnection i c2 s)) as Hex1
        by (eapply exclusive_activity; [|exact Hex];
            eapply activity_setConnection; eauto;
            destruct (bytesRec <? 0); assumption)
    end.
    destruct (_ && _); [|simplify_eq; exact Hex1].
    eapply exclusive_processMessage; eauto.
  - eapply exclusive_activity; [|exact Hex].
    eapply activity_onConnection; [|exact H].
    intros c. apply keeps_runTimeouts.
  - eapply exclusive_activity; [|exact Hex].
    eapply activity_onConnection; [|exact H].
    intros c. apply keeps_sendASDU.
  - eapply exclusive_activity; [|exact Hex].
    eapply activity_onConnection; [|exact H].
    intros c. split; reflexivity.
  - unfold CS104_Slave.removeConnection in H.
    apply bind_Some in H as (c & Hc & H). simpl in Hc.
    eapply exclusive_activity; [|exact Hex].
    assert (Activation.activity
              (CS104_Slave.setConnection i (set_isUsed false c)
                 (CS104_Slave.set_openConnections
                    (CS104_Slave.openConnections s - 1) s))
            = Activation.activity s) as A1
      by (change (Activation.activity s)
            with (Activation.activity
                    (CS104_Slave.set_openConnections
                       (CS104_Slave.openConnections s - 1) s));
          eapply activity_setConnection; eauto).
    destruct (isActive (set_isUsed false c)); [|injection H as <-; exact A1].
    apply bind_Some in H as (q & Hq & H).
    apply bind_Some in H as (q' & Hq' & [= <-]). exact A1.
Qed.

(** Served from one thread, a slave that starts without active
    connection has at most one active connection object in a scope,
    whatever it does. *)
Lemma exclusive_reachable (entryInfoSize : Z)
      (createFromBuffer : list Z → option CS101_ASDU)
      (handleASDU : CS104_Slave.sCS104_Slave → nat → CS101_ASDU
                    → CS104_Slave.sCS104_Slave * bool)
      (s : CS104_Slave.sCS104_Slave) :
  Activation.keepsActivity handleASDU →
  Activation.reachable entryInfoSize createFromBuffer handleASDU s →
  Activation.exclusive s.
Proof.
  intros HhA Hreach.
  induction Hreach as [s Hinit | s s' _ IH Hstep].
  - intros i j ci cj Hi Hj _ Hai _. rewrite (Hinit i ci Hi) in Hai.
    discriminate.
  - eapply exclusive_step; eauto.
Qed.

(** [CS104_Slave_activate] is its loops followed by the activation of
    the target. *)
Lemma activate_in_two_parts (s : CS104_Slave.sCS104_Slave) (i : nat) :
  CS104_Slave.activate s i
  = s1 ← CS104_Slave.activate_loops s i; CS104_Slave.activate_target s1 i.
Proof.
  unfold CS104_Slave.activate, CS104_Slave.activate_loops,
    CS104_Slave.activate_target.
  destruct (CS104_Slave.masterConnections s !! i); reflexivity.
Qed.

(** A thread that is not interrupted between its two parts runs
    [CS104_Slave_activate]. *)
Lemma runThreads_alone (s : CS104_Slave.sCS104_Slave)
      (points : list Activation.ActivatePoint) (i : nat) :
  points !! i = Some Activation.beforeLoops →
  Activation.runThreads [i; i] (s, points)
  = s' ← CS104_Slave.activate s i;
    Some (s', <[i := Activation.returned]> points).
Proof.
  intros Hp. rewrite activate_in_two_parts. simpl. rewrite Hp. simpl.
  destruct (CS104_Slave.activate_loops s i) as [s1|]; [|reflexivity]. simpl.
  rewrite list_lookup_insert_eq by (eapply lookup_lt_Some; exact Hp). simpl.
  destruct (CS104_Slave.activate_target s1 i) as [s2|]; [|reflexivity]. simpl.
  rewrite list_insert_insert_eq. reflexivity.
Qed.

(** C5: [CS104_Slave_activate] is its loops, which run while
    [openConnectionsLock] is held, followed by
    [MasterConnection_activate] on the target, which runs when the lock
    has been given back.  Two threads that have read STARTDT_ACT on two
    connections of one scope, neither of them active: when the first
    returns from [CS104_Slave_activate] before the second enters it, the
    second connection alone is active; when both leave their loops
    before either activates its target, both connections are active.
    This is so in the mode of a single redundancy group
    ([Scenario.slaveTwoConnections]) and, for the two connections of
    group 0, in the mode of several groups ([Scenario.slaveTwoGroups]). *)
Theorem activate_interleaved_two_active :
  (∀ (s : CS104_Slave.sCS104_Slave) (i : nat),
     CS104_Slave.activate s i
     = s1 ← CS104_Slave.activate_loops s i; CS104_Slave.activate_target s1 i) ∧
  (let st := (Scenario.slaveTwoConnections,
              [Activation.beforeLoops; Activation.beforeLoops]) in
   Activation.exclusive st.1 ∧
   (∃ s', Activation.runThreads [0; 0; 1; 1]%nat st
          = Some (s', [Activation.returned; Activation.returned]) ∧
          isActive <$> CS104_Slave.masterConnections s' = [false; true] ∧
          Activation.exclusive s') ∧
   (∃ s', Activation.runThreads [0; 1; 0; 1]%nat st
          = Some (s', [Activation.returned; Activation.returned]) ∧
          isActive <$> CS104_Slave.masterConnections s' = [true; true] ∧
          ¬ Activation.exclusive s')) ∧
  (let st := (Scenario.slaveTwoGroups,
              [Activation.beforeLoops; Activation.beforeLoops;
               Activation.returned]) in
   Activation.exclusive st.1 ∧
   (∃ s', Activation.runThreads [0; 0; 1; 1]%nat st
          = Some (s', [Activation.returned; Activation.returned;
                       Activation.returned]) ∧
          isActive <$> CS104_Slave.masterConnections s'
          = [false; true; false] ∧
          Activation.exclusive s') ∧
   (∃ s', Activation.runThreads [0; 1; 0; 1]%nat st
          = Some (s', [Activation.returned; Activation.returned;
                       Activation.returned]) ∧
          isActive <$> CS104_Slave.masterConnections s'
          = [true; true; false] ∧
          redundancyGroup <$> CS104_Slave.masterConnections s'
          = [Some 0; Some 0; Some 1]%nat ∧
          ¬ Activation.exclusive s')).
Proof.
  split; [exact activate_in_two_parts|].
  assert (∀ s, (∀ i c, CS104_Slave.masterConnections s !! i = Some c →
                       isActive c = false) → Activation.exclusive s) as Hnone.
  { intros s Hs i j ci cj Hi _ _ Hai _. rewrite (Hs i ci Hi) in Hai.
    discriminate. }
  assert (∀ s c0 c1,
            CS104_Slave.masterConnections s !! 0%nat = Some c0 →
            CS104_Slave.masterConnections s !! 1%nat = Some c1 →
            Activation.sameScope (CS104_Slave.serverMode s) c0 c1 →
            isActive c0 = true → isActive c1 = true →
            ¬ Activation.exclusive s) as Hboth.
  { intros s c0 c1 H0 H1 Hsc Ha0 Ha1 Hex.
    specialize (Hex 0%nat 1%nat c0 c1 H0 H1 Hsc Ha0 Ha1). discriminate. }
  assert (∀ s c1,
            length (CS104_Slave.masterConnections s) ≤ 3 →
            CS104_Slave.masterConnections s !! 1%nat = Some c1 →
            (∀ i c, i ≠ 1%nat → CS104_Slave.masterConnections s !! i = Some c →
                    isActive c = false) →
            Activation.exclusive s)%nat as Hone.
  { intros s c1 Hlen H1 Hs i j ci cj Hi Hj _ Hai Haj.
    destruct (decide (i = 1%nat)) as [->|Hni];
      [|rewrite (Hs i ci Hni Hi) in Hai; discriminate].
    destruct (decide (j = 1%nat)) as [->|Hnj];
      [reflexivity|rewrite (Hs j cj Hnj Hj) in Haj; discriminate]. }
  split; [|].
  - split; [|split].
    + apply Hnone. intros [|[|i]] c Hc; simpl in Hc; simplify_eq; reflexivity.
    + eexists. split; [vm_compute; reflexivity|]. split; [reflexivity|].
      eapply Hone; [simpl; lia|reflexivity|].
      intros [|[|i]] c Hne Hc; simpl in Hc; simplify_eq; reflexivity.
    + eexists. split; [vm_compute; reflexivity|]. split; [reflexivity|].
      eapply Hboth; [reflexivity|reflexivity|exact I|reflexivity|reflexivity].
  - split; [|split].
    + apply Hnone.
      intros [|[|[|i]]] c Hc; simpl in Hc; simplify_eq; reflexivity.
    + eexists. split; [vm_compute; reflexivity|]. split; [reflexivity|].
      eapply Hone; [simpl; lia|reflexivity|].
      intros [|[|[|i]]] c Hne Hc; simpl in Hc; simplify_eq; reflexivity.
    + eexists. split; [vm_compute; reflexivity|]. split; [reflexivity|].
      split; [reflexivity|].
      eapply Hboth; [reflexivity|reflexivity|reflexivity|reflexivity|reflexivity].
Qed.

(** ** The low-priority queue as a first-in, first-out queue

    [QueueView.entries] walks the live entries the way
    [MessageQueue_getNextWaitingASDU] does. *)

Section LowPrioScan.
Variable entryInfoSize : Z.

#[local] Abbreviation walk := (QueueView.walk entryInfoSize).
#[local] Abbreviation isWaiting :=
  (λ pe : Z * EntryInfo.t,
     EntryInfo.entryState pe.2 = QUEUE_ENTRY_STATE_WAITING_FOR_TRANSMISSION).

(** The walk starts with the entry it is started at. *)
Lemma walk_head (fuel : nat) (q : MessageQueue.sMessageQueue) (p : Z) l :
  walk fuel q p = Some l →
  ∃ e rest, MessageQueue.readInfo q p = Some e ∧ l = (p, e) :: rest.
Proof.
  destruct fuel; simpl; intros H;
    apply bind_Some in H as (e & He & H); exists e;
    case_bool_decide; simplify_eq/=; eauto.
  apply bind_Some in H as (rest & _ & [= <-]). eauto.
Qed.

(** More rounds do not change a walk that reaches the last entry. *)
Lemma walk_mono (fuel : nat) :
  ∀ (fuel' : nat) (q : MessageQueue.sMessageQueue) (p : Z) l,
    walk fuel q p = Some l → (fuel <= fuel')%nat → walk fuel' q p = Some l.
Proof.
  induction fuel as [|fuel IH]; intros fuel' q p l H Hle.
  - simpl in H. apply bind_Some in H as (e & He & H).
    destruct fuel'; simpl; rewrite He; simpl;
      case_bool_decide; simplify_eq/=; reflexivity.
  - destruct fuel' as [|fuel']; [lia|].
    simpl in H |- *. apply bind_Some in H as (e & He & H). rewrite He. simpl.
    case_bool_decide; [exact H|].
    apply bind_Some in H as (rest & Hr & [= <-]).
    rewrite (IH fuel' _ _ _ Hr) by lia. reflexivity.
Qed.

(** The walk from an entry it passes is the rest of the walk. *)
Lemma walk_suffix (fuel : nat) :
  ∀ (q : MessageQueue.sMessageQueue) (p : Z) l1 x l2,
    walk fuel q p = Some (l1 ++ x :: l2) →
    walk fuel q x.1 = Some (x :: l2).
Proof.
  induction fuel as [|fuel IH]; intros q p l1 x l2 H.
  - simpl in H. apply bind_Some in H as (e & He & H).
    case_bool_decide; [|discriminate]. injection H as H.
    destruct l1 as [|y l1]; [|destruct l1; discriminate].
    simpl in H. injection H as <- <-. simpl. rewrite He. simpl.
    rewrite bool_decide_eq_true_2 by assumption. reflexivity.
  - pose proof H as H0. simpl in H.
    apply bind_Some in H as (e & He & H).
    destruct l1 as [|y l1].
    + cbn [app] in H0. destruct (walk_head _ _ _ _ H0) as (e' & r & _ & Heq).
      injection Heq as -> ->. exact H0.
    + case_bool_decide.
      * injection H as H. destruct l1; discriminate.
      * apply bind_Some in H as (rest & Hr & [= _ ->]).
        apply IH in Hr. eapply walk_mono; [exact Hr|lia].
Qed.

(** A walk passes no offset twice. *)
Lemma walk_NoDup (fuel : nat) :
  ∀ (q : MessageQueue.sMessageQueue) (p : Z) l,
    walk fuel q p = Some l → NoDup l.*1.
Proof.
  induction fuel as [|fuel IH]; intros q p l H.
  - simpl in H. apply bind_Some in H as (e & He & H).
    case_bool_decide; simplify_eq/=. apply NoDup_singleton.
  - pose proof H as H0. simpl in H. apply bind_Some in H as (e & He & H).
    case_bool_decide; [simplify_eq/=; apply NoDup_singleton|].
    apply bind_Some in H as (rest & Hr & [= <-]).
    rewrite fmap_cons. apply NoDup_cons. split; [|eapply IH; exact Hr].
    simpl. intros Hin.
    apply list_elem_of_fmap in Hin as ([p' e'] & Hp & Hin). simpl in Hp. subst p'.
    apply list_elem_of_split in Hin as (l1 & l2 & ->).
    pose proof (walk_suffix _ _ _ _ _ _ Hr) as Hs. simpl in Hs.
    apply (walk_mono _ (S fuel)) in Hs; [|lia].
    rewrite H0 in Hs. injection Hs as _ Hs.
    apply (f_equal length) in Hs. rewrite length_app in Hs. simpl in Hs. lia.
Qed.

(** The search loop of [MessageQueue_getNextWaitingASDU] stops at the
    first entry of the walk that waits for transmission, and at the last
    entry if none does. *)
Lemma findWaiting_walk (fuel : nat) :
  ∀ (q : MessageQueue.sMessageQueue) (p : Z) (e : EntryInfo.t) l,
    walk fuel q p = Some l →
    MessageQueue.readInfo q p = Some e →
    MessageQueue.findWaiting entryInfoSize fuel q p e
    = Some (match list_find isWaiting l with
            | Some (_, pe) => pe
            | None => default (p, e) (last l)
            end).
Proof.
  induction fuel as [|fuel IH]; intros q p e l H He.
  - simpl in H. rewrite He in H. simpl in H.
    case_bool_decide as Hlast; [|discriminate]. injection H as <-.
    simpl. rewrite (bool_decide_eq_true_2 _ Hlast).
    repeat case_decide; repeat case_bool_decide; simpl; try reflexivity;
      try contradiction.
  - simpl in H. rewrite He in H. simpl in H.
    cbn [MessageQueue.findWaiting].
    case_bool_decide as Hlast.
    + injection H as <-. simpl.
      repeat case_decide; repeat case_bool_decide; simpl; try reflexivity;
        try contradiction.
    + apply bind_Some in H as (rest & Hr & [= <-]).
      destruct (walk_head _ _ _ _ Hr) as (e1 & r1 & He1 & Hrest).
      cbn [list_find]. simpl.
      case_decide as Hw.
      * rewrite bool_decide_eq_false_2 by (intros Hn; apply Hn; exact Hw).
        reflexivity.
      * rewrite bool_decide_eq_true_2 by exact Hw.
        rewrite He1. simpl. rewrite (IH _ _ _ _ Hr He1).
        destruct (list_find _ rest) as [[i pe]|] eqn:Hf; simpl; [reflexivity|].
        rewrite Hrest, last_cons_cons.
        destruct (last _) eqn:Hl; [reflexivity|].
        apply last_None in Hl. discriminate.
Qed.

(** Every entry of a walk is the header stored at its offset. *)
Lemma walk_readInfo (fuel : nat) :
  ∀ (q : MessageQueue.sMessageQueue) (p : Z) l x,
    walk fuel q p = Some l → x ∈ l → MessageQueue.readInfo q x.1 = Some x.2.
Proof.
  induction fuel as [|fuel IH]; intros q p l x H Hin;
    simpl in H; apply bind_Some in H as (e & He & H).
  - case_bool_decide; simplify_eq/=.
    apply list_elem_of_singleton in Hin as ->. exact He.
  - case_bool_decide; simplify_eq/=.
    + apply list_elem_of_singleton in Hin as ->. exact He.
    + apply bind_Some in H as (rest & Hr & [= <-]).
      apply elem_of_cons in Hin as [->|Hin]; [exact He|].
      eapply IH; eassumption.
Qed.

(** Reading a header after one header has been written. *)
Lemma readInfo_writeInfo (q : MessageQueue.sMessageQueue) (p x : Z)
      (e' : EntryInfo.t) :
  MessageQueue.readInfo (MessageQueue.writeInfo q p e') x
  = if decide (x = p) then (λ _, e') <$> MessageQueue.readInfo q p
    else MessageQueue.readInfo q x.
Proof.
  unfold MessageQueue.readInfo, MessageQueue.writeInfo. simpl.
  destruct (decide (x = p)) as [->|Hne].
  - rewrite lookup_alter_eq. destruct (_ !! p); reflexivity.
  - rewrite lookup_alter_ne by congruence. reflexivity.
Qed.

(** Changing the state in the header of one entry changes that entry
    of the walk only. *)
Lemma walk_writeInfo (fuel : nat) (p : Z) (e e' : EntryInfo.t) :
  ∀ (q : MessageQueue.sMessageQueue) (p0 : Z) l,
    MessageQueue.readInfo q p = Some e →
    EntryInfo.size e' = EntryInfo.size e →
    walk fuel q p0 = Some l →
    walk fuel (MessageQueue.writeInfo q p e') p0
    = Some ((λ x : Z * EntryInfo.t, if decide (x.1 = p) then (p, e') else x)
              <$> l).
Proof.
  intros q p0 l Hp Hsz. revert p0 l.
  assert (∀ p0 e0,
            MessageQueue.readInfo q p0 = Some e0 →
            ∃ ex, MessageQueue.readInfo (MessageQueue.writeInfo q p e') p0
                  = Some ex ∧
                  (if decide (p0 = p) then (p, e') else (p0, e0)) = (p0, ex) ∧
                  EntryInfo.size ex = EntryInfo.size e0) as Hread.
  { intros p0 e0 He0. rewrite readInfo_writeInfo.
    destruct (decide (p0 = p)) as [->|Hne].
    - rewrite Hp. exists e'. repeat split. congruence.
    - exists e0. repeat split. exact He0. }
  induction fuel as [|fuel IH]; intros p0 l H;
    simpl in H; apply bind_Some in H as (e0 & He0 & H);
    destruct (Hread _ _ He0) as (ex & Hex & Hupd & Hsx);
    cbn [QueueView.walk]; rewrite Hex; cbn [mbind option_bind];
    change (MessageQueue.lastEntry (MessageQueue.writeInfo q p e'))
      with (MessageQueue.lastEntry q).
  - case_bool_decide; simplify_eq/=. rewrite Hupd. reflexivity.
  - case_bool_decide as Hlast.
    + injection H as <-. simpl. rewrite Hupd. reflexivity.
    + apply bind_Some in H as (rest & Hr & [= <-]).
      assert (MessageQueue.nextEntryPtr entryInfoSize
                (MessageQueue.writeInfo q p e') p0 ex
              = MessageQueue.nextEntryPtr entryInfoSize q p0 e0) as ->.
      { unfold MessageQueue.nextEntryPtr. simpl. rewrite Hsx. reflexivity. }
      rewrite (IH _ _ Hr). simpl. rewrite Hupd. reflexivity.
Qed.

(** Changing the header of one entry of the walk. *)
Lemma fmap_update_insert (l : list (Z * EntryInfo.t)) (i : nat) (p : Z)
      (e e' : EntryInfo.t) :
  NoDup l.*1 → l !! i = Some (p, e) →
  (λ x : Z * EntryInfo.t, if decide (x.1 = p) then (p, e') else x) <$> l
  = <[i := (p, e')]> l.
Proof.
  intros Hnd Hi. apply list_eq. intros j.
  rewrite list_lookup_fmap.
  destruct (decide (j = i)) as [->|Hne].
  - rewrite list_lookup_insert_eq by (eapply lookup_lt_Some; exact Hi).
    rewrite Hi. simpl. rewrite decide_True by reflexivity. reflexivity.
  - rewrite list_lookup_insert_ne by congruence.
    destruct (l !! j) as [[x ex]|] eqn:Hj; [|reflexivity]. simpl.
    rewrite decide_False; [reflexivity|]. intros ->. apply Hne.
    eapply NoDup_lookup; [exact Hnd| |];
      rewrite list_lookup_fmap; [rewrite Hj|rewrite Hi]; reflexivity.
Qed.

(** [MessageQueue_getNextWaitingASDU] on a queue whose walk is [l] and
    in which entry [i] is the first that waits for transmission. *)
Lemma getNextWaitingASDU_found
      (q : MessageQueue.sMessageQueue) (l : list (Z * EntryInfo.t))
      (i : nat) (p : Z) (e : EntryInfo.t) :
  QueueView.entries entryInfoSize q = Some l →
  list_find isWaiting l = Some (i, (p, e)) →
  ∃ c, MessageQueue.buffer q !! p = Some c ∧ MessageQueue.info c = e ∧
    let e' := EntryInfo.set_entryState
                QUEUE_ENTRY_STATE_SENT_BUT_NOT_CONFIRMED e in
    let q' := MessageQueue.writeInfo q p e' in
    MessageQueue.getNextWaitingASDU entryInfoSize q
    = Some (q', Some (MessageQueue.mkNextWaiting
                        (EntryInfo.entryTimestamp e) p (EntryInfo.size e)
                        (MessageQueue.payload c))) ∧
    QueueView.entries entryInfoSize q' = Some (<[i := (p, e')]> l).
Proof.
  unfold QueueView.entries, MessageQueue.getNextWaitingASDU. intros H Hf.
  destruct (MessageQueue.entryCounter q =? 0) eqn:E0.
  { injection H as <-. discriminate. }
  apply bind_Some in H as (p0 & Hp0 & H). rewrite Hp0. simpl.
  destruct (walk_head _ _ _ _ H) as (e0 & r0 & He0 & Hl).
  rewrite He0. simpl. rewrite (findWaiting_walk _ _ _ _ _ H He0), Hf.
  simpl. apply list_find_Some in Hf as (Hi & Hw & _). simpl in Hw.
  rewrite bool_decide_eq_true_2 by exact Hw.
  pose proof (walk_readInfo _ _ _ _ (p, e) H
                (list_elem_of_lookup_2 _ _ _ Hi)) as Hp.
  simpl in Hp. unfold MessageQueue.readInfo in Hp.
  destruct (MessageQueue.buffer q !! p) as [c|] eqn:Hc; [|discriminate].
  injection Hp as Hp. exists c. split; [reflexivity|]. split; [exact Hp|].
  simpl. split; [reflexivity|].
  rewrite E0, Hp0. simpl.
  rewrite (walk_writeInfo _ p e _ q p0 l); try reflexivity.
  - rewrite (fmap_update_insert l i p e); [reflexivity| |exact Hi].
    eapply walk_NoDup; exact H.
  - unfold MessageQueue.readInfo. rewrite Hc, <- Hp. reflexivity.
  - exact H.
Qed.

(** ... and on a queue in which no entry waits. *)
Lemma getNextWaitingASDU_none
      (q : MessageQueue.sMessageQueue) (l : list (Z * EntryInfo.t)) :
  QueueView.entries entryInfoSize q = Some l →
  list_find isWaiting l = None →
  MessageQueue.getNextWaitingASDU entryInfoSize q = Some (q, None).
Proof.
  unfold QueueView.entries, MessageQueue.getNextWaitingASDU. intros H Hf.
  destruct (MessageQueue.entryCounter q =? 0) eqn:E0; [reflexivity|].
  apply bind_Some in H as (p0 & Hp0 & H). rewrite Hp0. simpl.
  destruct (walk_head _ _ _ _ H) as (e0 & r0 & He0 & Hl).
  rewrite He0. simpl. rewrite (findWaiting_walk _ _ _ _ _ H He0), Hf.
  apply list_find_None in Hf.
  destruct (last l) as [[p e]|] eqn:Hlast; simpl.
  - apply last_Some_elem_of in Hlast.
    rewrite Forall_forall in Hf. specialize (Hf _ Hlast). simpl in Hf.
    rewrite bool_decide_eq_false_2 by exact Hf. reflexivity.
  - apply last_None in Hlast. subst l. discriminate.
Qed.
End LowPrioScan.

(** X2: [MessageQueue_getNextWaitingASDU] hands out the oldest entry that
    waits for transmission: with [l] the live entries of the queue, oldest
    first, it returns time stamp, place, size and bytes of the first
    entry of [l] in state WAITING_FOR_TRANSMISSION, and sets that entry,
    and no other, to SENT_BUT_NOT_CONFIRMED; when no entry waits it
    returns [NULL] and leaves the queue as it is. *)
Theorem getNextWaitingASDU_oldest_waiting (entryInfoSize : Z)
        (q : MessageQueue.sMessageQueue) (l : list (Z * EntryInfo.t)) :
  QueueView.entries entryInfoSize q = Some l →
  match list_find (λ pe : Z * EntryInfo.t,
                     EntryInfo.entryState pe.2
                     = QUEUE_ENTRY_STATE_WAITING_FOR_TRANSMISSION) l with
  | Some (i, (p, e)) =>
    ∃ c, MessageQueue.buffer q !! p = Some c ∧
      let e' := EntryInfo.set_entryState
                  QUEUE_ENTRY_STATE_SENT_BUT_NOT_CONFIRMED e in
      let q' := MessageQueue.writeInfo q p e' in
      MessageQueue.getNextWaitingASDU entryInfoSize q
      = Some (q', Some (MessageQueue.mkNextWaiting
                          (EntryInfo.entryTimestamp e) p (EntryInfo.size e)
                          (MessageQueue.payload c))) ∧
      QueueView.entries entryInfoSize q' = Some (<[i := (p, e')]> l)
  | None => MessageQueue.getNextWaitingASDU entryInfoSize q = Some (q, None)
  end.
Proof.
  intros Hl.
  destruct (list_find _ l) as [[i [p e]]|] eqn:Hfind.
  - destruct (getNextWaitingASDU_found entryInfoSize q l i p e Hl Hfind)
      as (c & Hc & _ & Hget & Hent).
    exists c. split; [exact Hc|]. split; [exact Hget|exact Hent].
  - exact (getNextWaitingASDU_none entryInfoSize q l Hl Hfind).
Qed.

(** Queues whose entries lie one behind the other from the start of the
    buffer: what [MessageQueue_enqueueASDU] builds as long as the buffer
    has room. *)

Section LowPrioLinear.
Variable entryInfoSize : Z.
Hypothesis entryInfoSize_pos : 0 < entryInfoSize.

#[local] Abbreviation entryLength := (LowPrioView.entryLength entryInfoSize).
#[local] Abbreviation extent := (LowPrioView.extent entryInfoSize).
#[local] Abbreviation laidOut := (LowPrioView.laidOut entryInfoSize).
#[local] Abbreviation linear := (LowPrioView.linear entryInfoSize).
#[local] Abbreviation offsets := (LowPrioView.offsets entryInfoSize).

(** The bytes a list of entries takes. *)
Lemma lp_extent_cons c l : extent (c :: l) = entryLength c + extent l.
Proof. reflexivity. Qed.

Lemma lp_extent_app l1 l2 : extent (l1 ++ l2) = extent l1 + extent l2.
Proof.
  induction l1 as [|e l1 IH]; [reflexivity|].
  rewrite <- app_comm_cons, !lp_extent_cons, IH. lia.
Qed.

#[local] Arguments LowPrioView.extent : simpl never.
#[local] Arguments LowPrioView.entryLength : simpl never.
#[local] Arguments LowPrioView.entryOf : simpl never.

(** Entries laid out in a buffer, one behind the other: the parts of the
    layout. *)
Lemma lp_laidOut_length buf p l :
  laidOut buf p l → Z.of_nat (length l) <= extent l.
Proof.
  revert p. induction l as [|c l IH]; intros p H; [reflexivity|].
  destruct H as (_ & Hn & H). apply IH in H.
  rewrite lp_extent_cons. unfold LowPrioView.entryLength. cbn [length]. lia.
Qed.

Lemma lp_laidOut_prefix buf p l1 l2 :
  laidOut buf p (l1 ++ l2) → laidOut buf p l1.
Proof.
  revert p. induction l1 as [|e l1 IH]; intros p H; [exact I|].
  destruct H as (H1 & H2 & H). split; [exact H1|]. split; [exact H2|].
  eapply IH; exact H.
Qed.

Lemma lp_laidOut_last buf p l c :
  laidOut buf p (l ++ [c]) →
  buf !! (p + extent l) = Some c ∧ 0 <= EntryInfo.size (MessageQueue.info c).
Proof.
  revert p. induction l as [|c0 l IH]; intros p H.
  - destruct H as (H1 & H2 & _). change (extent []) with 0.
    rewrite Z.add_0_r. auto.
  - destruct H as (_ & _ & H). apply IH in H.
    rewrite lp_extent_cons, Z.add_assoc. exact H.
Qed.

Lemma lp_laidOut_app buf p l c :
  laidOut buf p l → buf !! (p + extent l) = Some c →
  0 <= EntryInfo.size (MessageQueue.info c) →
  laidOut buf p (l ++ [c]).
Proof.
  revert p. induction l as [|c0 l IH]; intros p H Hc Hn.
  - change (extent []) with 0 in Hc. rewrite Z.add_0_r in Hc.
    repeat split; auto.
  - destruct H as (H1 & H2 & H). split; [exact H1|]. split; [exact H2|].
    apply IH; auto. rewrite lp_extent_cons, Z.add_assoc in Hc. exact Hc.
Qed.

(** Storing an entry behind the entries of [l] leaves them as they are. *)
Lemma lp_laidOut_store buf p l np len c :
  laidOut buf p l → p + extent l <= np →
  laidOut (<[np := c]>
             (filter (λ kv, MessageQueue.overlaps entryInfoSize np len kv.1
                            = false) buf)) p l.
Proof.
  revert p. induction l as [|c0 l IH]; intros p H Hnp; [exact I|].
  destruct H as (H1 & Hn & H).
  pose proof (lp_laidOut_length _ _ _ H) as Hl.
  rewrite lp_extent_cons in Hnp. unfold LowPrioView.entryLength in Hnp.
  split; [|split; [exact Hn|]].
  - rewrite lookup_insert_ne by lia.
    apply map_lookup_filter_Some. split; [exact H1|]. simpl.
    unfold MessageQueue.overlaps. apply andb_false_iff. right.
    apply Z.ltb_ge. lia.
  - apply IH; [exact H|]. unfold LowPrioView.entryLength. lia.
Qed.

(** The entry that [MessageQueue_enqueueASDU] stores for an ASDU of at
    most 250 bytes. *)
Lemma lp_entryOf_small (a : CS101_ASDU * Z) :
  0 <= asduHeaderLength a.1 + payloadSize a.1 <= 250 →
  LowPrioView.entryOf a
  = MessageQueue.mkEntry
      (EntryInfo.mk a.2 QUEUE_ENTRY_STATE_WAITING_FOR_TRANSMISSION
                    (asduHeaderLength a.1 + payloadSize a.1))
      (asduBytes a.1).
Proof.
  intros H. unfold LowPrioView.entryOf. rewrite Z.mod_small by lia.
  reflexivity.
Qed.

(** [MessageQueue_enqueueASDU] on a queue whose entries lie one behind
    the other, with room for the new entry: it is stored behind the
    last one and nothing is removed. *)
Lemma lp_enqueue_linear (q : MessageQueue.sMessageQueue)
      (l : list MessageQueue.QueueEntry) (asdu : CS101_ASDU) (t : Z) :
  linear q 0 l →
  0 <= asduHeaderLength asdu + payloadSize asdu <= 250 →
  extent l + entryInfoSize + (asduHeaderLength asdu + payloadSize asdu)
  <= MessageQueue.size q →
  ∃ q', MessageQueue.enqueueASDU entryInfoSize q asdu t = Some q' ∧
        MessageQueue.size q' = MessageQueue.size q ∧
        linear q' 0 (l ++ [LowPrioView.entryOf (asdu, t)]).
Proof.
  intros (Hcnt & Hl) Hsz Hfit.
  unfold MessageQueue.enqueueASDU.
  pose proof (lp_entryOf_small (asdu, t) Hsz) as He. simpl in He.
  set (asduSize := asduHeaderLength asdu + payloadSize asdu) in *.
  destruct (asduSize >? _) eqn:Hbig;
    [unfold IEC60870_5_104_APCI_LENGTH in Hbig; lia|].
  rewrite (Z.mod_small asduSize) by lia.
  assert (extent [LowPrioView.entryOf (asdu, t)] = entryInfoSize + asduSize)
    as Hxe.
  { rewrite He. unfold LowPrioView.extent, LowPrioView.entryLength. simpl.
    lia. }
  destruct l as [|c0 l0] using rev_ind.
  - (* the queue is empty *)
    clear Hl. simpl in Hcnt. rewrite Hcnt. simpl.
    change (extent []) with 0 in Hfit.
    destruct (0 + (entryInfoSize + asduSize) >? MessageQueue.size q) eqn:Hw;
      [lia|].
    simpl. rewrite Hcnt. simpl. eexists. split; [reflexivity|].
    split; [reflexivity|].
    split; [simpl; lia|]. intros _. simpl.
    split; [lia|]. split; [reflexivity|]. split; [reflexivity|].
    split; [reflexivity|]. split.
    + split; [|split; [|exact I]].
      * rewrite lookup_insert_eq, He. reflexivity.
      * apply Z.mod_pos_bound. lia.
    + rewrite Hxe. lia.
  - clear IHl0.
    destruct Hl as (Hp0 & Hfirst & Hlast & Hlib & Hlay & Hend);
      [intros H; apply app_eq_nil in H as [_ H]; discriminate|].
    rewrite removelast_last in Hlast.
    destruct (lp_laidOut_last _ _ _ _ Hlay) as (Hbuf & Hn).
    pose proof (lp_laidOut_length _ _ _ Hlay) as Hext.
    pose proof (lp_laidOut_length _ _ _ (lp_laidOut_prefix _ _ _ _ Hlay))
      as Hext0.
    rewrite lp_extent_app in *.
    assert (extent [c0] = entryInfoSize + EntryInfo.size (MessageQueue.info c0))
      as Hx by (unfold LowPrioView.extent, LowPrioView.entryLength; simpl; lia).
    rewrite Hx in *.
    rewrite length_app in Hcnt, Hext. simpl in Hcnt, Hext.
    destruct (MessageQueue.entryCounter q =? 0) eqn:E0;
      [apply Z.eqb_eq in E0; lia|].
    rewrite Hlast. simpl.
    unfold MessageQueue.readInfo. rewrite Hbuf. simpl.
    destruct (_ >? MessageQueue.size q) eqn:Hw; [lia|].
    destruct (MessageQueue.entryCounter q >? 0) eqn:E1; [|lia].
    rewrite Hfirst. simpl.
    destruct (_ <=? 0) eqn:E2; [lia|]. simpl.
    eexists. split; [reflexivity|]. split; [reflexivity|].
    split; [simpl; rewrite !length_app; simpl; lia|]. intros _. simpl.
    rewrite removelast_last, !lp_extent_app, Hx.
    split; [lia|]. split; [exact Hfirst|]. split; [f_equal; lia|].
    split; [f_equal; lia|]. split; [|lia].
    apply lp_laidOut_app.
    + apply lp_laidOut_store; [exact Hlay|]. rewrite lp_extent_app, Hx. lia.
    + rewrite lp_extent_app, Hx.
      replace (0 + (extent l0 + (entryInfoSize
                                 + EntryInfo.size (MessageQueue.info c0))))
        with (0 + extent l0 + entryInfoSize
              + EntryInfo.size (MessageQueue.info c0)) by lia.
      rewrite lookup_insert_eq, He. reflexivity.
    + rewrite He. simpl. lia.
Qed.

(** The last entry starts inside the buffer. *)
Lemma lp_laidOut_removelast_nonneg buf p l :
  laidOut buf p l → 0 <= extent (removelast l).
Proof.
  intros H. destruct l as [|c l]; [reflexivity|].
  assert (c :: l ≠ []) as Hne by discriminate.
  pose proof (app_removelast_last c Hne) as Hsplit.
  rewrite Hsplit in H. apply lp_laidOut_prefix in H.
  pose proof (lp_laidOut_length _ _ _ H). lia.
Qed.

(** The scanning loops walk a linear layout entry by entry. *)
Lemma lp_walk_laidOut (l : list MessageQueue.QueueEntry) :
  ∀ (q : MessageQueue.sMessageQueue) (p : Z) (fuel : nat),
    laidOut (MessageQueue.buffer q) p l →
    l ≠ [] →
    MessageQueue.lastEntry q = Some (p + extent (removelast l)) →
    MessageQueue.lastInBufferEntry q = MessageQueue.lastEntry q →
    (length l <= S fuel)%nat →
    QueueView.walk entryInfoSize fuel q p = Some (offsets p l).
Proof.
  induction l as [|c l IH]; intros q p fuel Hlay Hne Hlast Hlib Hlen;
    [contradiction|].
  destruct Hlay as (Hbuf & Hn & Hlay).
  assert (MessageQueue.readInfo q p = Some (MessageQueue.info c)) as Hread
    by (unfold MessageQueue.readInfo; rewrite Hbuf; reflexivity).
  destruct l as [|c1 l].
  - change (extent (removelast [c])) with 0 in Hlast.
    rewrite Z.add_0_r in Hlast.
    destruct fuel; simpl; rewrite Hread; simpl;
      rewrite bool_decide_eq_true_2 by (symmetry; exact Hlast); reflexivity.
  - change (removelast (c :: c1 :: l)) with (c :: removelast (c1 :: l))
      in Hlast.
    pose proof (lp_laidOut_removelast_nonneg _ _ _ Hlay) as Hext.
    set (rl := removelast (c1 :: l)) in *.
    rewrite lp_extent_cons in Hlast.
    unfold LowPrioView.entryLength in Hlast at 1.
    destruct fuel as [|fuel]; [cbn [length] in Hlen; lia|].
    cbn [QueueView.walk]. rewrite Hread. cbn [mbind option_bind].
    rewrite bool_decide_eq_false_2 by (rewrite Hlast; intros [= H]; lia).
    unfold MessageQueue.nextEntryPtr.
    rewrite bool_decide_eq_false_2
      by (rewrite Hlib, Hlast; intros [= H]; lia).
    replace (p + entryInfoSize + EntryInfo.size (MessageQueue.info c))
      with (p + entryLength c) by (unfold LowPrioView.entryLength; lia).
    rewrite (IH q (p + entryLength c) fuel);
      [reflexivity|exact Hlay|discriminate| |exact Hlib|].
    + rewrite Hlast. fold rl. f_equal.
      unfold LowPrioView.entryLength. lia.
    + cbn [length] in Hlen |- *. lia.
Qed.

(** The walk over such a queue visits the entries in the order of the
    layout. *)
Lemma lp_entries_linear (q : MessageQueue.sMessageQueue) (p : Z)
      (l : list MessageQueue.QueueEntry) :
  linear q p l →
  QueueView.entries entryInfoSize q = Some (offsets p l).
Proof.
  intros (Hcnt & Hl). unfold QueueView.entries.
  destruct l as [|c l].
  - simpl in Hcnt. rewrite Hcnt. reflexivity.
  - destruct Hl as (Hp0 & Hfirst & Hlast & Hlib & Hlay & Hend);
      [discriminate|].
    destruct (MessageQueue.entryCounter q =? 0) eqn:E0;
      [apply Z.eqb_eq in E0; cbn [length] in Hcnt; lia|].
    rewrite Hfirst. cbn [mbind option_bind].
    apply lp_walk_laidOut; try assumption; [discriminate|].
    pose proof (lp_laidOut_length _ _ _ Hlay) as Hlen.
    unfold MessageQueue.scanFuel. lia.
Qed.
End LowPrioLinear.

Section LowPrioDrain.
Variable entryInfoSize : Z.

#[local] Abbreviation isWaiting :=
  (λ pe : Z * EntryInfo.t,
     EntryInfo.entryState pe.2 = QUEUE_ENTRY_STATE_WAITING_FOR_TRANSMISSION).
#[local] Abbreviation sent :=
  (λ pe : Z * EntryInfo.t,
     (pe.1, EntryInfo.set_entryState
              QUEUE_ENTRY_STATE_SENT_BUT_NOT_CONFIRMED pe.2)).

(** Writing a header leaves the bytes of the ASDUs alone. *)
Lemma payloadAt_writeInfo (q : MessageQueue.sMessageQueue) (p x : Z)
      (e' : EntryInfo.t) :
  QueueView.payloadAt (MessageQueue.writeInfo q p e') x = QueueView.payloadAt q x.
Proof.
  unfold QueueView.payloadAt, MessageQueue.writeInfo. simpl.
  destruct (decide (x = p)) as [->|Hne].
  - rewrite lookup_alter_eq. destruct (_ !! p); reflexivity.
  - rewrite lookup_alter_ne by congruence. reflexivity.
Qed.

(** Calling [MessageQueue_getNextWaitingASDU] once for every waiting
    entry hands the entries out in the order of the walk. *)
Lemma getAllWaiting_drain (todo : list (Z * EntryInfo.t)) :
  ∀ (q : MessageQueue.sMessageQueue) (done : list (Z * EntryInfo.t)),
    QueueView.entries entryInfoSize q = Some (done ++ todo) →
    Forall (λ pe, ¬ isWaiting pe) done →
    Forall isWaiting todo →
    ∃ q', MessageQueue.getAllWaiting entryInfoSize (length todo) q
          = Some (q', (λ pe : Z * EntryInfo.t,
                         Some (MessageQueue.mkNextWaiting
                                 (EntryInfo.entryTimestamp pe.2) pe.1
                                 (EntryInfo.size pe.2) (QueueView.payloadAt q pe.1)))
                        <$> todo) ∧
          QueueView.entries entryInfoSize q' = Some (done ++ (sent <$> todo)).
Proof.
  induction todo as [|[p e] todo IH]; intros q done Hent Hdone Htodo.
  - exists q. split; [reflexivity|exact Hent].
  - apply Forall_cons in Htodo as [Hw Htodo].
    assert (list_find isWaiting (done ++ (p, e) :: todo)
            = Some (length done, (p, e))) as Hf.
    { rewrite list_find_app_r by (apply list_find_None; exact Hdone).
      cbn [list_find]. rewrite decide_True by exact Hw. reflexivity. }
    destruct (getNextWaitingASDU_found entryInfoSize q _ _ _ _ Hent Hf)
      as (c & Hc & Hinfo & Hget & Hent1).
    cbv zeta in Hget, Hent1.
    replace (length done) with (length done + 0)%nat in Hent1 by lia.
    rewrite insert_app_r in Hent1. cbn [insert list_insert] in Hent1.
    rewrite (cons_middle _ done todo), app_assoc in Hent1.
    destruct (IH _ _ Hent1) as (q' & Hall & Hent').
    { apply Forall_app. split; [exact Hdone|].
      apply Forall_singleton. simpl. discriminate. }
    { exact Htodo. }
    exists q'. cbn [length MessageQueue.getAllWaiting].
    rewrite Hget. cbn [mbind option_bind]. rewrite Hall.
    cbn [mbind option_bind]. split.
    + rewrite fmap_cons. f_equal. f_equal. f_equal.
      * unfold QueueView.payloadAt. simpl. rewrite Hc. reflexivity.
      * apply list_fmap_ext. intros i x _. simpl.
        rewrite payloadAt_writeInfo. reflexivity.
    + rewrite Hent'. rewrite <- app_assoc. reflexivity.
Qed.
End LowPrioDrain.

Section LowPrioFifo.
Variable entryInfoSize : Z.
Hypothesis entryInfoSize_pos : 0 < entryInfoSize.

#[local] Arguments LowPrioView.extent : simpl never.
#[local] Arguments LowPrioView.entryLength : simpl never.
#[local] Arguments LowPrioView.entryOf : simpl never.

(** ASDUs take no negative number of bytes. *)
Lemma lp_extent_entryOf_nonneg (l : list (CS101_ASDU * Z)) :
  Forall (λ a : CS101_ASDU * Z,
            0 <= asduHeaderLength a.1 + payloadSize a.1 <= 250) l →
  0 <= LowPrioView.extent entryInfoSize (LowPrioView.entryOf <$> l).
Proof.
  induction 1 as [|b l Hb Hall IH]; [reflexivity|].
  rewrite fmap_cons, lp_extent_cons, (lp_entryOf_small b Hb).
  unfold LowPrioView.entryLength. simpl. lia.
Qed.

(** Enqueueing one ASDU after the other, with room for all of them. *)
Lemma lp_enqueueAll_linear (l : list (CS101_ASDU * Z)) :
  ∀ (q : MessageQueue.sMessageQueue) (l0 : list MessageQueue.QueueEntry),
    LowPrioView.linear entryInfoSize q 0 l0 →
    Forall (λ a : CS101_ASDU * Z,
              0 <= asduHeaderLength a.1 + payloadSize a.1 <= 250) l →
    LowPrioView.extent entryInfoSize l0
    + LowPrioView.extent entryInfoSize (LowPrioView.entryOf <$> l)
    <= MessageQueue.size q →
    ∃ q', MessageQueue.enqueueAll entryInfoSize q l = Some q' ∧
          LowPrioView.linear entryInfoSize q' 0
                             (l0 ++ (LowPrioView.entryOf <$> l)).
Proof.
  induction l as [|[a t] l IH]; intros q l0 Hq Hall Hfit.
  - eexists. split; [reflexivity|]. rewrite app_nil_r. exact Hq.
  - apply Forall_cons in Hall as [Ha Hall]. simpl in Ha.
    rewrite fmap_cons, lp_extent_cons in Hfit.
    pose proof (lp_entryOf_small (a, t) Ha) as He. simpl in He.
    pose proof (lp_extent_entryOf_nonneg l Hall) as Hext.
    rewrite He in Hfit. unfold LowPrioView.entryLength in Hfit.
    simpl in Hfit.
    destruct (lp_enqueue_linear entryInfoSize entryInfoSize_pos q l0 a t Hq Ha)
      as (q1 & H1 & Hs1 & Hq1); [lia|].
    destruct (IH q1 (l0 ++ [LowPrioView.entryOf (a, t)]) Hq1 Hall)
      as (q2 & H2 & Hq2).
    { rewrite Hs1, lp_extent_app, He.
      unfold LowPrioView.extent at 2, LowPrioView.entryLength. simpl. lia. }
    exists q2. cbn [MessageQueue.enqueueAll].
    rewrite H1. cbn [mbind option_bind]. split; [exact H2|].
    rewrite <- app_assoc in Hq2. exact Hq2.
Qed.

(** The headers, the bytes and the results of the entries laid out for a
    list of ASDUs. *)
Lemma offsets_fst_snd (l : list (CS101_ASDU * Z)) :
  ∀ p,
    Forall (λ a : CS101_ASDU * Z,
              0 <= asduHeaderLength a.1 + payloadSize a.1 <= 250) l →
    (LowPrioView.offsets entryInfoSize p (LowPrioView.entryOf <$> l)).*2
    = (λ a : CS101_ASDU * Z,
         EntryInfo.mk a.2 QUEUE_ENTRY_STATE_WAITING_FOR_TRANSMISSION
                      (asduHeaderLength a.1 + payloadSize a.1)) <$> l.
Proof.
  induction l as [|a l IH]; intros p Hall; [reflexivity|].
  apply Forall_cons in Hall as [Ha Hall].
  rewrite !fmap_cons. cbn [LowPrioView.offsets]. rewrite fmap_cons.
  rewrite IH by exact Hall. rewrite (lp_entryOf_small a Ha). reflexivity.
Qed.

Lemma offsets_payloadAt (l : list MessageQueue.QueueEntry) :
  ∀ (q : MessageQueue.sMessageQueue) (p : Z),
    LowPrioView.laidOut entryInfoSize (MessageQueue.buffer q) p l →
    (λ pe : Z * EntryInfo.t, QueueView.payloadAt q pe.1)
      <$> LowPrioView.offsets entryInfoSize p l
    = MessageQueue.payload <$> l.
Proof.
  induction l as [|c l IH]; intros q p H; [reflexivity|].
  destruct H as (Hc & _ & H).
  cbn [LowPrioView.offsets]. rewrite !fmap_cons, (IH _ _ H).
  unfold QueueView.payloadAt at 1. simpl. rewrite Hc. reflexivity.
Qed.

Lemma offsets_results (l : list (CS101_ASDU * Z)) :
  ∀ (q : MessageQueue.sMessageQueue) (p : Z),
    Forall (λ a : CS101_ASDU * Z,
              0 <= asduHeaderLength a.1 + payloadSize a.1 <= 250) l →
    LowPrioView.laidOut entryInfoSize (MessageQueue.buffer q) p
                        (LowPrioView.entryOf <$> l) →
    (λ pe : Z * EntryInfo.t,
       Some (EntryInfo.entryTimestamp pe.2, EntryInfo.size pe.2,
             QueueView.payloadAt q pe.1))
      <$> LowPrioView.offsets entryInfoSize p (LowPrioView.entryOf <$> l)
    = (λ a : CS101_ASDU * Z,
         Some (a.2, asduHeaderLength a.1 + payloadSize a.1, asduBytes a.1))
        <$> l.
Proof.
  induction l as [|a l IH]; intros q p Hall H; [reflexivity|].
  apply Forall_cons in Hall as [Ha Hall].
  rewrite fmap_cons in H. destruct H as (Hc & _ & H).
  rewrite !fmap_cons. cbn [LowPrioView.offsets]. rewrite fmap_cons.
  rewrite (IH _ _ Hall H). f_equal.
  unfold QueueView.payloadAt. cbn [fst snd]. rewrite Hc.
  rewrite (lp_entryOf_small a Ha). reflexivity.
Qed.
End LowPrioFifo.

(** X1: the low-priority queue is a first-in, first-out queue as long as
    its buffer has room.  ASDUs of at most 250 bytes that fit the buffer
    together are all stored by [MessageQueue_enqueueASDU], oldest first
    and waiting for transmission; as many calls of
    [MessageQueue_getNextWaitingASDU] hand them out in the order they
    came in, each with its time stamp, size and bytes, and leave them
    in state SENT_BUT_NOT_CONFIRMED; one more call returns [NULL]. *)
Theorem lowPrioQueue_fifo (entryInfoSize : Z)
        (q : MessageQueue.sMessageQueue) (l : list (CS101_ASDU * Z)) :
  0 < entryInfoSize →
  MessageQueue.entryCounter q = 0 →
  Forall (λ a : CS101_ASDU * Z,
            0 <= asduHeaderLength a.1 + payloadSize a.1 <= 250) l →
  LowPrioView.extent entryInfoSize (LowPrioView.entryOf <$> l)
  <= MessageQueue.size q →
  ∃ q1 q2 rs,
    MessageQueue.enqueueAll entryInfoSize q l = Some q1 ∧
    QueueView.content entryInfoSize q1
    = Some ((λ a : CS101_ASDU * Z,
               (a.2, QUEUE_ENTRY_STATE_WAITING_FOR_TRANSMISSION)) <$> l) ∧
    MessageQueue.getAllWaiting entryInfoSize (length l) q1 = Some (q2, rs) ∧
    fmap (λ nw, (MessageQueue.nw_timestamp nw, MessageQueue.nw_size nw,
                 MessageQueue.nw_asdu nw)) <$> rs
    = (λ a : CS101_ASDU * Z,
         Some (a.2, asduHeaderLength a.1 + payloadSize a.1, asduBytes a.1))
        <$> l ∧
    QueueView.content entryInfoSize q2
    = Some ((λ a : CS101_ASDU * Z,
               (a.2, QUEUE_ENTRY_STATE_SENT_BUT_NOT_CONFIRMED)) <$> l) ∧
    MessageQueue.getNextWaitingASDU entryInfoSize q2 = Some (q2, None).
Proof.
  intros Hpos Hcnt Hall Hfit.
  destruct (lp_enqueueAll_linear entryInfoSize Hpos l q [])
    as (q1 & H1 & Hq1);
    [split; [exact Hcnt|intros H; contradiction]|exact Hall|
     change (LowPrioView.extent entryInfoSize []) with 0; lia|].
  rewrite app_nil_l in Hq1.
  pose proof (lp_entries_linear entryInfoSize Hpos q1 0 _ Hq1) as Hent.
  set (offs := LowPrioView.offsets entryInfoSize 0 (LowPrioView.entryOf <$> l))
    in *.
  pose proof (offsets_fst_snd entryInfoSize l 0 Hall) as Hinfos. fold offs in Hinfos.
  assert (Forall (λ pe : Z * EntryInfo.t,
                    EntryInfo.entryState pe.2
                    = QUEUE_ENTRY_STATE_WAITING_FOR_TRANSMISSION) offs) as Hw.
  { apply Forall_fmap with (f := snd)
                           (P := λ e, EntryInfo.entryState e
                                      = QUEUE_ENTRY_STATE_WAITING_FOR_TRANSMISSION).
    rewrite Hinfos. apply Forall_fmap, Forall_true. reflexivity. }
  destruct (getAllWaiting_drain entryInfoSize offs q1 [] Hent)
    as (q2 & Hall2 & Hent2); [constructor|exact Hw|].
  rewrite app_nil_l in Hent2.
  assert (length offs = length l) as Hlen.
  { rewrite <- (length_fmap snd offs), Hinfos, length_fmap. reflexivity. }
  rewrite Hlen in Hall2.
  assert (∀ g : EntryInfo.t → Z * QueueEntryState,
            (λ pe : Z * EntryInfo.t, g pe.2) <$> offs = g <$> offs.*2) as Hsnd
      by (intros g; rewrite <- list_fmap_compose; reflexivity).
  exists q1, q2. eexists. split; [exact H1|]. split.
  { unfold QueueView.content. rewrite Hent. cbn [mbind option_bind]. f_equal.
    change (map ?f offs) with (f <$> offs).
    rewrite (Hsnd (λ e, (EntryInfo.entryTimestamp e, EntryInfo.entryState e))),
      Hinfos, <- list_fmap_compose. reflexivity. }
  split; [exact Hall2|]. split.
  { rewrite <- list_fmap_compose.
    destruct l as [|a0 l0]; [reflexivity|].
    destruct Hq1 as (_ & Hq1).
    destruct Hq1 as (_ & _ & _ & _ & Hlay & _); [discriminate|].
    rewrite <- (offsets_results entryInfoSize _ q1 0 Hall Hlay). reflexivity. }
  split.
  { unfold QueueView.content. rewrite Hent2. cbn [mbind option_bind]. f_equal.
    change (map ?f ?x) with (f <$> x). rewrite <- list_fmap_compose.
    etransitivity;
      [exact (Hsnd (λ e, (EntryInfo.entryTimestamp e,
                          QUEUE_ENTRY_STATE_SENT_BUT_NOT_CONFIRMED)))|].
    rewrite Hinfos, <- list_fmap_compose. reflexivity. }
  eapply getNextWaitingASDU_none; [exact Hent2|].
  apply list_find_None, Forall_fmap, Forall_true. intros pe. simpl. discriminate.
Qed.

(** ** The high-priority queue

    Entries that lie one behind the other from the start of the buffer:
    what [HighPriorityASDUQueue_enqueue] builds as long as the buffer
    has room. *)

Section HighPrioFifo.
Import HighPrioView.
#[local] Arguments extent : simpl never.
#[local] Arguments entryLength : simpl never.

(** The bytes a list of entries takes. *)
Lemma hp_extent_cons e l : extent (e :: l) = entryLength e + extent l.
Proof. reflexivity. Qed.

Lemma hp_extent_app l1 l2 : extent (l1 ++ l2) = extent l1 + extent l2.
Proof.
  induction l1 as [|e l1 IH]; [reflexivity|].
  rewrite <- app_comm_cons, !hp_extent_cons, IH. lia.
Qed.

(** Entries laid out in a buffer, one behind the other: the parts of the
    layout. *)
Lemma hp_laidOut_extent_nonneg buf p l : laidOut buf p l → 0 <= extent l.
Proof.
  revert p. induction l as [|e l IH]; intros p H; [reflexivity|].
  destruct H as (_ & (n & bs & -> & Hn) & H). apply IH in H.
  rewrite hp_extent_cons. unfold entryLength. simpl. lia.
Qed.

Lemma hp_laidOut_prefix buf p l1 l2 :
  laidOut buf p (l1 ++ l2) → laidOut buf p l1.
Proof.
  revert p. induction l1 as [|e l1 IH]; intros p H; [exact I|].
  destruct H as (H1 & H2 & H). split; [exact H1|]. split; [exact H2|].
  eapply IH; exact H.
Qed.

Lemma hp_laidOut_removelast_nonneg buf p l :
  laidOut buf p l → 0 <= extent (removelast l).
Proof.
  intros H. destruct l as [|e l]; [reflexivity|].
  assert (e :: l ≠ []) as Hne by discriminate.
  pose proof (app_removelast_last e Hne) as Hsplit.
  rewrite Hsplit in H. apply hp_laidOut_prefix in H.
  eapply hp_laidOut_extent_nonneg; exact H.
Qed.

Lemma hp_laidOut_last buf p l e :
  laidOut buf p (l ++ [e]) →
  buf !! (p + extent l) = Some e ∧ ∃ n bs, e = n :: bs ∧ 0 <= n.
Proof.
  revert p. induction l as [|e0 l IH]; intros p H; simpl in *.
  - destruct H as (H1 & H2 & _). change (extent []) with 0.
    rewrite Z.add_0_r. auto.
  - destruct H as (_ & _ & H). apply IH in H.
    rewrite hp_extent_cons, Z.add_assoc. exact H.
Qed.

Lemma hp_laidOut_app buf p l e :
  laidOut buf p l → buf !! (p + extent l) = Some e →
  (∃ n bs, e = n :: bs ∧ 0 <= n) →
  laidOut buf p (l ++ [e]).
Proof.
  revert p. induction l as [|e0 l IH]; intros p H He Hn; simpl in *.
  - change (extent []) with 0 in He. rewrite Z.add_0_r in He. auto.
  - destruct H as (H1 & H2 & H). repeat split; auto. apply IH; auto.
    rewrite hp_extent_cons, Z.add_assoc in He. exact He.
Qed.

(** Storing an entry behind the entries of [l] leaves them as they
    are. *)
Lemma hp_laidOut_store buf p l np len e :
  laidOut buf p l → p + extent l <= np → 
  laidOut (<[np := e]> (filter (λ kv, HighPriorityASDUQueue.overlaps np len kv.1
                                      = false) buf)) p l.
Proof.
  revert p. induction l as [|e0 l IH]; intros p H Hnp; simpl in *; [exact I|].
  destruct H as (H1 & (n & bs & -> & Hn) & H).
  pose proof (hp_laidOut_extent_nonneg _ _ _ H) as Hl.
  rewrite hp_extent_cons in Hnp. unfold entryLength in Hnp. simpl in Hnp.
  assert (p + 2 <= np) as Hp by lia.
  split; [|split; [eauto|]].
  - rewrite lookup_insert_ne by lia.
    apply map_lookup_filter_Some. split; [exact H1|]. simpl.
    unfold HighPriorityASDUQueue.overlaps. apply andb_false_iff. right.
    apply Z.ltb_ge. lia.
  - apply IH; [exact H|]. unfold entryLength. simpl. lia.
Qed.

(** All but the last of a list that ends with [x]. *)
Lemma removelast_snoc {A} (l : list A) (x : A) : removelast (l ++ [x]) = l.
Proof. apply removelast_last. Qed.

(** [HighPriorityASDUQueue_enqueue] on a queue whose entries lie one
    behind the other, with room for the new entry: it is stored behind
    the last one. *)
Lemma hp_enqueue_linear (q : HighPriorityASDUQueue.sHighPriorityASDUQueue)
      (p : Z) (l : list (list Z)) (asdu : CS101_ASDU) :
  linear q p l →
  (l = [] → p = 0) →
  0 <= asduHeaderLength asdu + payloadSize asdu <= 250 →
  p + extent l + 2 + (asduHeaderLength asdu + payloadSize asdu)
  <= HighPriorityASDUQueue.size q →
  ∃ q', HighPriorityASDUQueue.enqueue q asdu = Some (q', true) ∧
        linear q' p (l ++ [entryOf asdu]).
Proof.
  intros (Hcnt & Hl) Hp Hsz Hfit.
  unfold HighPriorityASDUQueue.enqueue.
  set (asduSize := asduHeaderLength asdu + payloadSize asdu) in *.
  destruct (asduSize >? _) eqn:Hbig;
    [unfold IEC60870_5_104_APCI_LENGTH in Hbig; lia|].
  assert (entryOf asdu = asduSize :: asduBytes asdu) as He.
  { unfold entryOf. fold asduSize. rewrite Z.mod_small by lia. reflexivity. }
  rewrite (Z.mod_small asduSize) by lia.
  destruct l as [|e0 l0] using rev_ind.
  - (* the queue is empty *)
    clear Hl. specialize (Hp eq_refl). subst p. simpl in Hcnt.
    rewrite Hcnt. simpl.
    change (extent []) with 0 in Hfit.
    destruct (0 + (2 + asduSize) >? HighPriorityASDUQueue.size q) eqn:Hw; [lia|].
    simpl. rewrite Hcnt. simpl. eexists. split; [reflexivity|].
    split; [simpl; lia|]. intros _. simpl.
    repeat split; try reflexivity; try lia.
    + rewrite lookup_insert_eq. rewrite He. reflexivity.
    + rewrite He. eexists _, _. split; [reflexivity|lia].
    + rewrite He. unfold extent. simpl. unfold entryLength. simpl. lia.
  - clear IHl0.
    destruct Hl as (Hp0 & Hfirst & Hlast & Hlib & Hlay & Hend);
      [intros H; apply app_eq_nil in H as [_ H]; discriminate|].
    rewrite removelast_snoc in Hlast.
    destruct (hp_laidOut_last _ _ _ _ Hlay) as (Hbuf & n & bs & -> & Hn).
    pose proof (hp_laidOut_extent_nonneg _ _ _ Hlay) as Hext.
    rewrite hp_extent_app in *.
    assert (extent [n :: bs] = 2 + n) as Hx
      by (unfold extent, entryLength; simpl; lia).
    rewrite Hx in *.
    rewrite length_app in Hcnt. simpl in Hcnt.
    destruct (HighPriorityASDUQueue.entryCounter q =? 0) eqn:E0;
      [apply Z.eqb_eq in E0; lia|].
    rewrite Hlast. simpl.
    unfold HighPriorityASDUQueue.readSize. rewrite Hbuf. simpl.
    assert (0 <= extent l0) as Hext0.
    { clear -Hlay. revert p Hlay.
      induction l0 as [|e l IH]; intros p H; [reflexivity|].
      destruct H as (_ & (n' & bs' & -> & Hn') & H). apply IH in H.
      rewrite hp_extent_cons. unfold entryLength. simpl. lia. }
    destruct (_ >? HighPriorityASDUQueue.size q) eqn:Hw; [lia|].
    destruct (HighPriorityASDUQueue.entryCounter q >? 0) eqn:E1; [|lia].
    rewrite Hfirst. simpl.
    destruct (_ <=? p) eqn:E2; [lia|]. simpl.
    eexists. split; [reflexivity|].
    split; [simpl; rewrite !length_app; simpl; lia|]. intros _. simpl.
    rewrite removelast_snoc, !hp_extent_app, Hx.
    assert (extent [entryOf asdu] = 2 + asduSize) as Hxe
        by (rewrite He; unfold extent, entryLength; simpl; lia).
    repeat split; try lia.
    + exact Hfirst.
    + f_equal. lia.
    + apply hp_laidOut_app.
      * apply hp_laidOut_store; [exact Hlay|]. rewrite hp_extent_app, Hx. lia.
      * rewrite hp_extent_app, Hx.
        replace (p + (extent l0 + (2 + n))) with (p + extent l0 + 2 + n) by lia.
        rewrite lookup_insert_eq. rewrite He. reflexivity.
      * rewrite He. eexists _, _. split; [reflexivity|lia].
Qed.

(** [HighPriorityASDUQueue_getNextASDU] on such a queue hands out the
    first entry and leaves the others as they lie. *)
Lemma hp_getNextASDU_linear (q : HighPriorityASDUQueue.sHighPriorityASDUQueue)
      (p : Z) (e : list Z) (l : list (list Z)) :
  linear q p (e :: l) →
  ∃ q', HighPriorityASDUQueue.getNextASDU q = Some (q', Some (hd 0 e, tail e)) ∧
        linear q' (p + entryLength e) l.
Proof.
  intros (Hcnt & Hl).
  destruct Hl as (Hp0 & Hfirst & Hlast & Hlib & Hlay & Hend); [discriminate|].
  destruct Hlay as (Hbuf & (n & bs & -> & Hn) & Hlay).
  unfold HighPriorityASDUQueue.getNextASDU.
  cbn [length] in Hcnt.
  destruct (HighPriorityASDUQueue.entryCounter q >? 0) eqn:E; [|lia].
  simpl. rewrite Hfirst. simpl. rewrite Hbuf. simpl.
  rewrite Hcnt.
  replace (Z.of_nat (S (length l)) - 1) with (Z.of_nat (length l)) by lia.
  destruct l as [|e1 l].
  - simpl. eexists. split; [reflexivity|]. split; [reflexivity|].
    intros H. contradiction.
  - assert ((Z.of_nat (length (e1 :: l)) >? 0) = true) as ->
        by (apply Z.gtb_lt; cbn [length]; lia).
    pose proof (hp_laidOut_extent_nonneg _ _ _ Hlay) as Hext.
    pose proof (hp_laidOut_removelast_nonneg _ _ _ Hlay) as Hext'.
    change (removelast ((n :: bs) :: e1 :: l))
      with ((n :: bs) :: removelast (e1 :: l)) in Hlast.
    set (rl := removelast (e1 :: l)) in *.
    rewrite hp_extent_cons in Hlast, Hend.
    unfold entryLength in Hlast at 1. unfold entryLength in Hend at 1.
    unfold entryLength at 1.
    cbn [hd] in *.
    rewrite bool_decide_eq_false_2
      by (rewrite Hlast; intros [= H]; lia).
    rewrite bool_decide_eq_false_2
      by (rewrite Hlib, Hlast; intros [= H]; lia).
    eexists. split; [reflexivity|]. split; [reflexivity|]. intros _.
    cbn -[removelast extent]. fold rl.
    split; [lia|]. split; [f_equal; lia|].
    split; [rewrite Hlast; f_equal; lia|].
    split; [exact Hlib|]. split; [exact Hlay|lia].
Qed.

(** The ASDUs of [l] take this many bytes of a high-priority queue. *)

Lemma hp_entryOf_small (a : CS101_ASDU) :
  0 <= asduHeaderLength a + payloadSize a <= 250 →
  entryOf a = (asduHeaderLength a + payloadSize a) :: asduBytes a.
Proof. intros H. unfold entryOf. rewrite Z.mod_small by lia. reflexivity. Qed.

(** ASDUs take no negative number of bytes. *)
Lemma hp_extent_entryOf_nonneg (l : list CS101_ASDU) :
  Forall (λ a, 0 <= asduHeaderLength a + payloadSize a <= 250) l →
  0 <= extent (entryOf <$> l).
Proof.
  induction 1 as [|b l Hb Hall IH]; [reflexivity|].
  rewrite fmap_cons, hp_extent_cons, (hp_entryOf_small b Hb).
  unfold entryLength. cbn [hd]. lia.
Qed.

(** [HighPriorityASDUQueue_enqueue] keeps the size of the buffer. *)
Lemma hp_enqueue_size (q q' : HighPriorityASDUQueue.sHighPriorityASDUQueue)
      (a : CS101_ASDU) (ok : bool) :
  HighPriorityASDUQueue.enqueue q a = Some (q', ok) →
  HighPriorityASDUQueue.size q' = HighPriorityASDUQueue.size q.
Proof.
  unfold HighPriorityASDUQueue.enqueue. intros H.
  destruct (_ >? _); [injection H as <- _; reflexivity|].
  apply bind_Some in H as ([q1 np] & H1 & H).
  assert (HighPriorityASDUQueue.size q1 = HighPriorityASDUQueue.size q) as E1.
  { destruct (_ =? 0); simplify_eq/=; [reflexivity|].
    apply bind_Some in H1 as (l & _ & H1).
    apply bind_Some in H1 as (m & _ & [= <- _]). reflexivity. }
  destruct (np + _ >? HighPriorityASDUQueue.size q1).
  all: apply bind_Some in H as ([q2 b] & H2 & H).
  all: assert (HighPriorityASDUQueue.size q2 = HighPriorityASDUQueue.size q)
         as E2;
    [ cbn [HighPriorityASDUQueue.entryCounter
             HighPriorityASDUQueue.set_lastInBufferEntry
             HighPriorityASDUQueue.firstEntry] in H2;
      destruct (_ >? 0);
      [ apply bind_Some in H2 as (f & _ & H2);
        destruct (_ <=? f); injection H2 as <- _; exact E1
      | injection H2 as <- _; exact E1 ]
    | destruct b; injection H as <- _; exact E2 ].
Qed.

(** Enqueueing one ASDU after the other, with room for all of them. *)
Lemma hp_enqueueAll_linear (l : list CS101_ASDU) :
  ∀ (q : HighPriorityASDUQueue.sHighPriorityASDUQueue) (l0 : list (list Z)),
    linear q 0 l0 →
    Forall (λ a, 0 <= asduHeaderLength a + payloadSize a <= 250) l →
    extent l0 + extent (entryOf <$> l) <= HighPriorityASDUQueue.size q →
    ∃ q', HighPriorityASDUQueue.enqueueAll q l
          = Some (q', replicate (length l) true) ∧
          linear q' 0 (l0 ++ (entryOf <$> l)).
Proof.
  induction l as [|a l IH]; intros q l0 Hq Hall Hfit.
  - eexists. split; [reflexivity|]. rewrite app_nil_r. exact Hq.
  - apply Forall_cons in Hall as [Ha Hall].
    rewrite fmap_cons, hp_extent_cons in Hfit.
    pose proof (hp_entryOf_small a Ha) as He.
    pose proof (hp_extent_entryOf_nonneg l Hall) as Hext.
    rewrite He in Hfit. unfold entryLength in Hfit. cbn [hd] in Hfit.
    destruct (hp_enqueue_linear q 0 l0 a Hq) as (q1 & H1 & Hq1);
      [reflexivity|exact Ha|lia|].
    destruct (IH q1 (l0 ++ [entryOf a]) Hq1 Hall) as (q2 & H2 & Hq2).
    { rewrite (hp_enqueue_size _ _ _ _ H1).
      rewrite hp_extent_app, He. unfold extent at 2, entryLength. cbn [foldr hd].
      lia. }
    exists q2. cbn [HighPriorityASDUQueue.enqueueAll].
    rewrite H1. simpl. rewrite H2. simpl. split; [reflexivity|].
    rewrite <- app_assoc in Hq2. exact Hq2.
Qed.

(** Taking out one entry after the other. *)
Lemma hp_getAll_linear (l : list (list Z)) :
  ∀ (q : HighPriorityASDUQueue.sHighPriorityASDUQueue) (p : Z),
    linear q p l →
    ∃ q', HighPriorityASDUQueue.getAll (length l) q
          = Some (q', (λ e, Some (hd 0 e, tail e)) <$> l) ∧
          HighPriorityASDUQueue.entryCounter q' = 0.
Proof.
  induction l as [|e l IH]; intros q p Hq.
  - exists q. split; [reflexivity|]. destruct Hq as [Hc _]. exact Hc.
  - destruct (hp_getNextASDU_linear q p e l Hq) as (q1 & H1 & Hq1).
    destruct (IH q1 _ Hq1) as (q2 & H2 & Hc).
    exists q2. cbn [length HighPriorityASDUQueue.getAll].
    rewrite H1. simpl. rewrite H2. simpl. split; [reflexivity|exact Hc].
Qed.
End HighPrioFifo.

(** X3: the high-priority queue is a first-in, first-out queue as long
    as its buffer has room.  After [HighPriorityASDUQueue_resetConnectionQueue],
    ASDUs of at most 250 bytes that fit the buffer together are all
    accepted by [HighPriorityASDUQueue_enqueue]; as many calls of
    [HighPriorityASDUQueue_getNextASDU] return them in the order they came
    in, each with its size and bytes; then the queue is empty: no ASDU
    is available and one more call returns [NULL]. *)
Theorem highPrioQueue_fifo
        (q : HighPriorityASDUQueue.sHighPriorityASDUQueue)
        (l : list CS101_ASDU) :
  Forall (λ a, 0 <= asduHeaderLength a + payloadSize a <= 250) l →
  HighPrioView.extent (HighPrioView.entryOf <$> l)
  <= HighPriorityASDUQueue.size q →
  ∃ q1 q2,
    HighPriorityASDUQueue.enqueueAll
      (HighPriorityASDUQueue.resetConnectionQueue q) l
    = Some (q1, replicate (length l) true) ∧
    HighPriorityASDUQueue.getAll (length l) q1
    = Some (q2, (λ a, Some (asduHeaderLength a + payloadSize a, asduBytes a))
                  <$> l) ∧
    HighPriorityASDUQueue.isAsduAvailable q2 = false ∧
    HighPriorityASDUQueue.getNextASDU q2 = Some (q2, None).
Proof.
  intros Hall Hfit.
  destruct (hp_enqueueAll_linear l (HighPriorityASDUQueue.resetConnectionQueue q) [])
    as (q1 & H1 & Hq1); [split; [reflexivity|intros H; contradiction]|exact Hall|
                         change (HighPrioView.extent []) with 0;
                         cbn [HighPriorityASDUQueue.size
                                HighPriorityASDUQueue.resetConnectionQueue];
                         lia|].
  destruct (hp_getAll_linear _ q1 0 Hq1) as (q2 & H2 & Hc).
  exists q1, q2. split; [exact H1|].
  rewrite app_nil_l, length_fmap in H2. split.
  - rewrite H2. f_equal. f_equal. rewrite <- list_fmap_compose.
    apply Forall_fmap_ext_1. eapply Forall_impl; [exact Hall|].
    intros a Ha. simpl in Ha. unfold compose.
    rewrite (hp_entryOf_small a Ha). reflexivity.
  - unfold HighPriorityASDUQueue.isAsduAvailable,
      HighPriorityASDUQueue.getNextASDU. rewrite Hc. split; reflexivity.
Qed.

(** ** The three timeouts together *)

(** The first block does not touch what T2 and T1 depend on. *)
Lemma handleTimeouts_T3_keeps_counters (params : APCIParameters.t)
      (self : sMasterConnection) (now : Z) :
  let r := MasterConnection.handleTimeouts_T3 params self now in
  receiveCount r.1 = receiveCount self ∧
  timeoutT2Triggered r.1 = timeoutT2Triggered self ∧
  unconfirmedReceivedIMessages r.1 = unconfirmedReceivedIMessages self ∧
  lastConfirmationTime r.1 = lastConfirmationTime self ∧
  sentASDUs r.1 = sentASDUs self ∧
  oldestSentASDU r.1 = oldestSentASDU self.
Proof.
  unfold MasterConnection.handleTimeouts_T3, MasterConnection.checkT3Timeout,
    MasterConnection.resetT3Timeout.
  repeat case_match; simpl;
    try (repeat split; reflexivity);
    match goal with
    | H : MasterConnection.writeToSocket ?c ?m ?n = _ |- _ =>
      rewrite (writeToSocket_state c m n) in H; inversion H; subst; simpl;
        repeat split
    end.
Qed.

(** The result of the first block: false exactly when T3 has run out
    and three test frames are without answer. *)
Lemma handleTimeouts_T3_result (params : APCIParameters.t)
      (self : sMasterConnection) (now : Z) :
  0 <= now →
  0 <= APCIParameters.t3 params →
  APCIParameters.t3 params * 1000 <= INT_MAX →
  now + APCIParameters.t3 params * 1000 < 2 ^ 64 →
  nextT3Timeout self <= now + APCIParameters.t3 params * 1000 →
  (MasterConnection.handleTimeouts_T3 params self now).2 = false
  ↔ nextT3Timeout self < now ∧ outstandingTestFRConMessages self > 2.
Proof.
  intros Hn Ht Hi Hof Hp.
  unfold MasterConnection.handleTimeouts_T3, MasterConnection.checkT3Timeout,
    MasterConnection.resetT3Timeout.
  rewrite (msOf_small _ Ht Hi).
  rewrite (Z.mod_small (now + _)) by lia.
  destruct (nextT3Timeout self >? now + _) eqn:Hg; [lia|].
  destruct (now >? nextT3Timeout self) eqn:He.
  - destruct (outstandingTestFRConMessages self >? 2) eqn:Ho.
    + simpl. split; [lia|reflexivity].
    + destruct (MasterConnection.writeToSocket _ _ _) as [c r]. simpl.
      split; [discriminate|lia].
  - simpl. split; [discriminate|lia].
Qed.

(** The third block: the flag goes to false exactly when the oldest
    I message without confirmation was sent [t1] or more before. *)
Lemma handleTimeouts_T1_result (params : APCIParameters.t)
      (self : sMasterConnection) (now : Z) (timeoutsOk : bool) :
  0 <= now < 2 ^ 64 →
  0 <= APCIParameters.t1 params →
  APCIParameters.t1 params * 1000 <= INT_MAX →
  (oldestSentASDU self ≠ -1 →
   0 <= SentASDUSlave.sentTime
          (MasterConnection.sentAt self (oldestSentASDU self))) →
  (MasterConnection.handleTimeouts_T1 params self now timeoutsOk).2 = false
  ↔ timeoutsOk = false ∨
    (oldestSentASDU self ≠ -1 ∧
     SentASDUSlave.sentTime
       (MasterConnection.sentAt self (oldestSentASDU self)) < now ∧
     now - SentASDUSlave.sentTime
             (MasterConnection.sentAt self (oldestSentASDU self))
     >= APCIParameters.t1 params * 1000).
Proof.
  intros Hn Ht Hof Hs.
  unfold MasterConnection.handleTimeouts_T1.
  rewrite (msOf_small _ Ht Hof).
  destruct (oldestSentASDU self =? -1) eqn:E; simpl.
  - apply Z.eqb_eq in E. split; [auto|]. intros [H|(H & _)]; [exact H|lia].
  - apply Z.eqb_neq in E. specialize (Hs E).
    set (st := SentASDUSlave.sentTime _) in *.
    destruct (now >? st) eqn:E1.
    + destruct (st >? now) eqn:E2; [lia|].
      fold st. rewrite (Z.mod_small (now - st)) by lia.
      destruct (now - st >=? _) eqn:E3; simpl.
      * split; [|reflexivity]. intros _. right. lia.
      * split; [auto|]. intros [H|H]; [exact H|lia].
    + simpl. split; [auto|]. intros [H|H]; [exact H|lia].
Qed.

(** X4: when [handleTimeouts] asks for the connection to be closed.  With
    a clock that has not been set back behind the stored times, it
    returns false exactly when T3 has run out with more than two test
    frames unanswered, or when the oldest I message of the k-buffer has
    been waiting for its confirmation for T1 or longer. *)
Theorem handleTimeouts_closes_iff (params : APCIParameters.t)
        (self : sMasterConnection) (now : Z) :
  0 <= now →
  0 <= APCIParameters.t3 params →
  APCIParameters.t3 params * 1000 <= INT_MAX →
  now + APCIParameters.t3 params * 1000 < 2 ^ 64 →
  0 <= APCIParameters.t1 params →
  APCIParameters.t1 params * 1000 <= INT_MAX →
  nextT3Timeout self <= now + APCIParameters.t3 params * 1000 →
  (oldestSentASDU self ≠ -1 →
   0 <= SentASDUSlave.sentTime
          (MasterConnection.sentAt self (oldestSentASDU self))) →
  (MasterConnection.handleTimeouts params self now).2 = false
  ↔ (nextT3Timeout self < now ∧ outstandingTestFRConMessages self > 2) ∨
    (oldestSentASDU self ≠ -1 ∧
     SentASDUSlave.sentTime
       (MasterConnection.sentAt self (oldestSentASDU self)) < now ∧
     now - SentASDUSlave.sentTime
             (MasterConnection.sentAt self (oldestSentASDU self))
     >= APCIParameters.t1 params * 1000).
Proof.
  intros Hn Ht3 Hi3 Hof3 Ht1 Hof1 Hp Hs.
  unfold MasterConnection.handleTimeouts.
  pose proof (handleTimeouts_T3_result params self now Hn Ht3 Hi3 Hof3 Hp) as H3.
  destruct (handleTimeouts_T3_keeps_counters params self now)
    as (_ & _ & _ & _ & Hsent3 & Hold3).
  destruct (MasterConnection.handleTimeouts_T3 params self now) as [c1 ok1].
  simpl in H3, Hsent3, Hold3.
  destruct (handleTimeouts_T2_keeps params c1 now)
    as (_ & _ & Hsent2 & Hold2 & _).
  set (c2 := MasterConnection.handleTimeouts_T2 params c1 now) in *.
  assert (MasterConnection.sentAt c2 (oldestSentASDU c2)
          = MasterConnection.sentAt self (oldestSentASDU self)) as Hat.
  { unfold MasterConnection.sentAt.
    rewrite Hsent2, Hold2, Hsent3, Hold3. reflexivity. }
  rewrite (handleTimeouts_T1_result params c2 now ok1); try lia.
  - rewrite Hat, Hold2, Hold3, H3. reflexivity.
  - rewrite Hat, Hold2, Hold3. exact Hs.
Qed.





(** ** Reading a frame from the socket *)

(** [memcpy] into a buffer that is long enough. *)
Lemma storeBytes_length (buffer : list Z) (pos : Z) (bs : list Z) :
  (Z.to_nat pos + length bs <= length buffer)%nat →
  length (MasterConnection.storeBytes buffer pos bs) = length buffer.
Proof.
  intros H. unfold MasterConnection.storeBytes.
  rewrite !length_app, length_take, length_drop. lia.
Qed.

(** The bytes up to the end of what was copied. *)
Lemma storeBytes_take (buffer : list Z) (pos : Z) (bs : list Z) :
  (Z.to_nat pos <= length buffer)%nat →
  take (Z.to_nat pos + length bs) (MasterConnection.storeBytes buffer pos bs)
  = take (Z.to_nat pos) buffer ++ bs.
Proof.
  intros H. unfold MasterConnection.storeBytes.
  rewrite app_assoc.
  rewrite take_app_length'; [reflexivity|].
  rewrite length_app, length_take. lia.
Qed.

(** The bytes before the place copied to stay. *)
Lemma storeBytes_take_below (buffer : list Z) (pos : Z) (bs : list Z) (n : nat) :
  (n <= Z.to_nat pos <= length buffer)%nat →
  take n (MasterConnection.storeBytes buffer pos bs) = take n buffer.
Proof.
  intros H. unfold MasterConnection.storeBytes.
  rewrite take_app_le by (rewrite length_take; lia).
  rewrite take_take. f_equal. lia.
Qed.

(** A byte of a prefix of the buffer. *)
Lemma byteAt_take (buffer : list Z) (n : nat) (i : Z) :
  0 <= i < Z.of_nat n →
  MasterConnection.byteAt (take n buffer) i = MasterConnection.byteAt buffer i.
Proof.
  intros H. unfold MasterConnection.byteAt.
  destruct (i <? 0) eqn:E; [lia|].
  rewrite !nth_lookup. rewrite lookup_take_lt by lia. reflexivity.
Qed.

(** [readFromSocket] on a socket without read error takes the first
    [size] of the pending bytes. *)
Lemma readFromSocket_reads (self : sMasterConnection) (pos size : Z) :
  readError (socket self) = false →
  MasterConnection.readFromSocket self pos size
  = (set_recvBuffer
       (MasterConnection.storeBytes (recvBuffer self) pos
          (take (Z.to_nat size) (pending (socket self))))
       (set_socket (mkSocket (drop (Z.to_nat size) (pending (socket self)))
                             false (written (socket self))
                             (writeResults (socket self))) self),
     Z.of_nat (length (take (Z.to_nat size) (pending (socket self))))).
Proof.
  intros H. unfold MasterConnection.readFromSocket, Socket_read.
  rewrite H. reflexivity.
Qed.

(** The state after the start byte and the length byte have been
    read. *)
Lemma receiveMessage_header (self : sMasterConnection) (len : Z) (bs : list Z) :
  recvBufPos self = 0 →
  readError (socket self) = false →
  (2 <= length (recvBuffer self))%nat →
  pending (socket self) = 0x68 :: len :: bs →
  ∃ c2,
    MasterConnection.receiveMessage self
    = (let '(self, readCnt) := MasterConnection.readFromSocket c2 2 len in
       if readCnt =? len then (set_recvBufPos 0 self, len + 2)
       else if readCnt =? -1 then (set_recvBufPos 0 self, -1)
       else (set_recvBufPos (2 + readCnt) self, 0)) ∧
    readError (socket c2) = false ∧ pending (socket c2) = bs ∧
    take 2 (recvBuffer c2) = [0x68; len] ∧
    length (recvBuffer c2) = length (recvBuffer self) ∧
    written (socket c2) = written (socket self).
Proof.
  intros Hpos Herr Hlen Hpend.
  unfold MasterConnection.receiveMessage. rewrite Hpos.
  change (0 =? 0) with true. cbv iota.
  rewrite (readFromSocket_reads self 0 1 Herr), Hpend.
  change (take (Z.to_nat 1) (104 :: len :: bs)) with [104].
  change (drop (Z.to_nat 1) (104 :: len :: bs)) with (len :: bs).
  change (Z.of_nat (length [104]) <? 1) with false. cbv iota.
  set (c1 := set_recvBuffer _ _).
  assert (take 1 (recvBuffer c1) = [104]) as Ht1.
  { subst c1. simpl recvBuffer.
    exact (storeBytes_take (recvBuffer self) 0 [104] ltac:(simpl; lia)). }
  assert (length (recvBuffer c1) = length (recvBuffer self)) as Hl1.
  { subst c1. simpl recvBuffer. apply storeBytes_length. simpl. lia. }
  assert (MasterConnection.byteAt (recvBuffer c1) 0 = 104) as Hb0.
  { rewrite <- (byteAt_take _ 1) by lia. rewrite Ht1. reflexivity. }
  rewrite Hb0. change (negb (104 =? 104)) with false. cbv iota.
  change (0 + 1 =? 1) with true. cbv iota.
  rewrite (readFromSocket_reads c1 1 1 eq_refl).
  change (pending (socket c1)) with (len :: bs).
  change (take (Z.to_nat 1) (len :: bs)) with [len].
  change (drop (Z.to_nat 1) (len :: bs)) with bs.
  change (negb (Z.of_nat (length [len]) =? 1)) with false. cbv iota.
  change (0 + 1 + 1 >? 1) with true. cbv iota.
  set (c2 := set_recvBuffer _ _).
  assert (take 2 (recvBuffer c2) = [104; len]) as Ht2.
  { change (recvBuffer c2)
      with (MasterConnection.storeBytes (recvBuffer c1) 1 [len]).
    pose proof (storeBytes_take (recvBuffer c1) 1 [len] ltac:(simpl; lia))
      as Hx.
    change (Z.to_nat 1 + length [len])%nat with 2%nat in Hx.
    change (Z.to_nat 1) with 1%nat in Hx. rewrite Ht1 in Hx. exact Hx. }
  assert (MasterConnection.byteAt (recvBuffer c2) 1 = len) as Hb1.
  { rewrite <- (byteAt_take _ 2) by lia. rewrite Ht2. reflexivity. }
  exists c2. rewrite Hb1.
  replace (len - (0 + 1 + 1) + 2) with len by lia.
  change (0 + 1 + 1) with 2.
  split; [reflexivity|]. split; [reflexivity|]. split; [reflexivity|].
  split; [exact Ht2|]. split; [|reflexivity].
  change (recvBuffer c2)
    with (MasterConnection.storeBytes (recvBuffer c1) 1 [len]).
  rewrite storeBytes_length
    by (change (Z.to_nat 1 + length [len])%nat with 2%nat; lia).
  exact Hl1.
Qed.

(** X6: a frame that has arrived completely is read by one call of
    [receiveMessage]: the call returns the size of the frame, the
    receive buffer starts with the frame, [recvBufPos] is 0 for the next
    frame, and the bytes behind the frame stay on the socket. *)
Theorem receiveMessage_complete_frame
        (self : sMasterConnection) (body rest : list Z) :
  let len := Z.of_nat (length body) in
  recvBufPos self = 0 →
  readError (socket self) = false →
  len + 2 <= Z.of_nat (length (recvBuffer self)) →
  pending (socket self) = 0x68 :: len :: body ++ rest →
  let r := MasterConnection.receiveMessage self in
  r.2 = len + 2 ∧
  take (Z.to_nat (len + 2)) (recvBuffer r.1) = 0x68 :: len :: body ∧
  recvBufPos r.1 = 0 ∧
  pending (socket r.1) = rest ∧
  written (socket r.1) = written (socket self).
Proof.
  intros len Hpos Herr Hlen Hpend r. subst r.
  destruct (receiveMessage_header self len (body ++ rest) Hpos Herr
              ltac:(lia) Hpend) as (c2 & -> & Herr2 & Hp2 & Ht2 & Hl2 & Hw2).
  rewrite (readFromSocket_reads c2 2 len Herr2), Hp2.
  assert (Z.to_nat len = length body) as Hn by lia.
  rewrite Hn, take_app_length, drop_app_length.
  fold len. rewrite Z.eqb_refl. simpl.
  split; [reflexivity|]. split; [|split; [reflexivity|]].
  - replace (Z.to_nat (len + 2)) with (Z.to_nat 2 + length body)%nat by lia.
    rewrite storeBytes_take by lia.
    change (Z.to_nat 2) with 2%nat. rewrite Ht2. reflexivity.
  - split; [reflexivity|exact Hw2].
Qed.

(** The third stage of [receiveMessage] when the rest of the frame has
    arrived. *)
Lemma receiveMessage_rest (c : sMasterConnection) (len : Z) (b rest : list Z) :
  recvBufPos c >= 2 →
  readError (socket c) = false →
  MasterConnection.byteAt (recvBuffer c) 1 = len →
  pending (socket c) = b ++ rest →
  Z.of_nat (length b) = len - recvBufPos c + 2 →
  MasterConnection.receiveMessage c
  = (set_recvBufPos 0
       (set_recvBuffer
          (MasterConnection.storeBytes (recvBuffer c) (recvBufPos c) b)
          (set_socket (mkSocket rest false (written (socket c))
                                (writeResults (socket c))) c)),
     len + 2).
Proof.
  intros Hpos Herr Hb1 Hpend Hlen.
  unfold MasterConnection.receiveMessage.
  destruct (recvBufPos c =? 0) eqn:E3; [lia|].
  destruct (recvBufPos c =? 1) eqn:E4; [lia|].
  destruct (recvBufPos c >? 1) eqn:E5; [|lia].
  rewrite Hb1, (readFromSocket_reads c _ _ Herr), Hpend.
  replace (Z.to_nat (len - recvBufPos c + 2)) with (length b) by lia.
  rewrite take_app_length, drop_app_length, Hlen, Z.eqb_refl. reflexivity.
Qed.

(** X7: a frame that arrives in two pieces, the first of them with the
    start byte, the length byte and some (or none) of the rest: the
    first call of [receiveMessage] returns 0 and keeps the place in
    [recvBufPos]; the call after the second piece has arrived returns
    the size of the frame with the whole frame in the receive buffer. *)
Theorem receiveMessage_resumes
        (self : sMasterConnection) (a b rest : list Z) :
  let len := Z.of_nat (length (a ++ b)) in
  recvBufPos self = 0 →
  readError (socket self) = false →
  len + 2 <= Z.of_nat (length (recvBuffer self)) →
  pending (socket self) = 0x68 :: len :: a →
  b ≠ [] →
  let r1 := MasterConnection.receiveMessage self in
  let r2 := MasterConnection.receiveMessage (bytesArrive (b ++ rest) r1.1) in
  r1.2 = 0 ∧
  recvBufPos r1.1 = 2 + Z.of_nat (length a) ∧
  r2.2 = len + 2 ∧
  take (Z.to_nat (len + 2)) (recvBuffer r2.1) = 0x68 :: len :: a ++ b ∧
  recvBufPos r2.1 = 0 ∧
  pending (socket r2.1) = rest.
Proof.
  intros len Hpos Herr Hlen Hpend Hb r1 r2.
  assert (0 < length b)%nat as Hbl by (destruct b; [done|simpl; lia]).
  assert (len = Z.of_nat (length a) + Z.of_nat (length b)) as Hlen2
    by (subst len; rewrite length_app; lia).
  destruct (receiveMessage_header self len a Hpos Herr ltac:(lia) Hpend)
    as (c2 & Hr1 & Herr2 & Hp2 & Ht2 & Hl2 & Hw2).
  rewrite (readFromSocket_reads c2 2 len Herr2), Hp2 in Hr1.
  rewrite take_ge, drop_ge in Hr1 by lia.
  destruct (Z.of_nat (length a) =? len) eqn:E1; [lia|].
  destruct (Z.of_nat (length a) =? -1) eqn:E2; [lia|].
  set (c3 := set_recvBufPos _ _) in Hr1.
  assert (r1 = (c3, 0)) as Hr1' by exact Hr1.
  assert (take (2 + length a) (recvBuffer c3) = 0x68 :: len :: a) as Ht3.
  { change (recvBuffer c3)
      with (MasterConnection.storeBytes (recvBuffer c2) 2 a).
    change 2%nat with (Z.to_nat 2) at 1.
    rewrite storeBytes_take by lia.
    change (Z.to_nat 2) with 2%nat. rewrite Ht2. reflexivity. }
  assert (length (recvBuffer c3) = length (recvBuffer self)) as Hl3.
  { change (recvBuffer c3)
      with (MasterConnection.storeBytes (recvBuffer c2) 2 a).
    rewrite storeBytes_length by lia. exact Hl2. }
  assert (recvBufPos c3 = 2 + Z.of_nat (length a)) as Hpos3 by reflexivity.
  assert (pending (socket c3) = []) as Hp3 by reflexivity.
  assert (readError (socket c3) = false) as Herr3 by reflexivity.
  clearbody c3.
  subst r2. rewrite Hr1'. cbn [fst snd].
  split; [reflexivity|]. split; [exact Hpos3|].
  assert (MasterConnection.byteAt (recvBuffer c3) 1 = len) as Hb1.
  { rewrite <- (byteAt_take _ (2 + length a)) by lia. rewrite Ht3. reflexivity. }
  rewrite (receiveMessage_rest (bytesArrive (b ++ rest) c3) len b rest).
  - cbn [fst snd]. split; [reflexivity|]. split; [|split; reflexivity].
    change (recvBuffer (set_recvBufPos 0 (set_recvBuffer ?x _))) with x.
    cbn [recvBuffer set_recvBufPos set_recvBuffer].
    change (recvBuffer (bytesArrive (b ++ rest) c3)) with (recvBuffer c3).
    change (recvBufPos (bytesArrive (b ++ rest) c3)) with (recvBufPos c3).
    rewrite Hpos3.
    replace (Z.to_nat (len + 2))
      with (Z.to_nat (2 + Z.of_nat (length a)) + length b)%nat by lia.
    rewrite storeBytes_take by lia.
    replace (Z.to_nat (2 + Z.of_nat (length a))) with (2 + length a)%nat by lia.
    rewrite Ht3. simpl. reflexivity.
  - change (recvBufPos (bytesArrive (b ++ rest) c3)) with (recvBufPos c3). lia.
  - exact Herr3.
  - exact Hb1.
  - change (pending (socket (bytesArrive (b ++ rest) c3)))
      with (pending (socket c3) ++ b ++ rest).
    rewrite Hp3. reflexivity.
  - change (recvBufPos (bytesArrive (b ++ rest) c3)) with (recvBufPos c3). lia.
Qed.

(** ** What [handleMessage] does with a frame *)

(** The acknowledgement keeps the counters and [isActive]. *)
Lemma confirmReceivedIMessages_counters (params : APCIParameters.t)
      (self : sMasterConnection) (now : Z) :
  let self' := CS104_Slave.confirmReceivedIMessages params self now in
  receiveCount self' = receiveCount self ∧
  sendCount self' = sendCount self ∧
  isActive self' = isActive self.
Proof.
  unfold CS104_Slave.confirmReceivedIMessages.
  destruct (_ >=? _); [|repeat split].
  unfold MasterConnection.sendSMessage.
  match goal with |- context [MasterConnection.writeToSocket ?c ?m ?n] =>
    rewrite (writeToSocket_state c m n);
    destruct (MasterConnection.writeToSocket c m n) as [c' r]
  end.
  simpl. destruct (r <? 0); simpl; repeat split.
Qed.

(** A frame that is too short, does not start with 68, carries the wrong
    length, or is an I message that is too short or out of sequence:
    [handleMessage] returns false. *)
Lemma handleMessage_malformed
      (createFromBuffer : list Z → option CS101_ASDU)
      (handleASDU : CS104_Slave.sCS104_Slave → nat → CS101_ASDU
                    → CS104_Slave.sCS104_Slave * bool)
      (self : CS104_Slave.sCS104_Slave) (i : nat) (c : sMasterConnection)
      (buffer : list Z) (msgSize currentTime : Z) :
  CS104_Slave.masterConnections self !! i = Some c →
  msgSize < 3
  ∨ MasterConnection.byteAt buffer 0 ≠ 0x68
  ∨ MasterConnection.byteAt buffer 1 ≠ msgSize - 2
  ∨ (Z.land (MasterConnection.byteAt buffer 2) 1 = 0
     ∧ (msgSize < 7
        ∨ (MasterConnection.byteAt buffer 3 * 0x100
           + Z.land (MasterConnection.byteAt buffer 2) 0xfe) / 2
          ≠ receiveCount c)) →
  ∃ c1,
    CS104_Slave.handleMessage createFromBuffer handleASDU self i buffer
                              msgSize currentTime
    = Some (CS104_Slave.setConnection i c1 self, false) ∧
    receiveCount c1 = receiveCount c ∧ sendCount c1 = sendCount c ∧
    isActive c1 = isActive c ∧ socket c1 = socket c ∧
    unconfirmedReceivedIMessages c1 = unconfirmedReceivedIMessages c.
Proof.
  intros Hc Hbad. unfold CS104_Slave.handleMessage.
  pose proof (setConnection_same self i c Hc) as Hsame.
  assert (∃ c1, Some (self, false)
                = Some (CS104_Slave.setConnection i c1 self, false) ∧
                receiveCount c1 = receiveCount c ∧ sendCount c1 = sendCount c ∧
                isActive c1 = isActive c ∧ socket c1 = socket c ∧
                unconfirmedReceivedIMessages c1
                = unconfirmedReceivedIMessages c) as Hdone
    by (exists c; rewrite Hsame; repeat split).
  destruct (msgSize >=? 3) eqn:E3; [|exact Hdone].
  destruct (MasterConnection.byteAt buffer 0 =? 104) eqn:E0; [|exact Hdone].
  destruct (MasterConnection.byteAt buffer 1 =? msgSize - 2) eqn:E1;
    [|exact Hdone].
  cbn [negb]. cbv iota.
  destruct Hbad as [H|[H|[H|[H2 H]]]]; [lia|lia|lia|].
  rewrite H2. change (0 =? 0) with true. cbv iota.
  destruct (msgSize <? 7) eqn:E7; [exact Hdone|].
  destruct H as [H|H]; [lia|].
  rewrite Hc. cbn [mbind option_bind]. cbv zeta.
  set (c1 := if negb (timeoutT2Triggered c) then _ else c).
  assert (receiveCount c1 = receiveCount c) as Hr
    by (subst c1; destruct (negb _); reflexivity).
  rewrite Hr.
  destruct (_ =? receiveCount c) eqn:Ens; [lia|].
  cbn [negb mbind option_bind]. exists c1.
  split; [reflexivity|]. subst c1. destruct (negb _); repeat split.
Qed.

(** X8: a malformed frame closes the connection.  For a frame of less than
    3 bytes, without the start byte 68, with a length byte other than
    the size less 2, or an I message of less than 7 bytes or with a
    send sequence number other than the receive counter, the caller of
    [handleMessage] clears [isRunning]; the counters and [isActive]
    stay, and nothing but this connection object changes. *)
Theorem processMessage_closes_on_malformed_frame
      (createFromBuffer : list Z → option CS101_ASDU)
      (handleASDU : CS104_Slave.sCS104_Slave → nat → CS101_ASDU
                    → CS104_Slave.sCS104_Slave * bool)
      (self : CS104_Slave.sCS104_Slave) (i : nat) (c : sMasterConnection)
      (bytesRec currentTime now : Z) :
  CS104_Slave.masterConnections self !! i = Some c →
  bytesRec < 3
  ∨ MasterConnection.byteAt (recvBuffer c) 0 ≠ 0x68
  ∨ MasterConnection.byteAt (recvBuffer c) 1 ≠ bytesRec - 2
  ∨ (Z.land (MasterConnection.byteAt (recvBuffer c) 2) 1 = 0
     ∧ (bytesRec < 7
        ∨ (MasterConnection.byteAt (recvBuffer c) 3 * 0x100
           + Z.land (MasterConnection.byteAt (recvBuffer c) 2) 0xfe) / 2
          ≠ receiveCount c)) →
  ∃ c',
    CS104_Slave.processMessage createFromBuffer handleASDU self i
                               bytesRec currentTime now
    = Some (CS104_Slave.setConnection i c' self) ∧
    isRunning c' = false ∧
    receiveCount c' = receiveCount c ∧ sendCount c' = sendCount c ∧
    isActive c' = isActive c.
Proof.
  intros Hc Hbad.
  assert (i < length (CS104_Slave.masterConnections self))%nat as Hlt
    by (eapply lookup_lt_Some; exact Hc).
  destruct (handleMessage_malformed createFromBuffer handleASDU self i c
              (recvBuffer c) bytesRec currentTime Hc Hbad) as (c1 & Hmsg & Hr & Hs & Ha & _).
  unfold CS104_Slave.processMessage. rewrite Hc. cbn [mbind option_bind].
  rewrite Hmsg. cbn [mbind option_bind negb].
  unfold CS104_Slave.onConnection. simpl.
  rewrite list_lookup_insert_eq by exact Hlt. simpl.
  rewrite list_lookup_insert_eq by (rewrite length_insert; exact Hlt). simpl.
  eexists. split.
  { unfold CS104_Slave.setConnection, CS104_Slave.set_masterConnections. simpl.
    rewrite !list_insert_insert_eq. reflexivity. }
  split; [apply confirmReceivedIMessages_not_running; reflexivity|].
  match goal with |- context [CS104_Slave.confirmReceivedIMessages ?p ?x ?n] =>
    destruct (confirmReceivedIMessages_counters p x n) as (-> & -> & ->)
  end.
  simpl. auto.
Qed.

(** X9: STARTDT_ACT.  [handleMessage] makes the connection the active one
    of its scope (every other connection object of the scope is not
    active afterwards, the rest of the table is as before), empties the
    high-priority queue of the connection, answers STARTDT_CON and
    restarts T3; it returns false only when the answer could not be
    written. *)
Theorem handleMessage_STARTDT
      (createFromBuffer : list Z → option CS101_ASDU)
      (handleASDU : CS104_Slave.sCS104_Slave → nat → CS101_ASDU
                    → CS104_Slave.sCS104_Slave * bool)
      (self : CS104_Slave.sCS104_Slave) (i : nat) (c : sMasterConnection)
      (h : HighPriorityASDUQueue.sHighPriorityASDUQueue)
      (buffer : list Z) (msgSize currentTime : Z) :
  CS104_Slave.masterConnections self !! i = Some c →
  CS104_Slave.highPrioQueues self !! highPrioQueue c = Some h →
  msgSize >= 3 →
  MasterConnection.byteAt buffer 0 = 0x68 →
  MasterConnection.byteAt buffer 1 = msgSize - 2 →
  MasterConnection.byteAt buffer 2 = 0x07 →
  let r := (Socket_write (socket c) STARTDT_CON_MSG).2 in
  ∃ self' c',
    CS104_Slave.handleMessage createFromBuffer handleASDU self i buffer
                              msgSize currentTime
    = Some (self', negb (r <? 0)) ∧
    CS104_Slave.masterConnections self' !! i = Some c' ∧
    isActive c' = true ∧
    written (socket c') = written (socket c) ++ [STARTDT_CON_MSG] ∧
    (r >= 0 →
     nextT3Timeout c'
     = (currentTime + MasterConnection.msOf
                        (APCIParameters.t3 (CS104_Slave.conParameters self)))
       mod 2 ^ 64) ∧
    CS104_Slave.highPrioQueues self' !! highPrioQueue c
    = Some (HighPriorityASDUQueue.resetConnectionQueue h) ∧
    ∀ j cj, j ≠ i → CS104_Slave.masterConnections self !! j = Some cj →
            CS104_Slave.masterConnections self' !! j
            = Some (if decide (Activation.sameScope
                                 (CS104_Slave.serverMode self) cj c)
                    then set_isActive false cj else cj).
Proof.
  intros Hc Hh Hsz H0 H1 H2 r.
  destruct (activate_spec self i c Hc) as (s1 & Hact & Hmode & Hlen & Hi & Hj).
  assert (i < length (CS104_Slave.masterConnections s1))%nat as Hlt
    by (eapply lookup_lt_Some; exact Hi).
  assert (CS104_Slave.highPrioQueues s1 = CS104_Slave.highPrioQueues self
          ∧ CS104_Slave.conParameters s1 = CS104_Slave.conParameters self)
    as [Hhq Hpar].
  { clear -Hact. unfold CS104_Slave.activate in Hact.
    apply bind_Some in Hact as (t & _ & Hact).
    apply bind_Some in Hact as (t' & _ & [= <-]).
    repeat case_bool_decide; split; reflexivity. }
  unfold CS104_Slave.handleMessage.
  destruct (msgSize >=? 3) eqn:E; [|lia].
  rewrite H0, H1, H2. simpl negb. rewrite Z.eqb_refl. simpl negb.
  cbn [Z.land Pos.land Z.eqb Pos.eqb negb andb].
  change (Z.land 7 1 =? 0) with false.
  change (Z.land 7 67 =? 67) with false.
  change (Z.land 7 7 =? 7) with true.
  cbv iota. rewrite Hact. cbn [mbind option_bind]. rewrite Hi.
  cbn [mbind option_bind]. 
  change (highPrioQueue (set_isActive true c)) with (highPrioQueue c).
  rewrite Hhq, Hh. cbn [mbind option_bind].
  rewrite (writeToSocket_state (set_isActive true c) STARTDT_CON_MSG 6).
  pose proof (writeToSocket_written (set_isActive true c) STARTDT_CON_MSG 6)
    as Hw.
  assert ((MasterConnection.writeToSocket (set_isActive true c)
                                          STARTDT_CON_MSG 6).2 = r) as Hr.
  { unfold MasterConnection.writeToSocket. simpl.
    subst r. destruct (Socket_write _ _). reflexivity. }
  destruct (MasterConnection.writeToSocket (set_isActive true c)
                                           STARTDT_CON_MSG 6) as [c1 r1].
  simpl in Hw, Hr. subst r1. cbn [fst snd].
  destruct (r <? 0) eqn:Er; cbn [mbind option_bind negb].
  - eexists _, _. split; [reflexivity|]. simpl.
    rewrite list_lookup_insert_eq by exact Hlt.
    split; [reflexivity|]. split; [reflexivity|]. split; [exact Hw|].
    split; [lia|]. split.
    + rewrite list_lookup_insert_eq; [reflexivity|].
      eapply lookup_lt_Some; exact Hh.
    + intros j cj Hne Hcj. rewrite list_lookup_insert_ne by congruence.
      exact (Hj j cj Hne Hcj).
  - unfold CS104_Slave.onConnection. simpl.
    rewrite list_lookup_insert_eq by exact Hlt. simpl.
    eexists _, _. split; [reflexivity|]. simpl.
    rewrite list_lookup_insert_eq by (rewrite length_insert; exact Hlt).
    split; [reflexivity|]. split; [reflexivity|]. split; [exact Hw|].
    split; [intros _; rewrite Hpar; reflexivity|]. split.
    + rewrite list_lookup_insert_eq; [reflexivity|].
      eapply lookup_lt_Some; exact Hh.
    + intros j cj Hne Hcj. rewrite !list_lookup_insert_ne by congruence.
      exact (Hj j cj Hne Hcj).
Qed.

(** X10: the other U frames act on the connection alone.  For TESTFR_ACT
    [handleMessage] answers TESTFR_CON; for STOPDT_ACT it clears
    [isActive] and answers STOPDT_CON; in both cases it restarts T3 and
    returns true unless the answer could not be written.  For TESTFR_CON
    it clears the count of unanswered test frames and restarts T3.  The
    queues and the other connection objects stay as they are. *)
Theorem handleMessage_U_frames
      (createFromBuffer : list Z → option CS101_ASDU)
      (handleASDU : CS104_Slave.sCS104_Slave → nat → CS101_ASDU
                    → CS104_Slave.sCS104_Slave * bool)
      (self : CS104_Slave.sCS104_Slave) (i : nat) (c : sMasterConnection)
      (buffer : list Z) (msgSize currentTime : Z) :
  CS104_Slave.masterConnections self !! i = Some c →
  msgSize >= 3 →
  MasterConnection.byteAt buffer 0 = 0x68 →
  MasterConnection.byteAt buffer 1 = msgSize - 2 →
  (MasterConnection.byteAt buffer 2 = 0x43
   ∨ MasterConnection.byteAt buffer 2 = 0x13 →
   let stop := MasterConnection.byteAt buffer 2 =? 0x13 in
   let msg := if stop then STOPDT_CON_MSG else TESTFR_CON_MSG in
   let '(sock, r) := Socket_write (socket c) msg in
   let c1 := set_socket sock (if stop then set_isActive false c else c) in
   CS104_Slave.handleMessage createFromBuffer handleASDU self i buffer
                             msgSize currentTime
   = Some (CS104_Slave.setConnection i
             (if r <? 0 then c1
              else MasterConnection.resetT3Timeout
                     (CS104_Slave.conParameters self) c1 currentTime) self,
           negb (r <? 0))) ∧
  (MasterConnection.byteAt buffer 2 = 0x83 →
   CS104_Slave.handleMessage createFromBuffer handleASDU self i buffer
                             msgSize currentTime
   = Some (CS104_Slave.setConnection i
             (MasterConnection.resetT3Timeout (CS104_Slave.conParameters self)
                (set_outstandingTestFRConMessages 0 c) currentTime) self,
           true)).
Proof.
  intros Hc Hsz H0 H1.
  assert (i < length (CS104_Slave.masterConnections self))%nat as Hlt
    by (eapply lookup_lt_Some; exact Hc).
  unfold CS104_Slave.handleMessage.
  destruct (msgSize >=? 3) eqn:E; [|lia].
  rewrite H0, H1. simpl negb. rewrite Z.eqb_refl. simpl negb. cbv iota.
  split; [intros [H2|H2]|intros H2]; rewrite H2; cbv zeta.
  - change (Z.land 67 1 =? 0) with false.
    change (Z.land 67 67 =? 67) with true.
    change (67 =? 19) with false. cbv iota.
    rewrite Hc. cbn [mbind option_bind].
    unfold MasterConnection.writeToSocket.
    change (take (Z.to_nat 6) TESTFR_CON_MSG) with TESTFR_CON_MSG.
    destruct (Socket_write (socket c) TESTFR_CON_MSG) as [sock r].
    destruct (r <? 0) eqn:Er; cbn [mbind option_bind negb]; [reflexivity|].
    unfold CS104_Slave.onConnection. simpl.
    rewrite list_lookup_insert_eq by exact Hlt.
    unfold CS104_Slave.setConnection. simpl.
    rewrite list_insert_insert_eq. reflexivity.
  - change (Z.land 19 1 =? 0) with false.
    change (Z.land 19 67 =? 67) with false.
    change (Z.land 19 7 =? 7) with false.
    change (Z.land 19 19 =? 19) with true.
    change (19 =? 19) with true. cbv iota.
    rewrite Hc. cbn [mbind option_bind].
    unfold MasterConnection.writeToSocket, MasterConnection.deactivate.
    change (take (Z.to_nat 6) STOPDT_CON_MSG) with STOPDT_CON_MSG.
    change (socket (set_isActive false c)) with (socket c).
    destruct (Socket_write (socket c) STOPDT_CON_MSG) as [sock r].
    destruct (r <? 0) eqn:Er; cbn [mbind option_bind negb]; [reflexivity|].
    unfold CS104_Slave.onConnection. simpl.
    rewrite list_lookup_insert_eq by exact Hlt.
    unfold CS104_Slave.setConnection. simpl.
    rewrite list_insert_insert_eq. reflexivity.
  - change (Z.land 131 1 =? 0) with false.
    change (Z.land 131 67 =? 67) with false.
    change (Z.land 131 7 =? 7) with false.
    change (Z.land 131 19 =? 19) with false.
    change (Z.land 131 131 =? 131) with true. cbv iota.
    unfold CS104_Slave.onConnection. rewrite Hc. simpl.
    rewrite list_lookup_insert_eq by exact Hlt.
    unfold CS104_Slave.setConnection. simpl.
    rewrite list_insert_insert_eq. reflexivity.
Qed.

(** [checkSequenceNumber] changes nothing of the connection object but
    [oldestSentASDU]. *)
Lemma confirmLoop_connection {Queue : Type} (mark : Queue → Z → Z → Queue)
      (fuel : nat) :
  ∀ seqNo ov ovf (c : sMasterConnection) (q : Queue) c' q',
    MasterConnection.confirmLoop mark fuel seqNo ov ovf c q = Some (c', q') →
    c' = set_oldestSentASDU (oldestSentASDU c') c.
Proof.
  induction fuel as [|fuel IH]; intros seqNo ov ovf c q c' q' H;
    [discriminate|].
  simpl in H.
  repeat (case_match; simplify_eq/=); try (destruct c; reflexivity);
    try (destruct c'; reflexivity).
  all: match goal with
       | Hx : MasterConnection.confirmLoop _ _ _ _ _ _ _ = Some _ |- _ =>
         apply IH in Hx; rewrite Hx
       end; destruct c; reflexivity.
Qed.

(** The same for [checkSequenceNumber], of the connection and of the
    slave. *)
Lemma checkSequenceNumber_connection {Queue : Type}
      (mark : Queue → Z → Z → Queue)
      (c : sMasterConnection) (q : Queue) (seqNo : Z) c' q' valid :
  MasterConnection.checkSequenceNumber mark c q seqNo = Some (c', q', valid) →
  c' = set_oldestSentASDU (oldestSentASDU c') c.
Proof.
  unfold MasterConnection.checkSequenceNumber. intros H.
  destruct (MasterConnection.seqNoCheck c seqNo) as [[v ovf] ov].
  destruct v; [destruct (negb _)|]; simplify_eq/=;
    try (destruct c'; reflexivity).
  apply bind_Some in H as ([c2 q2] & Hl & [= <- <- <-]).
  eapply confirmLoop_connection; exact Hl.
Qed.

Lemma slave_checkSequenceNumber_connection
      (s s' : CS104_Slave.sCS104_Slave) (i : nat) (c : sMasterConnection)
      (seqNo : Z) (valid : bool) :
  CS104_Slave.masterConnections s !! i = Some c →
  CS104_Slave.checkSequenceNumber s i seqNo = Some (s', valid) →
  ∃ c', CS104_Slave.masterConnections s' !! i = Some c'
        ∧ c' = set_oldestSentASDU (oldestSentASDU c') c
        ∧ CS104_Slave.conParameters s' = CS104_Slave.conParameters s.
Proof.
  unfold CS104_Slave.checkSequenceNumber. intros Hc H.
  rewrite Hc in H. simpl in H.
  apply bind_Some in H as (q & Hq & H).
  apply bind_Some in H as ([[c' q'] v] & Hchk & [= <- <-]).
  exists c'. simpl. split; [|split; [|reflexivity]].
  - apply list_lookup_insert_eq. eapply lookup_lt_Some; exact Hc.
  - eapply checkSequenceNumber_connection; exact Hchk.
Qed.

(** X11: on a connection that is not active [handleMessage] never hands
    an ASDU to the application: whatever the frame, its result does not
    depend on the ASDU decoder and the handlers. *)
Theorem handleMessage_inactive_any_handlers
      (createFromBuffer : list Z → option CS101_ASDU)
      (handleASDU : CS104_Slave.sCS104_Slave → nat → CS101_ASDU
                    → CS104_Slave.sCS104_Slave * bool)
      (createFromBuffer' : list Z → option CS101_ASDU)
      (handleASDU' : CS104_Slave.sCS104_Slave → nat → CS101_ASDU
                     → CS104_Slave.sCS104_Slave * bool)
      (self : CS104_Slave.sCS104_Slave) (i : nat) (c : sMasterConnection)
      (buffer : list Z) (msgSize currentTime : Z) :
  CS104_Slave.masterConnections self !! i = Some c →
  isActive c = false →
  CS104_Slave.handleMessage createFromBuffer handleASDU self i buffer
                            msgSize currentTime
  = CS104_Slave.handleMessage createFromBuffer' handleASDU'
      self i buffer msgSize currentTime.
Proof.
  intros Hc Hina. unfold CS104_Slave.handleMessage.
  destruct (msgSize >=? 3); [|reflexivity].
  destruct (negb _); [reflexivity|].
  destruct (negb _); [reflexivity|].
  destruct (Z.land _ 1 =? 0); [|reflexivity].
  destruct (msgSize <? 7); [reflexivity|].
  rewrite Hc. cbn [mbind option_bind]. cbv zeta.
  set (c1 := if negb (timeoutT2Triggered c) then _ else c).
  assert (isActive c1 = false) as Hina1
    by (subst c1; destruct (negb _); exact Hina).
  destruct (negb (_ =? receiveCount c1)); [reflexivity|].
  destruct (CS104_Slave.checkSequenceNumber _ i _) as [[self2 valid]|] eqn:Hchk;
    [|reflexivity].
  cbn [mbind option_bind]. destruct valid; [|reflexivity]. cbn [negb].
  cbv iota.
  assert (CS104_Slave.masterConnections (CS104_Slave.setConnection i c1 self)
          !! i = Some c1) as Hc1l
    by (simpl; apply list_lookup_insert_eq; eapply lookup_lt_Some; exact Hc).
  destruct (slave_checkSequenceNumber_connection _ _ i c1 _ _ Hc1l Hchk)
    as (c2 & Hc2 & Heq & _).
  rewrite Hc2. cbn [mbind option_bind].
  assert (isActive c2 = false) as Hina2 by (rewrite Heq; exact Hina1).
  change (isActive (set_unconfirmedReceivedIMessages
                      (unconfirmedReceivedIMessages
                         (set_receiveCount ((receiveCount c2 + 1) mod 32768) c2)
                       + 1)
                      (set_receiveCount ((receiveCount c2 + 1) mod 32768) c2)))
    with (isActive c2).
  rewrite Hina2. reflexivity.
Qed.

(** X12: an I message that [handleMessage] accepts on a connection that is
    not active is counted and dropped: it has 7 bytes or more and
    carries the receive counter as its send sequence number; the
    receive counter advances by one modulo 32768, one more I message is
    unconfirmed, T2 runs (from now on, if it did not run before), T3 is
    restarted; the connection stays inactive and nothing is written. *)
Theorem handleMessage_I_inactive
      (createFromBuffer : list Z → option CS101_ASDU)
      (handleASDU : CS104_Slave.sCS104_Slave → nat → CS101_ASDU
                    → CS104_Slave.sCS104_Slave * bool)
      (self self' : CS104_Slave.sCS104_Slave) (i : nat) (c : sMasterConnection)
      (buffer : list Z) (msgSize currentTime : Z) :
  CS104_Slave.masterConnections self !! i = Some c →
  isActive c = false →
  msgSize >= 3 →
  MasterConnection.byteAt buffer 0 = 0x68 →
  MasterConnection.byteAt buffer 1 = msgSize - 2 →
  Z.land (MasterConnection.byteAt buffer 2) 1 = 0 →
  CS104_Slave.handleMessage createFromBuffer handleASDU self i buffer
                            msgSize currentTime = Some (self', true) →
  ∃ c',
    CS104_Slave.masterConnections self' !! i = Some c' ∧
    msgSize >= 7 ∧
    (MasterConnection.byteAt buffer 3 * 0x100
     + Z.land (MasterConnection.byteAt buffer 2) 0xfe) / 2 = receiveCount c ∧
    receiveCount c' = (receiveCount c + 1) mod 32768 ∧
    unconfirmedReceivedIMessages c'
    = unconfirmedReceivedIMessages c + 1 ∧
    timeoutT2Triggered c' = true ∧
    lastConfirmationTime c'
    = (if timeoutT2Triggered c then lastConfirmationTime c else currentTime) ∧
    nextT3Timeout c'
    = (currentTime
       + MasterConnection.msOf
           (APCIParameters.t3 (CS104_Slave.conParameters self))) mod 2 ^ 64 ∧
    isActive c' = false ∧
    socket c' = socket c ∧
    sendCount c' = sendCount c.
Proof.
  intros Hc Hina Hsz H0 H1 H2 H.
  assert (i < length (CS104_Slave.masterConnections self))%nat as Hlt
    by (eapply lookup_lt_Some; exact Hc).
  unfold CS104_Slave.handleMessage in H.
  destruct (msgSize >=? 3) eqn:E; [|lia].
  rewrite H0, H1, H2 in H. simpl negb in H. rewrite Z.eqb_refl in H.
  simpl negb in H. cbv iota in H. change (0 =? 0) with true in H. cbv iota in H.
  destruct (msgSize <? 7) eqn:E7; [discriminate|].
  rewrite Hc in H. cbn [mbind option_bind] in H. cbv zeta in H.
  set (c1 := if negb (timeoutT2Triggered c) then _ else c) in H.
  assert (c1 = set_lastConfirmationTime
                 (if timeoutT2Triggered c then lastConfirmationTime c
                  else currentTime)
                 (set_timeoutT2Triggered true c)) as Hc1.
  { subst c1. destruct c as [? ? ? ? []]; reflexivity. }
  destruct (_ =? receiveCount c1) eqn:Ens; [|discriminate].
  cbn [negb] in H. cbv iota in H.
  destruct (CS104_Slave.checkSequenceNumber _ i _) as [[self2 valid]|] eqn:Hchk;
    [|discriminate].
  cbn [mbind option_bind] in H. destruct valid; [|discriminate].
  cbn [negb] in H. cbv iota in H.
  assert (CS104_Slave.masterConnections (CS104_Slave.setConnection i c1 self)
          !! i = Some c1) as Hc1l
    by (simpl; apply list_lookup_insert_eq; exact Hlt).
  destruct (slave_checkSequenceNumber_connection _ _ i c1 _ _ Hc1l Hchk)
    as (c2 & Hc2 & Heq & Hpar).
  rewrite Hc2 in H. cbn [mbind option_bind] in H.
  assert (isActive c2 = false) as Hina2
    by (rewrite Heq, Hc1; exact Hina).
  change (isActive (set_unconfirmedReceivedIMessages
                      (unconfirmedReceivedIMessages
                         (set_receiveCount ((receiveCount c2 + 1) mod 32768) c2)
                       + 1)
                      (set_receiveCount ((receiveCount c2 + 1) mod 32768) c2)))
    with (isActive c2) in H.
  rewrite Hina2 in H. cbn [mbind option_bind] in H.
  unfold CS104_Slave.onConnection in H.
  assert (i < length (CS104_Slave.masterConnections self2))%nat as Hlt2
    by (eapply lookup_lt_Some; exact Hc2).
  simpl in H. rewrite list_lookup_insert_eq in H by exact Hlt2.
  simpl in H. injection H as <-.
  eexists. simpl.
  rewrite list_lookup_insert_eq by (rewrite length_insert; exact Hlt2).
  split; [reflexivity|].
  apply Z.eqb_eq in Ens.
  rewrite Heq, Hc1. simpl. rewrite Hpar. simpl.
  rewrite Hc1 in Ens. simpl in Ens.
  repeat split; try reflexivity; try lia; try exact Hina.
Qed.

(** ** Sequence numbers on the wire *)

(** The low byte of a sequence number field is even and below 256. *)
Lemma even_byte_bits (x : Z) :
  0 <= x < 128 → Z.land (x * 2) 0xfe = x * 2 ∧ Z.land (x * 2) 1 = 0.
Proof.
  intros H.
  assert (Forall (λ x, Z.land (x * 2) 0xfe = x * 2 ∧ Z.land (x * 2) 1 = 0)
                 (seqZ 0 128)) as Hall
    by (apply (bool_decide_unpack _); vm_compute; reflexivity).
  rewrite Forall_forall in Hall. apply Hall, elem_of_seqZ. lia.
Qed.

(** The two bytes that [sendIMessage] and [sendSMessage] write for a
    15-bit counter are read back as that counter by the two formulas of
    [handleMessage]. *)
Lemma seqNo_bytes (n : Z) :
  0 <= n < 32768 →
  let lo := ((n mod 128) * 2) mod 256 in
  let hi := (n / 128) mod 256 in
  Z.land lo 1 = 0 ∧
  (hi * 0x100 + Z.land lo 0xfe) / 2 = n ∧
  (lo + hi * 0x100) / 2 = n.
Proof.
  intros H lo hi.
  pose proof (Z.mod_pos_bound n 128 ltac:(lia)) as Hm.
  pose proof (Z.div_mod n 128 ltac:(lia)) as Hd.
  assert (0 <= n / 128 < 256) as Hq
    by (split; [apply Z.div_pos; lia|apply Z.div_lt_upper_bound; lia]).
  assert (lo = (n mod 128) * 2) as -> by (subst lo; apply Z.mod_small; lia).
  assert (hi = n / 128) as -> by (subst hi; apply Z.mod_small; lia).
  destruct (even_byte_bits (n mod 128) Hm) as [-> ->].
  split; [reflexivity|].
  split; symmetry; apply Z.div_unique_exact; lia.
Qed.

(** Bytes written at the start of a buffer. *)
Lemma byteAt_storeBytes (buffer bs : list Z) (i : Z) :
  0 <= i < Z.of_nat (length bs) →
  MasterConnection.byteAt (MasterConnection.storeBytes buffer 0 bs) i
  = MasterConnection.byteAt bs i.
Proof.
  intros H. unfold MasterConnection.byteAt, MasterConnection.storeBytes.
  destruct (i <? 0) eqn:E; [lia|]. simpl.
  rewrite app_nth1 by lia. reflexivity.
Qed.

(** X13: the header that [sendIMessage] writes reads back.  The frame
    starts with 68 and the size less 2, its control field has the
    format bit of an I message, and the formulas by which
    [handleMessage] reads the send and the receive sequence number of an
    I message give the send and the receive counter of the connection;
    the bytes from place 6 on are untouched, and the first [msgSize]
    bytes are what goes to the socket. *)
Theorem sendIMessage_header_round_trip
        (self : sMasterConnection) (buffer : list Z) (msgSize : Z) :
  0 <= sendCount self < 32768 →
  0 <= receiveCount self < 32768 →
  2 <= msgSize < 258 →
  let frame := (MasterConnection.sendIMessage self buffer msgSize).1.2 in
  MasterConnection.byteAt frame 0 = 0x68 ∧
  MasterConnection.byteAt frame 1 = msgSize - 2 ∧
  Z.land (MasterConnection.byteAt frame 2) 1 = 0 ∧
  (MasterConnection.byteAt frame 3 * 0x100
   + Z.land (MasterConnection.byteAt frame 2) 0xfe) / 2 = sendCount self ∧
  (MasterConnection.byteAt frame 5 * 0x100
   + Z.land (MasterConnection.byteAt frame 4) 0xfe) / 2 = receiveCount self ∧
  drop 6 frame = drop 6 buffer ∧
  last (written (socket (MasterConnection.sendIMessage self buffer msgSize).1.1))
  = Some (take (Z.to_nat msgSize) frame).
Proof.
  intros Hs Hr Hm frame.
  destruct (seqNo_bytes _ Hs) as (Hs1 & Hs2 & _).
  destruct (seqNo_bytes _ Hr) as (_ & Hr2 & _).
  unfold MasterConnection.sendIMessage in frame |- *.
  set (hdr := [_; _; _; _; _; _]) in *.
  pose proof (writeToSocket_written self
                (MasterConnection.storeBytes buffer 0 hdr) msgSize) as Hw.
  destruct (MasterConnection.writeToSocket self _ msgSize) as [c r].
  simpl in frame. subst frame.
  rewrite !byteAt_storeBytes by (simpl; lia).
  subst hdr. unfold MasterConnection.byteAt. simpl nth. cbv iota.
  rewrite (Z.mod_small (msgSize - 2)) by lia.
  split; [reflexivity|]. split; [reflexivity|]. split; [exact Hs1|].
  split; [exact Hs2|]. split; [exact Hr2|]. split; [reflexivity|].
  simpl in Hw. rewrite (Z.mod_small (msgSize - 2)) in Hw by lia.
  destruct (r >? 0); simpl; rewrite Hw, last_snoc; reflexivity.
Qed.

(** X14: the S message that [sendSMessage] writes reads back: a frame of
    6 bytes with start byte 68, length 4 and control byte 01, from
    which the formula of [handleMessage] for an S message gives the
    receive counter of the connection. *)
Theorem sendSMessage_round_trip (self : sMasterConnection) :
  0 <= receiveCount self < 32768 →
  ∃ frame,
    last (written (socket (MasterConnection.sendSMessage self))) = Some frame ∧
    length frame = 6%nat ∧
    MasterConnection.byteAt frame 0 = 0x68 ∧
    MasterConnection.byteAt frame 1 = 4 ∧
    MasterConnection.byteAt frame 2 = 0x01 ∧
    (MasterConnection.byteAt frame 4
     + MasterConnection.byteAt frame 5 * 0x100) / 2 = receiveCount self.
Proof.
  intros Hr.
  destruct (seqNo_bytes _ Hr) as (_ & _ & Hr3).
  destruct (sendSMessage_spec self) as (Hw & _).
  eexists. rewrite Hw, last_snoc. split; [reflexivity|].
  split; [reflexivity|]. split; [reflexivity|]. split; [reflexivity|].
  split; [reflexivity|]. exact Hr3.
Qed.

(** ** Sending through the k-buffer *)

(** [isSentBufferFull] says that the k-buffer holds [maxSentASDUs]
    entries. *)
Lemma isSentBufferFull_count (self : sMasterConnection) :
  KBuffer.indices_ok self →
  MasterConnection.isSentBufferFull self = true
  ↔ KBuffer.count self = maxSentASDUs self.
Proof.
  intros (Hk & Hidx).
  unfold MasterConnection.isSentBufferFull, KBuffer.count.
  set (k := maxSentASDUs self) in *.
  set (o := oldestSentASDU self) in *.
  set (n := newestSentASDU self) in *.
  destruct (o =? -1) eqn:E; [split; [discriminate|lia]|].
  apply Z.eqb_neq in E. destruct Hidx as [?|[Ho Hn]]; [contradiction|].
  rewrite Z.eqb_eq.
  destruct (Z.lt_ge_cases (n + 1) k), (Z.lt_ge_cases n o);
    reduce_mod k; lia.
Qed.

(** X16: a full k-buffer stops the sending of queued ASDUs.  With
    [maxSentASDUs] I messages unconfirmed, [sendNextLowPriorityASDU] and
    [sendNextHighPriorityASDU] take nothing out of the queues and write
    nothing, and [sendWaitingASDUs] leaves the slave as it is and
    returns whether one of the two queues holds an entry. *)
Theorem full_kbuffer_blocks_sending
        (entryInfoSize : Z) (self : CS104_Slave.sCS104_Slave) (i : nat)
        (c : sMasterConnection) (q : MessageQueue.sMessageQueue)
        (h : HighPriorityASDUQueue.sHighPriorityASDUQueue)
        (sendBuffer : list Z) (nows : nat → Z) (now : Z) :
  CS104_Slave.masterConnections self !! i = Some c →
  CS104_Slave.messageQueues self !! lowPrioQueue c = Some q →
  CS104_Slave.highPrioQueues self !! highPrioQueue c = Some h →
  KBuffer.indices_ok c →
  KBuffer.count c = maxSentASDUs c →
  CS104_Slave.sendNextLowPriorityASDU entryInfoSize self i sendBuffer now
  = Some (self, sendBuffer) ∧
  CS104_Slave.sendNextHighPriorityASDU self i sendBuffer now
  = Some (self, sendBuffer, false) ∧
  CS104_Slave.sendWaitingASDUs entryInfoSize self i sendBuffer nows now
  = Some (self, sendBuffer,
          HighPriorityASDUQueue.isAsduAvailable h
          || MessageQueue.isAsduAvailable q).
Proof.
  intros Hc Hq Hh Hidx Hcount.
  apply (isSentBufferFull_count c Hidx) in Hcount.
  assert (CS104_Slave.sendNextLowPriorityASDU entryInfoSize self i sendBuffer now
          = Some (self, sendBuffer)) as Hlow.
  { unfold CS104_Slave.sendNextLowPriorityASDU.
    rewrite Hc. simpl. rewrite Hcount. reflexivity. }
  assert (CS104_Slave.sendNextHighPriorityASDU self i sendBuffer now
          = Some (self, sendBuffer, false)) as Hhigh.
  { unfold CS104_Slave.sendNextHighPriorityASDU.
    rewrite Hc. simpl. rewrite Hcount. reflexivity. }
  split; [exact Hlow|]. split; [exact Hhigh|].
  unfold CS104_Slave.sendWaitingASDUs.
  rewrite Hc. cbn [mbind option_bind]. rewrite Hh. cbn [mbind option_bind].
  destruct (HighPriorityASDUQueue.isAsduAvailable h) eqn:Eh.
  - unfold HighPriorityASDUQueue.isAsduAvailable in Eh.
    destruct (Z.to_nat (HighPriorityASDUQueue.entryCounter h)) as [|fuel] eqn:Ef;
      [lia|].
    cbn [CS104_Slave.sendHighPriorityASDUs].
    rewrite Hc. cbn [mbind option_bind]. rewrite Hh. cbn [mbind option_bind].
    unfold HighPriorityASDUQueue.isAsduAvailable. rewrite Eh.
    unfold CS104_Slave.sendNextHighPriorityASDU.
    rewrite Hc. simpl. rewrite Hcount. reflexivity.
  - assert (∀ fuel, CS104_Slave.sendHighPriorityASDUs fuel 0 self i sendBuffer nows
                    = Some (self, sendBuffer, false)) as ->.
    { intros fuel. destruct fuel; cbn [CS104_Slave.sendHighPriorityASDUs];
        rewrite Hc; cbn [mbind option_bind]; rewrite Hh;
        cbn [mbind option_bind]; rewrite Eh; reflexivity. }
    cbn [mbind option_bind orb]. rewrite Hlow. cbn [mbind option_bind].
    rewrite Hc. cbn [mbind option_bind]. rewrite Hq. reflexivity.
Qed.

(** [sendASDU] with room in the k-buffer, on a connection that still
    runs afterwards: the new entry comes last. *)
Lemma sendASDU_window (self : sMasterConnection) (buffer : list Z)
      (msgSize timestamp : Z) (queueEntry : option Z) (now : Z) :
  KBuffer.indices_ok self →
  (Z.to_nat (maxSentASDUs self) <= length (sentASDUs self))%nat →
  KBuffer.count self ≠ maxSentASDUs self →
  isRunning self = true →
  isRunning (MasterConnection.sendASDU self buffer msgSize timestamp
                                       queueEntry now) = true →
  let self' :=
    MasterConnection.sendASDU self buffer msgSize timestamp queueEntry now in
  KBuffer.indices_ok self' ∧
  KBuffer.count self' = KBuffer.count self + 1 ∧
  KBuffer.window self'
  = KBuffer.window self
    ++ [SentASDUSlave.mk timestamp queueEntry now
                         ((sendCount self + 1) mod 32768)].
Proof.
  intros Hidx Hlen Hfull Hrun Hrun'.
  assert (MasterConnection.isSentBufferFull self = false) as Hnf.
  { destruct (MasterConnection.isSentBufferFull self) eqn:E; [|reflexivity].
    apply (isSentBufferFull_count self Hidx) in E. contradiction. }
  destruct Hidx as (Hk & Hidx).
  destruct (sendASDU_running self buffer msgSize timestamp queueEntry now
                             Hrun Hrun') as (Hmax & Hold & Hnew & Hcnt & Hsent).
  cbv zeta.
  set (self' := MasterConnection.sendASDU _ _ _ _ _ _) in *.
  clearbody self'.
  set (k := maxSentASDUs self) in *.
  set (o := oldestSentASDU self) in *.
  set (n := newestSentASDU self) in *.
  set (e := SentASDUSlave.mk _ _ _ _) in *.
  unfold MasterConnection.isSentBufferFull in Hnf. fold k o n in Hnf.
  destruct (o =? -1) eqn:E.
  - assert (KBuffer.count self = 0) as Hc0
      by (unfold KBuffer.count; fold o; rewrite E; reflexivity).
    assert (KBuffer.count self' = 1) as Hc1.
    { unfold KBuffer.count. rewrite Hold, Hnew, Hmax. fold k.
      simpl. rewrite Z.mod_0_l by lia. reflexivity. }
    split; [split; [rewrite Hmax; exact Hk
                   |right; rewrite Hold, Hnew, Hmax; fold k; lia]|].
    split; [lia|].
    unfold KBuffer.window. rewrite Hc0, Hc1. simpl.
    unfold KBuffer.slot, MasterConnection.sentAt.
    rewrite Hold, Hmax, Hsent. fold k. simpl.
    rewrite Z.mod_0_l by lia.
    rewrite list_lookup_total_insert_eq by (fold k in Hlen; lia).
    reflexivity.
  - apply Z.eqb_neq in E. destruct Hidx as [?|[Ho Hn]]; [contradiction|].
    fold k o n in Ho, Hn. apply Z.eqb_neq in Hnf.
    assert (KBuffer.count self = (n - o) mod k + 1) as Hc0.
    { unfold KBuffer.count. fold k o n.
      destruct (o =? -1) eqn:E'; [apply Z.eqb_eq in E'; lia|reflexivity]. }
    assert (0 <= (n + 1) mod k < k) as Hn' by (apply Z.mod_pos_bound; lia).
    pose proof (Z.mod_pos_bound (n - o) k Hk) as Hd.
    assert (KBuffer.count self' = KBuffer.count self + 1) as Hcount.
    { rewrite Hc0. unfold KBuffer.count. rewrite Hold, Hnew, Hmax. fold k.
      destruct (o =? -1) eqn:E'; [apply Z.eqb_eq in E'; lia|].
      destruct (Z.lt_ge_cases (n + 1) k), (Z.lt_ge_cases n o);
        reduce_mod k; lia. }
    split; [split; [rewrite Hmax; exact Hk
                   |right; rewrite Hold, Hnew, Hmax; fold k; lia]|].
    split; [exact Hcount|].
    unfold KBuffer.window. rewrite Hcount.
    replace (Z.to_nat (KBuffer.count self + 1))
      with (Z.to_nat (KBuffer.count self) + 1)%nat by lia.
    rewrite seq_app, fmap_app. f_equal.
    + apply Forall_fmap_ext_1, Forall_forall. intros j Hj.
      apply elem_of_seq in Hj.
      unfold KBuffer.slot, MasterConnection.sentAt.
      rewrite Hold, Hmax, Hsent. fold k o.
      assert (0 <= (o + Z.of_nat j) mod k < k) as Hj'
          by (apply Z.mod_pos_bound; lia).
      assert ((o + Z.of_nat j) mod k ≠ (n + 1) mod k) as Hother.
      { assert (Z.of_nat j < (n - o) mod k + 1) as Hjc by lia.
        clear Hj Hj' Hcount.
        destruct (Z.lt_ge_cases (n + 1) k), (Z.lt_ge_cases n o),
                 (Z.lt_ge_cases (o + Z.of_nat j) k);
          reduce_mod k; lia. }
      rewrite list_lookup_total_insert_ne by lia. reflexivity.
    + simpl. f_equal.
      unfold KBuffer.slot, MasterConnection.sentAt.
      rewrite Hold, Hmax, Hsent. fold k o.
      assert ((o + Z.of_nat (Z.to_nat (KBuffer.count self))) mod k
              = (n + 1) mod k) as ->.
      { rewrite Z2Nat.id by lia. rewrite Hc0.
        destruct (Z.lt_ge_cases (n + 1) k), (Z.lt_ge_cases n o);
          reduce_mod k; lia. }
      rewrite list_lookup_total_insert_eq by (fold k in Hlen; lia).
      reflexivity.
Qed.

(** X15: [sendASDU] appends to the k-buffer.  On a running connection
    whose k-buffer is in order and not full, and which still runs after
    the call (the write succeeded), the k-buffer holds the entries it
    held, in their order, and behind them the new entry with the
    advanced send counter as its sequence number; its count grows by
    one and does not exceed [maxSentASDUs], and it is in order again. *)
Theorem sendASDU_appends_to_kbuffer (self : sMasterConnection)
        (buffer : list Z) (msgSize timestamp : Z) (queueEntry : option Z)
        (now : Z) :
  KBuffer.in_order self →
  KBuffer.count self ≠ maxSentASDUs self →
  isRunning self = true →
  isRunning (MasterConnection.sendASDU self buffer msgSize timestamp
                                       queueEntry now) = true →
  let self' :=
    MasterConnection.sendASDU self buffer msgSize timestamp queueEntry now in
  KBuffer.window self'
  = KBuffer.window self
    ++ [SentASDUSlave.mk timestamp queueEntry now
                         ((sendCount self + 1) mod 32768)] ∧
  KBuffer.count self' = KBuffer.count self + 1 ∧
  KBuffer.count self' <= maxSentASDUs self ∧
  sendCount self' = (sendCount self + 1) mod 32768 ∧
  KBuffer.in_order self'.
Proof.
  intros Hord Hcount Hrun Hrun' self'.
  pose proof Hord as (Hidx & _ & Hlen & _).
  assert (MasterConnection.isSentBufferFull self = false) as Hnf.
  { destruct (MasterConnection.isSentBufferFull self) eqn:E; [|reflexivity].
    apply (isSentBufferFull_count self Hidx) in E. contradiction. }
  destruct (sendASDU_window self buffer msgSize timestamp queueEntry now
                            Hidx Hlen Hcount Hrun Hrun') as (Hidx' & Hc & Hw).
  destruct (sendASDU_running self buffer msgSize timestamp queueEntry now
                             Hrun Hrun') as (Hmax & _ & _ & Hsc & _).
  pose proof (count_bounds _ Hidx') as Hb. fold self' in Hb, Hc, Hw, Hmax, Hsc.
  split; [exact Hw|]. split; [exact Hc|]. split; [lia|]. split; [exact Hsc|].
  exact (sendASDU_in_order self buffer msgSize timestamp queueEntry now
                           Hord Hnf Hrun Hrun').
Qed.

(** The frame that [sendASDU] hands to the socket. *)
Lemma sendASDU_written (self : sMasterConnection) (buffer : list Z)
      (msgSize timestamp : Z) (queueEntry : option Z) (now : Z) :
  written (socket (MasterConnection.sendASDU self buffer msgSize timestamp
                                             queueEntry now))
  = written (socket self)
    ++ [take (Z.to_nat msgSize)
             ([ 0x68; (msgSize - 2) mod 256;
                ((sendCount self mod 128) * 2) mod 256;
                (sendCount self / 128) mod 256;
                ((receiveCount self mod 128) * 2) mod 256;
                (receiveCount self / 128) mod 256 ] ++ drop 6 buffer)].
Proof.
  unfold MasterConnection.sendASDU, MasterConnection.sendIMessage.
  destruct (oldestSentASDU self =? -1).
  all: match goal with |- context [MasterConnection.writeToSocket ?c ?m ?n] =>
         pose proof (writeToSocket_written c m n) as Hw;
         destruct (MasterConnection.writeToSocket c m n) as [c' r]
       end; simpl in *.
  all: destruct (r >? 0); simpl; exact Hw.
Qed.

(** X17: [sendASDUInternal].  On a connection that is not active it
    sends nothing and returns false.  On an active connection with room
    in the k-buffer it writes one I message, the APCI with the counters
    of the connection followed by the bytes of the ASDU, records it in
    the k-buffer without queue entry, and returns true.  With a full
    k-buffer it writes nothing and returns what
    [HighPriorityASDUQueue_enqueue] returns for the ASDU. *)
Theorem sendASDUInternal_cases
        (self : CS104_Slave.sCS104_Slave) (i : nat) (c : sMasterConnection)
        (h : HighPriorityASDUQueue.sHighPriorityASDUQueue)
        (asdu : CS101_ASDU) (frameBuffer : list Z) (now : Z) :
  CS104_Slave.masterConnections self !! i = Some c →
  CS104_Slave.highPrioQueues self !! highPrioQueue c = Some h →
  KBuffer.indices_ok c →
  (6 <= length frameBuffer)%nat →
  if negb (isActive c) then
    CS104_Slave.sendASDUInternal self i asdu frameBuffer now
    = Some (self, false)
  else if bool_decide (KBuffer.count c = maxSentASDUs c) then
    CS104_Slave.sendASDUInternal self i asdu frameBuffer now
    = '(h', ok) ← HighPriorityASDUQueue.enqueue h asdu;
      Some (CS104_Slave.set_highPrioQueues
              (<[highPrioQueue c := h']> (CS104_Slave.highPrioQueues self))
              self, ok)
  else
    ∃ c',
      CS104_Slave.sendASDUInternal self i asdu frameBuffer now
      = Some (CS104_Slave.setConnection i c' self, true) ∧
      written (socket c')
      = written (socket c)
        ++ [[ 0x68; (Z.of_nat (length (asduBytes asdu)) + 4) mod 256;
              ((sendCount c mod 128) * 2) mod 256;
              (sendCount c / 128) mod 256;
              ((receiveCount c mod 128) * 2) mod 256;
              (receiveCount c / 128) mod 256 ] ++ asduBytes asdu] ∧
      (isRunning c = true → isRunning c' = true →
       (Z.to_nat (maxSentASDUs c) <= length (sentASDUs c))%nat →
       KBuffer.window c'
       = KBuffer.window c
         ++ [SentASDUSlave.mk 0 None now ((sendCount c + 1) mod 32768)]).
Proof.
  intros Hc Hh Hidx Hfb. unfold CS104_Slave.sendASDUInternal.
  rewrite Hc. cbn [mbind option_bind].
  destruct (isActive c); cbn [negb]; [|reflexivity].
  pose proof (isSentBufferFull_count c Hidx) as Hfull.
  case_bool_decide as Hcount.
  - apply Hfull in Hcount. rewrite Hcount. cbn [negb].
    rewrite Hh. reflexivity.
  - destruct (MasterConnection.isSentBufferFull c) eqn:E;
      [exfalso; apply Hcount, Hfull; reflexivity|].
    cbn [negb]. eexists. split; [reflexivity|]. split.
    + rewrite sendASDU_written. do 2 f_equal.
      unfold IEC60870_5_104_APCI_LENGTH.
      replace (6 + Z.of_nat (length (asduBytes asdu)) - 2)
        with (Z.of_nat (length (asduBytes asdu)) + 4) by lia.
      set (hdr := [_; _; _; _; _; _]).
      unfold MasterConnection.storeBytes.
      change (Z.to_nat 6) with 6%nat.
      rewrite drop_app_length' by (rewrite length_take; lia).
      replace (Z.to_nat (6 + Z.of_nat (length (asduBytes asdu))))
        with (length (hdr ++ asduBytes asdu))
        by (rewrite length_app; subst hdr; simpl length; lia).
      rewrite (app_assoc hdr). apply take_app_length.
    + intros Hrun Hrun' Hlen.
      apply (sendASDU_window c _ _ 0 None now Hidx Hlen Hcount Hrun Hrun').
Qed.

(** X18: [sendNextLowPriorityASDU] sends the oldest waiting ASDU of the
    low-priority queue.  With room in the k-buffer and [l] the live
    entries of the queue: the first entry of [l] that waits for
    transmission goes to the socket as one I message (the APCI with the
    counters of the connection, then the bytes of the entry), the entry
    and no other is set to SENT_BUT_NOT_CONFIRMED, and the k-buffer gets
    an entry with the place and the time stamp of the queue entry; when
    no entry waits, nothing changes. *)
Theorem sendNextLowPriorityASDU_sends_oldest_waiting
        (entryInfoSize : Z) (self : CS104_Slave.sCS104_Slave) (i : nat)
        (c : sMasterConnection) (q : MessageQueue.sMessageQueue)
        (l : list (Z * EntryInfo.t)) (sendBuffer : list Z) (now : Z) :
  CS104_Slave.masterConnections self !! i = Some c →
  CS104_Slave.messageQueues self !! lowPrioQueue c = Some q →
  KBuffer.indices_ok c →
  KBuffer.count c ≠ maxSentASDUs c →
  (6 <= length sendBuffer)%nat →
  QueueView.entries entryInfoSize q = Some l →
  match list_find (λ pe : Z * EntryInfo.t,
                     EntryInfo.entryState pe.2
                     = QUEUE_ENTRY_STATE_WAITING_FOR_TRANSMISSION) l with
  | Some (j, (p, e)) =>
    0 <= EntryInfo.size e <= Z.of_nat (length (QueueView.payloadAt q p)) →
    let e' := EntryInfo.set_entryState
                QUEUE_ENTRY_STATE_SENT_BUT_NOT_CONFIRMED e in
    let q' := MessageQueue.writeInfo q p e' in
    ∃ c' sendBuffer',
      CS104_Slave.sendNextLowPriorityASDU entryInfoSize self i sendBuffer now
      = Some (CS104_Slave.setConnection i c'
                (CS104_Slave.set_messageQueues
                   (<[lowPrioQueue c := q']> (CS104_Slave.messageQueues self))
                   self),
              sendBuffer') ∧
      QueueView.entries entryInfoSize q' = Some (<[j := (p, e')]> l) ∧
      written (socket c')
      = written (socket c)
        ++ [[ 0x68; (EntryInfo.size e + 4) mod 256;
              ((sendCount c mod 128) * 2) mod 256;
              (sendCount c / 128) mod 256;
              ((receiveCount c mod 128) * 2) mod 256;
              (receiveCount c / 128) mod 256 ]
            ++ take (Z.to_nat (EntryInfo.size e)) (QueueView.payloadAt q p)] ∧
      (isRunning c = true → isRunning c' = true →
       (Z.to_nat (maxSentASDUs c) <= length (sentASDUs c))%nat →
       KBuffer.window c'
       = KBuffer.window c
         ++ [SentASDUSlave.mk (EntryInfo.entryTimestamp e) (Some p) now
                              ((sendCount c + 1) mod 32768)])
  | None =>
    CS104_Slave.sendNextLowPriorityASDU entryInfoSize self i sendBuffer now
    = Some (self, sendBuffer)
  end.
Proof.
  intros Hc Hq Hidx Hcount Hsb Hl.
  pose proof (isSentBufferFull_count c Hidx) as Hfull.
  assert (MasterConnection.isSentBufferFull c = false) as Hnf.
  { destruct (MasterConnection.isSentBufferFull c) eqn:E; [|reflexivity].
    exfalso. apply Hcount, Hfull. reflexivity. }
  unfold CS104_Slave.sendNextLowPriorityASDU.
  rewrite Hc. cbn [mbind option_bind]. rewrite Hnf, Hq.
  cbn [mbind option_bind].
  destruct (list_find _ l) as [[j [p e]]|] eqn:Hfind.
  - intros Hsize.
    destruct (getNextWaitingASDU_found entryInfoSize q l j p e Hl Hfind)
      as (ce & Hce & Hinfo & Hget & Hentries).
    rewrite Hget. cbn [mbind option_bind MessageQueue.nw_size
                       MessageQueue.nw_asdu MessageQueue.nw_timestamp
                       MessageQueue.nw_queueEntry].
    assert (QueueView.payloadAt q p = MessageQueue.payload ce) as Hpay
      by (unfold QueueView.payloadAt; rewrite Hce; reflexivity).
    rewrite Hpay in *.
    eexists _, _. split; [reflexivity|]. split; [exact Hentries|]. split.
    + rewrite sendASDU_written. do 2 f_equal.
      unfold IEC60870_5_104_APCI_LENGTH.
      replace (EntryInfo.size e + 6 - 2) with (EntryInfo.size e + 4) by lia.
      set (hdr := [_; _; _; _; _; _]).
      set (bs := take (Z.to_nat (EntryInfo.size e)) (MessageQueue.payload ce)).
      assert (length bs = Z.to_nat (EntryInfo.size e)) as Hbs
        by (subst bs; rewrite length_take; lia).
      unfold MasterConnection.storeBytes.
      change (Z.to_nat 6) with 6%nat.
      rewrite drop_app_length' by (rewrite length_take; lia).
      replace (Z.to_nat (EntryInfo.size e + 6))
        with (length (hdr ++ bs))
        by (rewrite length_app; subst hdr; simpl length; lia).
      rewrite (app_assoc hdr). apply take_app_length.
    + intros Hrun Hrun' Hlen.
      apply (sendASDU_window c _ _ _ _ now Hidx Hlen Hcount Hrun Hrun').
  - rewrite (getNextWaitingASDU_none entryInfoSize q l Hl Hfind).
    cbn [mbind option_bind]. do 2 f_equal.
    destruct self. unfold CS104_Slave.set_messageQueues. simpl in *.
    rewrite list_insert_id by exact Hq. reflexivity.
Qed.

(** [sendASDU] keeps the binding of the connection to its queues. *)
Lemma sendASDU_queues (self : sMasterConnection) (buffer : list Z)
      (msgSize timestamp : Z) (queueEntry : option Z) (now : Z) :
  let self' :=
    MasterConnection.sendASDU self buffer msgSize timestamp queueEntry now in
  lowPrioQueue self' = lowPrioQueue self ∧
  highPrioQueue self' = highPrioQueue self.
Proof.
  unfold MasterConnection.sendASDU, MasterConnection.sendIMessage.
  destruct (oldestSentASDU self =? -1).
  all: match goal with |- context [MasterConnection.writeToSocket ?c ?m ?n] =>
         rewrite (writeToSocket_state c m n);
         destruct (MasterConnection.writeToSocket c m n) as [c' r]
       end; simpl.
  all: destruct (r >? 0); simpl; split; reflexivity.
Qed.

(** What the steps of [sendWaitingASDUs] leave alone. *)
Lemma sendNextHighPriorityASDU_frame
      (self self' : CS104_Slave.sCS104_Slave) (i : nat)
      (sendBuffer sendBuffer' : list Z) (now : Z) (sent : bool) :
  CS104_Slave.sendNextHighPriorityASDU self i sendBuffer now
  = Some (self', sendBuffer', sent) →
  CS104_Slave.messageQueues self' = CS104_Slave.messageQueues self ∧
  sameBinding i self self'.
Proof.
  unfold CS104_Slave.sendNextHighPriorityASDU. intros H.
  apply bind_Some in H as (c & Hc & H).
  assert (i < length (CS104_Slave.masterConnections self))%nat as Hlt
    by (eapply lookup_lt_Some; exact Hc).
  destruct (MasterConnection.isSentBufferFull c).
  { injection H as <- <- <-. split; [reflexivity|]. intros c0 Hc0. eauto. }
  apply bind_Some in H as (h & Hh & H).
  apply bind_Some in H as ([h' next] & Hget & H).
  destruct next as [[msgSize buffer]|]; injection H as <- <- <-.
  - split; [reflexivity|]. intros c0 Hc0. rewrite Hc in Hc0.
    injection Hc0 as <-. eexists. split.
    + simpl. apply list_lookup_insert_eq. exact Hlt.
    + apply sendASDU_queues.
  - split; [reflexivity|]. intros c0 Hc0. simpl. eauto.
Qed.

(** The binding is kept from step to step. *)
Lemma sameBinding_trans (i : nat) (a b c : CS104_Slave.sCS104_Slave) :
  sameBinding i a b → sameBinding i b c → sameBinding i a c.
Proof.
  intros Hab Hbc x Hx. destruct (Hab x Hx) as (y & Hy & Hl & Hh).
  destruct (Hbc y Hy) as (z & Hz & Hl' & Hh').
  exists z. split; [exact Hz|]. split; congruence.
Qed.

(** The loop over the high-priority queue does not touch the
    low-priority queues, and when it ends without [return true] the
    high-priority queue of the connection is empty. *)
Lemma sendHighPriorityASDUs_frame (fuel : nat) :
  ∀ (round : nat) (self self' : CS104_Slave.sCS104_Slave) (i : nat)
    (sendBuffer sendBuffer' : list Z) (nows : nat → Z) (waiting : bool),
    CS104_Slave.sendHighPriorityASDUs fuel round self i sendBuffer nows
    = Some (self', sendBuffer', waiting) →
    CS104_Slave.messageQueues self' = CS104_Slave.messageQueues self ∧
    sameBinding i self self' ∧
    (waiting = false →
     ∃ c' h', CS104_Slave.masterConnections self' !! i = Some c' ∧
              CS104_Slave.highPrioQueues self' !! highPrioQueue c' = Some h' ∧
              HighPriorityASDUQueue.isAsduAvailable h' = false).
Proof.
  induction fuel as [|fuel IH];
    intros round self self' i sendBuffer sendBuffer' nows waiting H.
  - cbn [CS104_Slave.sendHighPriorityASDUs] in H.
    apply bind_Some in H as (c & Hc & H).
    apply bind_Some in H as (h & Hh & H).
    destruct (HighPriorityASDUQueue.isAsduAvailable h) eqn:E; [discriminate|].
    injection H as <- <- <-. split; [reflexivity|].
    split; [intros c0 Hc0; eauto|]. intros _. eauto.
  - cbn [CS104_Slave.sendHighPriorityASDUs] in H.
    apply bind_Some in H as (c & Hc & H).
    apply bind_Some in H as (h & Hh & H).
    destruct (HighPriorityASDUQueue.isAsduAvailable h) eqn:E.
    + apply bind_Some in H as ([[s1 sb1] sent] & Hnext & H).
      destruct (sendNextHighPriorityASDU_frame _ _ _ _ _ _ _ Hnext)
        as (Hq1 & Hb1).
      destruct sent; cbn [negb] in H.
      * apply bind_Some in H as (c1 & Hc1 & H).
        destruct (isRunning c1); cbn [negb] in H.
        -- destruct (IH _ _ _ _ _ _ _ _ H) as (Hq2 & Hb2 & Hw).
           split; [congruence|].
           split; [eapply sameBinding_trans; eassumption|exact Hw].
        -- injection H as <- <- <-. split; [exact Hq1|].
           split; [exact Hb1|discriminate].
      * injection H as <- <- <-. split; [exact Hq1|].
        split; [exact Hb1|discriminate].
    + injection H as <- <- <-. split; [reflexivity|].
      split; [intros c0 Hc0; eauto|]. intros _. eauto.
Qed.

(** [sendNextLowPriorityASDU] does not touch the high-priority queues. *)
Lemma sendNextLowPriorityASDU_frame (entryInfoSize : Z)
      (self self' : CS104_Slave.sCS104_Slave) (i : nat)
      (sendBuffer sendBuffer' : list Z) (now : Z) :
  CS104_Slave.sendNextLowPriorityASDU entryInfoSize self i sendBuffer now
  = Some (self', sendBuffer') →
  CS104_Slave.highPrioQueues self' = CS104_Slave.highPrioQueues self ∧
  sameBinding i self self'.
Proof.
  unfold CS104_Slave.sendNextLowPriorityASDU. intros H.
  apply bind_Some in H as (c & Hc & H).
  assert (i < length (CS104_Slave.masterConnections self))%nat as Hlt
    by (eapply lookup_lt_Some; exact Hc).
  destruct (MasterConnection.isSentBufferFull c).
  { injection H as <- <-. split; [reflexivity|]. intros c0 Hc0. eauto. }
  apply bind_Some in H as (q & Hq & H).
  apply bind_Some in H as ([q' next] & Hget & H).
  destruct next as [nw|]; injection H as <- <-.
  - split; [reflexivity|]. intros c0 Hc0. rewrite Hc in Hc0.
    injection Hc0 as <-. eexists. split.
    + simpl. apply list_lookup_insert_eq. exact Hlt.
    + apply sendASDU_queues.
  - split; [reflexivity|]. intros c0 Hc0. simpl. eauto.
Qed.

(** X19: high priority first.  Whenever [sendWaitingASDUs] has changed a
    low-priority queue (it took an ASDU out to send it), the
    high-priority queue of the connection is empty. *)
Theorem sendWaitingASDUs_high_priority_first
        (entryInfoSize : Z) (self self' : CS104_Slave.sCS104_Slave) (i : nat)
        (c : sMasterConnection)
        (sendBuffer sendBuffer' : list Z) (nows : nat → Z) (nowLow : Z)
        (waiting : bool) :
  CS104_Slave.masterConnections self !! i = Some c →
  CS104_Slave.sendWaitingASDUs entryInfoSize self i sendBuffer nows nowLow
  = Some (self', sendBuffer', waiting) →
  CS104_Slave.messageQueues self' = CS104_Slave.messageQueues self
  ∨ ∃ h', CS104_Slave.highPrioQueues self' !! highPrioQueue c = Some h' ∧
          HighPriorityASDUQueue.entryCounter h' <= 0.
Proof.
  intros Hc H. unfold CS104_Slave.sendWaitingASDUs in H.
  rewrite Hc in H. cbn [mbind option_bind] in H.
  apply bind_Some in H as (h & Hh & H).
  apply bind_Some in H as ([[s1 sb1] w1] & Hhigh & H).
  destruct (sendHighPriorityASDUs_frame _ _ _ _ _ _ _ _ _ Hhigh)
    as (Hq1 & Hb1 & Hw1).
  destruct w1.
  - injection H as <- <- <-. left. exact Hq1.
  - apply bind_Some in H as ([s2 sb2] & Hlow & H).
    apply bind_Some in H as (c2 & Hc2 & H).
    apply bind_Some in H as (q2 & Hq2 & H).
    injection H as <- <- <-. right.
    destruct (Hw1 eq_refl) as (c1 & h1 & Hc1 & Hh1 & Hempty).
    destruct (sendNextLowPriorityASDU_frame _ _ _ _ _ _ _ Hlow) as (Hhq & _).
    destruct (Hb1 c Hc) as (c1' & Hc1' & _ & Hbind).
    assert (c1' = c1) as -> by congruence.
    exists h1. rewrite Hhq, <- Hbind. split; [exact Hh1|].
    unfold HighPriorityASDUQueue.isAsduAvailable in Hempty. lia.
Qed.

Section HighPrioReady.
Import HighPrioView.
#[local] Arguments extent : simpl never.
#[local] Arguments entryLength : simpl never.

(** [HighPriorityASDUQueue_isFull] is on the safe side: when it says
    that a queue whose entries lie one behind the other is not full,
    [HighPriorityASDUQueue_enqueue] accepts every ASDU of at most 250
    bytes. *)
Lemma hp_isFull_enqueue (q : HighPriorityASDUQueue.sHighPriorityASDUQueue)
      (p : Z) (l : list (list Z)) (asdu : CS101_ASDU) :
  linear q p l →
  252 <= HighPriorityASDUQueue.size q →
  0 <= asduHeaderLength asdu + payloadSize asdu <= 250 →
  HighPriorityASDUQueue.isFull q = Some false →
  ∃ q', HighPriorityASDUQueue.enqueue q asdu = Some (q', true).
Proof.
  intros (Hcnt & Hl) Hsize Hsz Hfull.
  unfold HighPriorityASDUQueue.enqueue.
  unfold HighPriorityASDUQueue.isFull in Hfull.
  set (asduSize := asduHeaderLength asdu + payloadSize asdu) in *.
  destruct (asduSize >? _) eqn:Hbig;
    [unfold IEC60870_5_104_APCI_LENGTH in Hbig; lia|].
  destruct l as [|e0 l0] using rev_ind.
  - (* the queue is empty *)
    simpl in Hcnt. rewrite Hcnt. simpl.
    destruct (0 + (2 + asduSize) >? HighPriorityASDUQueue.size q) eqn:Hw; [lia|].
    simpl. rewrite Hcnt. simpl. eexists. reflexivity.
  - clear IHl0.
    destruct Hl as (Hp0 & Hfirst & Hlast & Hlib & Hlay & Hend);
      [intros H; apply app_eq_nil in H as [_ H]; discriminate|].
    rewrite removelast_snoc in Hlast.
    destruct (hp_laidOut_last _ _ _ _ Hlay) as (Hbuf & n & bs & -> & Hn).
    pose proof (hp_laidOut_prefix _ _ _ _ Hlay) as Hlay0.
    pose proof (hp_laidOut_extent_nonneg _ _ _ Hlay0) as Hext0.
    rewrite length_app in Hcnt. simpl in Hcnt.
    destruct (HighPriorityASDUQueue.entryCounter q =? 0) eqn:E0;
      [apply Z.eqb_eq in E0; lia|].
    destruct (HighPriorityASDUQueue.entryCounter q >? 0) eqn:E1; [|lia].
    rewrite Hlast in Hfull |- *. cbn [mbind option_bind] in Hfull |- *.
    unfold HighPriorityASDUQueue.readSize in Hfull |- *.
    rewrite Hbuf in Hfull |- *. cbn [mbind option_bind head] in Hfull |- *.
    rewrite Hfirst in Hfull. cbn [mbind option_bind] in Hfull.
    injection Hfull as Hfull.
    unfold IEC60870_5_104_APCI_LENGTH in Hfull.
    set (next := p + extent l0 + 2 + n) in *.
    destruct (next + (2 + asduSize) >? HighPriorityASDUQueue.size q) eqn:Hw.
    + (* the new entry goes to the start of the buffer *)
      destruct (next + (2 + (256 - 6)) >? HighPriorityASDUQueue.size q) eqn:Hw';
        [|lia].
      cbn [fst snd HighPriorityASDUQueue.entryCounter
           HighPriorityASDUQueue.set_lastInBufferEntry].
      rewrite E1.
      cbn [HighPriorityASDUQueue.firstEntry
           HighPriorityASDUQueue.set_lastInBufferEntry].
      rewrite Hfirst. cbn [mbind option_bind].
      destruct (0 <=? p) eqn:E2; [|lia].
      destruct (0 + (2 + (256 - 6)) >? p) eqn:E3; [discriminate|].
      destruct (0 + (2 + asduSize) >? p) eqn:E4; [lia|].
      cbn [negb mbind option_bind]. eexists. reflexivity.
    + rewrite E1. rewrite Hfirst. cbn [mbind option_bind].
      destruct (next <=? p) eqn:E2; [lia|].
      cbn [mbind option_bind]. eexists. reflexivity.
Qed.
End HighPrioReady.

(** X25: the promise of [_IMasterConnection_isReady].  On a connection
    whose high-priority queue holds its entries one behind the other (it
    has not wrapped around) in a buffer of at least 252 bytes: when
    [isReady] returns true, [sendASDUInternal] accepts every ASDU of at
    most 250 bytes, and it is the active connection. *)
Theorem isReady_sendASDUInternal_accepts
        (self : CS104_Slave.sCS104_Slave) (i : nat) (c : sMasterConnection)
        (h : HighPriorityASDUQueue.sHighPriorityASDUQueue)
        (p : Z) (l : list (list Z))
        (asdu : CS101_ASDU) (frameBuffer : list Z) (now : Z) :
  CS104_Slave.masterConnections self !! i = Some c →
  CS104_Slave.highPrioQueues self !! highPrioQueue c = Some h →
  HighPrioView.linear h p l →
  252 <= HighPriorityASDUQueue.size h →
  0 <= asduHeaderLength asdu + payloadSize asdu <= 250 →
  CS104_Slave.isReady self i = Some true →
  isActive c = true ∧
  ∃ self', CS104_Slave.sendASDUInternal self i asdu frameBuffer now
           = Some (self', true).
Proof.
  intros Hc Hh Hlin Hsize Hsz Hready.
  unfold CS104_Slave.isReady in Hready. rewrite Hc in Hready.
  cbn [mbind option_bind] in Hready.
  unfold CS104_Slave.sendASDUInternal. rewrite Hc. cbn [mbind option_bind].
  destruct (isActive c); [|discriminate]. split; [reflexivity|].
  destruct (MasterConnection.isSentBufferFull c); cbn [negb] in Hready |- *.
  - rewrite Hh in Hready |- *. cbn [mbind option_bind] in Hready |- *.
    destruct (HighPriorityASDUQueue.isFull h) as [[|]|] eqn:Hfull;
      try discriminate.
    destruct (hp_isFull_enqueue h p l asdu Hlin Hsize Hsz Hfull) as (h' & ->).
    cbn [mbind option_bind]. eexists. reflexivity.
  - eexists. reflexivity.
Qed.

(** ** The pool of connection objects *)

(** Writing one connection object changes the number of objects in
    use by at most one. *)
Lemma usedCount_insert (conns : list sMasterConnection) (i : nat)
      (c c' : sMasterConnection) :
  conns !! i = Some c →
  Z.of_nat (length (filter (λ c, isUsed c = true) (<[i := c']> conns)))
  = Z.of_nat (length (filter (λ c, isUsed c = true) conns))
    - Z.b2z (isUsed c) + Z.b2z (isUsed c').
Proof.
  intros Hc.
  pose proof (take_drop_middle conns i c Hc) as Hsplit.
  assert (i < length conns)%nat as Hlt by (eapply lookup_lt_Some; exact Hc).
  rewrite <- Hsplit at 2. rewrite insert_take_drop by exact Hlt.
  rewrite !filter_app, !filter_cons, !length_app.
  destruct (isUsed c) eqn:E, (isUsed c') eqn:E';
    repeat case_decide; try congruence; simpl length; simpl Z.b2z; lia.
Qed.

(** A filter that every element passes. *)
Lemma filter_all {A : Type} (P : A → Prop) `{∀ x, Decision (P x)}
      (l : list A) :
  Forall P l → filter P l = l.
Proof.
  induction 1 as [|x l Hx Hl IH]; [reflexivity|].
  rewrite filter_cons, decide_True by exact Hx. rewrite IH. reflexivity.
Qed.

(** The same for the slave. *)
Lemma usedCount_setConnection (s : CS104_Slave.sCS104_Slave) (i : nat)
      (c c' : sMasterConnection) :
  CS104_Slave.masterConnections s !! i = Some c →
  Pool.usedCount (CS104_Slave.setConnection i c' s)
  = Pool.usedCount s - Z.b2z (isUsed c) + Z.b2z (isUsed c').
Proof. intros Hc. apply usedCount_insert. exact Hc. Qed.

(** X20: [getFreeConnection] hands out the first connection object that
    is not in use, marks it used and counts it; when every object is in
    use it returns [NULL] and changes nothing.  [openConnections] stays
    the number of objects in use. *)
Theorem getFreeConnection_first_unused (self : CS104_Slave.sCS104_Slave) :
  Pool.counted self →
  let r := CS104_Slave.getFreeConnection self in
  Pool.counted r.1 ∧
  match r.2 with
  | Some i =>
    ∃ c, CS104_Slave.masterConnections self !! i = Some c ∧
         isUsed c = false ∧
         (∀ j cj, (j < i)%nat →
                  CS104_Slave.masterConnections self !! j = Some cj →
                  isUsed cj = true) ∧
         r.1 = CS104_Slave.set_openConnections
                 (CS104_Slave.openConnections self + 1)
                 (CS104_Slave.setConnection i (set_isUsed true c) self)
  | None =>
    r.1 = self ∧
    CS104_Slave.openConnections self
    = Z.of_nat (length (CS104_Slave.masterConnections self)) ∧
    ∀ j cj, CS104_Slave.masterConnections self !! j = Some cj →
            isUsed cj = true
  end.
Proof.
  intros Hcnt r. subst r. unfold CS104_Slave.getFreeConnection.
  destruct (list_find _ _) as [[i c]|] eqn:Hfind.
  - apply list_find_Some in Hfind as (Hc & Hu & Hbefore).
    cbn [fst snd]. split.
    + unfold Pool.counted in *.
      change (CS104_Slave.openConnections self + 1
              = Pool.usedCount
                  (CS104_Slave.setConnection i (set_isUsed true c) self)).
      rewrite (usedCount_setConnection self i c _ Hc), Hu, Hcnt.
      simpl. lia.
    + exists c. split; [exact Hc|]. split; [exact Hu|].
      split; [|reflexivity].
      intros j cj Hj Hcj. specialize (Hbefore j cj Hcj Hj).
      destruct (isUsed cj); [reflexivity|contradiction].
  - cbn [fst snd]. split; [exact Hcnt|]. split; [reflexivity|].
    apply list_find_None in Hfind.
    assert (∀ j cj, CS104_Slave.masterConnections self !! j = Some cj →
                    isUsed cj = true) as Hall.
    { intros j cj Hcj. rewrite Forall_forall in Hfind.
      specialize (Hfind cj (list_elem_of_lookup_2 _ _ _ Hcj)).
      destruct (isUsed cj); [reflexivity|contradiction]. }
    split; [|exact Hall].
    rewrite Hcnt. unfold Pool.usedCount. f_equal. f_equal.
    apply filter_all. apply Forall_forall. intros x Hx.
    apply list_elem_of_lookup_1 in Hx as (j & Hj). exact (Hall j x Hj).
Qed.

(** One round of the loop of [handleClientConnections]. *)
Lemma releaseIfStopped_step (entryInfoSize : Z)
      (s s' : CS104_Slave.sCS104_Slave) (i : nat) :
  CS104_Slave.releaseIfStopped entryInfoSize s i = Some s' →
  CS104_Slave.openConnections s' - Pool.usedCount s'
  = CS104_Slave.openConnections s - Pool.usedCount s ∧
  ∀ j c, CS104_Slave.masterConnections s !! j = Some c →
         ∃ c', CS104_Slave.masterConnections s' !! j = Some c' ∧
               isRunning c' = isRunning c ∧
               isUsed c' = (if decide (j = i) then isUsed c && isRunning c
                            else isUsed c).
Proof.
  unfold CS104_Slave.releaseIfStopped. intros H.
  apply bind_Some in H as (con & Hcon & H).
  assert (i < length (CS104_Slave.masterConnections s))%nat as Hlt
    by (eapply lookup_lt_Some; exact Hcon).
  assert (∀ j c, CS104_Slave.masterConnections s !! j = Some c →
                 isUsed con && isRunning con = isUsed con →
                 ∃ c', CS104_Slave.masterConnections s !! j = Some c' ∧
                       isRunning c' = isRunning c ∧
                       isUsed c' = (if decide (j = i)
                                    then isUsed c && isRunning c
                                    else isUsed c)) as Hsame.
  { intros j c Hc Hb. exists c. split; [exact Hc|]. split; [reflexivity|].
    case_decide; [|reflexivity]. subst j. rewrite Hcon in Hc.
    injection Hc as <-. symmetry. exact Hb. }
  destruct (isUsed con) eqn:Eu; [|injection H as <-; split; [reflexivity|];
                                  intros j c Hc; apply (Hsame j c Hc eq_refl)].
  destruct (isRunning con) eqn:Er;
    [injection H as <-; split; [reflexivity|];
     intros j c Hc; apply (Hsame j c Hc eq_refl)|].
  apply bind_Some in H as (s1 & Hs1 & [= <-]).
  set (s0 := CS104_Slave.setConnection i (set_isUsed false con) s) in *.
  assert (CS104_Slave.masterConnections s1 = CS104_Slave.masterConnections s0
          ∧ CS104_Slave.openConnections s1 = CS104_Slave.openConnections s)
    as [Hm Ho].
  { destruct (isActive con).
    - apply bind_Some in Hs1 as (q & Hq & Hs1).
      apply bind_Some in Hs1 as (q' & Hq' & [= <-]). split; reflexivity.
    - injection Hs1 as <-. split; reflexivity. }
  split.
  - unfold Pool.usedCount. simpl. rewrite Hm, Ho.
    change (CS104_Slave.masterConnections s0)
      with (<[i := set_isUsed false con]> (CS104_Slave.masterConnections s)).
    rewrite (usedCount_insert _ i con _ Hcon), Eu. simpl. lia.
  - intros j c Hc. simpl. rewrite Hm.
    change (CS104_Slave.masterConnections s0)
      with (<[i := set_isUsed false con]> (CS104_Slave.masterConnections s)).
    case_decide as Hj.
    + subst j. rewrite Hcon in Hc. injection Hc as <-.
      rewrite list_lookup_insert_eq by exact Hlt.
      eexists. split; [reflexivity|]. simpl. rewrite Eu, Er. split; reflexivity.
    + rewrite list_lookup_insert_ne by congruence. eauto.
Qed.

(** The loop over the connection objects. *)
Lemma foldl_release_None (entryInfoSize : Z) (l : list nat) :
  foldl (λ s i, s ← s; CS104_Slave.releaseIfStopped entryInfoSize s i) None l
  = None.
Proof. induction l as [|i l IH]; [reflexivity|exact IH]. Qed.

Lemma foldl_release (entryInfoSize : Z) (l : list nat) :
  ∀ s s',
    foldl (λ s i, s ← s; CS104_Slave.releaseIfStopped entryInfoSize s i)
          (Some s) l = Some s' →
    CS104_Slave.openConnections s' - Pool.usedCount s'
    = CS104_Slave.openConnections s - Pool.usedCount s ∧
    ∀ j c, CS104_Slave.masterConnections s !! j = Some c →
           ∃ c', CS104_Slave.masterConnections s' !! j = Some c' ∧
                 isRunning c' = isRunning c ∧
                 isUsed c' = (if decide (j ∈ l) then isUsed c && isRunning c
                              else isUsed c).
Proof.
  induction l as [|i l IH]; intros s s' H.
  - injection H as <-. split; [reflexivity|]. intros j c Hc. exists c.
    split; [exact Hc|]. split; [reflexivity|].
    case_decide as Hin; [inversion Hin|reflexivity].
  - simpl in H.
    destruct (CS104_Slave.releaseIfStopped entryInfoSize s i) as [s1|] eqn:E;
      [|rewrite foldl_release_None in H; discriminate].
    destruct (releaseIfStopped_step _ _ _ _ E) as (Hd1 & Hp1).
    destruct (IH _ _ H) as (Hd2 & Hp2).
    split; [lia|]. intros j c Hc.
    destruct (Hp1 j c Hc) as (c1 & Hc1 & Hr1 & Hu1).
    destruct (Hp2 j c1 Hc1) as (c2 & Hc2 & Hr2 & Hu2).
    exists c2. split; [exact Hc2|]. split; [congruence|].
    rewrite Hu2, Hu1, Hr1.
    destruct (decide (j = i)) as [->|Hne].
    + rewrite (decide_True (P := i ∈ i :: l)) by (left).
      case_decide; destruct (isUsed c), (isRunning c); reflexivity.
    + destruct (decide (j ∈ l)) as [Hin|Hin].
      * rewrite (decide_True (P := j ∈ i :: l)) by (right; exact Hin).
        reflexivity.
      * rewrite (decide_False (P := j ∈ i :: l)); [reflexivity|].
        intros Hin'. apply elem_of_cons in Hin' as [?|?]; contradiction.
Qed.

(** No connection object is in use when the count is 0. *)
Lemma usedCount_zero (s : CS104_Slave.sCS104_Slave) (j : nat)
      (c : sMasterConnection) :
  Pool.usedCount s <= 0 →
  CS104_Slave.masterConnections s !! j = Some c → isUsed c = false.
Proof.
  unfold Pool.usedCount. intros H Hc.
  destruct (isUsed c) eqn:E; [|reflexivity]. exfalso.
  assert (c ∈ filter (λ c, isUsed c = true) (CS104_Slave.masterConnections s))
    as Hin by (apply list_elem_of_filter; split;
               [exact E|eapply list_elem_of_lookup_2; exact Hc]).
  destruct (filter _ _); [inversion Hin|simpl in H; lia].
Qed.

(** X21: the first loop of [handleClientConnections] gives back exactly
    the connection objects that are in use and do not run any more:
    afterwards an object is in use if and only if it was in use and
    runs, and [openConnections] is again the number of objects in
    use. *)
Theorem releaseStoppedConnections_releases (entryInfoSize : Z)
        (self self' : CS104_Slave.sCS104_Slave) :
  Pool.counted self →
  CS104_Slave.releaseStoppedConnections entryInfoSize self = Some self' →
  Pool.counted self' ∧
  ∀ j c, CS104_Slave.masterConnections self !! j = Some c →
         ∃ c', CS104_Slave.masterConnections self' !! j = Some c' ∧
               isRunning c' = isRunning c ∧
               isUsed c' = isUsed c && isRunning c.
Proof.
  intros Hcnt H. unfold CS104_Slave.releaseStoppedConnections in H.
  destruct (CS104_Slave.openConnections self >? 0) eqn:E.
  - destruct (foldl_release _ _ _ _ H) as (Hd & Hp).
    split; [unfold Pool.counted in *; lia|].
    intros j c Hc. destruct (Hp j c Hc) as (c' & Hc' & Hr & Hu).
    exists c'. split; [exact Hc'|]. split; [exact Hr|].
    rewrite Hu. rewrite decide_True; [reflexivity|].
    apply elem_of_seq. apply lookup_lt_Some in Hc. lia.
  - injection H as <-. split; [exact Hcnt|]. intros j c Hc.
    exists c. split; [exact Hc|]. split; [reflexivity|].
    rewrite (usedCount_zero self j c); [reflexivity| |exact Hc].
    unfold Pool.counted in Hcnt. lia.
Qed.

(** X22: [CS104_Slave_removeConnection] for a connection object in use
    marks it unused and keeps [openConnections] the number of objects
    in use; the next [getFreeConnection] finds an object. *)
Theorem removeConnection_counted (entryInfoSize : Z)
        (self self' : CS104_Slave.sCS104_Slave) (i : nat)
        (c : sMasterConnection) :
  Pool.counted self →
  CS104_Slave.masterConnections self !! i = Some c →
  isUsed c = true →
  CS104_Slave.removeConnection entryInfoSize self i = Some self' →
  Pool.counted self' ∧
  ∃ c', CS104_Slave.masterConnections self' !! i = Some c' ∧
        isUsed c' = false ∧
        (CS104_Slave.getFreeConnection self').2 ≠ None.
Proof.
  intros Hcnt Hc Hu H. unfold CS104_Slave.removeConnection in H.
  simpl in H. rewrite Hc in H. simpl in H.
  assert (i < length (CS104_Slave.masterConnections self))%nat as Hlt
    by (eapply lookup_lt_Some; exact Hc).
  set (s0 := CS104_Slave.setConnection i (set_isUsed false c)
               (CS104_Slave.set_openConnections
                  (CS104_Slave.openConnections self - 1) self)) in *.
  assert (CS104_Slave.masterConnections self'
          = <[i := set_isUsed false c]> (CS104_Slave.masterConnections self)
          ∧ CS104_Slave.openConnections self'
            = CS104_Slave.openConnections self - 1) as [Hm Ho].
  { destruct (isActive c).
    - apply bind_Some in H as (q & Hq & H).
      apply bind_Some in H as (q' & Hq' & [= <-]). split; reflexivity.
    - injection H as <-. split; reflexivity. }
  split.
  - unfold Pool.counted, Pool.usedCount in *. rewrite Hm, Ho.
    rewrite (usedCount_insert _ i c _ Hc), Hu. simpl. lia.
  - exists (set_isUsed false c). rewrite Hm.
    split; [apply list_lookup_insert_eq; exact Hlt|]. split; [reflexivity|].
    unfold CS104_Slave.getFreeConnection. rewrite Hm.
    destruct (list_find _ _) as [[k ck]|] eqn:Hfind; [discriminate|].
    exfalso. apply list_find_None in Hfind. rewrite Forall_forall in Hfind.
    apply (Hfind (set_isUsed false c)); [|reflexivity].
    eapply list_elem_of_lookup_2. apply list_lookup_insert_eq. exact Hlt.
Qed.

(** ** Redundancy groups *)

(** A group that matches an address has a list of allowed clients. *)
Lemma matches_not_catchAll (g : CS104_RedundancyGroup.t)
      (ip : CS104_IPAddress.t) :
  CS104_RedundancyGroup.matches g ip = true →
  CS104_RedundancyGroup.isCatchAll g = false.
Proof.
  unfold CS104_RedundancyGroup.matches, CS104_RedundancyGroup.isCatchAll.
  destruct (CS104_RedundancyGroup.allowedClients g); [reflexivity|discriminate].
Qed.

(** The loop of [getMatchingRedundancyGroup]: it stops at the first
    group that matches, and otherwise remembers the last group without
    a list of allowed clients. *)
Lemma matchLoop_spec (ip : CS104_IPAddress.t)
      (groups : list CS104_RedundancyGroup.t) :
  ∀ (idx : nat) (acc : option nat),
    match CS104_RedundancyGroup.matchLoop groups idx acc ip with
    | (Some i, _) =>
      ∃ k g, i = (idx + k)%nat ∧ groups !! k = Some g ∧
             CS104_RedundancyGroup.matches g ip = true ∧
             ∀ j gj, (j < k)%nat → groups !! j = Some gj →
                     CS104_RedundancyGroup.matches gj ip = false
    | (None, catchAll) =>
      (∀ j gj, groups !! j = Some gj →
               CS104_RedundancyGroup.matches gj ip = false) ∧
      ((∃ k g, catchAll = Some (idx + k)%nat ∧ groups !! k = Some g ∧
               CS104_RedundancyGroup.isCatchAll g = true ∧
               ∀ j gj, (k < j)%nat → groups !! j = Some gj →
                       CS104_RedundancyGroup.isCatchAll gj = false)
       ∨ (catchAll = acc ∧
          ∀ j gj, groups !! j = Some gj →
                  CS104_RedundancyGroup.isCatchAll gj = false))
    end.
Proof.
  induction groups as [|g groups IH]; intros idx acc.
  - simpl. split; [intros j gj H; discriminate|].
    right. split; [reflexivity|]. intros j gj H. discriminate.
  - cbn [CS104_RedundancyGroup.matchLoop].
    destruct (CS104_RedundancyGroup.matches g ip) eqn:Em.
    + exists 0%nat, g. split; [lia|]. split; [reflexivity|].
      split; [exact Em|]. intros j gj Hj. lia.
    + specialize (IH (S idx)
                     (if CS104_RedundancyGroup.isCatchAll g
                      then Some idx else acc)).
      destruct (CS104_RedundancyGroup.matchLoop groups (S idx) _ ip)
        as [[i|] catchAll].
      * destruct IH as (k & gk & -> & Hk & Hmk & Hbefore).
        exists (S k), gk. split; [lia|]. split; [exact Hk|].
        split; [exact Hmk|]. intros [|j] gj Hj Hgj.
        -- injection Hgj as <-. exact Em.
        -- apply (Hbefore j gj); [lia|exact Hgj].
      * destruct IH as (Hno & Hcatch). split.
        { intros [|j] gj Hgj; [injection Hgj as <-; exact Em|].
          exact (Hno j gj Hgj). }
        destruct Hcatch as [(k & gk & -> & Hk & Hck & Hafter)|[-> Hnone]].
        -- left. exists (S k), gk. split; [f_equal; lia|].
           split; [exact Hk|]. split; [exact Hck|].
           intros [|j] gj Hj Hgj; [lia|].
           apply (Hafter j gj); [lia|exact Hgj].
        -- destruct (CS104_RedundancyGroup.isCatchAll g) eqn:Ec.
           ++ left. exists 0%nat, g. split; [f_equal; lia|].
              split; [reflexivity|]. split; [exact Ec|].
              intros [|j] gj Hj Hgj; [lia|]. exact (Hnone j gj Hgj).
           ++ right. split; [reflexivity|].
              intros [|j] gj Hgj; [injection Hgj as <-; exact Ec|].
              exact (Hnone j gj Hgj).
Qed.

(** X23: [getMatchingRedundancyGroup] returns the first group whose list
    of allowed clients holds the address; when no group does, the last
    group without such a list (the last catch-all group, not the
    first); and [NULL] only when no group matches and none is a
    catch-all group. *)
Theorem getMatchingRedundancyGroup_spec
        (groups : list CS104_RedundancyGroup.t) (ip : CS104_IPAddress.t) :
  match CS104_RedundancyGroup.getMatchingRedundancyGroup groups ip with
  | Some i =>
    ∃ g, groups !! i = Some g ∧
      ((CS104_RedundancyGroup.matches g ip = true ∧
        ∀ j gj, (j < i)%nat → groups !! j = Some gj →
                CS104_RedundancyGroup.matches gj ip = false)
       ∨ (CS104_RedundancyGroup.isCatchAll g = true ∧
          (∀ j gj, groups !! j = Some gj →
                   CS104_RedundancyGroup.matches gj ip = false) ∧
          ∀ j gj, (i < j)%nat → groups !! j = Some gj →
                  CS104_RedundancyGroup.isCatchAll gj = false))
  | None =>
    ∀ j gj, groups !! j = Some gj →
            CS104_RedundancyGroup.matches gj ip = false ∧
            CS104_RedundancyGroup.isCatchAll gj = false
  end.
Proof.
  unfold CS104_RedundancyGroup.getMatchingRedundancyGroup.
  pose proof (matchLoop_spec ip groups 0 None) as H.
  destruct (CS104_RedundancyGroup.matchLoop groups 0 None ip)
    as [[i|] catchAll].
  - destruct H as (k & g & -> & Hk & Hm & Hbefore).
    exists g. split; [exact Hk|]. left. split; [exact Hm|exact Hbefore].
  - destruct H as (Hno & [(k & g & -> & Hk & Hc & Hafter)|[-> Hnone]]).
    + exists g. split; [exact Hk|]. right.
      split; [exact Hc|]. split; [exact Hno|exact Hafter].
    + intros j gj Hgj. split; [exact (Hno j gj Hgj)|exact (Hnone j gj Hgj)].
Qed.

(** [CS104_IPAddress_equals]: the same type and the same 4 or 16
    bytes. *)
Lemma equals_iff (a b : CS104_IPAddress.t) :
  CS104_IPAddress.equals a b = true
  ↔ CS104_IPAddress.type a = CS104_IPAddress.type b ∧
    ∀ i, (i < CS104_IPAddress.sizeOf (CS104_IPAddress.type a))%nat →
         nth i (CS104_IPAddress.address a) 0
         = nth i (CS104_IPAddress.address b) 0.
Proof.
  unfold CS104_IPAddress.equals. case_bool_decide as Ht; cbn [negb].
  - rewrite forallb_forall. split.
    + intros H. split; [exact Ht|]. intros i Hi. apply Z.eqb_eq, H.
      apply in_seq. lia.
    + intros [_ H] i Hi. apply in_seq in Hi. apply Z.eqb_eq, H. lia.
  - split; [discriminate|]. intros [? _]. contradiction.
Qed.

(** X24: after [CS104_RedundancyGroup_addAllowedClientEx] the group is no
    catch-all group any more, and it matches exactly the addresses it
    matched before and those of the given type whose first 4 (IPv4) or
    16 (IPv6) bytes are the bytes given. *)
Theorem addAllowedClientEx_matches
        (g : CS104_RedundancyGroup.t) (ipAddress : list Z)
        (addressType : eCS104_IPAddressType) (ip : CS104_IPAddress.t) :
  let g' := CS104_RedundancyGroup.addAllowedClientEx g ipAddress addressType in
  CS104_RedundancyGroup.isCatchAll g' = false ∧
  (CS104_RedundancyGroup.matches g' ip = true
   ↔ CS104_RedundancyGroup.matches g ip = true
     ∨ (CS104_IPAddress.type ip = addressType ∧
        ∀ i, (i < CS104_IPAddress.sizeOf addressType)%nat →
             nth i (CS104_IPAddress.address ip) 0 = nth i ipAddress 0)).
Proof.
  intros g'. split; [reflexivity|].
  subst g'. unfold CS104_RedundancyGroup.addAllowedClientEx,
            CS104_RedundancyGroup.matches.
  cbn [CS104_RedundancyGroup.allowedClients].
  rewrite existsb_app. cbn [existsb]. rewrite orb_false_r, orb_true_iff.
  assert (existsb (CS104_IPAddress.equals ip)
                  (default [] (CS104_RedundancyGroup.allowedClients g)) = true
          ↔ match CS104_RedundancyGroup.allowedClients g with
            | Some allowed => existsb (CS104_IPAddress.equals ip) allowed
            | None => false
            end = true) as ->
    by (destruct (CS104_RedundancyGroup.allowedClients g); reflexivity).
  rewrite equals_iff. cbn [CS104_IPAddress.type CS104_IPAddress.address].
  split; (intros [H|[Ht H]]; [left; exact H|right; split; [exact Ht|]]).
  - intros i Hi. rewrite (H i) by (rewrite Ht; exact Hi).
    rewrite nth_lookup, list_lookup_fmap, lookup_seq_lt by exact Hi.
    reflexivity.
  - intros i Hi. rewrite (H i) by (rewrite <- Ht; exact Hi).
    rewrite (nth_lookup (_ <$> _)), list_lookup_fmap, lookup_seq_lt
      by (rewrite <- Ht; exact Hi).
    reflexivity.
Qed.

(** ** The theorems at concrete states *)

Lemma handleTimeouts_T3_idle_witness :
  let self := Scenario.initialConnection defaultConnectionParameters 0 in
  (0 <= nextT3Timeout self < 20001 ∧
   let r := MasterConnection.handleTimeouts defaultConnectionParameters self 20001 in
   (∃ rest, written (socket r.1)
            = written (socket self) ++ [0x68; 0x04; 0x43; 0; 0; 0] :: rest ∧
            filter (λ f, f = [0x68; 0x04; 0x43; 0; 0; 0]) rest = []) ∧
   outstandingTestFRConMessages r.1 = outstandingTestFRConMessages self + 1 ∧
   nextT3Timeout r.1 = 20001 + 20 * 1000) ∧
  (let c := MasterConnection.runTimeoutsAt defaultConnectionParameters self
                                           [20001; 40002; 60003] in
   outstandingTestFRConMessages c = 3 ∧
   isRunning (MasterConnection.runTimeouts defaultConnectionParameters c 80004)
   = false).
Proof.
  intros self. split.
  - assert (0 <= nextT3Timeout self < 20001) as H1 by (vm_compute; split; congruence).
    split; [exact H1|].
    refine (proj1 handleTimeouts_T3_idle defaultConnectionParameters self 20001
                  H1 _ _ _ _); vm_compute; congruence.
  - assert (0 <= nextT3Timeout self < 20001) as H1 by (vm_compute; split; congruence).
    destruct (proj2 handleTimeouts_T3_idle defaultConnectionParameters self
                    20001 40002 60003 80004) as (_ & H2 & H3);
      try (vm_compute; congruence); [exact H1|].
    split; [exact H2|exact H3].
Defined.

Lemma handleTimeouts_future_timestamps_witness :
  let self := set_nextT3Timeout 22000
                (set_lastConfirmationTime 12000
                   (set_unconfirmedReceivedIMessages 1
                      Scenario.connectionThreeSent)) in
  let r := MasterConnection.handleTimeouts defaultConnectionParameters self 50 in
  (unconfirmedReceivedIMessages self > 0 ∧
   lastConfirmationTime self ≠ UINT64_MAX ∧
   lastConfirmationTime self > 50 ∧
   nextT3Timeout self > 50 + 20 * 1000 ∧
   oldestSentASDU self = 0 ∧
   SentASDUSlave.sentTime (MasterConnection.sentAt self (oldestSentASDU self))
   >= 50) ∧
  lastConfirmationTime r.1 = 50 ∧
  nextT3Timeout r.1 = 50 + 20 * 1000 ∧
  r.2 = true.
Proof.
  intros self r.
  assert (unconfirmedReceivedIMessages self > 0 ∧
          lastConfirmationTime self ≠ UINT64_MAX ∧
          lastConfirmationTime self > 50 ∧
          nextT3Timeout self > 50 + 20 * 1000 ∧
          oldestSentASDU self = 0 ∧
          SentASDUSlave.sentTime
            (MasterConnection.sentAt self (oldestSentASDU self)) >= 50) as H
    by (vm_compute; repeat split; congruence).
  split; [exact H|]. destruct H as (H1 & H2 & H3 & H4 & _ & H6).
  destruct (handleTimeouts_future_timestamps defaultConnectionParameters
              self 50) as (A & B & D); try (vm_compute; congruence).
  split; [exact (A H1 H2 H3)|]. split; [exact (B H4)|].
  apply (D (or_intror H6)). vm_compute. congruence.
Defined.

Lemma S_message_when_w_unconfirmed_witness :
  ∃ self' c',
    CS104_Slave.connectionHandlingThread_receive
      Scenario.noASDU Scenario.acceptASDU Scenario.slaveWithIMessage 0 5 5
    = Some (self', true) ∧
    CS104_Slave.handleTcpConnection
      Scenario.noASDU Scenario.acceptASDU Scenario.slaveWithIMessage 0 5 5
    = Some self' ∧
    CS104_Slave.masterConnections self' !! 0%nat = Some c' ∧
    written (socket c') = [[0x68; 0x04; 0x01; 0x00; 2; 0]] ∧
    unconfirmedReceivedIMessages c' = 0 ∧
    timeoutT2Triggered c' = false.
Proof.
  edestruct (S_message_when_w_unconfirmed
               Scenario.noASDU Scenario.acceptASDU
               Scenario.slaveWithIMessage 0 5 5)
    as (self' & c' & A & B & C & D & E & F).
  - reflexivity.
  - vm_compute. reflexivity.
  - reflexivity.
  - vm_compute. reflexivity.
  - vm_compute. reflexivity.
  - vm_compute. congruence.
  - vm_compute. split; congruence.
  - exists self', c'. split; [exact A|]. split; [apply B; reflexivity|].
    split; [exact C|]. split; [rewrite D; reflexivity|]. split; assumption.
Defined.


Lemma lowPrioQueue_fifo_witness :
  ∃ q1 q2 rs,
    MessageQueue.enqueueAll Scenario.entryInfoSize Scenario.queue1
                            Scenario.twoASDUs = Some q1 ∧
    QueueView.content Scenario.entryInfoSize q1
    = Some [(1, QUEUE_ENTRY_STATE_WAITING_FOR_TRANSMISSION);
            (2, QUEUE_ENTRY_STATE_WAITING_FOR_TRANSMISSION)] ∧
    MessageQueue.getAllWaiting Scenario.entryInfoSize 2 q1 = Some (q2, rs) ∧
    (λ r : option MessageQueue.NextWaiting,
       (λ nw, (MessageQueue.nw_timestamp nw, MessageQueue.nw_size nw,
               MessageQueue.nw_asdu nw)) <$> r) <$> rs
    = [Some (1, 100, replicate 100 0); Some (2, 50, replicate 50 0)] ∧
    QueueView.content Scenario.entryInfoSize q2
    = Some [(1, QUEUE_ENTRY_STATE_SENT_BUT_NOT_CONFIRMED);
            (2, QUEUE_ENTRY_STATE_SENT_BUT_NOT_CONFIRMED)] ∧
    MessageQueue.getNextWaitingASDU Scenario.entryInfoSize q2
    = Some (q2, None).
Proof.
  apply (lowPrioQueue_fifo Scenario.entryInfoSize Scenario.queue1
                           Scenario.twoASDUs).
  - reflexivity.
  - reflexivity.
  - repeat constructor; vm_compute; congruence.
  - vm_compute. congruence.
Defined.

Lemma getNextWaitingASDU_oldest_waiting_witness :
  ∃ c, MessageQueue.buffer Scenario.queueSentAndWaiting !! 26 = Some c ∧
    let e' := EntryInfo.mk 2 QUEUE_ENTRY_STATE_SENT_BUT_NOT_CONFIRMED 20 in
    let q' := MessageQueue.writeInfo Scenario.queueSentAndWaiting 26 e' in
    MessageQueue.getNextWaitingASDU Scenario.entryInfoSize
                                    Scenario.queueSentAndWaiting
    = Some (q', Some (MessageQueue.mkNextWaiting 2 26 20
                        (MessageQueue.payload c))) ∧
    QueueView.entries Scenario.entryInfoSize q'
    = Some [(0, EntryInfo.mk 1 QUEUE_ENTRY_STATE_SENT_BUT_NOT_CONFIRMED 10);
            (26, e')].
Proof.
  exact (getNextWaitingASDU_oldest_waiting
           Scenario.entryInfoSize Scenario.queueSentAndWaiting
           [(0, EntryInfo.mk 1 QUEUE_ENTRY_STATE_SENT_BUT_NOT_CONFIRMED 10);
            (26, EntryInfo.mk 2 QUEUE_ENTRY_STATE_WAITING_FOR_TRANSMISSION 20)]
           eq_refl).
Defined.

Lemma highPrioQueue_fifo_witness :
  ∃ q1 q2,
    HighPriorityASDUQueue.enqueueAll
      (HighPriorityASDUQueue.resetConnectionQueue Scenario.emptyHighPrioQueue)
      [Scenario.asduOfSize 100; Scenario.asduOfSize 50]
    = Some (q1, [true; true]) ∧
    HighPriorityASDUQueue.getAll 2 q1
    = Some (q2, [Some (100, replicate 100 0); Some (50, replicate 50 0)]) ∧
    HighPriorityASDUQueue.isAsduAvailable q2 = false ∧
    HighPriorityASDUQueue.getNextASDU q2 = Some (q2, None).
Proof.
  apply (highPrioQueue_fifo Scenario.emptyHighPrioQueue
                            [Scenario.asduOfSize 100; Scenario.asduOfSize 50]).
  - repeat constructor; vm_compute; congruence.
  - vm_compute. congruence.
Defined.

Lemma handleTimeouts_closes_iff_witness :
  (MasterConnection.handleTimeouts defaultConnectionParameters
                                   Scenario.connectionThreeSent 20000).2
  = false ∧
  (MasterConnection.handleTimeouts defaultConnectionParameters
                                   Scenario.connectionThreeSent 15099).2
  ≠ false.
Proof.
  split.
  - apply (handleTimeouts_closes_iff defaultConnectionParameters
                                     Scenario.connectionThreeSent 20000);
      try solve [vm_compute; congruence | intros _; vm_compute; congruence].
    right. vm_compute. repeat split; congruence.
  - intros Hc.
    apply (handleTimeouts_closes_iff defaultConnectionParameters
                                     Scenario.connectionThreeSent 15099) in Hc;
      try solve [vm_compute; congruence | intros _; vm_compute; congruence].
    destruct Hc as [[_ Hc]|(_ & _ & Hc)]; vm_compute in Hc; congruence.
Defined.


Lemma receiveMessage_complete_frame_witness :
  let r := MasterConnection.receiveMessage Scenario.connectionFrameArrived in
  r.2 = 4 + 2 ∧
  take (Z.to_nat (4 + 2)) (recvBuffer r.1) = [0x68; 4; 0x43; 0; 0; 0] ∧
  recvBufPos r.1 = 0 ∧
  pending (socket r.1) = [0x68] ∧
  written (socket r.1) = written (socket Scenario.connectionFrameArrived).
Proof.
  apply (receiveMessage_complete_frame Scenario.connectionFrameArrived
                                       [0x43; 0; 0; 0] [0x68]).
  - reflexivity.
  - reflexivity.
  - vm_compute. congruence.
  - reflexivity.
Defined.

Lemma receiveMessage_resumes_witness :
  let r1 := MasterConnection.receiveMessage
              Scenario.connectionThreeBytesArrived in
  let r2 := MasterConnection.receiveMessage
              (bytesArrive ([0; 0; 0] ++ [0x68]) r1.1) in
  r1.2 = 0 ∧
  recvBufPos r1.1 = 2 + 1 ∧
  r2.2 = 4 + 2 ∧
  take (Z.to_nat (4 + 2)) (recvBuffer r2.1) = [0x68; 4; 0x43; 0; 0; 0] ∧
  recvBufPos r2.1 = 0 ∧
  pending (socket r2.1) = [0x68].
Proof.
  apply (receiveMessage_resumes Scenario.connectionThreeBytesArrived
                                [0x43] [0; 0; 0] [0x68]).
  - reflexivity.
  - reflexivity.
  - vm_compute. congruence.
  - reflexivity.
  - discriminate.
Defined.

Lemma processMessage_closes_on_malformed_frame_witness :
  ∃ c',
    CS104_Slave.processMessage Scenario.noASDU Scenario.acceptASDU
                               Scenario.slaveTwoConnections 0 6 5 5
    = Some (CS104_Slave.setConnection 0 c' Scenario.slaveTwoConnections) ∧
    isRunning c' = false ∧
    receiveCount c' = 0 ∧ sendCount c' = 0 ∧ isActive c' = false.
Proof.
  apply (processMessage_closes_on_malformed_frame
           Scenario.noASDU Scenario.acceptASDU Scenario.slaveTwoConnections 0
           (Scenario.initialConnection defaultConnectionParameters 0) 6 5 5).
  - reflexivity.
  - right. left. vm_compute. congruence.
Defined.

Lemma handleMessage_STARTDT_witness :
  let self :=
    CS104_Slave.setConnection 1
      (set_isActive true (Scenario.initialConnection
                            defaultConnectionParameters 0))
      Scenario.slaveTwoConnections in
  ∃ self' c',
    CS104_Slave.handleMessage Scenario.noASDU Scenario.acceptASDU self 0
                              [0x68; 0x04; 0x07; 0; 0; 0] 6 5
    = Some (self', true) ∧
    CS104_Slave.masterConnections self' !! 0%nat = Some c' ∧
    isActive c' = true ∧
    written (socket c') = [STARTDT_CON_MSG] ∧
    CS104_Slave.masterConnections self' !! 1%nat
    = Some (Scenario.initialConnection defaultConnectionParameters 0).
Proof.
  intros self.
  destruct (handleMessage_STARTDT
              Scenario.noASDU Scenario.acceptASDU self 0
              (Scenario.initialConnection defaultConnectionParameters 0)
              Scenario.emptyHighPrioQueue [0x68; 0x04; 0x07; 0; 0; 0] 6 5)
    as (self' & c' & Hmsg & Hc' & Hact & Hw & _ & _ & Hothers);
    try reflexivity; [lia|].
  exists self', c'. split; [exact Hmsg|]. split; [exact Hc'|].
  split; [exact Hact|]. split; [exact Hw|].
  exact (Hothers 1%nat _ ltac:(lia) eq_refl).
Defined.

Lemma handleMessage_U_frames_witness :
  let c :=
    set_outstandingTestFRConMessages 2
      (set_isActive true (Scenario.initialConnection
                            defaultConnectionParameters 0)) in
  let self := CS104_Slave.setConnection 0 c Scenario.slaveTwoConnections in
  (∃ c', CS104_Slave.handleMessage Scenario.noASDU Scenario.acceptASDU self 0
                                   [0x68; 0x04; 0x13; 0; 0; 0] 6 5
         = Some (CS104_Slave.setConnection 0 c' self, true) ∧
         isActive c' = false ∧
         written (socket c') = [STOPDT_CON_MSG] ∧
         nextT3Timeout c' = 20005) ∧
  (∃ c', CS104_Slave.handleMessage Scenario.noASDU Scenario.acceptASDU self 0
                                   [0x68; 0x04; 0x83; 0; 0; 0] 6 5
         = Some (CS104_Slave.setConnection 0 c' self, true) ∧
         outstandingTestFRConMessages c' = 0 ∧
         nextT3Timeout c' = 20005).
Proof.
  intros c self.
  destruct (handleMessage_U_frames
              Scenario.noASDU Scenario.acceptASDU self 0 c
              [0x68; 0x04; 0x13; 0; 0; 0] 6 5)
    as [Hstop _]; try reflexivity; [lia|].
  destruct (handleMessage_U_frames
              Scenario.noASDU Scenario.acceptASDU self 0 c
              [0x68; 0x04; 0x83; 0; 0; 0] 6 5)
    as [_ Hcon]; try reflexivity; [lia|].
  split.
  - eexists. split; [exact (Hstop (or_intror eq_refl))|].
    split; [reflexivity|]. split; reflexivity.
  - eexists. split; [exact (Hcon eq_refl)|]. split; reflexivity.
Defined.

Lemma handleMessage_inactive_any_handlers_witness :
  CS104_Slave.handleMessage Scenario.noASDU Scenario.acceptASDU
                            Scenario.slaveTwoConnections 0
                            [0x68; 0x05; 0; 0; 0; 0; 100] 7 5
  = CS104_Slave.handleMessage (λ _, Some (Scenario.asduOfSize 1))
                              (λ s _ _, (s, false))
                              Scenario.slaveTwoConnections 0
                              [0x68; 0x05; 0; 0; 0; 0; 100] 7 5.
Proof.
  apply (handleMessage_inactive_any_handlers
           Scenario.noASDU Scenario.acceptASDU
           (λ _, Some (Scenario.asduOfSize 1)) (λ s _ _, (s, false))
           Scenario.slaveTwoConnections 0
           (Scenario.initialConnection defaultConnectionParameters 0)).
  - reflexivity.
  - reflexivity.
Defined.

Lemma handleMessage_I_inactive_witness :
  ∃ self' c',
    CS104_Slave.handleMessage Scenario.noASDU Scenario.acceptASDU
                              Scenario.slaveTwoConnections 0
                              [0x68; 0x05; 0; 0; 0; 0; 100] 7 5
    = Some (self', true) ∧
    CS104_Slave.masterConnections self' !! 0%nat = Some c' ∧
    receiveCount c' = 1 ∧
    unconfirmedReceivedIMessages c' = 1 ∧
    timeoutT2Triggered c' = true ∧
    lastConfirmationTime c' = 5 ∧
    isActive c' = false.
Proof.
  assert (∃ self',
            CS104_Slave.handleMessage Scenario.noASDU Scenario.acceptASDU
                                      Scenario.slaveTwoConnections 0
                                      [0x68; 0x05; 0; 0; 0; 0; 100] 7 5
            = Some (self', true)) as [self' Hmsg]
    by (eexists; vm_compute; reflexivity).
  destruct (handleMessage_I_inactive
              Scenario.noASDU Scenario.acceptASDU
              Scenario.slaveTwoConnections self' 0
              (Scenario.initialConnection defaultConnectionParameters 0)
              [0x68; 0x05; 0; 0; 0; 0; 100] 7 5)
    as (c' & Hc' & _ & _ & Hr & Hu & Ht & Hl & _ & Ha & _);
    try reflexivity; [lia|exact Hmsg|].
  exists self', c'. split; [exact Hmsg|]. split; [exact Hc'|].
  split; [exact Hr|]. split; [exact Hu|]. split; [exact Ht|].
  split; [exact Hl|exact Ha].
Defined.

Lemma sendIMessage_header_round_trip_witness :
  let self :=
    set_receiveCount 3
      (set_sendCount 300
         (Scenario.initialConnection defaultConnectionParameters 0)) in
  let buffer := replicate 20 7 in
  let frame := (MasterConnection.sendIMessage self buffer 16).1.2 in
  MasterConnection.byteAt frame 0 = 0x68 ∧
  MasterConnection.byteAt frame 1 = 16 - 2 ∧
  Z.land (MasterConnection.byteAt frame 2) 1 = 0 ∧
  (MasterConnection.byteAt frame 3 * 0x100
   + Z.land (MasterConnection.byteAt frame 2) 0xfe) / 2 = 300 ∧
  (MasterConnection.byteAt frame 5 * 0x100
   + Z.land (MasterConnection.byteAt frame 4) 0xfe) / 2 = 3 ∧
  drop 6 frame = drop 6 buffer ∧
  last (written (socket (MasterConnection.sendIMessage self buffer 16).1.1))
  = Some (take (Z.to_nat 16) frame).
Proof.
  intros self buffer.
  apply (sendIMessage_header_round_trip self buffer 16);
    vm_compute; split; congruence.
Defined.

Lemma sendSMessage_round_trip_witness :
  let self :=
    set_receiveCount 300
      (Scenario.initialConnection defaultConnectionParameters 0) in
  ∃ frame,
    last (written (socket (MasterConnection.sendSMessage self))) = Some frame ∧
    length frame = 6%nat ∧
    MasterConnection.byteAt frame 0 = 0x68 ∧
    MasterConnection.byteAt frame 1 = 4 ∧
    MasterConnection.byteAt frame 2 = 0x01 ∧
    (MasterConnection.byteAt frame 4
     + MasterConnection.byteAt frame 5 * 0x100) / 2 = 300.
Proof.
  intros self.
  apply (sendSMessage_round_trip self). vm_compute. split; congruence.
Defined.

Lemma sendASDU_appends_to_kbuffer_witness :
  let self := Scenario.initialConnection defaultConnectionParameters 0 in
  let self' := MasterConnection.sendASDU self (replicate 16 0) 16 7 None 5 in
  KBuffer.window self' = KBuffer.window self ++ [SentASDUSlave.mk 7 None 5 1] ∧
  KBuffer.count self' = 0 + 1 ∧
  KBuffer.count self' <= 12 ∧
  sendCount self' = 1 ∧
  KBuffer.in_order self'.
Proof.
  intros self.
  apply (sendASDU_appends_to_kbuffer self (replicate 16 0) 16 7 None 5).
  - apply in_order_empty; vm_compute; try split; try congruence; lia.
  - vm_compute. congruence.
  - reflexivity.
  - reflexivity.
Defined.

Lemma full_kbuffer_blocks_sending_witness :
  let self := Scenario.slaveFullKBuffer in
  CS104_Slave.sendNextLowPriorityASDU Scenario.entryInfoSize self 0
                                      (replicate 260 0) 5
  = Some (self, replicate 260 0) ∧
  CS104_Slave.sendNextHighPriorityASDU self 0 (replicate 260 0) 5
  = Some (self, replicate 260 0, false) ∧
  CS104_Slave.sendWaitingASDUs Scenario.entryInfoSize self 0
                               (replicate 260 0) (λ _, 5) 5
  = Some (self, replicate 260 0, true).
Proof.
  intros self.
  apply (full_kbuffer_blocks_sending
           Scenario.entryInfoSize self 0
           (set_newestSentASDU 0
              (set_oldestSentASDU 0
                 (set_isActive true
                    (Scenario.initialConnection Scenario.parametersK1 0))))
           Scenario.queueSentAndWaiting Scenario.emptyHighPrioQueue
           (replicate 260 0) (λ _, 5) 5).
  - reflexivity.
  - reflexivity.
  - reflexivity.
  - split; [reflexivity|]. right. vm_compute. repeat split; congruence.
  - reflexivity.
Defined.

Lemma sendASDUInternal_cases_witness :
  (∃ h', CS104_Slave.sendASDUInternal Scenario.slaveFullKBuffer 0
                                      (Scenario.asduOfSize 10)
                                      (replicate 256 0) 5
         = Some (CS104_Slave.set_highPrioQueues [h']
                                                Scenario.slaveFullKBuffer,
                 true) ∧
         HighPriorityASDUQueue.entryCounter h' = 1) ∧
  (∃ c', CS104_Slave.sendASDUInternal Scenario.slaveActive 0
                                      (Scenario.asduOfSize 10)
                                      (replicate 256 0) 5
         = Some (CS104_Slave.setConnection 0 c' Scenario.slaveActive, true) ∧
         written (socket c') = [[0x68; 14; 0; 0; 0; 0] ++ replicate 10 0] ∧
         KBuffer.window c' = [SentASDUSlave.mk 0 None 5 1]).
Proof.
  split.
  - pose proof (sendASDUInternal_cases
                  Scenario.slaveFullKBuffer 0
                  (set_newestSentASDU 0
                     (set_oldestSentASDU 0
                        (set_isActive true
                           (Scenario.initialConnection
                              Scenario.parametersK1 0))))
                  Scenario.emptyHighPrioQueue (Scenario.asduOfSize 10)
                  (replicate 256 0) 5 eq_refl eq_refl) as H.
    eexists. split.
    + etrans; [apply H|].
      * split; [reflexivity|]. right. vm_compute. repeat split; congruence.
      * vm_compute. lia.
      * vm_compute. reflexivity.
    + reflexivity.
  - destruct (sendASDUInternal_cases
                Scenario.slaveActive 0
                (set_isActive true
                   (Scenario.initialConnection defaultConnectionParameters 0))
                Scenario.emptyHighPrioQueue (Scenario.asduOfSize 10)
                (replicate 256 0) 5 eq_refl eq_refl)
      as (c' & Hsend & Hw & Hwin).
    + split; [reflexivity|]. left. reflexivity.
    + vm_compute. lia.
    + exists c'. split; [exact Hsend|]. split; [exact Hw|].
      apply Hwin; [reflexivity| |vm_compute; lia].
      apply (f_equal (λ r, isRunning <$> (r ≫= λ p,
               CS104_Slave.masterConnections p.1 !! 0%nat))) in Hsend.
      vm_compute in Hsend.
      revert Hsend. unfold CS104_Slave.setConnection. simpl.
      intros [= ->]. reflexivity.
Defined.

Lemma sendNextLowPriorityASDU_sends_oldest_waiting_witness :
  let e' := EntryInfo.mk 2 QUEUE_ENTRY_STATE_SENT_BUT_NOT_CONFIRMED 20 in
  let q' := MessageQueue.writeInfo Scenario.queueSentAndWaiting 26 e' in
  ∃ c' sendBuffer',
    CS104_Slave.sendNextLowPriorityASDU Scenario.entryInfoSize
                                        Scenario.slaveActive 0
                                        (replicate 260 0) 5
    = Some (CS104_Slave.setConnection 0 c'
              (CS104_Slave.set_messageQueues [q'] Scenario.slaveActive),
            sendBuffer') ∧
    QueueView.entries Scenario.entryInfoSize q'
    = Some [(0, EntryInfo.mk 1 QUEUE_ENTRY_STATE_SENT_BUT_NOT_CONFIRMED 10);
            (26, e')] ∧
    written (socket c') = [[0x68; 24; 0; 0; 0; 0] ++ replicate 20 0].
Proof.
  intros e' q'.
  destruct (sendNextLowPriorityASDU_sends_oldest_waiting
              Scenario.entryInfoSize Scenario.slaveActive 0
              (set_isActive true
                 (Scenario.initialConnection defaultConnectionParameters 0))
              Scenario.queueSentAndWaiting
              [(0, EntryInfo.mk 1 QUEUE_ENTRY_STATE_SENT_BUT_NOT_CONFIRMED 10);
               (26, EntryInfo.mk 2 QUEUE_ENTRY_STATE_WAITING_FOR_TRANSMISSION
                                 20)]
              (replicate 260 0) 5 eq_refl eq_refl)
    as (c' & sendBuffer' & Hsend & Hent & Hw & _).
  - split; [reflexivity|]. left. reflexivity.
  - vm_compute. congruence.
  - vm_compute. lia.
  - reflexivity.
  - vm_compute. split; congruence.
  - exists c', sendBuffer'. split; [exact Hsend|]. split; [exact Hent|exact Hw].
Defined.

Lemma sendWaitingASDUs_high_priority_first_witness :
  ∃ self' sendBuffer' waiting,
    CS104_Slave.sendWaitingASDUs Scenario.entryInfoSize Scenario.slaveActive 0
                                 (replicate 260 0) (λ _, 5) 5
    = Some (self', sendBuffer', waiting) ∧
    (CS104_Slave.messageQueues self'
     = CS104_Slave.messageQueues Scenario.slaveActive
     ∨ ∃ h', CS104_Slave.highPrioQueues self' !! 0%nat = Some h' ∧
             HighPriorityASDUQueue.entryCounter h' <= 0).
Proof.
  assert (∃ r, CS104_Slave.sendWaitingASDUs
                 Scenario.entryInfoSize Scenario.slaveActive 0
                 (replicate 260 0) (λ _, 5) 5 = Some r)
    as [[[self' sendBuffer'] waiting] Hsend]
    by (eexists; vm_compute; reflexivity).
  exists self', sendBuffer', waiting. split; [exact Hsend|].
  exact (sendWaitingASDUs_high_priority_first
           Scenario.entryInfoSize Scenario.slaveActive self' 0
           (set_isActive true
              (Scenario.initialConnection defaultConnectionParameters 0))
           (replicate 260 0) sendBuffer' (λ _, 5) 5 waiting eq_refl Hsend).
Defined.

Lemma getFreeConnection_first_unused_witness :
  let r := CS104_Slave.getFreeConnection Scenario.slaveOneFree in
  Pool.counted r.1 ∧ r.2 = Some 1%nat ∧
  CS104_Slave.openConnections r.1 = 2.
Proof.
  intros r.
  destruct (getFreeConnection_first_unused Scenario.slaveOneFree) as [Hcnt _].
  - reflexivity.
  - split; [exact Hcnt|]. split; reflexivity.
Defined.

Lemma releaseStoppedConnections_releases_witness :
  ∃ self',
    CS104_Slave.releaseStoppedConnections Scenario.entryInfoSize
                                          Scenario.slaveOneStopped
    = Some self' ∧
    Pool.counted self' ∧
    CS104_Slave.openConnections self' = 1 ∧
    isUsed <$> CS104_Slave.masterConnections self' = [false; true].
Proof.
  assert (∃ self',
            CS104_Slave.releaseStoppedConnections Scenario.entryInfoSize
                                                  Scenario.slaveOneStopped
            = Some self' ∧
            CS104_Slave.openConnections self' = 1 ∧
            isUsed <$> CS104_Slave.masterConnections self' = [false; true])
    as (self' & Hrel & Hopen & Hused)
    by (eexists; vm_compute; repeat split; reflexivity).
  exists self'. split; [exact Hrel|]. split; [|split; assumption].
  apply (releaseStoppedConnections_releases
           Scenario.entryInfoSize Scenario.slaveOneStopped self');
    [reflexivity|exact Hrel].
Defined.

Lemma removeConnection_counted_witness :
  ∃ self',
    CS104_Slave.removeConnection Scenario.entryInfoSize
                                 Scenario.slaveTwoConnections 0
    = Some self' ∧
    Pool.counted self' ∧
    (CS104_Slave.getFreeConnection self').2 = Some 0%nat.
Proof.
  assert (∃ self',
            CS104_Slave.removeConnection Scenario.entryInfoSize
                                         Scenario.slaveTwoConnections 0
            = Some self' ∧
            (CS104_Slave.getFreeConnection self').2 = Some 0%nat)
    as (self' & Hrem & Hfree)
    by (eexists; vm_compute; repeat split; reflexivity).
  exists self'. split; [exact Hrem|]. split; [|exact Hfree].
  apply (removeConnection_counted
           Scenario.entryInfoSize Scenario.slaveTwoConnections self' 0
           (Scenario.initialConnection defaultConnectionParameters 0));
    [reflexivity|reflexivity|reflexivity|exact Hrem].
Defined.

Lemma isReady_sendASDUInternal_accepts_witness :
  CS104_Slave.isReady Scenario.slaveFullKBuffer 0 = Some true ∧
  ∃ self', CS104_Slave.sendASDUInternal Scenario.slaveFullKBuffer 0
                                        (Scenario.asduOfSize 10)
                                        (replicate 256 0) 5
           = Some (self', true).
Proof.
  split; [reflexivity|].
  apply (isReady_sendASDUInternal_accepts
           Scenario.slaveFullKBuffer 0
           (set_newestSentASDU 0
              (set_oldestSentASDU 0
                 (set_isActive true
                    (Scenario.initialConnection Scenario.parametersK1 0))))
           Scenario.emptyHighPrioQueue 0 []).
  - reflexivity.
  - reflexivity.
  - split; [reflexivity|]. intros H. contradiction.
  - vm_compute. congruence.
  - vm_compute. split; congruence.
  - reflexivity.
Defined.
